(** * The five-stage content-architecture pipeline, embedded in Rocq

    Ontology Builder, Entity Expander, Taxonomy Builder, Query Mapper and
    Hub Designer ([src/core/*.py]) over the shared data model
    ([src/utils/data_models.py]).

    Conventions of the embedding:
    - Python [str] is [string]; the model covers ASCII text (bytes above 127
      are left alone by [lower] and never count as white space).
    - Python [float] scores are exact rationals [Q]; the literals [0.8],
      [0.2], ... are the fractions they denote.
    - An insertion-ordered [dict] whose order is observed ([self.entities],
      [self.nodes], [self.clusters], [by_pattern]) is an association list
      updated in place ([OrderedDict]); a [dict] used only as a counter is a
      [gmap].
    - A Python [set] of strings is a duplicate-free list; the order in which
      the interpreter iterates over it is given by a [SetIteration]
      instance.
    - [hashlib.md5] is implemented ([MD5.hexdigest]) so that every
      identifier can be computed. *)

From Stdlib Require Import ZArith QArith Ascii String List Permutation Lia Bool.
From Stdlib Require Import DecimalString.
From stdpp Require Import base list strings gmap fin_maps.
Import ListNotations.

Local Open Scope Z_scope.
Local Open Scope nat_scope.
Local Open Scope string_scope.
Local Open Scope list_scope.

(* ===================================================================== *)
(** ** Python string primitives *)
(* ===================================================================== *)

Module PyStr.

Definition is_upper (c : ascii) : bool :=
  let n := nat_of_ascii c in Nat.leb 65 n && Nat.leb n 90.

Definition is_lower (c : ascii) : bool :=
  let n := nat_of_ascii c in Nat.leb 97 n && Nat.leb n 122.

Definition is_digit (c : ascii) : bool :=
  let n := nat_of_ascii c in Nat.leb 48 n && Nat.leb n 57.

(** [str.isspace] on the ASCII range: TAB, LF, VT, FF, CR, FS, GS, RS, US
    and the space. *)
Definition is_space (c : ascii) : bool :=
  let n := nat_of_ascii c in
  (Nat.leb 9 n && Nat.leb n 13) || (Nat.leb 28 n && Nat.leb n 32).

Definition lower_char (c : ascii) : ascii :=
  if is_upper c then ascii_of_nat (nat_of_ascii c + 32) else c.

Definition upper_char (c : ascii) : ascii :=
  if is_lower c then ascii_of_nat (nat_of_ascii c - 32) else c.

(** [s.lower()] *)
Fixpoint lower (s : string) : string :=
  match s with
  | EmptyString => EmptyString
  | String c r => String (lower_char c) (lower r)
  end.

(** [s.upper()] *)
Fixpoint upper (s : string) : string :=
  match s with
  | EmptyString => EmptyString
  | String c r => String (upper_char c) (upper r)
  end.

Definition is_empty (s : string) : bool :=
  match s with EmptyString => true | _ => false end.

(** [len(s)] *)
Definition len (s : string) : nat := String.length s.

(** [s[:n]] *)
Fixpoint take (n : nat) (s : string) : string :=
  match n, s with
  | S k, String c r => String c (take k r)
  | _, _ => EmptyString
  end.

(** [s[n:]] *)
Fixpoint drop (n : nat) (s : string) : string :=
  match n, s with
  | S k, String _ r => drop k r
  | _, _ => s
  end.

(** [s[:-n]] for [n > 0] *)
Definition drop_last (n : nat) (s : string) : string := take (len s - n) s.

(** [s[i]] *)
Definition char_at (i : nat) (s : string) : option ascii := String.get i s.

(** [s.startswith(p)] *)
Definition startswith (s p : string) : bool := String.prefix p s.

(** [s.endswith(p)] *)
Definition endswith (s p : string) : bool :=
  Nat.leb (len p) (len s) && String.eqb (drop (len s - len p) s) p.

(** [p in s] *)
Fixpoint contains (p s : string) : bool :=
  String.prefix p s ||
  match s with
  | EmptyString => false
  | String _ r => contains p r
  end.

(** [s.lstrip()], [s.rstrip()], [s.strip()], and [s.strip(chars)] through
    the predicate that says which characters are stripped. *)
Fixpoint lstrip_by (f : ascii -> bool) (s : string) : string :=
  match s with
  | String c r => if f c then lstrip_by f r else s
  | EmptyString => EmptyString
  end.

Fixpoint rstrip_by (f : ascii -> bool) (s : string) : string :=
  match s with
  | EmptyString => EmptyString
  | String c r =>
      match rstrip_by f r with
      | EmptyString => if f c then EmptyString else String c EmptyString
      | r' => String c r'
      end
  end.

Definition strip_by (f : ascii -> bool) (s : string) : string :=
  rstrip_by f (lstrip_by f s).

Definition strip (s : string) : string := strip_by is_space s.

(** [s.split()]: the maximal runs of characters that are not white space. *)
Fixpoint split_go (s cur : string) : list string :=
  match s with
  | EmptyString => if is_empty cur then [] else [cur]
  | String c r =>
      if is_space c
      then (if is_empty cur then split_go r EmptyString
            else cur :: split_go r EmptyString)
      else split_go r (cur +:+ String c EmptyString)
  end.

Definition split (s : string) : list string := split_go s EmptyString.

(** [sep.join(l)] *)
Fixpoint join (sep : string) (l : list string) : string :=
  match l with
  | [] => EmptyString
  | [x] => x
  | x :: r => x +:+ sep +:+ join sep r
  end.

(** [s.replace(old, new)]: every occurrence of [old], left to right, without
    overlap.  [skip] counts the characters of a matched occurrence that are
    still to be dropped. *)
Fixpoint replace_go (old new : string) (skip : nat) (s : string) : string :=
  match s with
  | EmptyString => EmptyString
  | String c r =>
      match skip with
      | S k => replace_go old new k r
      | O =>
          if String.prefix old s
          then new +:+ replace_go old new (len old - 1) r
          else String c (replace_go old new 0 r)
      end
  end.

Fixpoint replace_empty (new s : string) : string :=
  match s with
  | EmptyString => new
  | String c r => new +:+ String c (replace_empty new r)
  end.

Definition replace (s old new : string) : string :=
  if is_empty old then replace_empty new s else replace_go old new 0 s.

(** [re.sub(r"[^a-z0-9]+", "_", s)] *)
Definition is_slug_char (c : ascii) : bool := is_lower c || is_digit c.

Fixpoint sub_non_alnum_go (in_run : bool) (s : string) : string :=
  match s with
  | EmptyString => EmptyString
  | String c r =>
      if is_slug_char c then String c (sub_non_alnum_go false r)
      else if in_run then sub_non_alnum_go true r
      else String "_"%char (sub_non_alnum_go true r)
  end.

Definition sub_non_alnum (s : string) : string := sub_non_alnum_go false s.

(** [re.sub("([A-Z])", r" \1", s)]: a space before every capital letter. *)
Fixpoint space_before_capitals (s : string) : string :=
  match s with
  | EmptyString => EmptyString
  | String c r =>
      if is_upper c then String " "%char (String c (space_before_capitals r))
      else String c (space_before_capitals r)
  end.

(** [s.title()]: a letter is upper-cased after a character that is not a
    letter and lower-cased after a letter. *)
Fixpoint title_go (after_letter : bool) (s : string) : string :=
  match s with
  | EmptyString => EmptyString
  | String c r =>
      if is_upper c || is_lower c
      then String (if after_letter then lower_char c else upper_char c)
                  (title_go true r)
      else String c (title_go false r)
  end.

Definition title (s : string) : string := title_go false s.

(** [x in l] for a list of strings. *)
Definition mem (x : string) (l : list string) : bool :=
  existsb (String.eqb x) l.

(** [list(dict.fromkeys(l))]: first occurrences, in order. *)
Fixpoint dedupe_go (seen l : list string) : list string :=
  match l with
  | [] => []
  | x :: r => if mem x seen then dedupe_go seen r
              else x :: dedupe_go (x :: seen) r
  end.

Definition dedupe (l : list string) : list string := dedupe_go [] l.

(** [str(n)] and [f"{n}"] for a natural number. *)
Definition of_nat (n : nat) : string := NilEmpty.string_of_uint (Nat.to_uint n).

(** [re.sub(r"[...]", "", s)]: the characters that satisfy [f] are dropped. *)
Fixpoint remove_chars (f : ascii -> bool) (s : string) : string :=
  match s with
  | EmptyString => EmptyString
  | String c r => if f c then remove_chars f r else String c (remove_chars f r)
  end.

(** [re.sub(r"[...]+", rep, s)] for a one-character [rep]: every maximal
    run of characters that satisfy [f] becomes [rep]. *)
Fixpoint sub_runs (f : ascii -> bool) (rep : ascii) (in_run : bool) (s : string) : string :=
  match s with
  | EmptyString => EmptyString
  | String c r =>
      if f c then
        if in_run then sub_runs f rep true r
        else String rep (sub_runs f rep true r)
      else String c (sub_runs f rep false r)
  end.

(** [all(f(c) for c in s)] *)
Fixpoint all_chars (f : ascii -> bool) (s : string) : bool :=
  match s with
  | EmptyString => true
  | String c r => f c && all_chars f r
  end.

End PyStr.

(* ===================================================================== *)
(** ** [hashlib.md5(...).hexdigest()] (RFC 1321) *)
(* ===================================================================== *)

Module MD5.

Local Open Scope Z_scope.

Definition mask32 : Z := 4294967295.

Definition add32 (a b : Z) : Z := Z.land (a + b) mask32.

Definition not32 (a : Z) : Z := Z.lxor a mask32.

Definition rotl32 (x c : Z) : Z :=
  Z.land (Z.lor (Z.shiftl x c) (Z.shiftr x (32 - c))) mask32.

(** Per-round shift amounts. *)
Definition shifts : list Z :=
  [7; 12; 17; 22; 7; 12; 17; 22; 7; 12; 17; 22; 7; 12; 17; 22;
   5; 9; 14; 20; 5; 9; 14; 20; 5; 9; 14; 20; 5; 9; 14; 20;
   4; 11; 16; 23; 4; 11; 16; 23; 4; 11; 16; 23; 4; 11; 16; 23;
   6; 10; 15; 21; 6; 10; 15; 21; 6; 10; 15; 21; 6; 10; 15; 21].

(** [floor(2^32 * abs(sin(i + 1)))] for [i] in [0..63]. *)
Definition sines : list Z :=
  [3614090360; 3905402710; 606105819; 3250441966; 4118548399; 1200080426;
   2821735955; 4249261313; 1770035416; 2336552879; 4294925233; 2304563134;
   1804603682; 4254626195; 2792965006; 1236535329; 4129170786; 3225465664;
   643717713; 3921069994; 3593408605; 38016083; 3634488961; 3889429448;
   568446438; 3275163606; 4107603335; 1163531501; 2850285829; 4243563512;
   1735328473; 2368359562; 4294588738; 2272392833; 1839030562; 4259657740;
   2763975236; 1272893353; 4139469664; 3200236656; 681279174; 3936430074;
   3572445317; 76029189; 3654602809; 3873151461; 530742520; 3299628645;
   4096336452; 1126891415; 2878612391; 4237533241; 1700485571; 2399980690;
   4293915773; 2240044497; 1873313359; 4264355552; 2734768916; 1309151649;
   4149444226; 3174756917; 718787259; 3951481745].

Definition bytes_of_string (s : string) : list Z :=
  List.map (fun c => Z.of_nat (nat_of_ascii c)) (list_ascii_of_string s).

(** The [n] low bytes of [x], least significant first. *)
Fixpoint le_bytes (n : nat) (x : Z) : list Z :=
  match n with
  | O => []
  | S k => Z.land x 255 :: le_bytes k (Z.shiftr x 8)
  end.

Fixpoint le_word (bs : list Z) : Z :=
  match bs with
  | [] => 0
  | b :: r => b + 256 * le_word r
  end.

(** The message, a [0x80] byte, zero bytes up to 56 modulo 64, and the bit
    length as eight little-endian bytes. *)
Definition pad (msg : list Z) : list Z :=
  let n := Z.of_nat (List.length msg) in
  let zeros := Z.to_nat ((55 - n) mod 64) in
  msg ++ [128] ++ List.repeat 0 zeros ++ le_bytes 8 (8 * n).

Fixpoint words (n : nat) (bs : list Z) : list Z :=
  match n with
  | O => []
  | S k => le_word (firstn 4 bs) :: words k (skipn 4 bs)
  end.

Definition nthZ (l : list Z) (i : Z) : Z := List.nth (Z.to_nat i) l 0.

Record state := State { sa : Z; sb : Z; sc : Z; sd : Z }.

Definition round (m : list Z) (st : state) (i : Z) : state :=
  let '(State a b c d) := st in
  let '(f, g) :=
    if i <? 16 then (Z.lor (Z.land b c) (Z.land (not32 b) d), i)
    else if i <? 32 then (Z.lor (Z.land d b) (Z.land (not32 d) c), (5 * i + 1) mod 16)
    else if i <? 48 then (Z.lxor (Z.lxor b c) d, (3 * i + 5) mod 16)
    else (Z.lxor c (Z.lor b (not32 d)), (7 * i) mod 16) in
  let f' := add32 (add32 (add32 f a) (nthZ sines i)) (nthZ m g) in
  State d (add32 b (rotl32 f' (nthZ shifts i))) b c.

Definition rounds : list Z := List.map Z.of_nat (seq 0 64).

Definition block (st : state) (chunk : list Z) : state :=
  let m := words 16 chunk in
  let st' := fold_left (round m) rounds st in
  State (add32 (sa st) (sa st')) (add32 (sb st) (sb st'))
        (add32 (sc st) (sc st')) (add32 (sd st) (sd st')).

Fixpoint blocks (n : nat) (st : state) (bs : list Z) : state :=
  match n with
  | O => st
  | S k => blocks k (block st (firstn 64 bs)) (skipn 64 bs)
  end.

Definition init : state := State 1732584193 4023233417 2562383102 271733878.

Definition digest (msg : list Z) : list Z :=
  let p := pad msg in
  let st := blocks (List.length p / 64) init p in
  le_bytes 4 (sa st) ++ le_bytes 4 (sb st) ++ le_bytes 4 (sc st) ++ le_bytes 4 (sd st).

Definition hex_digit (n : Z) : ascii :=
  if n <? 10 then ascii_of_nat (Z.to_nat (48 + n))
  else ascii_of_nat (Z.to_nat (87 + n)).

Fixpoint hex (bs : list Z) : string :=
  match bs with
  | [] => EmptyString
  | b :: r => String (hex_digit (Z.shiftr b 4)) (String (hex_digit (Z.land b 15)) (hex r))
  end.

(** [hashlib.md5(s.encode()).hexdigest()] *)
Definition hexdigest (s : string) : string := hex (digest (bytes_of_string s)).

End MD5.

(* ===================================================================== *)
(** ** Insertion-ordered dictionaries and set iteration *)
(* ===================================================================== *)

(** A Python [dict] with string keys whose order is observed: assigning to a
    key that is present replaces the value where it stands, assigning to a
    new key appends. *)
Module OrderedDict.
Section Dict.
Context {V : Type}.

Definition t := list (string * V).

Definition empty : t := [].

(** [d.get(k)] *)
Fixpoint get (k : string) (d : t) : option V :=
  match d with
  | [] => None
  | (k', v) :: r => if String.eqb k k' then Some v else get k r
  end.

(** [k in d] *)
Definition has (k : string) (d : t) : bool :=
  match get k d with Some _ => true | None => false end.

(** [d[k] = v] *)
Fixpoint set (k : string) (v : V) (d : t) : t :=
  match d with
  | [] => [(k, v)]
  | (k', v') :: r =>
      if String.eqb k k' then (k', v) :: r else (k', v') :: set k v r
  end.

(** [list(d.keys())], [list(d.values())] *)
Definition keys (d : t) : list string := List.map fst d.

Definition values (d : t) : list V := List.map snd d.

(** Applies [f] to every value, the keys and their order unchanged: a
    loop [for v in d.values(): v.field = ...]. *)
Definition map_values (f : V -> V) (d : t) : t :=
  List.map (fun kv => (fst kv, f (snd kv))) d.
End Dict.
Arguments t : clear implicits.
End OrderedDict.

(** The order in which the interpreter iterates over a [set] of strings.
    CPython fixes it per process (it follows the string hashes, which are
    salted at start-up), so the model takes it as given: some permutation of
    the elements. *)
Class SetIteration := {
  set_iter : list string -> list string;
  set_iter_perm : forall l, Permutation (set_iter l) l
}.

Definition insertion_order : SetIteration :=
  {| set_iter := fun l => l; set_iter_perm := fun l => Permutation_refl l |}.

Definition reverse_order : SetIteration :=
  {| set_iter := @List.rev string;
     set_iter_perm := fun l => Permutation_sym (Permutation_rev l) |}.

(* ===================================================================== *)
(** ** The data model ([src/utils/data_models.py]) *)
(* ===================================================================== *)

Inductive EntityType := CORE | SUPPORTING | COMPETITOR | ATTRIBUTE.

Inductive RelationshipType :=
  | IS_A | PART_OF | USED_FOR | RELATES_TO
  | REQUIRES | ALTERNATIVE_TO | ENABLES | CONTRASTS_WITH.

Inductive IntentType :=
  | INFORMATIONAL | NAVIGATIONAL | COMMERCIAL | TRANSACTIONAL | LOCAL.

Inductive ContentPriority := CRITICAL | HIGH | MEDIUM | LOW.

Definition EntityType_eqb (a b : EntityType) : bool :=
  match a, b with
  | CORE, CORE | SUPPORTING, SUPPORTING
  | COMPETITOR, COMPETITOR | ATTRIBUTE, ATTRIBUTE => true
  | _, _ => false
  end.

Definition EntityType_value (ty : EntityType) : string :=
  match ty with
  | CORE => "core" | SUPPORTING => "supporting"
  | COMPETITOR => "competitor" | ATTRIBUTE => "attribute"
  end.

Definition RelationshipType_value (r : RelationshipType) : string :=
  match r with
  | IS_A => "is_a" | PART_OF => "part_of" | USED_FOR => "used_for"
  | RELATES_TO => "relates_to" | REQUIRES => "requires"
  | ALTERNATIVE_TO => "alternative_to" | ENABLES => "enables"
  | CONTRASTS_WITH => "contrasts_with"
  end.

Definition IntentType_value (i : IntentType) : string :=
  match i with
  | INFORMATIONAL => "informational" | NAVIGATIONAL => "navigational"
  | COMMERCIAL => "commercial" | TRANSACTIONAL => "transactional"
  | LOCAL => "local"
  end.

Definition IntentType_eqb (a b : IntentType) : bool :=
  match a, b with
  | INFORMATIONAL, INFORMATIONAL | NAVIGATIONAL, NAVIGATIONAL
  | COMMERCIAL, COMMERCIAL | TRANSACTIONAL, TRANSACTIONAL | LOCAL, LOCAL => true
  | _, _ => false
  end.

(** [list(IntentType)] *)
Definition all_intents : list IntentType :=
  [INFORMATIONAL; NAVIGATIONAL; COMMERCIAL; TRANSACTIONAL; LOCAL].

Definition ContentPriority_eqb (a b : ContentPriority) : bool :=
  match a, b with
  | CRITICAL, CRITICAL | HIGH, HIGH | MEDIUM, MEDIUM | LOW, LOW => true
  | _, _ => false
  end.

Definition ContentPriority_value (p : ContentPriority) : string :=
  match p with
  | CRITICAL => "critical" | HIGH => "high" | MEDIUM => "medium" | LOW => "low"
  end.

(** A call that builds a pydantic model from a caller's value [Raised] when
    the value is outside the range of its field ([ValidationError]). *)
Inductive outcome (A : Type) :=
  | Returned (a : A)
  | Raised.
Arguments Returned {A} a.
Arguments Raised {A}.

(** [Entity.attributes]: the keys the pipeline writes ([niche], [goals],
    [frequency], [categories]); an absent key is [None]. *)
Record Attributes := {
  attr_niche : option string;
  attr_goals : option (list string);
  attr_frequency : option Z;
  attr_categories : option (list string)
}.

Definition no_attributes : Attributes :=
  {| attr_niche := None; attr_goals := None;
     attr_frequency := None; attr_categories := None |}.

Module Entity.
Record t := make {
  id : string;
  name : string;
  type : EntityType;
  description : option string;
  aliases : list string;
  attributes : Attributes;
  commercial_value : Q;
  semantic_centrality : Q;
  source_urls : list string
}.

Definition set_aliases (v : list string) (e : t) : t :=
  make (id e) (name e) (type e) (description e) v (attributes e)
       (commercial_value e) (semantic_centrality e) (source_urls e).

Definition set_scores (cv sc : Q) (e : t) : t :=
  make (id e) (name e) (type e) (description e) (aliases e) (attributes e)
       cv sc (source_urls e).

Definition set_source_urls (v : list string) (e : t) : t :=
  make (id e) (name e) (type e) (description e) (aliases e) (attributes e)
       (commercial_value e) (semantic_centrality e) v.
End Entity.

Module Relationship.
Record t := make {
  source_id : string;
  target_id : string;
  relationship_type : RelationshipType;
  weight : Q;
  context : option string;
  bidirectional : bool
}.
End Relationship.

(** [created_at] and [version] are left out: a time stamp and a constant
    that no stage reads. *)
Module Ontology.
Record t := make {
  brand_name : string;
  entities : list Entity.t;
  relationships : list Relationship.t
}.

(** [next((e for e in self.entities if e.id == entity_id), None)] *)
Definition get_entity (o : t) (entity_id : string) : option Entity.t :=
  List.find (fun e => String.eqb (Entity.id e) entity_id) (entities o).

Definition related_via (o : t) (entity_id : string) (rel : Relationship.t)
  : list (Entity.t * Relationship.t) :=
  if String.eqb (Relationship.source_id rel) entity_id then
    match get_entity o (Relationship.target_id rel) with
    | Some e => [(e, rel)]
    | None => []
    end
  else if Relationship.bidirectional rel
          && String.eqb (Relationship.target_id rel) entity_id then
    match get_entity o (Relationship.source_id rel) with
    | Some e => [(e, rel)]
    | None => []
    end
  else [].

Definition get_related_entities (o : t) (entity_id : string)
  : list (Entity.t * Relationship.t) :=
  List.flat_map (related_via o entity_id) (relationships o).

(** [counts[entity.type.value] = counts.get(entity.type.value, 0) + 1] for
    every entity. *)
Definition entity_count_by_type (o : t) : gmap string nat :=
  fold_left
    (fun counts entity =>
       let key := EntityType_value (Entity.type entity) in
       <[key := default 0 (counts !! key) + 1]> counts)
    (entities o) ∅.
End Ontology.

(* ===================================================================== *)
(** ** Configuration ([src/config/templates.py]) *)
(* ===================================================================== *)

Inductive SourceMode := SITEMAP | SEED | HYBRID.

Inductive BusinessGoalType :=
  | BRAND_AWARENESS | LEAD_GENERATION | ECOMMERCE_SALES
  | THOUGHT_LEADERSHIP | LOCAL_VISIBILITY | PRODUCT_ADOPTION.

Definition BusinessGoalType_value (g : BusinessGoalType) : string :=
  match g with
  | BRAND_AWARENESS => "brand_awareness" | LEAD_GENERATION => "lead_generation"
  | ECOMMERCE_SALES => "ecommerce_sales"
  | THOUGHT_LEADERSHIP => "thought_leadership"
  | LOCAL_VISIBILITY => "local_visibility"
  | PRODUCT_ADOPTION => "product_adoption"
  end.

Module Config.
Record t := make {
  brand_name : string;
  primary_niche : string;
  business_goals : list BusinessGoalType;
  source_mode : SourceMode;
  sitemap_url : option string;
  seed_entities : list string;
  competitors : list string
}.
End Config.

(** One candidate returned by the sitemap collaborator
    ([SitemapParser.extract_entities_from_sitemap]); a missing
    ["source_urls"] or ["categories"] reads as the empty list. *)
Module SitemapItem.
Record t := make {
  name : string;
  frequency : Z;
  source_urls : list string;
  categories : list string
}.
End SitemapItem.

(** Truthiness of an optional string: [None] and [""] are false. *)
Definition truthy (s : option string) : bool :=
  match s with
  | Some v => negb (PyStr.is_empty v)
  | None => false
  end.

(** [min(1.0, x)] *)
Definition min_one (x : Q) : Q := if Qle_bool 1 x then 1%Q else x.

Definition SourceMode_eqb (a b : SourceMode) : bool :=
  match a, b with
  | SITEMAP, SITEMAP | SEED, SEED | HYBRID, HYBRID => true
  | _, _ => false
  end.

(** [BrandFoundationConfig.validate] *)
Definition BrandFoundationConfig_validate (c : Config.t) : list string :=
  (if PyStr.is_empty (PyStr.strip (Config.brand_name c))
   then ["Brand name is required"] else [])
  ++ (if PyStr.is_empty (PyStr.strip (Config.primary_niche c))
      then ["Primary niche is required"] else [])
  ++ (match Config.business_goals c with
      | [] => ["At least one business goal is required"]
      | _ => []
      end)
  ++ (if SourceMode_eqb (Config.source_mode c) SITEMAP
         && negb (truthy (Config.sitemap_url c))
      then ["Sitemap URL required when source_mode is 'sitemap'"] else [])
  ++ (if SourceMode_eqb (Config.source_mode c) SEED
         && match Config.seed_entities c with [] => true | _ => false end
      then ["Seed entities required when source_mode is 'seed'"] else []).

(* ===================================================================== *)
(** ** Step 1: Ontology Builder ([src/core/ontology_builder.py]) *)
(* ===================================================================== *)

Module OntologyBuilder.

(** The builder object: [self.config], [self.entities],
    [self.relationships]. *)
Record t := make {
  config : Config.t;
  entities : OrderedDict.t Entity.t;
  relationships : list Relationship.t
}.

(** [OntologyBuilder(config)] *)
Definition init (c : Config.t) : t := make c [] [].

Definition with_entities (d : OrderedDict.t Entity.t) (b : t) : t :=
  make (config b) d (relationships b).

Definition with_relationships (r : list Relationship.t) (b : t) : t :=
  make (config b) (entities b) r.

Definition _generate_entity_id (name : string) : string :=
  let normalized := PyStr.strip (PyStr.lower name) in
  let hash_suffix := PyStr.take 8 (MD5.hexdigest normalized) in
  let slug := PyStr.take 30 (PyStr.sub_non_alnum normalized) in
  slug +:+ "_" +:+ hash_suffix.

Definition _add_brand_entity (b : t) : t :=
  let c := config b in
  let brand_id := _generate_entity_id (Config.brand_name c) in
  with_entities
    (OrderedDict.set brand_id
       (Entity.make brand_id (Config.brand_name c) CORE
          (Some ("Primary brand entity for " +:+ Config.brand_name c))
          []
          {| attr_niche := Some (Config.primary_niche c);
             attr_goals := Some (List.map BusinessGoalType_value (Config.business_goals c));
             attr_frequency := None; attr_categories := None |}
          1%Q 1%Q [])
       (entities b))
    b.

Definition first_upper (w : string) : string :=
  match w with
  | EmptyString => EmptyString
  | String c _ => String (PyStr.upper_char c) EmptyString
  end.

Definition _generate_aliases (entity_name : string) : list string :=
  let name := PyStr.strip entity_name in
  let number :=
    if PyStr.endswith name "s" && Nat.ltb 3 (PyStr.len name)
    then [PyStr.drop_last 1 name]
    else if negb (PyStr.endswith name "s") then [name +:+ "s"]
    else [] in
  let words := PyStr.split name in
  let acronym := String.concat "" (List.map first_upper words) in
  let abbreviation :=
    if Nat.ltb 1 (List.length words) && Nat.leb 2 (PyStr.len acronym)
    then [acronym] else [] in
  let spacing :=
    if PyStr.contains "-" name then [PyStr.replace name "-" " "]
    else if PyStr.contains " " name then [PyStr.replace name " " "-"]
    else [] in
  number ++ abbreviation ++ spacing.

(** One pass of either loop of [_create_from_seeds]. *)
Definition add_named (ty : EntityType) (b : t) (raw : string) : t :=
  let s := PyStr.strip raw in
  if PyStr.is_empty s then b
  else
    let entity_id := _generate_entity_id s in
    if OrderedDict.has entity_id (entities b) then b
    else
      with_entities
        (OrderedDict.set entity_id
           (match ty with
            | COMPETITOR =>
                Entity.make entity_id s COMPETITOR
                  (Some ("Competitor: " +:+ s)) [] no_attributes
                  (1 # 2) (1 # 2) []
            | _ =>
                Entity.make entity_id s CORE None (_generate_aliases s)
                  no_attributes (1 # 2) (1 # 2) []
            end)
           (entities b))
        b.

Definition _create_from_seeds (b : t) : t :=
  let b1 := fold_left (add_named CORE) (Config.seed_entities (config b)) b in
  fold_left (add_named COMPETITOR) (Config.competitors (config b1)) b1.

Definition add_sitemap_item (b : t) (item : SitemapItem.t) : t :=
  let name := SitemapItem.name item in
  let entity_id := _generate_entity_id name in
  match OrderedDict.get entity_id (entities b) with
  | None =>
      with_entities
        (OrderedDict.set entity_id
           (Entity.make entity_id name
              (if Z.ltb 1 (SitemapItem.frequency item) then CORE else SUPPORTING)
              None []
              {| attr_niche := None; attr_goals := None;
                 attr_frequency := Some (SitemapItem.frequency item);
                 attr_categories := Some (SitemapItem.categories item) |}
              (1 # 2) (1 # 2) (SitemapItem.source_urls item))
           (entities b))
        b
  | Some existing =>
      with_entities
        (OrderedDict.set entity_id
           (Entity.set_source_urls
              (Entity.source_urls existing ++ SitemapItem.source_urls item)
              existing)
           (entities b))
        b
  end.

Definition stopwords : list string :=
  ["the"; "a"; "an"; "and"; "or"; "for"; "of"; "in"].

(** [words1 & words2 - {...}]: the set of the words of [name1] that are
    words of [name2] and no stop words. *)
Definition common_words (name1 name2 : string) : list string :=
  let words1 := PyStr.dedupe (PyStr.split name1) in
  let words2 := PyStr.split name2 in
  List.filter (fun w => PyStr.mem w words2 && negb (PyStr.mem w stopwords)) words1.

Section Runtime.
Context `{SetIteration}.

(** The sitemap collaborator: the candidates for a URL, or [None] when
    fetching or parsing raises. *)
Variable extract_entities_from_sitemap : string -> option (list SitemapItem.t).

Definition _extract_from_sitemap (b : t) : t :=
  match Config.sitemap_url (config b) with
  | Some url =>
      if PyStr.is_empty url then b
      else
        match extract_entities_from_sitemap url with
        | Some extracted => fold_left add_sitemap_item (firstn 50 extracted) b
        | None => b
        end
  | None => b
  end.

Definition _detect_relationship (e1 e2 : Entity.t) : option Relationship.t :=
  let name1 := PyStr.lower (Entity.name e1) in
  let name2 := PyStr.lower (Entity.name e2) in
  if PyStr.contains name1 name2 && negb (String.eqb name1 name2) then
    Some (Relationship.make (Entity.id e2) (Entity.id e1) IS_A (7 # 10)
            (Some ("'" +:+ Entity.name e2 +:+ "' contains '" +:+ Entity.name e1 +:+ "'"))
            false)
  else if PyStr.contains name2 name1 && negb (String.eqb name1 name2) then
    Some (Relationship.make (Entity.id e1) (Entity.id e2) IS_A (7 # 10)
            (Some ("'" +:+ Entity.name e1 +:+ "' contains '" +:+ Entity.name e2 +:+ "'"))
            false)
  else
    let common := common_words name1 name2 in
    if Nat.leb 1 (List.length common) then
      Some (Relationship.make (Entity.id e1) (Entity.id e2) RELATES_TO (5 # 10)
              (Some ("Shared terms: " +:+ PyStr.join ", " (set_iter common)))
              true)
    else None.

(** The first loop of [_infer_relationships], for one entity. *)
Definition brand_edges (brand_id : string) (e : Entity.t) : list Relationship.t :=
  if String.eqb (Entity.id e) brand_id then []
  else
    (if EntityType_eqb (Entity.type e) CORE
     then [Relationship.make (Entity.id e) brand_id PART_OF (8 # 10)
             (Some "Core entity of brand") false]
     else [])
    ++
    (if EntityType_eqb (Entity.type e) COMPETITOR
     then [Relationship.make (Entity.id e) brand_id ALTERNATIVE_TO (6 # 10)
             (Some "Competitor relationship") true]
     else []).

(** The second loop: every entity against the entities after it. *)
Fixpoint pair_edges (l : list Entity.t) : list Relationship.t :=
  match l with
  | [] => []
  | e1 :: r => omap (_detect_relationship e1) r ++ pair_edges r
  end.

Definition _infer_relationships (b : t) : t :=
  let entity_list := OrderedDict.values (entities b) in
  let brand_id := _generate_entity_id (Config.brand_name (config b)) in
  with_relationships
    (relationships b ++ List.flat_map (brand_edges brand_id) entity_list
       ++ pair_edges entity_list)
    b.

Definition bump (k : string) (m : gmap string nat) : gmap string nat :=
  <[k := default 0 (m !! k) + 1]> m.

Definition relationship_counts (rels : list Relationship.t) : gmap string nat :=
  fold_left
    (fun m rel => bump (Relationship.target_id rel) (bump (Relationship.source_id rel) m))
    rels ∅.

(** [max(relationship_counts.values()) if relationship_counts else 1] *)
Definition max_rels (m : gmap string nat) : nat :=
  match map_to_list m with
  | [] => 1
  | l => foldr Nat.max 0 (List.map snd l)
  end.

Definition commercial_value_of (ty : EntityType) : Q :=
  match ty with
  | CORE => 8 # 10
  | SUPPORTING => 4 # 10
  | COMPETITOR => 3 # 10
  | ATTRIBUTE => 5 # 10
  end.

Definition score (counts : gmap string nat) (entity_id : string) (e : Entity.t) : Entity.t :=
  let rel_count := default 0 (counts !! entity_id) in
  Entity.set_scores
    (commercial_value_of (Entity.type e))
    (min_one (inject_Z (Z.of_nat rel_count) / inject_Z (Z.of_nat (max_rels counts))
              + (2 # 10))%Q)
    e.

Definition _calculate_entity_scores (b : t) : t :=
  let counts := relationship_counts (relationships b) in
  with_entities
    (List.map (fun kv => (fst kv, score counts (fst kv) (snd kv))) (entities b))
    b.

(** The first half of [build]: the entities of the source mode, then the
    brand. *)
Definition populate (c : Config.t) : t :=
  let b0 := init c in
  let b1 :=
    match Config.source_mode c with
    | SITEMAP => _extract_from_sitemap b0
    | SEED => _create_from_seeds b0
    | HYBRID =>
        let b' := _create_from_seeds b0 in
        if truthy (Config.sitemap_url c) then _extract_from_sitemap b' else b'
    end in
  _add_brand_entity b1.

Definition build (c : Config.t) : Ontology.t :=
  let b2 := populate c in
  let b3 := _infer_relationships b2 in
  let b4 := _calculate_entity_scores b3 in
  Ontology.make (Config.brand_name c) (OrderedDict.values (entities b4))
    (relationships b4).
End Runtime.

(** [add_entity(name, entity_type, description, aliases)]: the entity is
    stored under its identifier, in the place of an entity that has it;
    [aliases or self._generate_aliases(name)] generates the aliases when
    none (or an empty list) is given. *)
Definition add_entity (b : t) (name : string) (entity_type : EntityType)
    (description : option string) (aliases : option (list string)) : t * Entity.t :=
  let entity_id := _generate_entity_id name in
  let entity :=
    Entity.make entity_id name entity_type description
      (match aliases with
       | Some (a :: r) => a :: r
       | _ => _generate_aliases name
       end)
      no_attributes (1 # 2) (1 # 2) [] in
  (with_entities (OrderedDict.set entity_id entity (entities b)) b, entity).

(** The range [ge=0.0, le=1.0] of [Relationship.weight]. *)
Definition in_unit_interval (x : Q) : bool := Qle_bool 0 x && Qle_bool x 1.

(** [add_relationship(source_name, target_name, rel_type, weight,
    bidirectional)]: [None] when either name has no entity. *)
Definition add_relationship (b : t) (source_name target_name : string)
    (rel_type : RelationshipType) (weight : Q) (bidirectional : bool)
  : outcome (t * option Relationship.t) :=
  let source_id := _generate_entity_id source_name in
  let target_id := _generate_entity_id target_name in
  if negb (OrderedDict.has source_id (entities b))
     || negb (OrderedDict.has target_id (entities b))
  then Returned (b, None)
  else if in_unit_interval weight then
    let rel :=
      Relationship.make source_id target_id rel_type weight None bidirectional in
    Returned (with_relationships (relationships b ++ [rel]) b, Some rel)
  else Raised.

Record GraphNode := {
  node_id : string;
  node_label : string;
  node_type : string;
  node_size : Q;
  node_color : string
}.

Record GraphEdge := {
  edge_source : string;
  edge_target : string;
  edge_label : string;
  edge_weight : Q
}.

Definition _get_entity_color (entity_type : EntityType) : string :=
  match entity_type with
  | CORE => "#4CAF50"
  | SUPPORTING => "#2196F3"
  | COMPETITOR => "#f44336"
  | ATTRIBUTE => "#FF9800"
  end.

(** [get_entity_graph_data()]: the pair of ["nodes"] and ["edges"]. *)
Definition get_entity_graph_data (b : t) : list GraphNode * list GraphEdge :=
  (List.map
     (fun entity =>
        {| node_id := Entity.id entity;
           node_label := Entity.name entity;
           node_type := EntityType_value (Entity.type entity);
           node_size := (Entity.semantic_centrality entity * 30 + 10)%Q;
           node_color := _get_entity_color (Entity.type entity) |})
     (OrderedDict.values (entities b)),
   List.map
     (fun rel =>
        {| edge_source := Relationship.source_id rel;
           edge_target := Relationship.target_id rel;
           edge_label := RelationshipType_value (Relationship.relationship_type rel);
           edge_weight := Relationship.weight rel |})
     (relationships b)).

End OntologyBuilder.

(** A sitemap collaborator that finds nothing. *)
Definition no_sitemap : string -> option (list SitemapItem.t) := fun _ => Some [].

Definition seed_config (brand niche : string) (seeds competitors : list string) : Config.t :=
  Config.make brand niche [BRAND_AWARENESS] SEED None seeds competitors.

(* ===================================================================== *)
(** ** Step 2: Entity Search & Expansion ([src/core/entity_search.py]) *)
(* ===================================================================== *)

Module EntitySearchExpander.

Definition SUFFIX_PATTERNS : OrderedDict.t (list string) :=
  [("tool", ["tools"; "software"; "platform"; "app"; "application"]);
   ("service", ["services"; "solution"; "solutions"]);
   ("guide", ["guides"; "tutorial"; "tutorials"; "how-to"]);
   ("tips", ["tips"; "advice"; "best practices"; "strategies"]);
   ("review", ["reviews"; "comparison"; "vs"; "alternatives"])].

Definition ABBREVIATIONS : OrderedDict.t string :=
  [("seo", "search engine optimization");
   ("sem", "search engine marketing");
   ("ppc", "pay per click");
   ("cro", "conversion rate optimization");
   ("ux", "user experience");
   ("ui", "user interface");
   ("api", "application programming interface");
   ("ai", "artificial intelligence");
   ("ml", "machine learning");
   ("saas", "software as a service");
   ("b2b", "business to business");
   ("b2c", "business to consumer");
   ("roi", "return on investment");
   ("kpi", "key performance indicator");
   ("cms", "content management system");
   ("crm", "customer relationship management")].

(** The generators return the elements added to their [set], in the order
    of the [add] calls; [_expand_entity] collects them into one set. *)

Definition _expand_abbreviations (name : string) : list string :=
  let name_lower := PyStr.lower name in
  let whole :=
    match OrderedDict.get name_lower ABBREVIATIONS with
    | Some x => [x]
    | None => []
    end in
  let words := PyStr.split name_lower in
  let within :=
    List.concat
      (imap (fun i word =>
               match OrderedDict.get word ABBREVIATIONS with
               | Some x => [PyStr.join " " (<[i := x]> words)]
               | None => []
               end) words) in
  let reverse :=
    List.flat_map
      (fun kv =>
         let expansion := PyStr.lower (snd kv) in
         if PyStr.contains expansion name_lower
         then [PyStr.replace name_lower expansion (fst kv)]
         else [])
      ABBREVIATIONS in
  whole ++ within ++ reverse.

(** [name_lower[-2] not in "aeiou"], for [len(name_lower) > 2]. *)
Definition penultimate_not_vowel (s : string) : bool :=
  match PyStr.char_at (PyStr.len s - 2) s with
  | Some c => negb (PyStr.contains (String c EmptyString) "aeiou")
  | None => true
  end.

Definition _generate_number_variants (name : string) : list string :=
  let name_lower := PyStr.lower name in
  if PyStr.endswith name_lower "s" && negb (PyStr.endswith name_lower "ss") then
    PyStr.drop_last 1 name_lower ::
    (if PyStr.endswith name_lower "ies" then [PyStr.drop_last 3 name_lower +:+ "y"]
     else if PyStr.endswith name_lower "es" then [PyStr.drop_last 2 name_lower]
     else [])
  else
    if PyStr.endswith name_lower "y" && Nat.ltb 2 (PyStr.len name_lower) then
      if penultimate_not_vowel name_lower
      then [PyStr.drop_last 1 name_lower +:+ "ies"]
      else [name_lower +:+ "s"]
    else if existsb (PyStr.endswith name_lower) ["s"; "x"; "z"; "ch"; "sh"]
    then [name_lower +:+ "es"]
    else [name_lower +:+ "s"].

Definition _generate_format_variants (name : string) : list string :=
  (if PyStr.contains "-" name
   then [PyStr.replace name "-" " "; PyStr.replace name "-" ""]
   else if PyStr.contains " " name
   then [PyStr.replace name " " "-"; PyStr.replace name " " ""]
   else [])
  ++
  (if negb (PyStr.contains " " name) && negb (PyStr.contains "-" name) then
     let split := PyStr.lower (PyStr.strip (PyStr.space_before_capitals name)) in
     if negb (String.eqb split (PyStr.lower name))
     then [split; PyStr.replace split " " "-"]
     else []
   else []).

Definition _generate_suffix_variants (name : string) : list string :=
  List.flat_map
    (fun kv =>
       let base_suffix := fst kv in
       if PyStr.endswith name base_suffix then
         let base := PyStr.drop_last (PyStr.len base_suffix) name in
         List.map (fun suffix => base +:+ suffix)
           (List.filter (fun suffix => negb (String.eqb suffix base_suffix)) (snd kv))
       else [])
    SUFFIX_PATTERNS.

Definition industry_prefixes : list string :=
  ["digital"; "online"; "cloud"; "modern"; "advanced"].

Definition _generate_industry_variants (name : string) : list string :=
  List.flat_map
    (fun prefix =>
       if PyStr.startswith name (prefix +:+ " ")
       then [PyStr.drop (PyStr.len prefix + 1) name]
       else [])
    industry_prefixes.

(** Everything [_expand_entity] adds to the set it starts from. *)
Definition candidates (e : Entity.t) : list string :=
  let name_lower := PyStr.lower (Entity.name e) in
  _expand_abbreviations name_lower
  ++ _generate_number_variants (Entity.name e)
  ++ _generate_format_variants (Entity.name e)
  ++ _generate_suffix_variants name_lower
  ++ _generate_industry_variants name_lower.

(** [alias and alias.lower() != name_lower and len(alias) >= 2] *)
Definition keep (e : Entity.t) (alias : string) : bool :=
  negb (PyStr.is_empty alias)
  && negb (String.eqb (PyStr.lower alias) (PyStr.lower (Entity.name e)))
  && Nat.leb 2 (PyStr.len alias).

Section Runtime.
Context `{SetIteration}.

Definition _expand_entity (e : Entity.t) : Entity.t :=
  (* Start with existing aliases *)
  let new_aliases := PyStr.dedupe (Entity.aliases e ++ candidates e) in
  (* Filter and deduplicate *)
  let new_aliases := List.filter (keep e) new_aliases in
  Entity.set_aliases (set_iter new_aliases) e.

Definition expand_all_entities (o : Ontology.t) : Ontology.t :=
  Ontology.make (Ontology.brand_name o)
    (List.map _expand_entity (Ontology.entities o))
    (Ontology.relationships o).
End Runtime.

(** The alias set as section 4.2 of the specification words it: the
    candidate variants, lower-cased, of length at least 2 and different
    from the entity's own (lower-cased) name; prior aliases play no part. *)
Definition rederived_aliases (e : Entity.t) : list string :=
  PyStr.dedupe
    (List.filter
       (fun a => Nat.leb 2 (PyStr.len a)
                 && negb (String.eqb a (PyStr.lower (Entity.name e))))
       (List.map PyStr.lower (candidates e))).

Definition INTENT_MODIFIERS : OrderedDict.t (list string) :=
  [("informational",
    ["what is"; "how to"; "why"; "guide to"; "introduction to";
     "basics of"; "understanding"; "explained"; "overview"]);
   ("commercial",
    ["best"; "top"; "vs"; "comparison"; "alternatives to";
     "review"; "pricing"; "cost of"; "free"]);
   ("transactional",
    ["buy"; "get"; "download"; "sign up for"; "try";
     "demo"; "free trial"; "discount"])].

Definition generate_semantic_variants (entity : Entity.t) : list string :=
  let variants := Entity.name entity :: Entity.aliases entity in
  let name_lower := PyStr.lower (Entity.name entity) in
  let modified :=
    List.flat_map
      (fun kv =>
         List.flat_map
           (fun modifier =>
              if negb (PyStr.endswith modifier " ")
              then [modifier +:+ " " +:+ name_lower] else [])
           (firstn 3 (snd kv)))
      INTENT_MODIFIERS in
  PyStr.dedupe (variants ++ modified).

Record SurfaceArea := {
  entity_name : string;
  alias_count : nat;
  total_variants : nat;
  variants : list string;
  coverage_score : Q;
  intent_coverage : OrderedDict.t bool
}.

Definition get_semantic_surface_area (entity : Entity.t) : SurfaceArea :=
  let variants := generate_semantic_variants entity in
  {| entity_name := Entity.name entity;
     alias_count := List.length (Entity.aliases entity);
     total_variants := List.length variants;
     variants := firstn 20 variants;
     coverage_score :=
       min_one (inject_Z (Z.of_nat (List.length variants)) / 20)%Q;
     intent_coverage :=
       List.map
         (fun kv =>
            (fst kv,
             existsb
               (fun v => existsb (fun modifier => PyStr.contains modifier (PyStr.lower v)) (snd kv))
               variants))
         INTENT_MODIFIERS |}.

Record EntityGap := {
  gap_entity : string;
  gap_type : string;
  gap_recommendation : string;
  gap_priority : string
}.

(** [find_entity_gaps(competitor_entities)]; [our_coverage] is a set that
    is only asked for membership. *)
Definition our_coverage (o : Ontology.t) : list string :=
  List.map (fun e => PyStr.lower (Entity.name e)) (Ontology.entities o)
  ++ List.flat_map (fun e => List.map PyStr.lower (Entity.aliases e))
       (Ontology.entities o).

Definition find_entity_gaps (o : Ontology.t) (competitor_entities : option (list string))
  : list EntityGap :=
  List.flat_map
    (fun comp_entity =>
       if PyStr.mem (PyStr.lower comp_entity) (our_coverage o) then []
       else
         [{| gap_entity := comp_entity;
             gap_type := "missing";
             gap_recommendation :=
               "Consider creating content covering '" +:+ comp_entity +:+ "'";
             gap_priority :=
               if Nat.leb (List.length (PyStr.split comp_entity)) 3
               then "high" else "medium" |}])
    (default [] competitor_entities).

End EntitySearchExpander.

(* ===================================================================== *)
(** ** Step 3: Taxonomy Builder ([src/core/taxonomy_builder.py]) *)
(* ===================================================================== *)

Module TaxonomyNode.
Record t := make {
  id : string;
  name : string;
  parent_id : option string;
  entity_ids : list string;
  level : nat;
  facets : list string;
  seo_title : option string;
  seo_description : option string;
  target_url : option string;
  internal_links_to : list string
}.

Definition set_facets (v : list string) (n : t) : t :=
  make (id n) (name n) (parent_id n) (entity_ids n) (level n) v
       (seo_title n) (seo_description n) (target_url n) (internal_links_to n).

Definition set_seo (title description : option string) (n : t) : t :=
  make (id n) (name n) (parent_id n) (entity_ids n) (level n) (facets n)
       title description (target_url n) (internal_links_to n).

Definition set_internal_links_to (v : list string) (n : t) : t :=
  make (id n) (name n) (parent_id n) (entity_ids n) (level n) (facets n)
       (seo_title n) (seo_description n) (target_url n) v.
End TaxonomyNode.

(** [created_at] is left out. *)
Module Taxonomy.
Record t := make {
  brand_name : string;
  nodes : list TaxonomyNode.t;
  facet_definitions : OrderedDict.t (list string)
}.

(** [[n for n in self.nodes if n.parent_id is None]] *)
Definition get_root_nodes (x : t) : list TaxonomyNode.t :=
  List.filter
    (fun n => match TaxonomyNode.parent_id n with None => true | Some _ => false end)
    (nodes x).

(** [[n for n in self.nodes if n.parent_id == node_id]] *)
Definition get_children (x : t) (node_id : string) : list TaxonomyNode.t :=
  List.filter
    (fun n => match TaxonomyNode.parent_id n with
              | Some p => String.eqb p node_id
              | None => false
              end)
    (nodes x).

(** [next((n for n in self.nodes if n.id == key), None)]; no identifier is
    [None]. *)
Definition find_node (x : t) (key : option string) : option TaxonomyNode.t :=
  match key with
  | Some k => List.find (fun n => String.eqb (TaxonomyNode.id n) k) (nodes x)
  | None => None
  end.

(** The loop [while current: path.insert(0, current); current = ...] of
    [get_node_path].  [fuel] bounds the number of passes; [None] says that
    the loop was still running when the fuel ran out. *)
Fixpoint node_path_loop (fuel : nat) (x : t) (current : option TaxonomyNode.t)
    (path : list TaxonomyNode.t) : option (list TaxonomyNode.t) :=
  match current with
  | None => Some path
  | Some c =>
      match fuel with
      | O => None
      | S k => node_path_loop k x (find_node x (TaxonomyNode.parent_id c)) (c :: path)
      end
  end.

Definition get_node_path (fuel : nat) (x : t) (node_id : string)
  : option (list TaxonomyNode.t) :=
  node_path_loop fuel x (find_node x (Some node_id)) [].
End Taxonomy.

(** [a == b] on optional strings. *)
Definition option_string_eqb (a b : option string) : bool :=
  match a, b with
  | None, None => true
  | Some x, Some y => String.eqb x y
  | _, _ => false
  end.

(** [l.sort(key=..., reverse=True)]: stable, largest key first. *)
Section SortDesc.
Context {A : Type} (key : A -> Q).

Fixpoint insert_desc (x : A) (l : list A) : list A :=
  match l with
  | [] => [x]
  | y :: r =>
      if Qle_bool (key y) (key x) then x :: y :: r
      else y :: insert_desc x r
  end.

Fixpoint sort_desc (l : list A) : list A :=
  match l with
  | [] => []
  | x :: r => insert_desc x (sort_desc r)
  end.
End SortDesc.

Module TaxonomyBuilder.

(** The builder object: [self.ontology], [self.primary_niche],
    [self.nodes], [self.facets]. *)
Record t := make {
  ontology : Ontology.t;
  primary_niche : string;
  nodes : OrderedDict.t TaxonomyNode.t;
  facets : OrderedDict.t (list string)
}.

(** [TaxonomyBuilder(ontology, primary_niche)] *)
Definition init (o : Ontology.t) (niche : string) : t := make o niche [] [].

Definition with_nodes (d : OrderedDict.t TaxonomyNode.t) (b : t) : t :=
  make (ontology b) (primary_niche b) d (facets b).

Definition with_facets (f : OrderedDict.t (list string)) (b : t) : t :=
  make (ontology b) (primary_niche b) (nodes b) f.

Definition _generate_node_id (name : string) : string :=
  let normalized := PyStr.strip (PyStr.lower name) in
  let hash_suffix := PyStr.take 6 (MD5.hexdigest normalized) in
  let slug := PyStr.take 20 (PyStr.sub_non_alnum normalized) in
  "tax_" +:+ slug +:+ "_" +:+ hash_suffix.

(** [re.sub(r"[^a-z0-9\s/]", "", s)] *)
Fixpoint url_keep (s : string) : string :=
  match s with
  | EmptyString => EmptyString
  | String c r =>
      if PyStr.is_slug_char c || PyStr.is_space c || Ascii.eqb c "/"
      then String c (url_keep r) else url_keep r
  end.

(** [re.sub(r"\s+", "-", s)] and [re.sub(r"-+", "-", s)]: every maximal run
    of characters that satisfy [f] becomes one hyphen. *)
Fixpoint runs_to_hyphen (f : ascii -> bool) (in_run : bool) (s : string) : string :=
  match s with
  | EmptyString => EmptyString
  | String c r =>
      if f c then
        if in_run then runs_to_hyphen f true r
        else String "-"%char (runs_to_hyphen f true r)
      else String c (runs_to_hyphen f false r)
  end.

Definition is_hyphen (c : ascii) : bool := Ascii.eqb c "-".

Definition _generate_url_slug (name : string) : string :=
  let slug := PyStr.lower name in
  let slug := url_keep slug in
  let slug := runs_to_hyphen PyStr.is_space false slug in
  let slug := runs_to_hyphen is_hyphen false slug in
  "/" +:+ PyStr.strip_by is_hyphen slug +:+ "/".

Definition _create_root_node (b : t) : t :=
  let niche := primary_niche b in
  let brand := Ontology.brand_name (ontology b) in
  let root_id := _generate_node_id niche in
  with_nodes
    (OrderedDict.set root_id
       (TaxonomyNode.make root_id niche None [] 0 []
          (Some (niche +:+ " - Complete Guide | " +:+ brand))
          (Some ("Comprehensive resource for " +:+ niche
                 +:+ ". Expert guides, tutorials, and insights from "
                 +:+ brand +:+ "."))
          None [])
       (nodes b))
    b.

Definition is_core (e : Entity.t) : bool := EntityType_eqb (Entity.type e) CORE.

Definition is_competitor (e : Entity.t) : bool :=
  EntityType_eqb (Entity.type e) COMPETITOR.

(** [core_entities[:15]] after the sort by centrality. *)
Definition top_core_entities (o : Ontology.t) : list Entity.t :=
  firstn 15
    (sort_desc Entity.semantic_centrality (List.filter is_core (Ontology.entities o))).

Definition category_node (root_id : string) (e : Entity.t) : TaxonomyNode.t :=
  TaxonomyNode.make (_generate_node_id (Entity.name e)) (Entity.name e)
    (Some root_id) [Entity.id e] 1 [] None None
    (Some (_generate_url_slug (Entity.name e))) [].

Definition add_node (d : OrderedDict.t TaxonomyNode.t) (n : TaxonomyNode.t)
  : OrderedDict.t TaxonomyNode.t :=
  OrderedDict.set (TaxonomyNode.id n) n d.

(** [list(self.nodes.keys())[0]] raises [IndexError] on an empty dictionary;
    [build] calls this step after [_create_root_node], so the dictionary
    has a first key. *)
Definition _create_category_nodes (b : t) : t :=
  let root_id := List.hd EmptyString (OrderedDict.keys (nodes b)) in
  with_nodes
    (fold_left (fun d e => add_node d (category_node root_id e))
       (top_core_entities (ontology b)) (nodes b))
    b.

Definition _find_node_for_entity (d : OrderedDict.t TaxonomyNode.t) (entity_id : string)
  : option TaxonomyNode.t :=
  List.find (fun n => PyStr.mem entity_id (TaxonomyNode.entity_ids n))
    (OrderedDict.values d).

Definition subcategory_node (cat_node : TaxonomyNode.t) (e : Entity.t) : TaxonomyNode.t :=
  TaxonomyNode.make (_generate_node_id (Entity.name e)) (Entity.name e)
    (Some (TaxonomyNode.id cat_node)) [Entity.id e] 2 [] None None
    (Some (_generate_url_slug
             (TaxonomyNode.name cat_node +:+ "/" +:+ Entity.name e)))
    [].

(** The body of the inner loop of [_create_subcategory_nodes]. *)
Definition add_subcategory (cat_node : TaxonomyNode.t)
    (d : OrderedDict.t TaxonomyNode.t) (rel : Entity.t * Relationship.t)
  : OrderedDict.t TaxonomyNode.t :=
  let related_entity := fst rel in
  if is_competitor related_entity then d
  else
    match _find_node_for_entity d (Entity.id related_entity) with
    | Some _ => d
    | None => add_node d (subcategory_node cat_node related_entity)
    end.

(** The body of the outer loop, for one level-1 node of the snapshot
    [category_nodes]. *)
Definition add_subcategories (o : Ontology.t)
    (d : OrderedDict.t TaxonomyNode.t) (cat_node : TaxonomyNode.t)
  : OrderedDict.t TaxonomyNode.t :=
  match TaxonomyNode.entity_ids cat_node with
  | [] => d
  | primary_entity_id :: _ =>
      fold_left (add_subcategory cat_node)
        (firstn 5 (Ontology.get_related_entities o primary_entity_id)) d
  end.

Definition _create_subcategory_nodes (b : t) : t :=
  let category_nodes :=
    List.filter (fun n => Nat.eqb (TaxonomyNode.level n) 1)
      (OrderedDict.values (nodes b)) in
  with_nodes (fold_left (add_subcategories (ontology b)) category_nodes (nodes b)) b.

(** [self.facets["category"].update(cats)] for every entity that has a
    ["categories"] attribute. *)
Definition category_facet (o : Ontology.t) : option (list string) :=
  fold_left
    (fun acc e =>
       match attr_categories (Entity.attributes e) with
       | Some cats => Some (PyStr.dedupe (default [] acc ++ cats))
       | None => acc
       end)
    (Ontology.entities o) None.

Definition node_facets (n : TaxonomyNode.t) : TaxonomyNode.t :=
  match TaxonomyNode.level n with
  | 0 => n
  | 1 => TaxonomyNode.set_facets ["guides"; "tutorials"] n
  | _ => TaxonomyNode.set_facets ["tutorials"] n
  end.

Definition _generate_facets (b : t) : t :=
  let f := facets b in
  let f := OrderedDict.set "intent"
             ["learn"; "compare"; "implement"; "troubleshoot"; "purchase"] f in
  let f := OrderedDict.set "audience"
             ["beginners"; "intermediate"; "advanced"; "decision-makers"] f in
  let f := OrderedDict.set "content_type"
             ["guides"; "tutorials"; "comparisons"; "reviews"; "case-studies"; "tools"] f in
  let f := match category_facet (ontology b) with
           | Some cats => OrderedDict.set "category" cats f
           | None => f
           end in
  with_facets f (with_nodes (OrderedDict.map_values node_facets (nodes b)) b).

(** The links of one node, before [list(dict.fromkeys(links))[:10]].  The
    loop writes [internal_links_to] only and reads [id], [parent_id] and
    [entity_ids] only, so every node sees the dictionary as it was when the
    loop began.  ([nodes_by_level] is built and never read.) *)
Definition related_links (o : Ontology.t) (d : OrderedDict.t TaxonomyNode.t)
    (links : list string) (entity_id : string) : list string :=
  fold_left
    (fun links rel =>
       match _find_node_for_entity d (Entity.id (fst rel)) with
       | Some related_node =>
           if PyStr.mem (TaxonomyNode.id related_node) links then links
           else links ++ [TaxonomyNode.id related_node]
       | None => links
       end)
    (firstn 3 (Ontology.get_related_entities o entity_id)) links.

Definition node_links (o : Ontology.t) (d : OrderedDict.t TaxonomyNode.t)
    (node : TaxonomyNode.t) : list string :=
  let all := OrderedDict.values d in
  let parent :=
    match TaxonomyNode.parent_id node with
    | Some p => if PyStr.is_empty p then [] else [p]
    | None => []
    end in
  let siblings :=
    List.map TaxonomyNode.id
      (List.filter
         (fun n => option_string_eqb (TaxonomyNode.parent_id n) (TaxonomyNode.parent_id node)
                   && negb (String.eqb (TaxonomyNode.id n) (TaxonomyNode.id node)))
         all) in
  let children :=
    List.map TaxonomyNode.id
      (List.filter
         (fun n => option_string_eqb (TaxonomyNode.parent_id n) (Some (TaxonomyNode.id node)))
         all) in
  let links := parent ++ firstn 3 siblings ++ children in
  fold_left (related_links o d) (TaxonomyNode.entity_ids node) links.

Definition _map_internal_links (b : t) : t :=
  with_nodes
    (OrderedDict.map_values
       (fun node =>
          TaxonomyNode.set_internal_links_to
            (firstn 10 (PyStr.dedupe (node_links (ontology b) (nodes b) node)))
            node)
       (nodes b))
    b.

Definition node_seo (b : t) (node : TaxonomyNode.t) : TaxonomyNode.t :=
  let brand := Ontology.brand_name (ontology b) in
  let title :=
    if truthy (TaxonomyNode.seo_title node) then TaxonomyNode.seo_title node
    else if Nat.eqb (TaxonomyNode.level node) 1 then
      Some (TaxonomyNode.name node +:+ " Guide - Expert Resources | " +:+ brand)
    else
      let parent_name :=
        match OrderedDict.get (default EmptyString (TaxonomyNode.parent_id node)) (nodes b) with
        | Some parent => TaxonomyNode.name parent
        | None => primary_niche b
        end in
      Some (TaxonomyNode.name node +:+ " - " +:+ parent_name +:+ " | " +:+ brand) in
  let description :=
    if truthy (TaxonomyNode.seo_description node) then TaxonomyNode.seo_description node
    else Some ("Learn about " +:+ PyStr.lower (TaxonomyNode.name node)
               +:+ " with our comprehensive guides. Expert tips, tutorials, and resources from "
               +:+ brand +:+ ".") in
  TaxonomyNode.set_seo title description node.

Definition _generate_seo_metadata (b : t) : t :=
  with_nodes (OrderedDict.map_values (node_seo b) (nodes b)) b.

Section Runtime.
Context `{SetIteration}.

Definition build (o : Ontology.t) (niche : string) : Taxonomy.t :=
  let b := init o niche in
  let b := _create_root_node b in
  let b := _create_category_nodes b in
  let b := _create_subcategory_nodes b in
  let b := _generate_facets b in
  let b := _map_internal_links b in
  let b := _generate_seo_metadata b in
  Taxonomy.make (Ontology.brand_name o) (OrderedDict.values (nodes b))
    (OrderedDict.map_values set_iter (facets b)).
End Runtime.

End TaxonomyBuilder.

(* ===================================================================== *)
(** ** Step 4: Query Mapper ([src/core/query_mapper.py]) *)
(* ===================================================================== *)

Module Query.
Record t := make {
  query_text : string;
  intent : IntentType;
  entity_ids : list string;
  estimated_volume : option Z;
  difficulty : option Q;
  priority : ContentPriority;
  serp_features : list string;
  fanout_pattern : option string
}.
End Query.

Module QueryCluster.
Record t := make {
  id : string;
  primary_entity_id : string;
  primary_entity_name : string;
  queries : list Query.t;
  intent_distribution : gmap string nat;
  total_estimated_volume : Z
}.

(** [QueryCluster(id=..., primary_entity_id=..., primary_entity_name=...)] *)
Definition new (cluster_id entity_id entity_name : string) : t :=
  make cluster_id entity_id entity_name [] ∅ 0%Z.

Definition add_query (c : t) (query : Query.t) : t :=
  let intent_key := IntentType_value (Query.intent query) in
  make (id c) (primary_entity_id c) (primary_entity_name c)
    (queries c ++ [query])
    (<[intent_key := default 0 (intent_distribution c !! intent_key) + 1]>
       (intent_distribution c))
    (match Query.estimated_volume query with
     | Some v => if Z.eqb v 0 then total_estimated_volume c
                 else (total_estimated_volume c + v)%Z
     | None => total_estimated_volume c
     end).

(** [sum(self.intent_distribution.values())] *)
Definition distribution_total (c : t) : nat :=
  map_fold (fun _ n acc => n + acc) 0 (intent_distribution c).

(** [self.intent_distribution.get(intent.value, 0)] *)
Definition distribution_of (c : t) (i : IntentType) : nat :=
  default 0 (intent_distribution c !! IntentType_value i).
End QueryCluster.

Module FanoutPattern.
Record t := make {
  name : string;
  patterns : list string;
  intent : IntentType;
  priority : Z
}.
End FanoutPattern.

(** [QUERY_FANOUT_PATTERNS] of [src/config/templates.py], in its order; the
    intent strings are the [IntentType] members they name. *)
Definition QUERY_FANOUT_PATTERNS : list FanoutPattern.t :=
  [FanoutPattern.make "definitional"
     ["what is {entity}"; "{entity} meaning"; "{entity} definition"; "{entity} explained"]
     INFORMATIONAL 1;
   FanoutPattern.make "how_to"
     ["how to {entity}"; "{entity} tutorial"; "{entity} guide"; "learn {entity}"]
     INFORMATIONAL 1;
   FanoutPattern.make "comparison"
     ["{entity} vs"; "{entity} alternatives"; "{entity} comparison"; "best {entity}"]
     COMMERCIAL 2;
   FanoutPattern.make "problems"
     ["{entity} problems"; "{entity} issues"; "{entity} not working"; "{entity} errors"]
     INFORMATIONAL 2;
   FanoutPattern.make "benefits"
     ["{entity} benefits"; "why use {entity}"; "{entity} advantages"; "{entity} pros cons"]
     COMMERCIAL 2;
   FanoutPattern.make "examples"
     ["{entity} examples"; "{entity} use cases"; "{entity} templates"; "{entity} samples"]
     INFORMATIONAL 2;
   FanoutPattern.make "pricing"
     ["{entity} pricing"; "{entity} cost"; "{entity} free"; "is {entity} free"]
     TRANSACTIONAL 3;
   FanoutPattern.make "reviews"
     ["{entity} review"; "{entity} reviews"; "is {entity} good"; "{entity} worth it"]
     COMMERCIAL 2;
   FanoutPattern.make "integration"
     ["{entity} integration"; "{entity} with"; "{entity} api"; "{entity} plugins"]
     INFORMATIONAL 3;
   FanoutPattern.make "advanced"
     ["advanced {entity}"; "{entity} best practices"; "{entity} tips"; "{entity} optimization"]
     INFORMATIONAL 3].

(** [sorted(l, key=...)] for a key that is a pair of numbers: stable,
    smallest key first. *)
Section SortAsc.
Context {A : Type} (key : A -> nat * nat).

(** [a <= b] for two such pairs *)
Definition key_leb (a b : nat * nat) : bool :=
  Nat.ltb (fst a) (fst b) || (Nat.eqb (fst a) (fst b) && Nat.leb (snd a) (snd b)).

Fixpoint insert_asc (x : A) (l : list A) : list A :=
  match l with
  | [] => [x]
  | y :: r =>
      if key_leb (key x) (key y) then x :: y :: r
      else y :: insert_asc x r
  end.

Fixpoint sort_asc (l : list A) : list A :=
  match l with
  | [] => []
  | x :: r => insert_asc x (sort_asc r)
  end.
End SortAsc.

Module QueryMapper.

(** The mapper object: [self.ontology], [self.clusters]. *)
Record t := make {
  ontology : Ontology.t;
  clusters : OrderedDict.t QueryCluster.t
}.

Definition init (o : Ontology.t) : t := make o [].

Definition pattern_features : OrderedDict.t (list string) :=
  [("definitional", ["featured_snippet"; "knowledge_panel"]);
   ("how_to", ["featured_snippet"; "how_to_rich_result"; "video_carousel"]);
   ("comparison", ["featured_snippet"; "table_snippet"]);
   ("problems", ["paa"; "featured_snippet"]);
   ("benefits", ["featured_snippet"; "paa"]);
   ("examples", ["featured_snippet"; "image_pack"]);
   ("pricing", ["product_results"; "shopping_ads"]);
   ("reviews", ["review_snippet"; "star_rating"]);
   ("integration", ["paa"; "featured_snippet"]);
   ("advanced", ["featured_snippet"; "paa"])].

Definition _predict_serp_features (pattern_name : string) (intent : IntentType)
  : list string :=
  let features := default [] (OrderedDict.get pattern_name pattern_features) in
  let features :=
    match intent with
    | COMMERCIAL =>
        if PyStr.mem "shopping_ads" features then features else features ++ ["paa"]
    | TRANSACTIONAL => features ++ ["site_links"]
    | _ => features
    end in
  PyStr.dedupe features.

(** [priority_map.get(priority_val, ContentPriority.MEDIUM)] *)
Definition priority_of (priority_val : Z) : ContentPriority :=
  if Z.eqb priority_val 1 then CRITICAL
  else if Z.eqb priority_val 2 then HIGH
  else MEDIUM.

Definition _generate_fanout_queries (entity : Entity.t) : list Query.t :=
  let entity_name := PyStr.lower (Entity.name entity) in
  List.flat_map
    (fun cfg =>
       let intent := FanoutPattern.intent cfg in
       List.map
         (fun pattern =>
            Query.make (PyStr.replace pattern "{entity}" entity_name) intent
              [Entity.id entity] None None
              (priority_of (FanoutPattern.priority cfg))
              (_predict_serp_features (FanoutPattern.name cfg) intent)
              (Some (FanoutPattern.name cfg)))
         (firstn 3 (FanoutPattern.patterns cfg)))
    QUERY_FANOUT_PATTERNS.

Definition _generate_alias_queries (alias entity_id : string) : list Query.t :=
  let alias_lower := PyStr.lower alias in
  [Query.make ("what is " +:+ alias_lower) INFORMATIONAL [entity_id] None None
     MEDIUM [] (Some "alias_definitional");
   Query.make ("how to use " +:+ alias_lower) INFORMATIONAL [entity_id] None None
     MEDIUM [] (Some "alias_howto")].

(** The queries [_create_query_cluster] hands to [add_query], in order. *)
Definition cluster_queries (entity : Entity.t) : list Query.t :=
  _generate_fanout_queries entity
  ++ List.flat_map (fun alias => _generate_alias_queries alias (Entity.id entity))
       (firstn 5 (Entity.aliases entity)).

Definition _create_query_cluster (entity : Entity.t) : QueryCluster.t :=
  let cluster_id := "qc_" +:+ PyStr.take 8 (MD5.hexdigest (Entity.id entity)) in
  fold_left QueryCluster.add_query (cluster_queries entity)
    (QueryCluster.new cluster_id (Entity.id entity) (Entity.name entity)).

Definition add_cluster (d : OrderedDict.t QueryCluster.t) (entity : Entity.t)
  : OrderedDict.t QueryCluster.t :=
  let cluster := _create_query_cluster entity in
  OrderedDict.set (QueryCluster.id cluster) cluster d.

Definition is_core (e : Entity.t) : bool := EntityType_eqb (Entity.type e) CORE.

(** [e.type.value == "supporting" and e.semantic_centrality > 0.5] *)
Definition is_high_value_supporting (e : Entity.t) : bool :=
  EntityType_eqb (Entity.type e) SUPPORTING
  && negb (Qle_bool (Entity.semantic_centrality e) (5 # 10)).

Definition map_all_entities_state (m : t) : t :=
  let core_entities := List.filter is_core (Ontology.entities (ontology m)) in
  let d := fold_left add_cluster core_entities (clusters m) in
  let supporting := List.filter is_high_value_supporting (Ontology.entities (ontology m)) in
  make (ontology m) (fold_left add_cluster supporting d).

(** [QueryMapper(ontology).map_all_entities()] *)
Definition map_all_entities (o : Ontology.t) : list QueryCluster.t :=
  OrderedDict.values (clusters (map_all_entities_state (init o))).

(** ** Analysis methods of the mapper *)

Definition question_starters : list string :=
  ["what is"; "how to"; "why"; "when to"; "where to"].

Definition action_words : list string :=
  ["use"; "implement"; "install"; "configure"; "set up"].

Definition variation (text entity_id pattern : string) : list Query.t :=
  if Nat.ltb (PyStr.len text) 100
  then [Query.make text INFORMATIONAL [entity_id] None None LOW [] (Some pattern)]
  else [].

Definition generate_query_variations (base_query entity_id : string) : list Query.t :=
  let base_lower := PyStr.lower base_query in
  let questions :=
    List.flat_map
      (fun starter =>
         if negb (PyStr.startswith base_lower starter)
         then variation (starter +:+ " " +:+ base_lower) entity_id "variation"
         else [])
      question_starters in
  let actions :=
    List.flat_map
      (fun action =>
         variation ("how to " +:+ action +:+ " " +:+ base_lower) entity_id
           "action_variation")
      action_words in
  firstn 10 (questions ++ actions).

Record IntentCoverage := {
  total_queries : nat;
  by_intent : gmap string nat;
  missing_intents : list string;
  coverage_score : Q
}.

(** [get_intent_coverage(cluster)]; [covered_intents] is the set of the
    keys of [intent_distribution]. *)
Definition get_intent_coverage (cluster : QueryCluster.t) : IntentCoverage :=
  let distribution := QueryCluster.intent_distribution cluster in
  let intents := List.map IntentType_value all_intents in
  {| total_queries := List.length (QueryCluster.queries cluster);
     by_intent := distribution;
     missing_intents :=
       List.filter
         (fun intent => match distribution !! intent with
                        | Some _ => false
                        | None => true
                        end)
         intents;
     coverage_score :=
       (inject_Z (Z.of_nat (size distribution))
        / inject_Z (Z.of_nat (List.length intents)))%Q |}.

Definition _suggest_intent_queries (entity_name : string) (intent : IntentType)
  : list string :=
  let entity_lower := PyStr.lower entity_name in
  match intent with
  | INFORMATIONAL =>
      ["what is " +:+ entity_lower; "how does " +:+ entity_lower +:+ " work";
       entity_lower +:+ " explained"]
  | COMMERCIAL =>
      ["best " +:+ entity_lower; entity_lower +:+ " alternatives";
       entity_lower +:+ " vs"]
  | TRANSACTIONAL =>
      ["buy " +:+ entity_lower; entity_lower +:+ " pricing";
       entity_lower +:+ " free trial"]
  | NAVIGATIONAL =>
      [entity_lower +:+ " login"; entity_lower +:+ " official site"]
  | LOCAL =>
      [entity_lower +:+ " near me"; "local " +:+ entity_lower]
  end.

(** One entry of [suggest_query_gaps]; the entry ["current_intents"] (the
    keys of the counter in the order of their insertion) is left out. *)
Record QueryGap := {
  gap_entity_name : string;
  gap_entity_id : string;
  gap_missing_intent : string;
  gap_suggested_queries : list string
}.

Definition suggest_query_gaps (m : t) (target_intent : IntentType) : list QueryGap :=
  List.flat_map
    (fun cluster =>
       let intent_key := IntentType_value target_intent in
       match QueryCluster.intent_distribution cluster !! intent_key with
       | Some _ => []
       | None =>
           [{| gap_entity_name := QueryCluster.primary_entity_name cluster;
               gap_entity_id := QueryCluster.primary_entity_id cluster;
               gap_missing_intent := IntentType_value target_intent;
               gap_suggested_queries :=
                 _suggest_intent_queries (QueryCluster.primary_entity_name cluster)
                   target_intent |}]
       end)
    (OrderedDict.values (clusters m)).

(** [totals[k] = totals.get(k, 0) + n] *)
Definition add_count (k : string) (n : nat) (totals : gmap string nat) : gmap string nat :=
  <[k := default 0 (totals !! k) + n]> totals.

(** The entries ["total_clusters"], ["total_queries"],
    ["intent_distribution"], ["pattern_distribution"] and
    ["priority_distribution"] of [generate_query_report]. *)
Record QueryReport := {
  total_clusters : nat;
  report_total_queries : nat;
  intent_totals : gmap string nat;
  pattern_totals : gmap string nat;
  priority_totals : gmap string nat
}.

Definition generate_query_report (m : t) : QueryReport :=
  let cs := OrderedDict.values (clusters m) in
  {| total_clusters := List.length (clusters m);
     report_total_queries :=
       fold_left Nat.add (List.map (fun c => List.length (QueryCluster.queries c)) cs) 0;
     intent_totals :=
       fold_left
         (fun totals cluster =>
            map_fold add_count totals (QueryCluster.intent_distribution cluster))
         cs ∅;
     pattern_totals :=
       fold_left
         (fun totals cluster =>
            fold_left
              (fun totals query =>
                 if truthy (Query.fanout_pattern query)
                 then add_count (default EmptyString (Query.fanout_pattern query)) 1 totals
                 else totals)
              (QueryCluster.queries cluster) totals)
         cs ∅;
     priority_totals :=
       fold_left
         (fun totals cluster =>
            fold_left
              (fun totals query =>
                 add_count (ContentPriority_value (Query.priority query)) 1 totals)
              (QueryCluster.queries cluster) totals)
         cs ∅ |}.

(** [priority_order] and [intent_order] of [prioritize_queries]; every
    member has an entry, so the default 5 is never used. *)
Definition priority_order (p : ContentPriority) : nat :=
  match p with
  | CRITICAL => 0 | HIGH => 1 | MEDIUM => 2 | LOW => 3
  end.

Definition intent_order (i : IntentType) : nat :=
  match i with
  | TRANSACTIONAL => 0 | COMMERCIAL => 1 | INFORMATIONAL => 2
  | NAVIGATIONAL => 3 | LOCAL => 4
  end.

Definition query_key (q : Query.t) : nat * nat :=
  (priority_order (Query.priority q), intent_order (Query.intent q)).

Definition prioritize_queries (m : t) : list Query.t :=
  sort_asc query_key
    (List.flat_map QueryCluster.queries (OrderedDict.values (clusters m))).

End QueryMapper.

(* ===================================================================== *)
(** ** Step 5: Topical Hub Designer ([src/core/hub_designer.py]) *)
(* ===================================================================== *)

Module HubPage.
Record t := make {
  id : string;
  title : string;
  page_type : string;
  target_queries : list string;
  target_intents : list IntentType;
  entity_ids : list string;
  recommended_format : option string;
  recommended_word_count : option Z;
  schema_types : list string;
  internal_links_to : list string;
  internal_links_from : list string;
  existing_url : option string;
  status : string;
  priority : ContentPriority
}.

Definition set_links (to from : list string) (p : t) : t :=
  make (id p) (title p) (page_type p) (target_queries p) (target_intents p)
       (entity_ids p) (recommended_format p) (recommended_word_count p)
       (schema_types p) to from (existing_url p) (status p) (priority p).
End HubPage.

(** [created_at] is left out. *)
Module ContentHub.
Record t := make {
  id : string;
  name : string;
  primary_entity_id : string;
  pillar_page : option HubPage.t;
  cluster_pages : list HubPage.t;
  supporting_pages : list HubPage.t;
  internal_link_count : nat;
  coverage_score : Q
}.

Definition all_pages (h : t) : list HubPage.t :=
  match pillar_page h with
  | Some p => [p]
  | None => []
  end ++ cluster_pages h ++ supporting_pages h.

(** The count [calculate_link_count] computes. *)
Definition link_count (h : t) : nat :=
  fold_left (fun count page => count + List.length (HubPage.internal_links_to page))
    (all_pages h) 0.

Definition calculate_link_count (h : t) : t :=
  make (id h) (name h) (primary_entity_id h) (pillar_page h) (cluster_pages h)
       (supporting_pages h) (link_count h) (coverage_score h).

Definition set_pages (pillar : option HubPage.t) (clusters supporting : list HubPage.t)
    (h : t) : t :=
  make (id h) (name h) (primary_entity_id h) pillar clusters supporting
       (internal_link_count h) (coverage_score h).

Definition set_pillar_page (pillar : option HubPage.t) (h : t) : t :=
  set_pages pillar (cluster_pages h) (supporting_pages h) h.

Definition set_coverage_score (v : Q) (h : t) : t :=
  make (id h) (name h) (primary_entity_id h) (pillar_page h) (cluster_pages h)
       (supporting_pages h) (internal_link_count h) v.
End ContentHub.

(** The ["schema_types"] entry of every format of [DEFAULT_CONTENT_FORMATS]. *)
Definition DEFAULT_CONTENT_FORMATS_schema_types : OrderedDict.t (list string) :=
  [("long_form_guide", ["Article"; "HowTo"]);
   ("comparison_table", ["Table"; "ItemList"]);
   ("how_to_tutorial", ["HowTo"]);
   ("faq_page", ["FAQPage"]);
   ("product_review", ["Review"; "Product"]);
   ("listicle", ["ItemList"; "Article"]);
   ("video_content", ["VideoObject"]);
   ("tool_calculator", ["WebApplication"; "SoftwareApplication"]);
   ("case_study", ["Article"; "Report"]);
   ("glossary_definition", ["DefinedTerm"; "Article"])].

Definition IntentType_eq_dec (a b : IntentType) : {a = b} + {a <> b}.
Proof. decide equality. Defined.

(** [sum(scores) / len(scores) if scores else 0.0] *)
Definition mean (scores : list Q) : Q :=
  match scores with
  | [] => 0%Q
  | _ => (fold_left Qplus scores 0 / inject_Z (Z.of_nat (List.length scores)))%Q
  end.

Module HubDesigner.

(** The designer object: [self.ontology], [self.taxonomy],
    [self.query_map] (the clusters by [primary_entity_id]; [query_clusters]
    itself is not read again) and [self.hubs]. *)
Record t := make {
  ontology : Ontology.t;
  taxonomy : Taxonomy.t;
  query_map : OrderedDict.t QueryCluster.t;
  hubs : list ContentHub.t
}.

(** [HubDesigner(ontology, taxonomy, query_clusters)] *)
Definition init (o : Ontology.t) (tx : Taxonomy.t) (query_clusters : list QueryCluster.t) : t :=
  make o tx
    (fold_left (fun d qc => OrderedDict.set (QueryCluster.primary_entity_id qc) qc d)
       query_clusters [])
    [].

Definition with_hubs (hs : list ContentHub.t) (d : t) : t :=
  make (ontology d) (taxonomy d) (query_map d) hs.

Definition WORD_COUNT_pillar : Z := 3000.
Definition WORD_COUNT_cluster : Z := 1500.
Definition WORD_COUNT_supporting : Z := 800.

Definition is_high_priority (q : Query.t) : bool :=
  ContentPriority_eqb (Query.priority q) CRITICAL
  || ContentPriority_eqb (Query.priority q) HIGH.

Definition _create_pillar_page (d : t) (entity : Entity.t) (hub_id : string) : HubPage.t :=
  let target_queries :=
    match OrderedDict.get (Entity.id entity) (query_map d) with
    | Some query_cluster =>
        List.map Query.query_text
          (firstn 5 (List.filter is_high_priority (QueryCluster.queries query_cluster)))
    | None => []
    end in
  HubPage.make (hub_id +:+ "_pillar") ("Complete Guide to " +:+ Entity.name entity)
    "pillar" target_queries [INFORMATIONAL] [Entity.id entity]
    (Some "long_form_guide") (Some WORD_COUNT_pillar)
    ["Article"; "BreadcrumbList"; "FAQPage"] [] [] None "planned" CRITICAL.

Definition _get_pattern_config (pattern entity_name : string)
  : string * string * list IntentType :=
  let configs : OrderedDict.t (string * string * list IntentType) :=
    [("definitional",
      ("What is " +:+ entity_name +:+ "? Complete Overview",
       "glossary_definition", [INFORMATIONAL]));
     ("how_to",
      ("How to Use " +:+ entity_name +:+ ": Step-by-Step Guide",
       "how_to_tutorial", [INFORMATIONAL]));
     ("comparison",
      (entity_name +:+ " Alternatives & Comparisons",
       "comparison_table", [COMMERCIAL]));
     ("problems",
      ("Common " +:+ entity_name +:+ " Problems & Solutions",
       "faq_page", [INFORMATIONAL]));
     ("benefits",
      ("Benefits of " +:+ entity_name +:+ ": Why Use It?",
       "listicle", [COMMERCIAL]));
     ("examples",
      (entity_name +:+ " Examples & Use Cases",
       "case_study", [INFORMATIONAL]));
     ("pricing",
      (entity_name +:+ " Pricing & Plans",
       "comparison_table", [TRANSACTIONAL; COMMERCIAL]));
     ("reviews",
      (entity_name +:+ " Review: Pros, Cons & Verdict",
       "product_review", [COMMERCIAL]));
     ("integration",
      (entity_name +:+ " Integrations & APIs",
       "how_to_tutorial", [INFORMATIONAL]));
     ("advanced",
      ("Advanced " +:+ entity_name +:+ " Tips & Best Practices",
       "long_form_guide", [INFORMATIONAL]))] in
  default (entity_name +:+ ": " +:+ PyStr.title pattern, "long_form_guide", [INFORMATIONAL])
    (OrderedDict.get pattern configs).

(** [by_pattern]: the queries grouped by [query.fanout_pattern or "general"],
    the patterns in the order of their first query. *)
Definition group_by_pattern (queries : list Query.t) : OrderedDict.t (list Query.t) :=
  fold_left
    (fun by_pattern query =>
       let pattern :=
         if truthy (Query.fanout_pattern query)
         then default EmptyString (Query.fanout_pattern query) else "general" in
       OrderedDict.set pattern
         (default [] (OrderedDict.get pattern by_pattern) ++ [query]) by_pattern)
    queries [].

Definition cluster_page (entity : Entity.t) (hub_id : string)
    (group : string * list Query.t) : list HubPage.t :=
  let '(pattern, queries) := group in
  if Nat.ltb (List.length queries) 2 then []
  else
    let '(title, format_type, intents) := _get_pattern_config pattern (Entity.name entity) in
    let schema_types :=
      default ["Article"] (OrderedDict.get format_type DEFAULT_CONTENT_FORMATS_schema_types) in
    let has_critical :=
      existsb (fun q => ContentPriority_eqb (Query.priority q) CRITICAL) queries in
    let has_high :=
      existsb (fun q => ContentPriority_eqb (Query.priority q) HIGH) queries in
    let priority :=
      if has_critical then CRITICAL else if has_high then HIGH else MEDIUM in
    [HubPage.make (hub_id +:+ "_cluster_" +:+ pattern) title "cluster"
       (List.map Query.query_text (firstn 5 queries)) intents [Entity.id entity]
       (Some format_type) (Some WORD_COUNT_cluster) schema_types [] [] None
       "planned" priority].

Definition _create_cluster_pages (entity : Entity.t) (query_cluster : QueryCluster.t)
    (hub_id : string) : list HubPage.t :=
  firstn 10
    (List.flat_map (cluster_page entity hub_id)
       (group_by_pattern (QueryCluster.queries query_cluster))).

Definition supporting_page (entity : Entity.t) (hub_id : string)
    (rel : Entity.t * Relationship.t) : list HubPage.t :=
  let '(related_entity, relationship) := rel in
  if EntityType_eqb (Entity.type related_entity) COMPETITOR then []
  else
    let page_id :=
      hub_id +:+ "_support_" +:+ PyStr.take 6 (MD5.hexdigest (Entity.id related_entity)) in
    let title :=
      match Relationship.relationship_type relationship with
      | IS_A => Entity.name related_entity +:+ ": A Type of " +:+ Entity.name entity
      | PART_OF => Entity.name related_entity +:+ " in " +:+ Entity.name entity
      | USED_FOR => "Using " +:+ Entity.name entity +:+ " for " +:+ Entity.name related_entity
      | _ => Entity.name related_entity +:+ " & " +:+ Entity.name entity
      end in
    [HubPage.make page_id title "supporting" [] [INFORMATIONAL]
       [Entity.id entity; Entity.id related_entity] (Some "long_form_guide")
       (Some WORD_COUNT_supporting) ["Article"] [] [] None "planned" LOW].

Definition _create_supporting_pages (d : t) (entity : Entity.t) (hub_id : string)
  : list HubPage.t :=
  List.flat_map (supporting_page entity hub_id)
    (firstn 5 (Ontology.get_related_entities (ontology d) (Entity.id entity))).

(** The links [_map_internal_links] gives one page of the hub. *)
Definition link_page (pillar_id : string) (cluster_pages : list HubPage.t)
    (page : HubPage.t) : HubPage.t :=
  if String.eqb (HubPage.id page) pillar_id then
    HubPage.set_links (List.map HubPage.id cluster_pages) [] page
  else if String.eqb (HubPage.page_type page) "cluster" then
    let other_clusters :=
      firstn 2
        (List.map HubPage.id
           (List.filter (fun p => negb (String.eqb (HubPage.id p) (HubPage.id page)))
              cluster_pages)) in
    HubPage.set_links ([pillar_id] ++ other_clusters) [pillar_id] page
  else
    HubPage.set_links [pillar_id] [] page.

Definition _map_internal_links (hub : ContentHub.t) : ContentHub.t :=
  match ContentHub.pillar_page hub with
  | None => hub
  | Some pillar =>
      let f := link_page (HubPage.id pillar) (ContentHub.cluster_pages hub) in
      ContentHub.set_pages (Some (f pillar))
        (List.map f (ContentHub.cluster_pages hub))
        (List.map f (ContentHub.supporting_pages hub)) hub
  end.

Definition _design_hub (d : t) (entity : Entity.t) (taxonomy_node_id : string)
  : ContentHub.t :=
  let hub_id := "hub_" +:+ PyStr.take 8 (MD5.hexdigest (Entity.id entity)) in
  let pillar := _create_pillar_page d entity hub_id in
  let clusters :=
    match OrderedDict.get (Entity.id entity) (query_map d) with
    | Some query_cluster => _create_cluster_pages entity query_cluster hub_id
    | None => []
    end in
  let supporting := _create_supporting_pages d entity hub_id in
  let hub :=
    ContentHub.make hub_id (Entity.name entity) (Entity.id entity)
      (Some pillar) clusters supporting 0 0%Q in
  ContentHub.calculate_link_count (_map_internal_links hub).

(** The inner loops of [_map_hub_links] for one related entity: the first
    hub whose primary entity it is gets linked from [hub]'s pillar page,
    unless the link is there already. *)
Definition link_to_related (hs : list ContentHub.t) (hub : ContentHub.t)
    (rel : Entity.t * Relationship.t) : ContentHub.t :=
  match List.find
          (fun other_hub =>
             String.eqb (ContentHub.primary_entity_id other_hub) (Entity.id (fst rel)))
          hs with
  | Some other_hub =>
      match ContentHub.pillar_page hub, ContentHub.pillar_page other_hub with
      | Some pillar, Some other_pillar =>
          if PyStr.mem (HubPage.id other_pillar) (HubPage.internal_links_to pillar)
          then hub
          else
            ContentHub.set_pillar_page
              (Some (HubPage.set_links
                       (HubPage.internal_links_to pillar ++ [HubPage.id other_pillar])
                       (HubPage.internal_links_from pillar) pillar))
              hub
      | _, _ => hub
      end
  | None => hub
  end.

(** The body of the outer loop of [_map_hub_links] for the hub at index
    [i] of [self.hubs]; the hub is updated where it stands. *)
Definition link_hub (o : Ontology.t) (hs : list ContentHub.t) (i : nat)
  : list ContentHub.t :=
  match hs !! i with
  | None => hs
  | Some hub =>
      match Ontology.get_entity o (ContentHub.primary_entity_id hub) with
      | None => hs
      | Some entity =>
          fold_left
            (fun hs rel =>
               match hs !! i with
               | Some hub => <[i := link_to_related hs hub rel]> hs
               | None => hs
               end)
            (Ontology.get_related_entities o (Entity.id entity)) hs
      end
  end.

Definition _map_hub_links (d : t) : t :=
  with_hubs
    (fold_left (link_hub (ontology d)) (seq 0 (List.length (hubs d))) (hubs d)) d.

Definition query_coverage (query_cluster : QueryCluster.t) (hub : ContentHub.t) : Q :=
  let total_queries := List.length (QueryCluster.queries query_cluster) in
  let covered_queries :=
    fold_left Nat.add
      (List.map (fun p => List.length (HubPage.target_queries p)) (ContentHub.all_pages hub))
      0 in
  min_one (inject_Z (Z.of_nat covered_queries)
           / inject_Z (Z.of_nat (Nat.max total_queries 1)))%Q.

Definition intent_coverage (hub : ContentHub.t) : Q :=
  let covered_intents :=
    List.nodup IntentType_eq_dec
      (List.flat_map HubPage.target_intents (ContentHub.all_pages hub)) in
  (inject_Z (Z.of_nat (List.length covered_intents))
   / inject_Z (Z.of_nat (List.length all_intents)))%Q.

Definition link_coverage (hub : ContentHub.t) : Q :=
  let total_links := ContentHub.internal_link_count hub in
  let expected_links := List.length (ContentHub.all_pages hub) * 3 in
  min_one (inject_Z (Z.of_nat total_links)
           / inject_Z (Z.of_nat (Nat.max expected_links 1)))%Q.

(** The list [scores] of [_calculate_coverage]. *)
Definition coverage_scores (d : t) (hub : ContentHub.t) : list Q :=
  match OrderedDict.get (ContentHub.primary_entity_id hub) (query_map d) with
  | Some query_cluster => [query_coverage query_cluster hub]
  | None => []
  end ++ [intent_coverage hub; link_coverage hub].

Definition _calculate_coverage (d : t) (hub : ContentHub.t) : Q :=
  mean (coverage_scores d hub).

(** The body of the first loop of [design_all_hubs], for one taxonomy node. *)
Definition hub_of_node (d : t) (node : TaxonomyNode.t) : list ContentHub.t :=
  if negb (Nat.eqb (TaxonomyNode.level node) 1) then []
  else
    match TaxonomyNode.entity_ids node with
    | [] => []
    | primary_entity_id :: _ =>
        match Ontology.get_entity (ontology d) primary_entity_id with
        | None => []
        | Some entity => [_design_hub d entity (TaxonomyNode.id node)]
        end
    end.

Definition design_hubs (d : t) : t :=
  with_hubs (hubs d ++ List.flat_map (hub_of_node d) (Taxonomy.nodes (taxonomy d))) d.

Definition score_hubs (d : t) : t :=
  with_hubs
    (List.map (fun hub => ContentHub.set_coverage_score (_calculate_coverage d hub) hub)
       (hubs d))
    d.

(** [HubDesigner(ontology, taxonomy, query_clusters).design_all_hubs()] *)
Definition design_all_hubs (o : Ontology.t) (tx : Taxonomy.t)
    (query_clusters : list QueryCluster.t) : list ContentHub.t :=
  hubs (score_hubs (_map_hub_links (design_hubs (init o tx query_clusters)))).




(** The entries ["total_hubs"], ["total_pages"], ["total_internal_links"]
    and ["page_type_distribution"] of [generate_hub_report]. *)
Record HubReport := {
  total_hubs : nat;
  total_pages : nat;
  total_internal_links : nat;
  pillar_count : nat;
  cluster_count : nat;
  supporting_count : nat
}.

Definition generate_hub_report (d : t) : HubReport :=
  {| total_hubs := List.length (hubs d);
     total_pages :=
       fold_left Nat.add (List.map (fun h => List.length (ContentHub.all_pages h)) (hubs d)) 0;
     total_internal_links :=
       fold_left Nat.add (List.map ContentHub.internal_link_count (hubs d)) 0;
     pillar_count :=
       fold_left
         (fun n hub => match ContentHub.pillar_page hub with Some _ => n + 1 | None => n end)
         (hubs d) 0;
     cluster_count :=
       fold_left (fun n hub => n + List.length (ContentHub.cluster_pages hub)) (hubs d) 0;
     supporting_count :=
       fold_left (fun n hub => n + List.length (ContentHub.supporting_pages hub)) (hubs d) 0 |}.

End HubDesigner.

(* ===================================================================== *)
(** ** The pipeline ([src/app.py]) *)
(* ===================================================================== *)

Module Pipeline.
Section Runtime.
Context `{SetIteration}.
Variable extract_entities_from_sitemap : string -> option (list SitemapItem.t).

Record output := Output {
  ontology : Ontology.t;
  taxonomy : Taxonomy.t;
  query_clusters : list QueryCluster.t;
  content_hubs : list ContentHub.t
}.

Definition run (c : Config.t) : output :=
  let o := OntologyBuilder.build extract_entities_from_sitemap c in
  let o := EntitySearchExpander.expand_all_entities o in
  let tx := TaxonomyBuilder.build o (Config.primary_niche c) in
  let qcs := QueryMapper.map_all_entities o in
  Output o tx qcs (HubDesigner.design_all_hubs o tx qcs).
End Runtime.
End Pipeline.

(* ===================================================================== *)
(** ** Input validation ([src/utils/validators.py]) *)
(* ===================================================================== *)

Module ValidationError.
Record t := make {
  field : string;
  message : string;
  severity : string
}.
End ValidationError.

Module InputValidator.

Definition SITEMAP_EXTENSIONS : list string :=
  [".xml"; "sitemap"; "sitemap.xml"; "sitemap_index.xml"].

Definition MIN_ENTITY_LENGTH : nat := 2.
Definition MAX_ENTITY_LENGTH : nat := 100.
Definition MIN_ENTITIES : nat := 1.
Definition MAX_ENTITIES : nat := 50.
Definition MIN_BRAND_LENGTH : nat := 1.
Definition MAX_BRAND_LENGTH : nat := 100.

(** [ValidationError(field, message)] and
    [ValidationError(field, message, severity="warning")] *)
Definition error (field message : string) : ValidationError.t :=
  ValidationError.make field message "error".

Definition warning (field message : string) : ValidationError.t :=
  ValidationError.make field message "warning".

(** The character class of the search in [validate_brand_name]: the angle
    brackets, the double and the single quote, and the ampersand. *)
Definition is_problematic (c : ascii) : bool :=
  Ascii.eqb c "<" || Ascii.eqb c ">" || Ascii.eqb c "034" || Ascii.eqb c "'"
  || Ascii.eqb c "&".

(** The character class of the substitution in [sanitize_entity]: the
    same characters and the backslash. *)
Definition is_dangerous (c : ascii) : bool :=
  is_problematic c || Ascii.eqb c "\".

(** [any(f(c) for c in s)] *)
Definition has_char (f : ascii -> bool) (s : string) : bool :=
  negb (PyStr.all_chars (fun c => negb (f c)) s).

Definition validate_brand_name (brand_name : option string) : list ValidationError.t :=
  if negb (truthy brand_name) then [error "brand_name" "Brand name is required"]
  else
    let brand_name := PyStr.strip (default EmptyString brand_name) in
    (if Nat.ltb (PyStr.len brand_name) MIN_BRAND_LENGTH
     then [error "brand_name"
             ("Brand name must be at least " +:+ PyStr.of_nat MIN_BRAND_LENGTH
              +:+ " character(s)")]
     else [])
    ++ (if Nat.ltb MAX_BRAND_LENGTH (PyStr.len brand_name)
        then [error "brand_name"
                ("Brand name must be less than " +:+ PyStr.of_nat MAX_BRAND_LENGTH
                 +:+ " characters")]
        else [])
    ++ (if has_char is_problematic brand_name
        then [warning "brand_name" "Brand name contains invalid characters"]
        else []).

Definition validate_niche (niche : option string) : list ValidationError.t :=
  if negb (truthy niche) then [error "primary_niche" "Primary niche is required"]
  else
    let niche := PyStr.strip (default EmptyString niche) in
    (if Nat.ltb (PyStr.len niche) 3
     then [error "primary_niche" "Niche description should be at least 3 characters"]
     else [])
    ++ (if Nat.ltb 200 (PyStr.len niche)
        then [warning "primary_niche"
                "Niche description should be less than 200 characters"]
        else []).

(** The checks of one seed, at index [i] of the list. *)
Definition validate_seed (i : nat) (entity : string) : list ValidationError.t :=
  let entity := PyStr.strip entity in
  let field := "seed_entities[" +:+ PyStr.of_nat i +:+ "]" in
  if PyStr.is_empty entity then [error field "Empty entity found"]
  else
    (if Nat.ltb (PyStr.len entity) MIN_ENTITY_LENGTH
     then [error field
             ("Entity '" +:+ entity +:+ "' is too short (min "
              +:+ PyStr.of_nat MIN_ENTITY_LENGTH +:+ " chars)")]
     else [])
    ++ (if Nat.ltb MAX_ENTITY_LENGTH (PyStr.len entity)
        then [error field
                ("Entity '" +:+ entity +:+ "' is too long (max "
                 +:+ PyStr.of_nat MAX_ENTITY_LENGTH +:+ " chars)")]
        else []).

Definition validate_seed_entities (entities : option (list string))
  : list ValidationError.t :=
  match entities with
  | None | Some [] =>
      [error "seed_entities" "At least one seed entity is required when using seed mode"]
  | Some entities =>
      (if Nat.ltb (List.length entities) MIN_ENTITIES
       then [error "seed_entities"
               ("At least " +:+ PyStr.of_nat MIN_ENTITIES +:+ " seed entity is required")]
       else [])
      ++ (if Nat.ltb MAX_ENTITIES (List.length entities)
          then [warning "seed_entities"
                  ("Maximum " +:+ PyStr.of_nat MAX_ENTITIES +:+ " seed entities allowed")]
          else [])
      ++ List.concat (imap validate_seed entities)
      ++ (let normalized :=
            List.map (fun e => PyStr.strip (PyStr.lower e))
              (List.filter (fun e => negb (PyStr.is_empty e)) entities) in
          if negb (Nat.eqb (List.length normalized)
                     (List.length (PyStr.dedupe normalized)))
          then [warning "seed_entities" "Duplicate entities detected"]
          else [])
  end.

(** [sanitize_entity]: strip, drop the dangerous characters, then turn
    every run of white space into one space. *)
Definition sanitize_entity (entity : string) : string :=
  if PyStr.is_empty entity then EmptyString
  else
    let entity := PyStr.strip entity in
    let entity := PyStr.remove_chars is_dangerous entity in
    PyStr.sub_runs PyStr.is_space " " false entity.

Definition sanitize_entities (entities : list string) : list string :=
  PyStr.dedupe
    (List.flat_map
       (fun entity =>
          let clean := sanitize_entity entity in
          if negb (PyStr.is_empty clean) && Nat.leb MIN_ENTITY_LENGTH (PyStr.len clean)
          then [clean] else [])
       entities).

Definition has_errors (errors : list ValidationError.t) : bool :=
  existsb (fun e => String.eqb (ValidationError.severity e) "error") errors.

Section Urls.

(** [urlparse(url)] of the standard library, as far as [is_valid_url] reads
    it: whether the scheme is [http] or [https] and the network location is
    not empty ([False] also when parsing raises). *)
Variable http_url_with_host : string -> bool.

Definition is_valid_url (url : string) : bool :=
  if PyStr.is_empty url then false else http_url_with_host url.

Definition validate_sitemap_url (url : option string) : list ValidationError.t :=
  if negb (truthy url)
  then [error "sitemap_url" "Sitemap URL is required when using sitemap mode"]
  else
    let url := PyStr.strip (default EmptyString url) in
    if negb (is_valid_url url)
    then [error "sitemap_url" "Invalid URL format. Must be a valid HTTP/HTTPS URL"]
    else
      if existsb (fun ext => PyStr.contains ext (PyStr.lower url)) SITEMAP_EXTENSIONS
      then []
      else [warning "sitemap_url"
              "URL doesn't appear to be a sitemap (expected .xml extension)"].

Definition validate_url (url field_name : string) : list ValidationError.t :=
  if PyStr.is_empty url then [error field_name "URL is required"]
  else if negb (is_valid_url (PyStr.strip url))
  then [error field_name "Invalid URL format"]
  else [].

(** The check of one competitor, at index [i] of the list. *)
Definition validate_competitor (i : nat) (competitor : string) : list ValidationError.t :=
  let stripped := PyStr.strip competitor in
  if negb (PyStr.is_empty stripped) && Nat.ltb (PyStr.len stripped) MIN_ENTITY_LENGTH
  then [warning ("competitors[" +:+ PyStr.of_nat i +:+ "]")
          ("Competitor name too short (min " +:+ PyStr.of_nat MIN_ENTITY_LENGTH
           +:+ " chars)")]
  else [].

Definition validate_config (config : Config.t) : list ValidationError.t :=
  validate_brand_name (Some (Config.brand_name config))
  ++ validate_niche (Some (Config.primary_niche config))
  ++ (match Config.business_goals config with
      | [] => [error "business_goals" "At least one business goal must be selected"]
      | _ => []
      end)
  ++ (match Config.source_mode config with
      | SITEMAP => validate_sitemap_url (Config.sitemap_url config)
      | SEED => validate_seed_entities (Some (Config.seed_entities config))
      | HYBRID =>
          let has_sitemap :=
            truthy (Config.sitemap_url config)
            && is_valid_url (default EmptyString (Config.sitemap_url config)) in
          let has_seeds :=
            match Config.seed_entities config with [] => false | _ => true end in
          if negb has_sitemap && negb has_seeds
          then [error "source_mode"
                  "Hybrid mode requires either a sitemap URL or seed entities"]
          else []
      end)
  ++ List.concat (imap validate_competitor (Config.competitors config)).

End Urls.

End InputValidator.

(* ===================================================================== *)
(** ** Notions used to state the properties *)
(* ===================================================================== *)

Definition count_intent (i : IntentType) (qs : list Query.t) : nat :=
  List.length (List.filter (fun q => IntentType_eqb (Query.intent q) i) qs).

Definition sum_values (m : gmap string nat) : nat :=
  map_fold (fun _ n acc => n + acc) 0 m.

(** What [add_query] keeps true of a cluster: the distribution sums to the
    number of queries, an intent's entry is the number of its queries, and
    only intents that have a query have an entry. *)
Definition statistics_consistent (c : QueryCluster.t) : Prop :=
  QueryCluster.distribution_total c = List.length (QueryCluster.queries c)
  /\ (forall i, QueryCluster.distribution_of c i = count_intent i (QueryCluster.queries c))
  /\ (forall k n, QueryCluster.intent_distribution c !! k = Some n <->
        exists i, k = IntentType_value i
                  /\ n = count_intent i (QueryCluster.queries c) /\ 0 < n).

(** A relationship without the free text of a [relates_to] edge (the list
    of shared terms, written in the iteration order of a [set]). *)
Definition erase_shared_terms (r : Relationship.t) : Relationship.t :=
  match Relationship.relationship_type r with
  | RELATES_TO =>
      Relationship.make (Relationship.source_id r) (Relationship.target_id r)
        RELATES_TO (Relationship.weight r) None (Relationship.bidirectional r)
  | _ => r
  end.

(** Two relationships that are the same up to the order in which the text
    of a [relates_to] edge lists the shared terms: every field but the text
    is the same, and the texts are equal or list the same terms. *)
Definition same_up_to_term_order (r1 r2 : Relationship.t) : Prop :=
  Relationship.source_id r1 = Relationship.source_id r2
  /\ Relationship.target_id r1 = Relationship.target_id r2
  /\ Relationship.relationship_type r1 = Relationship.relationship_type r2
  /\ Relationship.weight r1 = Relationship.weight r2
  /\ Relationship.bidirectional r1 = Relationship.bidirectional r2
  /\ (Relationship.context r1 = Relationship.context r2
      \/ exists terms1 terms2,
           Permutation terms1 terms2
           /\ Relationship.context r1
              = Some ("Shared terms: " +:+ PyStr.join ", " terms1)
           /\ Relationship.context r2
              = Some ("Shared terms: " +:+ PyStr.join ", " terms2)).

(** The name from which an identifier is derived. *)
Definition normalized (name : string) : string := PyStr.strip (PyStr.lower name).

(** In a dictionary of entities every key is the identifier of its value. *)
Definition keyed_by_id (d : OrderedDict.t Entity.t) : Prop :=
  Forall (fun kv => Entity.id (snd kv) = fst kv) d.

(** *** Concrete inputs *)

(** Scenario 2 of the specification: seeds "tools" and "task tools". *)
Definition tools_config : Config.t :=
  seed_config "Acme" "Project Management" ["tools"; "task tools"] [].

Definition tools_ontology : Ontology.t :=
  @OntologyBuilder.build insertion_order no_sitemap tools_config.

(** Two seeds that share two words. *)
Definition shared_terms_config : Config.t :=
  seed_config "Acme" "Project Management"
    ["task management tools"; "task tracking tools"] [].

(** A sitemap run whose two candidates were each seen once. *)
Definition sitemap_config : Config.t :=
  Config.make "Acme" "Project Management" [BRAND_AWARENESS] SITEMAP
    (Some "https://acme.example/sitemap.xml") [] [].

Definition sitemap_candidates : string -> option (list SitemapItem.t) :=
  fun _ =>
    Some [SitemapItem.make "tools" 1 ["https://acme.example/tools"] [];
          SitemapItem.make "task tools" 1 ["https://acme.example/task-tools"] []].

(** One seed with capitals; the builder gives it the aliases
    "Task Trackings", "TT" and "Task-Tracking". *)
Definition task_tracking_config : Config.t :=
  seed_config "Acme" "Project Management" ["Task Tracking"] [].

Definition task_tracking_ontology : Ontology.t :=
  @OntologyBuilder.build insertion_order no_sitemap task_tracking_config.

(** *** Alias expansion *)

(** [e'] is [e] after expansion: the same entity, whose aliases are, without
    repetition, the prior aliases and the candidates that pass the filter. *)
Definition expansion_of (e e' : Entity.t) : Prop :=
  Entity.id e' = Entity.id e
  /\ Entity.name e' = Entity.name e
  /\ List.NoDup (Entity.aliases e')
  /\ forall a, In a (Entity.aliases e') <->
               (In a (Entity.aliases e) \/ In a (EntitySearchExpander.candidates e))
               /\ EntitySearchExpander.keep e a = true.

Definition same_alias_set (e1 e2 : Entity.t) : Prop :=
  forall a, In a (Entity.aliases e1) <-> In a (Entity.aliases e2).

(** *** Taxonomy *)

(** The number of elements of [l] that satisfy [p]. *)
Definition count {A : Type} (p : A -> bool) (l : list A) : nat :=
  List.length (List.filter p l).

(** [entity_id in node.entity_ids] *)
Definition owns (entity_id : string) (n : TaxonomyNode.t) : bool :=
  PyStr.mem entity_id (TaxonomyNode.entity_ids n).

Definition is_level_1 (n : TaxonomyNode.t) : bool := Nat.eqb (TaxonomyNode.level n) 1.

(** Every entity identifier is in the [entity_ids] of at most one node. *)
Definition single_assignment (nodes : list TaxonomyNode.t) : Prop :=
  forall entity_id, count (owns entity_id) nodes <= 1.

(** The fields of a node that the last three steps of [build] leave alone. *)
Definition skeleton (n : TaxonomyNode.t) : string * option string * list string * nat :=
  (TaxonomyNode.id n, TaxonomyNode.parent_id n, TaxonomyNode.entity_ids n,
   TaxonomyNode.level n).

(** The ontology of scenario 2 after expansion. *)
Definition tools_expanded : Ontology.t :=
  @EntitySearchExpander.expand_all_entities insertion_order tools_ontology.

(** *** Content hubs *)

(** [hub] with [extra] appended to the links of its pillar page, and
    nothing else changed. *)
Definition extend_pillar (extra : list string) (hub : ContentHub.t) : ContentHub.t :=
  ContentHub.set_pillar_page
    (option_map
       (fun p => HubPage.set_links (HubPage.internal_links_to p ++ extra)
                   (HubPage.internal_links_from p) p)
       (ContentHub.pillar_page hub))
    hub.

(** The identifiers of the pillar pages of a list of hubs. *)
Definition pillar_ids (hs : list ContentHub.t) : list string :=
  List.flat_map
    (fun h => match ContentHub.pillar_page h with
              | Some p => [HubPage.id p]
              | None => []
              end)
    hs.

Definition hub_extended (ids : list string) (h h' : ContentHub.t) : Prop :=
  exists extra, Forall (fun x => In x ids) extra /\ h' = extend_pillar extra h.

(** The links of the pillar page of a hub. *)
Definition pillar_links (h : ContentHub.t) : list string :=
  match ContentHub.pillar_page h with
  | Some p => HubPage.internal_links_to p
  | None => []
  end.

(** The state of the designer after the first loop of [design_all_hubs]:
    every hub designed, none linked to another, none scored. *)
Definition designed (o : Ontology.t) (tx : Taxonomy.t) (qcs : list QueryCluster.t)
  : HubDesigner.t :=
  HubDesigner.design_hubs (HubDesigner.init o tx qcs).

(** What [design_all_hubs] makes of a designed hub [h0]: the pillar page
    gets the links [extra] to pillar pages of other hubs, and the coverage
    score is filled in. *)
Definition finished (d : HubDesigner.t) (extra : list string) (h0 : ContentHub.t)
  : ContentHub.t :=
  ContentHub.set_coverage_score
    (HubDesigner._calculate_coverage d (extend_pillar extra h0))
    (extend_pillar extra h0).

(** A run of the pipeline on a brand and two seeds, one name inside the
    other.  The three entities have the same centrality, so the hubs come
    in the order "crm", "crm tools", "Acme". *)
Definition plain_config : Config.t :=
  seed_config "Acme" "CRM software" ["crm"; "crm tools"] [].

Definition plain_run : Pipeline.output :=
  @Pipeline.run insertion_order no_sitemap plain_config.

Definition no_hub : ContentHub.t := ContentHub.make "" "" "" None [] [] 0 0.

(** The hub of the seed "crm", which is related to the brand, and the hub
    of the brand, which is related to no entity (the [part_of] edges point
    to the brand). *)
Definition crm_hub : ContentHub.t := List.nth 0 (Pipeline.content_hubs plain_run) no_hub.

Definition acme_hub : ContentHub.t := List.nth 2 (Pipeline.content_hubs plain_run) no_hub.

(** *** Well-formed trees *)

(** [ancestor nodes a b]: the node identifier [a] is reached from a node
    with identifier [b] by following [parent_id] one or more times. *)
Inductive ancestor (nodes : list TaxonomyNode.t) : string -> string -> Prop :=
| ancestor_parent (n : TaxonomyNode.t) (a : string) :
    In n nodes -> TaxonomyNode.parent_id n = Some a ->
    ancestor nodes a (TaxonomyNode.id n)
| ancestor_step (n : TaxonomyNode.t) (a p : string) :
    In n nodes -> TaxonomyNode.parent_id n = Some p -> ancestor nodes a p ->
    ancestor nodes a (TaxonomyNode.id n).

(** Exactly one node without parent, every other parent an identifier of
    the taxonomy, no node its own ancestor. *)
Definition is_root (n : TaxonomyNode.t) : bool :=
  match TaxonomyNode.parent_id n with None => true | Some _ => false end.

Definition well_formed_tree (nodes : list TaxonomyNode.t) : Prop :=
  count is_root nodes = 1
  /\ (forall n p, In n nodes -> TaxonomyNode.parent_id n = Some p ->
                  In p (List.map TaxonomyNode.id nodes))
  /\ (forall n, In n nodes -> ~ ancestor nodes (TaxonomyNode.id n) (TaxonomyNode.id n)).

(** A run in which the niche is also one of the seeds. *)
Definition niche_seed_config : Config.t :=
  seed_config "Acme" "Project Management" ["project management"; "task tracking"] [].

Definition niche_seed_taxonomy : Taxonomy.t :=
  Pipeline.taxonomy (@Pipeline.run insertion_order no_sitemap niche_seed_config).

(** What a node of the dictionary is when no identifier was assigned twice:
    the root, a category below the root, or a subcategory below a category
    of [nodes]. *)
Definition node_kind (o : Ontology.t) (root_id : string) (nodes : list TaxonomyNode.t)
    (n : TaxonomyNode.t) : Prop :=
  (TaxonomyNode.id n = root_id /\ TaxonomyNode.parent_id n = None
   /\ TaxonomyNode.level n = 0)
  \/ (exists e,
        In e (Ontology.entities o)
        /\ TaxonomyNode.id n = TaxonomyBuilder._generate_node_id (Entity.name e)
        /\ TaxonomyNode.entity_ids n = [Entity.id e]
        /\ ((TaxonomyNode.level n = 1 /\ TaxonomyNode.parent_id n = Some root_id)
            \/ (TaxonomyNode.level n = 2
                /\ exists c, In c nodes /\ TaxonomyNode.level c = 1
                             /\ TaxonomyNode.parent_id n = Some (TaxonomyNode.id c)))).

Definition tree_shaped (o : Ontology.t) (niche : string) (nodes : list TaxonomyNode.t)
  : Prop :=
  List.NoDup (List.map TaxonomyNode.id nodes)
  /\ In (TaxonomyBuilder._generate_node_id niche) (List.map TaxonomyNode.id nodes)
  /\ Forall (node_kind o (TaxonomyBuilder._generate_node_id niche) nodes) nodes.

(** No two names among the niche and the entities of the ontology get the
    same node identifier. *)
Definition node_ids_distinct (o : Ontology.t) (niche : string) : Prop :=
  List.NoDup
    (TaxonomyBuilder._generate_node_id niche
     :: List.map (fun e => TaxonomyBuilder._generate_node_id (Entity.name e))
          (Ontology.entities o)).


(* ===================================================================== *)
(** ** Notions used to state further properties of the code *)
(* ===================================================================== *)

(** *** Identifiers and slugs *)

(** A character of an identifier: a lower-case letter, a digit or the
    underscore. *)
Definition is_id_char (c : ascii) : bool :=
  PyStr.is_slug_char c || Ascii.eqb c "_".

(** A character of a URL path made by [_generate_url_slug]. *)
Definition is_url_char (c : ascii) : bool :=
  PyStr.is_slug_char c || Ascii.eqb c "-" || Ascii.eqb c "/".

(** *** Entities of the builder *)

(** The dictionary has an entity under [k] whose type satisfies [P]. *)
Definition has_typed (P : EntityType -> Prop) (k : string) (d : OrderedDict.t Entity.t)
  : Prop :=
  exists e, OrderedDict.get k d = Some e /\ P (Entity.type e).

Definition is_CORE (ty : EntityType) : Prop := ty = CORE.

Definition is_CORE_or_COMPETITOR (ty : EntityType) : Prop :=
  ty = CORE \/ ty = COMPETITOR.

(** Whether two neighbouring characters of [s] both satisfy [f]. *)
Fixpoint has_adjacent (f : ascii -> bool) (s : string) : bool :=
  match s with
  | String a (String b _ as r) => f a && f b || has_adjacent f r
  | _ => false
  end.

(** *** The taxonomy *)

(** The node dictionary after the three steps of [build] that create nodes. *)
Definition tree_dict (o : Ontology.t) (niche : string) : OrderedDict.t TaxonomyNode.t :=
  TaxonomyBuilder.nodes
    (TaxonomyBuilder._create_subcategory_nodes
       (TaxonomyBuilder._create_category_nodes
          (TaxonomyBuilder._create_root_node (TaxonomyBuilder.init o niche)))).

(** Every node stands under its own identifier, and every parent is a key. *)
Definition closed_dict (d : OrderedDict.t TaxonomyNode.t) : Prop :=
  Forall
    (fun kv =>
       TaxonomyNode.id (snd kv) = fst kv
       /\ forall p, TaxonomyNode.parent_id (snd kv) = Some p -> In p (OrderedDict.keys d))
    d.

(** What the last three steps of [build] make of a node [n] of the
    dictionary [d]. *)
Definition finish_node (o : Ontology.t) (niche : string)
    (d : OrderedDict.t TaxonomyNode.t) (n : TaxonomyNode.t) : TaxonomyNode.t :=
  let faceted := OrderedDict.map_values TaxonomyBuilder.node_facets d in
  let linked :=
    OrderedDict.map_values
      (fun node =>
         TaxonomyNode.set_internal_links_to
           (firstn 10 (PyStr.dedupe (TaxonomyBuilder.node_links o faceted node))) node)
      faceted in
  TaxonomyBuilder.node_seo
    (TaxonomyBuilder.make o niche linked
       (TaxonomyBuilder.facets
          (TaxonomyBuilder._generate_facets (TaxonomyBuilder.make o niche d []))))
    (TaxonomyNode.set_internal_links_to
       (firstn 10
          (PyStr.dedupe
             (TaxonomyBuilder.node_links o faceted (TaxonomyBuilder.node_facets n))))
       (TaxonomyBuilder.node_facets n)).

(** [descends parent path]: the first node of [path] has the parent
    [parent], and every node is the parent of the next. *)
Fixpoint descends (parent : option string) (path : list TaxonomyNode.t) : Prop :=
  match path with
  | [] => True
  | x :: r => TaxonomyNode.parent_id x = parent /\ descends (Some (TaxonomyNode.id x)) r
  end.

Definition no_node : TaxonomyNode.t :=
  TaxonomyNode.make EmptyString EmptyString None [] 0 [] None None None [].

(** *** Query clusters *)

(** The counter of a cluster that the mapper builds for an entity of which
    [k] aliases are used. *)
Definition built_distribution (k : nat) : gmap string nat :=
  <["informational" := 18 + 2 * k]>
    (<["commercial" := 9]> (<["transactional" := 3]> ∅)).

(** *** Content hubs *)

(** The intents that a page of a designed hub can target. *)
Definition page_intents : list IntentType := [INFORMATIONAL; COMMERCIAL; TRANSACTIONAL].

(** The intents of the pages of a hub, page by page. *)
Definition hub_intents (h : ContentHub.t) : list IntentType :=
  List.flat_map HubPage.target_intents (ContentHub.all_pages h).

(** A page as the designer creates it, before the links are mapped:
    [kind] is its page type and [infix] the part of its identifier that
    follows the identifier of the hub. *)
Definition fresh_page (hub_id kind infix : string) (p : HubPage.t) : Prop :=
  HubPage.page_type p = kind
  /\ (exists rest, HubPage.id p = hub_id +:+ infix +:+ rest)
  /\ incl (HubPage.target_intents p) page_intents
  /\ HubPage.target_intents p <> [].

(** *** Semantic variants *)

(** The first three modifiers of every intent of [INTENT_MODIFIERS]. *)
Definition leading_modifiers : list string :=
  ["what is"; "how to"; "why"; "best"; "top"; "vs"; "buy"; "get"; "download"].

(** *** Sanitized names *)

(** A white-space character of a sanitized name is the space. *)
Definition plain_space (c : ascii) : bool :=
  negb (PyStr.is_space c) || Ascii.eqb c " ".

(** *** Counting by type *)

(** [entity.type == ty] *)
Definition of_type (ty : EntityType) (e : Entity.t) : bool :=
  EntityType_eqb (Entity.type e) ty.

(** *** The builder after [build] *)

(** The builder object when [build] returns: [self.entities] and
    [self.relationships] are what the returned ontology is made of. *)
Definition built_state `{SetIteration} (fetch : string -> option (list SitemapItem.t))
    (c : Config.t) : OntologyBuilder.t :=
  OntologyBuilder._calculate_entity_scores
    (OntologyBuilder._infer_relationships (OntologyBuilder.populate fetch c)).

(** *** Entity gaps *)

(** The entity [e] covers the name [c]: up to the case of the letters, [c]
    is its name or one of its aliases. *)
Definition covers (c : string) (e : Entity.t) : bool :=
  String.eqb (PyStr.lower c) (PyStr.lower (Entity.name e))
  || PyStr.mem (PyStr.lower c) (List.map PyStr.lower (Entity.aliases e)).

(** *** The order of the queries *)

(** [a] may stand before [b] in the list of [prioritize_queries]: its
    priority is more urgent, or the same and its intent ranks no later. *)
Definition ranks_before (a b : Query.t) : Prop :=
  QueryMapper.priority_order (Query.priority a) < QueryMapper.priority_order (Query.priority b)
  \/ (QueryMapper.priority_order (Query.priority a)
      = QueryMapper.priority_order (Query.priority b)
      /\ QueryMapper.intent_order (Query.intent a)
         <= QueryMapper.intent_order (Query.intent b)).

(** [q] has the priority [p] and the intent [i]. *)
Definition in_class (p : ContentPriority) (i : IntentType) (q : Query.t) : bool :=
  ContentPriority_eqb (Query.priority q) p && IntentType_eqb (Query.intent q) i.

(** *** The designer after [design_all_hubs] *)

(** The designer object when [design_all_hubs] returns; its [hubs] are the
    hubs returned. *)
Definition designer_after (o : Ontology.t) (tx : Taxonomy.t) (qcs : list QueryCluster.t)
  : HubDesigner.t :=
  HubDesigner.score_hubs (HubDesigner._map_hub_links (designed o tx qcs)).

(** *** Competitors *)

(** The identifier [k] is the identifier of the brand or of a seed that is
    not blank. *)
Definition taken_by_seed_or_brand (c : Config.t) (k : string) : Prop :=
  k = OntologyBuilder._generate_entity_id (Config.brand_name c)
  \/ exists s, In s (Config.seed_entities c)
               /\ PyStr.strip s <> EmptyString
               /\ OntologyBuilder._generate_entity_id (PyStr.strip s) = k.

(** The dictionary has a competitor under [k], or nothing yet. *)
Definition free_or_competitor (k : string) (d : OrderedDict.t Entity.t) : Prop :=
  OrderedDict.get k d = None \/ has_typed (eq COMPETITOR) k d.

(** *** Names and identifiers *)

(** The identifier of the entity is the one generated from its name, so
    the entity is found by its name. *)
Definition id_from_name (e : Entity.t) : Prop :=
  Entity.id e = OntologyBuilder._generate_entity_id (Entity.name e).

(* ===================================================================== *)
(** ** Checks of the primitives against Python and RFC 1321 *)
(* ===================================================================== *)

Example lower_ex : PyStr.lower "Task-Tracking 2" = "task-tracking 2".
Proof. reflexivity. Qed.

Example strip_ex : PyStr.strip "  a b  " = "a b".
Proof. reflexivity. Qed.

Example split_ex : PyStr.split " task   tools pro " = ["task"; "tools"; "pro"].
Proof. reflexivity. Qed.

Example replace_ex : PyStr.replace "what is {entity}" "{entity}" "crm" = "what is crm".
Proof. reflexivity. Qed.

Example replace_ex2 : PyStr.replace "aaa" "aa" "b" = "ba".
Proof. reflexivity. Qed.

Example sub_non_alnum_ex : PyStr.sub_non_alnum "task  tools & co" = "task_tools_co".
Proof. reflexivity. Qed.

Example endswith_ex : PyStr.endswith "tools" "s" = true /\ PyStr.endswith "s" "ss" = false.
Proof. split; reflexivity. Qed.

Example dedupe_ex : PyStr.dedupe ["a"; "b"; "a"; "c"; "b"] = ["a"; "b"; "c"].
Proof. reflexivity. Qed.

(** The test suite of RFC 1321, and two of the names used below. *)
Example md5_empty : MD5.hexdigest "" = "d41d8cd98f00b204e9800998ecf8427e".
Proof. vm_compute. reflexivity. Qed.

Example md5_a : MD5.hexdigest "a" = "0cc175b9c0f1b6a831c399e269772661".
Proof. vm_compute. reflexivity. Qed.

Example md5_abc : MD5.hexdigest "abc" = "900150983cd24fb0d6963f7d28e17f72".
Proof. vm_compute. reflexivity. Qed.

Example md5_message_digest :
  MD5.hexdigest "message digest" = "f96b697d7cb7938d525a2f31aaf161d0".
Proof. vm_compute. reflexivity. Qed.

Example md5_two_blocks :
  MD5.hexdigest "aaaaaaaaaaaaaaaaaaaaaaaaaaaaaaaaaaaaaaaaaaaaaaaaaaaaaaaa"
  = "3b0c8ac703f828b04c6c197006d17218".
Proof. vm_compute. reflexivity. Qed.

Example md5_task_tools : MD5.hexdigest "task tools" = "5599022b3280396b6153bbf7091c40ac".
Proof. vm_compute. reflexivity. Qed.

(** Identifiers, aliases and slugs. *)
Example entity_id_ex :
  OntologyBuilder._generate_entity_id "  Task Tools " = "task_tools_5599022b".
Proof. vm_compute. reflexivity. Qed.

Example node_id_ex :
  TaxonomyBuilder._generate_node_id "Project Management" = "tax_project_management_948d1f".
Proof. vm_compute. reflexivity. Qed.

Example generate_aliases_ex :
  OntologyBuilder._generate_aliases "Task Tracking"
  = ["Task Trackings"; "TT"; "Task-Tracking"].
Proof. reflexivity. Qed.

Example url_slug_ex :
  TaxonomyBuilder._generate_url_slug "Task -- Tools/My  Stuff!" = "/task-tools/my-stuff/".
Proof. reflexivity. Qed.

(** The generators of the expander. *)
Example expand_abbreviations_ex :
  EntitySearchExpander._expand_abbreviations "seo tool" = ["search engine optimization tool"]
  /\ PyStr.dedupe (EntitySearchExpander._expand_abbreviations "crm")
     = ["customer relationship management"]
  /\ EntitySearchExpander._expand_abbreviations "search engine optimization tips"
     = ["seo tips"].
Proof. repeat split. Qed.

Example number_variants_ex :
  EntitySearchExpander._generate_number_variants "Policies" = ["policie"; "policy"]
  /\ EntitySearchExpander._generate_number_variants "boxes" = ["boxe"; "box"]
  /\ EntitySearchExpander._generate_number_variants "glass" = ["glasses"]
  /\ EntitySearchExpander._generate_number_variants "agency" = ["agencies"]
  /\ EntitySearchExpander._generate_number_variants "key" = ["keys"].
Proof. repeat split. Qed.

Example format_variants_ex :
  EntitySearchExpander._generate_format_variants "e-mail box" = ["e mail box"; "email box"]
  /\ EntitySearchExpander._generate_format_variants "ContentStrategy"
     = ["content strategy"; "content-strategy"]
  /\ EntitySearchExpander._generate_format_variants "CRM" = ["c r m"; "c-r-m"].
Proof. repeat split. Qed.

Example suffix_and_industry_variants_ex :
  EntitySearchExpander._generate_suffix_variants "seo tool"
  = ["seo tools"; "seo software"; "seo platform"; "seo app"; "seo application"]
  /\ EntitySearchExpander._generate_industry_variants "digital agency" = ["agency"].
Proof. repeat split. Qed.

(** Scenario 3 of the specification: the cluster of an entity named "CRM"
    holds the query "what is crm". *)
Example cluster_of_CRM_ex :
  In "what is crm"
    (List.map Query.query_text
       (QueryCluster.queries
          (QueryMapper._create_query_cluster
             (Entity.make "crm_1fece0cb" "CRM" CORE None [] no_attributes (1 # 2) (1 # 2) [])))).
Proof. vm_compute. left. reflexivity. Qed.

Example predict_serp_features_ex :
  QueryMapper._predict_serp_features "pricing" TRANSACTIONAL
  = ["product_results"; "shopping_ads"; "site_links"]
  /\ QueryMapper._predict_serp_features "benefits" COMMERCIAL = ["featured_snippet"; "paa"].
Proof. repeat split. Qed.

(* ===================================================================== *)
(** * Properties *)
(* ===================================================================== *)

(** ** Lists of strings and ordered dictionaries *)

Lemma mem_In (x : string) (l : list string) : PyStr.mem x l = true <-> In x l.
Proof.
  unfold PyStr.mem. rewrite existsb_exists. split.
  - intros [y [Hy Heq]]. apply String.eqb_eq in Heq. now subst.
  - intros Hin. exists x. split; [assumption | apply String.eqb_refl].
Qed.

Lemma mem_false_In (x : string) (l : list string) : PyStr.mem x l = false <-> ~ In x l.
Proof.
  rewrite <- mem_In. destruct (PyStr.mem x l); split; intros; congruence.
Qed.

Lemma dedupe_go_In (x : string) (l seen : list string) :
  In x (PyStr.dedupe_go seen l) <-> In x l /\ ~ In x seen.
Proof.
  revert seen. induction l as [|y r IH]; intros seen; simpl.
  - tauto.
  - destruct (PyStr.mem y seen) eqn:Hm.
    + apply mem_In in Hm. rewrite IH. split.
      * intros [? ?]. tauto.
      * intros [[-> | ?] ?]; tauto.
    + apply mem_false_In in Hm. simpl. rewrite IH. simpl. split.
      * intros [-> | [? ?]]; [tauto | tauto].
      * intros [[-> | Hr] Hs]; [now left |].
        destruct (String.string_dec y x) as [-> | Hne]; [now left | right].
        split; [assumption | intros [? | ?]; tauto].
Qed.

Lemma dedupe_In (x : string) (l : list string) : In x (PyStr.dedupe l) <-> In x l.
Proof. unfold PyStr.dedupe. rewrite dedupe_go_In. simpl. tauto. Qed.

Lemma dedupe_go_NoDup (l seen : list string) : List.NoDup (PyStr.dedupe_go seen l).
Proof.
  revert seen. induction l as [|y r IH]; intros seen; simpl.
  - constructor.
  - destruct (PyStr.mem y seen); [apply IH |].
    constructor; [| apply IH].
    rewrite dedupe_go_In. simpl. tauto.
Qed.

Lemma dedupe_NoDup (l : list string) : List.NoDup (PyStr.dedupe l).
Proof. apply dedupe_go_NoDup. Qed.

Lemma set_iter_In `{SetIteration} (x : string) (l : list string) :
  In x (set_iter l) <-> In x l.
Proof.
  split; apply Permutation_in; [apply set_iter_perm | apply Permutation_sym, set_iter_perm].
Qed.

Lemma set_iter_NoDup `{SetIteration} (l : list string) :
  List.NoDup l -> List.NoDup (set_iter l).
Proof.
  intros Hnd. eapply Permutation_NoDup; [apply Permutation_sym, set_iter_perm | exact Hnd].
Qed.

Section DictFacts.
Context {V : Type}.
Implicit Types (d : OrderedDict.t V) (k : string) (v : V).

Lemma dict_get_set_eq d k v : OrderedDict.get k (OrderedDict.set k v d) = Some v.
Proof.
  induction d as [|[k' v'] r IH]; simpl.
  - now rewrite String.eqb_refl.
  - destruct (String.eqb k k') eqn:E; simpl; rewrite E; [reflexivity | exact IH].
Qed.

Lemma dict_get_set_ne d k k' v :
  k <> k' -> OrderedDict.get k' (OrderedDict.set k v d) = OrderedDict.get k' d.
Proof.
  intros Hne. induction d as [|[k0 v0] r IH]; simpl.
  - destruct (String.eqb k' k) eqn:E; [apply String.eqb_eq in E; congruence | reflexivity].
  - destruct (String.eqb k k0) eqn:E; simpl.
    + apply String.eqb_eq in E. subst k0.
      destruct (String.eqb k' k) eqn:E'; [apply String.eqb_eq in E'; congruence | reflexivity].
    + destruct (String.eqb k' k0); [reflexivity | exact IH].
Qed.

Lemma dict_values_set_In d k v x :
  In x (OrderedDict.values (OrderedDict.set k v d)) ->
  x = v \/ In x (OrderedDict.values d).
Proof.
  unfold OrderedDict.values. induction d as [|[k' v'] r IH]; simpl.
  - intros [<- | []]. now left.
  - destruct (String.eqb k k'); simpl.
    + intros [<- | Hin]; [now left | right; now right].
    + intros [<- | Hin]; [right; now left |].
      destruct (IH Hin) as [-> | Hr]; [now left | right; now right].
Qed.

Lemma dict_values_set_Forall (P : V -> Prop) d k v :
  P v -> Forall P (OrderedDict.values d) ->
  Forall P (OrderedDict.values (OrderedDict.set k v d)).
Proof.
  intros Hv Hd. apply List.Forall_forall. intros x Hx.
  destruct (dict_values_set_In _ _ _ _ Hx) as [-> | Hin]; [exact Hv |].
  rewrite List.Forall_forall in Hd. now apply Hd.
Qed.

Lemma dict_set_In_new d k v : In v (OrderedDict.values (OrderedDict.set k v d)).
Proof.
  unfold OrderedDict.values. induction d as [|[k' v'] r IH]; simpl.
  - now left.
  - destruct (String.eqb k k'); simpl; [now left | now right].
Qed.

Lemma dict_keys_map_values (f : V -> V) d :
  OrderedDict.keys (OrderedDict.map_values f d) = OrderedDict.keys d.
Proof.
  unfold OrderedDict.keys, OrderedDict.map_values. rewrite List.map_map. reflexivity.
Qed.

Lemma dict_values_map_values (f : V -> V) d :
  OrderedDict.values (OrderedDict.map_values f d) = List.map f (OrderedDict.values d).
Proof.
  unfold OrderedDict.values, OrderedDict.map_values. now rewrite !List.map_map.
Qed.
End DictFacts.

(** ** Cluster statistics *)

Lemma IntentType_eqb_eq (a b : IntentType) : IntentType_eqb a b = true <-> a = b.
Proof. destruct a, b; simpl; split; intros; congruence. Qed.

Lemma IntentType_value_inj (a b : IntentType) :
  IntentType_value a = IntentType_value b -> a = b.
Proof. destruct a, b; simpl; intros; congruence. Qed.

Lemma sum_values_insert_fresh (m : gmap string nat) (k : string) (n : nat) :
  m !! k = None -> sum_values (<[k := n]> m) = n + sum_values m.
Proof.
  intros Hk. unfold sum_values. apply map_fold_insert_L; [| exact Hk].
  intros. lia.
Qed.

Lemma sum_values_bump (m : gmap string nat) (k : string) :
  sum_values (<[k := default 0 (m !! k) + 1]> m) = S (sum_values m).
Proof.
  destruct (m !! k) as [n|] eqn:Hk; simpl.
  - rewrite <- insert_delete_eq.
    rewrite sum_values_insert_fresh by apply lookup_delete_eq.
    rewrite <- (insert_delete_id m k n Hk) at 2.
    rewrite sum_values_insert_fresh by apply lookup_delete_eq. lia.
  - rewrite sum_values_insert_fresh by exact Hk. lia.
Qed.

Lemma count_intent_snoc (i : IntentType) (qs : list Query.t) (q : Query.t) :
  count_intent i (qs ++ [q])
  = count_intent i qs + (if IntentType_eqb (Query.intent q) i then 1 else 0).
Proof.
  unfold count_intent. rewrite List.filter_app, List.length_app. simpl.
  destruct (IntentType_eqb (Query.intent q) i); reflexivity.
Qed.

Lemma new_consistent (a b c : string) : statistics_consistent (QueryCluster.new a b c).
Proof.
  unfold statistics_consistent, QueryCluster.distribution_total,
    QueryCluster.distribution_of. simpl. repeat split.
  - intros Hk. rewrite lookup_empty in Hk. discriminate.
  - intros [i [_ [-> Hpos]]]. unfold count_intent in Hpos. simpl in Hpos. lia.
Qed.

Lemma add_query_consistent (c : QueryCluster.t) (q : Query.t) :
  statistics_consistent c -> statistics_consistent (QueryCluster.add_query c q).
Proof.
  intros (Htot & Hcnt & Hkeys).
  assert (Hcur : default 0 (QueryCluster.intent_distribution c
                              !! IntentType_value (Query.intent q))
                 = count_intent (Query.intent q) (QueryCluster.queries c)).
  { apply (Hcnt (Query.intent q)). }
  unfold statistics_consistent, QueryCluster.distribution_total,
    QueryCluster.distribution_of in *. simpl.
  split; [| split].
  - fold (sum_values
            (<[IntentType_value (Query.intent q) :=
                 default 0 (QueryCluster.intent_distribution c
                              !! IntentType_value (Query.intent q)) + 1]>
               (QueryCluster.intent_distribution c))).
    rewrite sum_values_bump. unfold sum_values. rewrite Htot.
    rewrite List.length_app. simpl. lia.
  - intros i. rewrite count_intent_snoc.
    destruct (IntentType_eqb (Query.intent q) i) eqn:E.
    + apply IntentType_eqb_eq in E. subst i.
      rewrite lookup_insert_eq. simpl. rewrite Hcur. reflexivity.
    + rewrite lookup_insert_ne.
      * rewrite Hcnt. lia.
      * intros Heq. apply IntentType_value_inj in Heq. subst i.
        destruct (Query.intent q); discriminate.
  - intros k n.
    destruct (String.string_dec (IntentType_value (Query.intent q)) k) as [<- | Hne].
    + rewrite lookup_insert_eq. rewrite Hcur. split.
      * intros [= <-]. exists (Query.intent q). split; [reflexivity |].
        rewrite count_intent_snoc.
        replace (IntentType_eqb (Query.intent q) (Query.intent q)) with true
          by (symmetry; now apply IntentType_eqb_eq).
        lia.
      * intros [i [Hi [-> _]]]. apply IntentType_value_inj in Hi. subst i.
        rewrite count_intent_snoc.
        replace (IntentType_eqb (Query.intent q) (Query.intent q)) with true
          by (symmetry; now apply IntentType_eqb_eq).
        reflexivity.
    + rewrite lookup_insert_ne by exact Hne. rewrite Hkeys. split.
      * intros [i [-> [-> Hpos]]]. exists i. split; [reflexivity |].
        rewrite count_intent_snoc.
        destruct (IntentType_eqb (Query.intent q) i) eqn:E.
        -- apply IntentType_eqb_eq in E. subst i. congruence.
        -- split; lia.
      * intros [i [-> [-> Hpos]]]. exists i. split; [reflexivity |].
        rewrite count_intent_snoc in *.
        destruct (IntentType_eqb (Query.intent q) i) eqn:E.
        -- apply IntentType_eqb_eq in E. subst i. congruence.
        -- split; lia.
Qed.

Lemma fold_add_query_consistent (qs : list Query.t) (c : QueryCluster.t) :
  statistics_consistent c ->
  statistics_consistent (fold_left QueryCluster.add_query qs c).
Proof.
  revert c. induction qs as [|q r IH]; intros c Hc; simpl; [exact Hc |].
  apply IH. now apply add_query_consistent.
Qed.

Lemma create_query_cluster_consistent (e : Entity.t) :
  statistics_consistent (QueryMapper._create_query_cluster e).
Proof.
  unfold QueryMapper._create_query_cluster.
  apply fold_add_query_consistent, new_consistent.
Qed.

Lemma create_query_cluster_queries (e : Entity.t) :
  QueryCluster.queries (QueryMapper._create_query_cluster e)
  = QueryMapper.cluster_queries e.
Proof.
  unfold QueryMapper._create_query_cluster.
  set (c0 := QueryCluster.new _ _ _).
  assert (Hgen : forall qs c,
             QueryCluster.queries (fold_left QueryCluster.add_query qs c)
             = QueryCluster.queries c ++ qs).
  { induction qs as [|q r IH]; intros c; simpl.
    - now rewrite List.app_nil_r.
    - rewrite IH. simpl. now rewrite <- List.app_assoc. }
  rewrite Hgen. reflexivity.
Qed.

Lemma fold_add_cluster_Forall (P : QueryCluster.t -> Prop) (es : list Entity.t)
    (d : OrderedDict.t QueryCluster.t) :
  (forall e, P (QueryMapper._create_query_cluster e)) ->
  Forall P (OrderedDict.values d) ->
  Forall P (OrderedDict.values (fold_left QueryMapper.add_cluster es d)).
Proof.
  intros HP. revert d. induction es as [|e r IH]; intros d Hd; simpl; [exact Hd |].
  apply IH. unfold QueryMapper.add_cluster. now apply dict_values_set_Forall.
Qed.

Lemma map_all_entities_Forall (P : QueryCluster.t -> Prop) (o : Ontology.t) :
  (forall e, P (QueryMapper._create_query_cluster e)) ->
  Forall P (QueryMapper.map_all_entities o).
Proof.
  intros HP. unfold QueryMapper.map_all_entities, QueryMapper.map_all_entities_state.
  simpl. do 2 (apply fold_add_cluster_Forall; [exact HP |]). constructor.
Qed.

(** ** Substrings *)

Lemma prefix_length (p s : string) :
  String.prefix p s = true -> String.length p <= String.length s.
Proof.
  revert s. induction p as [|c p IH]; intros s; [simpl; lia |].
  destruct s as [|c' s]; simpl; [discriminate |].
  destruct (ascii_dec c c'); [| discriminate].
  intros Hp. apply IH in Hp. lia.
Qed.

Lemma prefix_same_length (p s : string) :
  String.prefix p s = true -> String.length s <= String.length p -> p = s.
Proof.
  revert s. induction p as [|c p IH]; intros s.
  - destruct s; simpl; [reflexivity | lia].
  - destruct s as [|c' s]; simpl; [discriminate |].
    destruct (ascii_dec c c') as [-> |]; [| discriminate].
    intros Hp Hl. f_equal. apply IH; [exact Hp | lia].
Qed.

Lemma contains_nil (p : string) : PyStr.contains p EmptyString = String.prefix p EmptyString.
Proof. unfold PyStr.contains. apply orb_false_r. Qed.

Lemma contains_cons (p : string) (c : ascii) (s : string) :
  PyStr.contains p (String c s) = String.prefix p (String c s) || PyStr.contains p s.
Proof. reflexivity. Qed.

Lemma contains_length (p s : string) :
  PyStr.contains p s = true -> String.length p <= String.length s.
Proof.
  induction s as [|c s IH].
  - rewrite contains_nil. apply prefix_length.
  - rewrite contains_cons. intros Hc. apply orb_true_iff in Hc. destruct Hc as [Hp | Hr].
    + apply prefix_length in Hp. exact Hp.
    + apply IH in Hr. simpl. lia.
Qed.

Lemma contains_same_length (p s : string) :
  PyStr.contains p s = true -> String.length s <= String.length p -> p = s.
Proof.
  destruct s as [|c s].
  - rewrite contains_nil. apply prefix_same_length.
  - rewrite contains_cons. intros Hc Hl. apply orb_true_iff in Hc. destruct Hc as [Hp | Hr].
    + now apply prefix_same_length.
    + apply contains_length in Hr. simpl in Hl. lia.
Qed.

Lemma contains_antisym (p s : string) :
  PyStr.contains p s = true -> PyStr.contains s p = true -> p = s.
Proof.
  intros H1 H2. apply contains_same_length; [exact H1 |].
  now apply contains_length.
Qed.

Lemma append_cons (c : ascii) (p v : string) : String c p +:+ v = String c (p +:+ v).
Proof. reflexivity. Qed.

Lemma append_nil (v : string) : EmptyString +:+ v = v.
Proof. reflexivity. Qed.

Lemma prefix_app (p s : string) :
  String.prefix p s = true <-> exists v, s = p +:+ v.
Proof.
  revert s. induction p as [|c p IH]; intros s.
  - destruct s; simpl; (split; [intros _; eexists; reflexivity | reflexivity]).
  - destruct s as [|c' s]; simpl.
    + split; [discriminate | intros [v Hv]; discriminate].
    + destruct (ascii_dec c c') as [-> | Hne].
      * rewrite IH. split; intros [v Hv]; exists v.
        -- now rewrite Hv.
        -- rewrite append_cons in Hv. now injection Hv.
      * split; [discriminate | intros [v Hv]; rewrite append_cons in Hv; congruence].
Qed.

(** [p in s] holds exactly when [s] is some [u], then [p], then some [v]. *)
Lemma contains_spec (p s : string) :
  PyStr.contains p s = true <-> exists u v, s = u +:+ p +:+ v.
Proof.
  induction s as [|c s IH].
  - rewrite contains_nil, prefix_app. split.
    + intros [v Hv]. now exists EmptyString, v.
    + intros [u [v Huv]]. destruct u; [now exists v | rewrite append_cons in Huv; discriminate].
  - rewrite contains_cons, orb_true_iff, IH, prefix_app. split.
    + intros [[v Hv] | [u [v Huv]]].
      * now exists EmptyString, v.
      * exists (String c u), v. rewrite append_cons. now rewrite Huv.
    + intros [u [v Huv]]. destruct u as [|c' u].
      * left. now exists v.
      * right. exists u, v. rewrite append_cons in Huv. congruence.
Qed.

(** ** The entity dictionary of the ontology builder *)

Lemma keyed_set (d : OrderedDict.t Entity.t) (k : string) (e : Entity.t) :
  Entity.id e = k -> keyed_by_id d -> keyed_by_id (OrderedDict.set k e d).
Proof.
  intros He. unfold keyed_by_id. induction d as [|[k' v'] r IH]; simpl; intros Hd.
  - constructor; [exact He | constructor].
  - inversion Hd as [|? ? Hkv Hr]; clear Hd; subst x l. destruct (String.eqb k k') eqn:E.
    + apply String.eqb_eq in E. subst k'. constructor; [exact He | exact Hr].
    + constructor; [exact Hkv | apply IH, Hr].
Qed.

Lemma keyed_find (d : OrderedDict.t Entity.t) (k : string) :
  keyed_by_id d ->
  List.find (fun e => String.eqb (Entity.id e) k) (OrderedDict.values d)
  = OrderedDict.get k d.
Proof.
  unfold keyed_by_id, OrderedDict.values.
  induction d as [|[k' v'] r IH]; simpl; intros Hd; [reflexivity |].
  inversion Hd as [|? ? Hkv Hr]; clear Hd; subst x l. simpl in Hkv. rewrite Hkv.
  rewrite (String.eqb_sym k' k). destruct (String.eqb k k'); [reflexivity | now apply IH].
Qed.

Lemma keyed_get (d : OrderedDict.t Entity.t) (k : string) (e : Entity.t) :
  keyed_by_id d -> OrderedDict.get k d = Some e -> Entity.id e = k.
Proof.
  unfold keyed_by_id. induction d as [|[k' v'] r IH]; simpl; intros Hd; [discriminate |].
  inversion Hd as [|? ? Hkv Hr]; clear Hd; subst x l. destruct (String.eqb k k') eqn:E.
  - apply String.eqb_eq in E. subst k'. intros [= <-]. exact Hkv.
  - now apply IH.
Qed.

Lemma add_named_keyed (ty : EntityType) (b : OntologyBuilder.t) (raw : string) :
  keyed_by_id (OntologyBuilder.entities b) ->
  keyed_by_id (OntologyBuilder.entities (OntologyBuilder.add_named ty b raw)).
Proof.
  intros Hb. unfold OntologyBuilder.add_named.
  destruct (PyStr.is_empty (PyStr.strip raw)); [exact Hb |].
  destruct (OrderedDict.has _ _); [exact Hb |].
  simpl. apply keyed_set; [| exact Hb]. destruct ty; reflexivity.
Qed.

Lemma fold_add_named_keyed (ty : EntityType) (l : list string) (b : OntologyBuilder.t) :
  keyed_by_id (OntologyBuilder.entities b) ->
  keyed_by_id (OntologyBuilder.entities (fold_left (OntologyBuilder.add_named ty) l b)).
Proof.
  revert b. induction l as [|x r IH]; intros b Hb; simpl; [exact Hb |].
  apply IH. now apply add_named_keyed.
Qed.

Lemma create_from_seeds_keyed (b : OntologyBuilder.t) :
  keyed_by_id (OntologyBuilder.entities b) ->
  keyed_by_id (OntologyBuilder.entities (OntologyBuilder._create_from_seeds b)).
Proof.
  intros Hb. unfold OntologyBuilder._create_from_seeds.
  now do 2 apply fold_add_named_keyed.
Qed.

Lemma add_sitemap_item_keyed (b : OntologyBuilder.t) (item : SitemapItem.t) :
  keyed_by_id (OntologyBuilder.entities b) ->
  keyed_by_id (OntologyBuilder.entities (OntologyBuilder.add_sitemap_item b item)).
Proof.
  intros Hb. unfold OntologyBuilder.add_sitemap_item.
  destruct (OrderedDict.get _ _) as [existing|] eqn:Hg; simpl.
  - apply keyed_set; [| exact Hb]. simpl. now apply (keyed_get _ _ _ Hb).
  - apply keyed_set; [reflexivity | exact Hb].
Qed.

Lemma extract_from_sitemap_keyed fetch (b : OntologyBuilder.t) :
  keyed_by_id (OntologyBuilder.entities b) ->
  keyed_by_id (OntologyBuilder.entities (OntologyBuilder._extract_from_sitemap fetch b)).
Proof.
  intros Hb. unfold OntologyBuilder._extract_from_sitemap.
  destruct (Config.sitemap_url _) as [url|]; [| exact Hb].
  destruct (PyStr.is_empty url); [exact Hb |].
  destruct (fetch url) as [extracted|]; [| exact Hb].
  generalize (firstn 50 extracted). intros l. revert b Hb.
  induction l as [|x r IH]; intros b Hb; simpl; [exact Hb |].
  apply IH. now apply add_sitemap_item_keyed.
Qed.

(** Creating entities touches neither the configuration nor the
    relationships. *)
Lemma add_named_frame (ty : EntityType) (l : list string) (b : OntologyBuilder.t) :
  OntologyBuilder.config (fold_left (OntologyBuilder.add_named ty) l b)
  = OntologyBuilder.config b
  /\ OntologyBuilder.relationships (fold_left (OntologyBuilder.add_named ty) l b)
     = OntologyBuilder.relationships b.
Proof.
  revert b. induction l as [|x r IH]; intros b; simpl; [split; reflexivity |].
  destruct (IH (OntologyBuilder.add_named ty b x)) as [-> ->].
  unfold OntologyBuilder.add_named.
  destruct (PyStr.is_empty _); [split; reflexivity |].
  destruct (OrderedDict.has _ _); split; reflexivity.
Qed.

Lemma create_from_seeds_frame (b : OntologyBuilder.t) :
  OntologyBuilder.config (OntologyBuilder._create_from_seeds b)
  = OntologyBuilder.config b
  /\ OntologyBuilder.relationships (OntologyBuilder._create_from_seeds b)
     = OntologyBuilder.relationships b.
Proof.
  unfold OntologyBuilder._create_from_seeds.
  destruct (add_named_frame COMPETITOR
              (Config.competitors
                 (OntologyBuilder.config
                    (fold_left (OntologyBuilder.add_named CORE)
                       (Config.seed_entities (OntologyBuilder.config b)) b)))
              (fold_left (OntologyBuilder.add_named CORE)
                 (Config.seed_entities (OntologyBuilder.config b)) b)) as [-> ->].
  apply add_named_frame.
Qed.

Lemma extract_from_sitemap_frame fetch (b : OntologyBuilder.t) :
  OntologyBuilder.config (OntologyBuilder._extract_from_sitemap fetch b)
  = OntologyBuilder.config b
  /\ OntologyBuilder.relationships (OntologyBuilder._extract_from_sitemap fetch b)
     = OntologyBuilder.relationships b.
Proof.
  unfold OntologyBuilder._extract_from_sitemap.
  destruct (Config.sitemap_url _) as [url|]; [| split; reflexivity].
  destruct (PyStr.is_empty url); [split; reflexivity |].
  destruct (fetch url) as [extracted|]; [| split; reflexivity].
  generalize (firstn 50 extracted). intros l. revert b.
  induction l as [|x r IH]; intros b; simpl; [split; reflexivity |].
  destruct (IH (OntologyBuilder.add_sitemap_item b x)) as [-> ->].
  unfold OntologyBuilder.add_sitemap_item.
  destruct (OrderedDict.get _ _); split; reflexivity.
Qed.

(** What [populate] leaves: no relationship yet, every entity under its
    identifier, and the brand entity as [_add_brand_entity] creates it. *)
Lemma populate_spec fetch (c : Config.t) :
  OntologyBuilder.config (OntologyBuilder.populate fetch c) = c
  /\ OntologyBuilder.relationships (OntologyBuilder.populate fetch c) = []
  /\ keyed_by_id (OntologyBuilder.entities (OntologyBuilder.populate fetch c))
  /\ exists e,
       OrderedDict.get (OntologyBuilder._generate_entity_id (Config.brand_name c))
         (OntologyBuilder.entities (OntologyBuilder.populate fetch c)) = Some e
       /\ Entity.type e = CORE
       /\ Entity.name e = Config.brand_name c
       /\ Entity.commercial_value e = 1%Q /\ Entity.semantic_centrality e = 1%Q.
Proof.
  unfold OntologyBuilder.populate.
  set (b1 := match Config.source_mode c with
             | SITEMAP => _ | SEED => _ | HYBRID => _ end).
  assert (H1 : OntologyBuilder.config b1 = c
               /\ OntologyBuilder.relationships b1 = []
               /\ keyed_by_id (OntologyBuilder.entities b1)).
  { subst b1. destruct (Config.source_mode c).
    - destruct (extract_from_sitemap_frame fetch (OntologyBuilder.init c)) as [-> ->].
      repeat split. apply extract_from_sitemap_keyed. constructor.
    - destruct (create_from_seeds_frame (OntologyBuilder.init c)) as [-> ->].
      repeat split. apply create_from_seeds_keyed. constructor.
    - destruct (truthy _).
      + destruct (extract_from_sitemap_frame fetch
                    (OntologyBuilder._create_from_seeds (OntologyBuilder.init c)))
          as [-> ->].
        destruct (create_from_seeds_frame (OntologyBuilder.init c)) as [-> ->].
        repeat split. apply extract_from_sitemap_keyed, create_from_seeds_keyed.
        constructor.
      + destruct (create_from_seeds_frame (OntologyBuilder.init c)) as [-> ->].
        repeat split. apply create_from_seeds_keyed. constructor. }
  destruct H1 as (Hc & Hr & Hk). clearbody b1.
  unfold OntologyBuilder._add_brand_entity. simpl. rewrite Hc, Hr.
  repeat split.
  - apply keyed_set; [reflexivity | exact Hk].
  - eexists. split; [apply dict_get_set_eq |]. simpl. repeat split; reflexivity.
Qed.

Lemma config_populate fetch (c : Config.t) :
  OntologyBuilder.config (OntologyBuilder.populate fetch c) = c.
Proof. apply populate_spec. Qed.

Lemma relationships_populate fetch (c : Config.t) :
  OntologyBuilder.relationships (OntologyBuilder.populate fetch c) = [].
Proof. apply populate_spec. Qed.

Lemma dict_get_map (f : string -> Entity.t -> Entity.t) (d : OrderedDict.t Entity.t)
    (k : string) :
  OrderedDict.get k (List.map (fun kv => (fst kv, f (fst kv) (snd kv))) d)
  = option_map (f k) (OrderedDict.get k d).
Proof.
  induction d as [|[k' v'] r IH]; simpl; [reflexivity |].
  destruct (String.eqb k k') eqn:E; [| exact IH].
  apply String.eqb_eq in E. now subst.
Qed.

Lemma keyed_map (f : string -> Entity.t -> Entity.t) (d : OrderedDict.t Entity.t) :
  (forall k e, Entity.id (f k e) = Entity.id e) ->
  keyed_by_id d ->
  keyed_by_id (List.map (fun kv => (fst kv, f (fst kv) (snd kv))) d).
Proof.
  intros Hf. unfold keyed_by_id. rewrite !List.Forall_forall. intros Hd kv Hin.
  apply List.in_map_iff in Hin. destruct Hin as [[k e] [<- Hin]]. simpl.
  rewrite Hf. apply (Hd _ Hin).
Qed.

(** The relationships and the entities of the built ontology, in terms of
    the entities [populate] leaves. *)
Lemma build_relationships `{SetIteration} fetch (c : Config.t) :
  Ontology.relationships (OntologyBuilder.build fetch c)
  = List.flat_map
      (OntologyBuilder.brand_edges (OntologyBuilder._generate_entity_id (Config.brand_name c)))
      (OrderedDict.values (OntologyBuilder.entities (OntologyBuilder.populate fetch c)))
    ++ OntologyBuilder.pair_edges
         (OrderedDict.values (OntologyBuilder.entities (OntologyBuilder.populate fetch c))).
Proof.
  unfold OntologyBuilder.build, OntologyBuilder._calculate_entity_scores,
    OntologyBuilder._infer_relationships, OntologyBuilder.with_entities,
    OntologyBuilder.with_relationships.
  cbn [Ontology.relationships OntologyBuilder.relationships OntologyBuilder.entities
       OntologyBuilder.config].
  now rewrite relationships_populate, config_populate.
Qed.

Lemma build_entities `{SetIteration} fetch (c : Config.t) :
  exists counts,
    Ontology.entities (OntologyBuilder.build fetch c)
    = List.map (fun kv => OntologyBuilder.score counts (fst kv) (snd kv))
        (OntologyBuilder.entities (OntologyBuilder.populate fetch c)).
Proof.
  unfold OntologyBuilder.build, OntologyBuilder._calculate_entity_scores,
    OntologyBuilder._infer_relationships, OntologyBuilder.with_entities,
    OntologyBuilder.with_relationships.
  cbn [Ontology.entities OntologyBuilder.relationships OntologyBuilder.entities
       OntologyBuilder.config].
  eexists. unfold OrderedDict.values. rewrite List.map_map. reflexivity.
Qed.

(** ** Relationship inference *)

Lemma omap_In {A B : Type} (f : A -> option B) (l : list A) (x : A) (y : B) :
  In x l -> f x = Some y -> In y (omap f l).
Proof.
  intros Hin Hf. induction l as [|z r IH]; simpl in *; [contradiction |].
  destruct Hin as [-> | Hin].
  - rewrite Hf. now left.
  - destruct (f z); [right |]; now apply IH.
Qed.

Lemma pair_edges_In `{SetIteration} (l1 l2 l3 : list Entity.t) (a b : Entity.t)
    (r : Relationship.t) :
  OntologyBuilder._detect_relationship a b = Some r ->
  In r (OntologyBuilder.pair_edges (l1 ++ a :: l2 ++ b :: l3)).
Proof.
  intros Hd. induction l1 as [|x l1 IH]; simpl.
  - apply List.in_or_app. left. apply (omap_In _ _ b); [| exact Hd].
    apply List.in_or_app. right. now left.
  - apply List.in_or_app. right. exact IH.
Qed.

Lemma In_two_split {A : Type} (l : list A) (a b : A) :
  In a l -> In b l -> a <> b ->
  (exists l1 l2 l3, l = l1 ++ a :: l2 ++ b :: l3)
  \/ (exists l1 l2 l3, l = l1 ++ b :: l2 ++ a :: l3).
Proof.
  intros Ha Hb Hne. apply List.in_split in Ha. destruct Ha as [l1 [l' ->]].
  apply List.in_app_or in Hb. destruct Hb as [Hb | [Hb | Hb]].
  - right. apply List.in_split in Hb. destruct Hb as [x [y ->]].
    exists x, y, l'. now rewrite <- List.app_assoc.
  - congruence.
  - left. apply List.in_split in Hb. destruct Hb as [x [y ->]]. now exists l1, x, y.
Qed.

(** The containment rule of [_detect_relationship], whichever entity comes
    first: the edge leaves the entity with the containing name. *)
Lemma detect_contained `{SetIteration} (a b : Entity.t) :
  PyStr.lower (Entity.name a) <> PyStr.lower (Entity.name b) ->
  PyStr.contains (PyStr.lower (Entity.name b)) (PyStr.lower (Entity.name a)) = true ->
  exists r1 r2,
    OntologyBuilder._detect_relationship a b = Some r1
    /\ OntologyBuilder._detect_relationship b a = Some r2
    /\ Relationship.source_id r1 = Entity.id a /\ Relationship.target_id r1 = Entity.id b
    /\ Relationship.relationship_type r1 = IS_A /\ Relationship.weight r1 = (7 # 10)%Q
    /\ Relationship.source_id r2 = Entity.id a /\ Relationship.target_id r2 = Entity.id b
    /\ Relationship.relationship_type r2 = IS_A /\ Relationship.weight r2 = (7 # 10)%Q.
Proof.
  intros Hne Hc. unfold OntologyBuilder._detect_relationship.
  assert (Hab : String.eqb (PyStr.lower (Entity.name a)) (PyStr.lower (Entity.name b)) = false)
    by now apply String.eqb_neq.
  assert (Hba : String.eqb (PyStr.lower (Entity.name b)) (PyStr.lower (Entity.name a)) = false)
    by (apply String.eqb_neq; congruence).
  assert (Hrev : PyStr.contains (PyStr.lower (Entity.name a)) (PyStr.lower (Entity.name b))
                 = false).
  { destruct (PyStr.contains (PyStr.lower (Entity.name a)) (PyStr.lower (Entity.name b)))
      eqn:E; [| reflexivity].
    exfalso. apply Hne. now apply contains_antisym. }
  rewrite Hc, Hrev, Hab, Hba. simpl.
  do 2 eexists. repeat split; reflexivity.
Qed.

Lemma score_id (counts : gmap string nat) (k : string) (e : Entity.t) :
  Entity.id (OntologyBuilder.score counts k e) = Entity.id e.
Proof. reflexivity. Qed.

Lemma score_name (counts : gmap string nat) (k : string) (e : Entity.t) :
  Entity.name (OntologyBuilder.score counts k e) = Entity.name e.
Proof. reflexivity. Qed.

(** ** Independence of the iteration order *)

Lemma detect_erase (S1 S2 : SetIteration) (a b : Entity.t) :
  option_map erase_shared_terms (@OntologyBuilder._detect_relationship S1 a b)
  = option_map erase_shared_terms (@OntologyBuilder._detect_relationship S2 a b).
Proof.
  unfold OntologyBuilder._detect_relationship.
  repeat match goal with |- context [if ?x then _ else _] => destruct x end;
    reflexivity.
Qed.

Lemma omap_detect_erase (S1 S2 : SetIteration) (a : Entity.t) (l : list Entity.t) :
  List.map erase_shared_terms (omap (@OntologyBuilder._detect_relationship S1 a) l)
  = List.map erase_shared_terms (omap (@OntologyBuilder._detect_relationship S2 a) l).
Proof.
  induction l as [|b r IH]; simpl; [reflexivity |].
  pose proof (detect_erase S1 S2 a b) as Hd.
  destruct (@OntologyBuilder._detect_relationship S1 a b),
           (@OntologyBuilder._detect_relationship S2 a b);
    simpl in *; try discriminate; [| exact IH].
  injection Hd as Hd. f_equal; [exact Hd | exact IH].
Qed.

Lemma pair_edges_erase (S1 S2 : SetIteration) (l : list Entity.t) :
  List.map erase_shared_terms (@OntologyBuilder.pair_edges S1 l)
  = List.map erase_shared_terms (@OntologyBuilder.pair_edges S2 l).
Proof.
  induction l as [|a r IH]; simpl; [reflexivity |].
  now rewrite !List.map_app, IH, (omap_detect_erase S1 S2).
Qed.

Lemma erase_endpoints (r : Relationship.t) :
  Relationship.source_id (erase_shared_terms r) = Relationship.source_id r
  /\ Relationship.target_id (erase_shared_terms r) = Relationship.target_id r.
Proof. unfold erase_shared_terms. destruct (Relationship.relationship_type r); split; reflexivity. Qed.

(** The counts of the scoring pass read the end points of the edges only. *)
Lemma relationship_counts_erase (l1 l2 : list Relationship.t) :
  List.map erase_shared_terms l1 = List.map erase_shared_terms l2 ->
  OntologyBuilder.relationship_counts l1 = OntologyBuilder.relationship_counts l2.
Proof.
  unfold OntologyBuilder.relationship_counts. generalize (∅ : gmap string nat).
  revert l2. induction l1 as [|r1 l1 IH]; intros [|r2 l2] m Heq; simpl in *;
    try discriminate; [reflexivity |].
  injection Heq as Hr Hl.
  destruct (erase_endpoints r1) as [Hs1 Ht1]. destruct (erase_endpoints r2) as [Hs2 Ht2].
  rewrite <- Hs1, <- Ht1, Hr, Hs2, Ht2. now apply IH.
Qed.

Lemma same_up_to_term_order_refl (r : Relationship.t) : same_up_to_term_order r r.
Proof. unfold same_up_to_term_order. tauto. Qed.

Lemma detect_same_up_to_term_order (S1 S2 : SetIteration) (a b : Entity.t) :
  option_Forall2 same_up_to_term_order
    (@OntologyBuilder._detect_relationship S1 a b)
    (@OntologyBuilder._detect_relationship S2 a b).
Proof.
  unfold OntologyBuilder._detect_relationship. cbv zeta.
  destruct (_ && _); [constructor; apply same_up_to_term_order_refl |].
  destruct (_ && _); [constructor; apply same_up_to_term_order_refl |].
  destruct (Nat.leb 1 _); constructor.
  unfold same_up_to_term_order. cbn [Relationship.source_id Relationship.target_id
    Relationship.relationship_type Relationship.weight Relationship.bidirectional
    Relationship.context].
  repeat (split; [reflexivity |]). right.
  exists (@set_iter S1 (OntologyBuilder.common_words (PyStr.lower (Entity.name a))
                          (PyStr.lower (Entity.name b)))),
    (@set_iter S2 (OntologyBuilder.common_words (PyStr.lower (Entity.name a))
                     (PyStr.lower (Entity.name b)))).
  split; [| split; reflexivity].
  etransitivity; [apply set_iter_perm | symmetry; apply set_iter_perm].
Qed.

Lemma omap_detect_same_up_to_term_order (S1 S2 : SetIteration) (a : Entity.t)
    (l : list Entity.t) :
  Forall2 same_up_to_term_order
    (omap (@OntologyBuilder._detect_relationship S1 a) l)
    (omap (@OntologyBuilder._detect_relationship S2 a) l).
Proof.
  induction l as [|b r IH]; cbn [omap list_omap]; [constructor |].
  destruct (detect_same_up_to_term_order S1 S2 a b) as [r1 r2 Hr |];
    [constructor; [exact Hr | exact IH] | exact IH].
Qed.

Lemma pair_edges_same_up_to_term_order (S1 S2 : SetIteration) (l : list Entity.t) :
  Forall2 same_up_to_term_order
    (@OntologyBuilder.pair_edges S1 l) (@OntologyBuilder.pair_edges S2 l).
Proof.
  induction l as [|a r IH]; cbn [OntologyBuilder.pair_edges]; [constructor |].
  apply Forall2_app; [apply omap_detect_same_up_to_term_order | exact IH].
Qed.

Lemma Forall2_same_up_to_term_order_refl (l : list Relationship.t) :
  Forall2 same_up_to_term_order l l.
Proof.
  induction l as [|r l IH]; constructor; [apply same_up_to_term_order_refl | exact IH].
Qed.

(** ** Alias expansion *)

Lemma expand_entity_spec `{SetIteration} (e : Entity.t) :
  expansion_of e (EntitySearchExpander._expand_entity e).
Proof.
  unfold expansion_of, EntitySearchExpander._expand_entity. simpl.
  split; [reflexivity |]. split; [reflexivity |]. split.
  - apply set_iter_NoDup, List.NoDup_filter, dedupe_NoDup.
  - intros a. rewrite set_iter_In, List.filter_In, dedupe_In, List.in_app_iff. tauto.
Qed.

Lemma candidates_name (e e' : Entity.t) :
  Entity.name e' = Entity.name e ->
  EntitySearchExpander.candidates e' = EntitySearchExpander.candidates e.
Proof. intros Hn. unfold EntitySearchExpander.candidates. now rewrite Hn. Qed.

Lemma keep_name (e e' : Entity.t) (a : string) :
  Entity.name e' = Entity.name e ->
  EntitySearchExpander.keep e' a = EntitySearchExpander.keep e a.
Proof. intros Hn. unfold EntitySearchExpander.keep. now rewrite Hn. Qed.

Lemma expand_entity_twice `{SetIteration} (e : Entity.t) :
  same_alias_set
    (EntitySearchExpander._expand_entity (EntitySearchExpander._expand_entity e))
    (EntitySearchExpander._expand_entity e).
Proof.
  destruct (expand_entity_spec e) as (_ & Hn & _ & H1).
  destruct (expand_entity_spec (EntitySearchExpander._expand_entity e)) as (_ & _ & _ & H2).
  intros a. rewrite H2, (candidates_name _ _ Hn), (keep_name _ _ a Hn), H1. tauto.
Qed.

(** ** Counting in dictionaries; the sort *)

Lemma count_set {V : Type} (p : V -> bool) (d : OrderedDict.t V) (k : string) (v : V) :
  count p (OrderedDict.values (OrderedDict.set k v d))
  <= count p (OrderedDict.values d) + (if p v then 1 else 0).
Proof.
  unfold count, OrderedDict.values. induction d as [|[k' v'] r IH]; simpl.
  - destruct (p v); simpl; lia.
  - destruct (String.eqb k k'); simpl.
    + destruct (p v), (p v'); simpl; lia.
    + destruct (p v'); simpl; lia.
Qed.

Lemma count_cons {A : Type} (p : A -> bool) (x : A) (l : list A) :
  count p (x :: l) = (if p x then 1 else 0) + count p l.
Proof. unfold count. simpl. destruct (p x); reflexivity. Qed.

Lemma count_map {A : Type} (p : A -> bool) (f : A -> A) (l : list A) :
  (forall x, p (f x) = p x) -> count p (List.map f l) = count p l.
Proof.
  intros Hf. unfold count. induction l as [|x r IH]; simpl; [reflexivity |].
  rewrite Hf. destruct (p x); simpl; now rewrite IH.
Qed.

Lemma count_zero_find {A : Type} (p : A -> bool) (l : list A) :
  List.find p l = None -> count p l = 0.
Proof.
  unfold count. induction l as [|x r IH]; simpl; [reflexivity |].
  destruct (p x); [discriminate | exact IH].
Qed.

Section SortFacts.
Context {A : Type} (key : A -> Q).

Lemma insert_desc_perm (x : A) (l : list A) :
  Permutation (insert_desc key x l) (x :: l).
Proof.
  induction l as [|y r IH]; simpl; [reflexivity |].
  destruct (Qle_bool (key y) (key x)); [reflexivity |].
  rewrite IH. apply perm_swap.
Qed.

Lemma sort_desc_perm (l : list A) : Permutation (sort_desc key l) l.
Proof.
  induction l as [|x r IH]; simpl; [reflexivity |].
  rewrite insert_desc_perm. now constructor.
Qed.
End SortFacts.

Lemma NoDup_map_filter {A B : Type} (f : A -> B) (p : A -> bool) (l : list A) :
  List.NoDup (List.map f l) -> List.NoDup (List.map f (List.filter p l)).
Proof.
  induction l as [|x r IH]; simpl; intros Hnd; [constructor |].
  inversion Hnd as [|? ? Hx Hr]; subst. destruct (p x); simpl; [| now apply IH].
  constructor; [| now apply IH].
  intros Hin. apply Hx. apply List.in_map_iff in Hin. destruct Hin as [y [Hy Hin]].
  apply List.filter_In in Hin. apply List.in_map_iff. exists y. tauto.
Qed.

Lemma firstn_In {A : Type} (n : nat) (l : list A) (x : A) :
  In x (firstn n l) -> In x l.
Proof.
  revert l. induction n as [|n IH]; intros [|y r]; simpl; try tauto.
  intros [-> | Hin]; [now left | right; now apply IH].
Qed.

Lemma NoDup_map_firstn {A B : Type} (f : A -> B) (n : nat) (l : list A) :
  List.NoDup (List.map f l) -> List.NoDup (List.map f (firstn n l)).
Proof.
  revert l. induction n as [|n IH]; intros [|x r]; simpl; intros Hnd; try constructor.
  - inversion Hnd as [|? ? Hx Hr]; subst. intros Hin. apply Hx.
    apply List.in_map_iff in Hin. destruct Hin as [y [Hy Hin]].
    apply List.in_map_iff. exists y. split; [exact Hy |].
    eapply firstn_In. exact Hin.
  - inversion Hnd; subst. now apply IH.
Qed.

Lemma top_core_entities_NoDup (o : Ontology.t) :
  List.NoDup (List.map Entity.id (Ontology.entities o)) ->
  List.NoDup (List.map Entity.id (TaxonomyBuilder.top_core_entities o)).
Proof.
  intros Hnd. unfold TaxonomyBuilder.top_core_entities.
  apply NoDup_map_firstn.
  eapply Permutation_NoDup.
  - apply Permutation_map, Permutation_sym, sort_desc_perm.
  - now apply NoDup_map_filter.
Qed.

Lemma top_core_entities_length (o : Ontology.t) :
  List.length (TaxonomyBuilder.top_core_entities o) <= 15.
Proof. unfold TaxonomyBuilder.top_core_entities. apply List.firstn_le_length. Qed.

Lemma count_id_NoDup (l : list Entity.t) (entity_id : string) :
  List.NoDup (List.map Entity.id l) ->
  count (fun e => String.eqb entity_id (Entity.id e)) l <= 1.
Proof.
  unfold count. induction l as [|e r IH]; simpl; intros Hnd; [lia |].
  inversion Hnd as [|? ? Hx Hr]; subst.
  destruct (String.eqb entity_id (Entity.id e)) eqn:E; [| now apply IH].
  apply String.eqb_eq in E. subst entity_id. simpl.
  assert (Hz : List.filter (fun e0 => String.eqb (Entity.id e) (Entity.id e0)) r = []).
  { destruct (List.filter _ r) as [|y ys] eqn:Hf; [reflexivity | exfalso].
    assert (Hy : In y (List.filter (fun e0 => String.eqb (Entity.id e) (Entity.id e0)) r))
      by (rewrite Hf; now left).
    apply List.filter_In in Hy. destruct Hy as [Hy Heq]. apply String.eqb_eq in Heq.
    apply Hx. rewrite Heq. now apply List.in_map. }
  rewrite Hz. simpl. lia.
Qed.

(** ** The node dictionary of the taxonomy builder *)

Lemma owns_singleton (entity_id x : string) (n : TaxonomyNode.t) :
  TaxonomyNode.entity_ids n = [x] -> owns entity_id n = String.eqb entity_id x.
Proof. intros Hn. unfold owns. rewrite Hn. simpl. apply orb_false_r. Qed.

(** After the categories: an entity identifier is owned at most as often as
    it occurs among the entities turned into categories. *)
Lemma categories_owner_count (root_id entity_id : string) (es : list Entity.t)
    (d : OrderedDict.t TaxonomyNode.t) :
  count (owns entity_id)
    (OrderedDict.values
       (fold_left (fun d e => TaxonomyBuilder.add_node d (TaxonomyBuilder.category_node root_id e))
          es d))
  <= count (owns entity_id) (OrderedDict.values d)
     + count (fun e => String.eqb entity_id (Entity.id e)) es.
Proof.
  revert d. induction es as [|e r IH]; intros d.
  - simpl. lia.
  - rewrite count_cons. cbn [fold_left].
    etransitivity; [apply IH |].
    unfold TaxonomyBuilder.add_node.
    pose proof (count_set (owns entity_id) d
                  (TaxonomyNode.id (TaxonomyBuilder.category_node root_id e))
                  (TaxonomyBuilder.category_node root_id e)) as Hs.
    rewrite (owns_singleton entity_id (Entity.id e)) in Hs by reflexivity.
    lia.
Qed.

Lemma categories_level_1_count (root_id : string) (es : list Entity.t)
    (d : OrderedDict.t TaxonomyNode.t) :
  count is_level_1
    (OrderedDict.values
       (fold_left (fun d e => TaxonomyBuilder.add_node d (TaxonomyBuilder.category_node root_id e))
          es d))
  <= count is_level_1 (OrderedDict.values d) + List.length es.
Proof.
  revert d. induction es as [|e r IH]; intros d; cbn [fold_left List.length]; [lia |].
  etransitivity; [apply IH |].
  unfold TaxonomyBuilder.add_node.
  pose proof (count_set is_level_1 d
                (TaxonomyNode.id (TaxonomyBuilder.category_node root_id e))
                (TaxonomyBuilder.category_node root_id e)) as Hs.
  change (is_level_1 (TaxonomyBuilder.category_node root_id e)) with true in Hs.
  cbn iota in Hs. lia.
Qed.

Lemma add_subcategory_single (cat_node : TaxonomyNode.t)
    (d : OrderedDict.t TaxonomyNode.t) (rel : Entity.t * Relationship.t) :
  single_assignment (OrderedDict.values d) ->
  single_assignment (OrderedDict.values (TaxonomyBuilder.add_subcategory cat_node d rel)).
Proof.
  intros Hd. unfold TaxonomyBuilder.add_subcategory.
  destruct (TaxonomyBuilder.is_competitor (fst rel)); [exact Hd |].
  destruct (TaxonomyBuilder._find_node_for_entity d (Entity.id (fst rel))) eqn:Hf;
    [exact Hd |].
  intros entity_id. unfold TaxonomyBuilder.add_node.
  pose proof (count_set (owns entity_id) d
                (TaxonomyNode.id (TaxonomyBuilder.subcategory_node cat_node (fst rel)))
                (TaxonomyBuilder.subcategory_node cat_node (fst rel))) as Hs.
  rewrite (owns_singleton entity_id (Entity.id (fst rel))) in Hs by reflexivity.
  destruct (String.eqb entity_id (Entity.id (fst rel))) eqn:E.
  - apply String.eqb_eq in E. subst entity_id.
    apply count_zero_find in Hf. fold (owns (Entity.id (fst rel))) in Hf.
    lia.
  - specialize (Hd entity_id). lia.
Qed.

Lemma add_subcategory_level_1 (cat_node : TaxonomyNode.t)
    (d : OrderedDict.t TaxonomyNode.t) (rel : Entity.t * Relationship.t) :
  count is_level_1 (OrderedDict.values (TaxonomyBuilder.add_subcategory cat_node d rel))
  <= count is_level_1 (OrderedDict.values d).
Proof.
  unfold TaxonomyBuilder.add_subcategory.
  destruct (TaxonomyBuilder.is_competitor (fst rel)); [lia |].
  destruct (TaxonomyBuilder._find_node_for_entity d (Entity.id (fst rel))); [lia |].
  unfold TaxonomyBuilder.add_node.
  pose proof (count_set is_level_1 d
                (TaxonomyNode.id (TaxonomyBuilder.subcategory_node cat_node (fst rel)))
                (TaxonomyBuilder.subcategory_node cat_node (fst rel))) as Hs.
  change (is_level_1 (TaxonomyBuilder.subcategory_node cat_node (fst rel))) with false in Hs.
  cbn iota in Hs. lia.
Qed.

(** An invariant that every [add_subcategory] keeps is kept by the whole of
    [_create_subcategory_nodes]. *)
Lemma subcategories_invariant (P : OrderedDict.t TaxonomyNode.t -> Prop)
    (o : Ontology.t) (cats : list TaxonomyNode.t) (d : OrderedDict.t TaxonomyNode.t) :
  (forall cat_node d rel, P d -> P (TaxonomyBuilder.add_subcategory cat_node d rel)) ->
  P d -> P (fold_left (TaxonomyBuilder.add_subcategories o) cats d).
Proof.
  intros Hstep. revert d. induction cats as [|cat r IH]; intros d Hd; simpl; [exact Hd |].
  apply IH. unfold TaxonomyBuilder.add_subcategories.
  destruct (TaxonomyNode.entity_ids cat) as [|primary_entity_id ?]; [exact Hd |].
  generalize (firstn 5 (Ontology.get_related_entities o primary_entity_id)).
  intros rels. revert d Hd. induction rels as [|rel rels IHr]; intros d Hd; simpl;
    [exact Hd |].
  apply IHr. now apply Hstep.
Qed.

Lemma nodes_generate_facets (b : TaxonomyBuilder.t) :
  TaxonomyBuilder.nodes (TaxonomyBuilder._generate_facets b)
  = OrderedDict.map_values TaxonomyBuilder.node_facets (TaxonomyBuilder.nodes b).
Proof. reflexivity. Qed.

Lemma nodes_map_internal_links (b : TaxonomyBuilder.t) :
  TaxonomyBuilder.nodes (TaxonomyBuilder._map_internal_links b)
  = OrderedDict.map_values
      (fun node =>
         TaxonomyNode.set_internal_links_to
           (firstn 10
              (PyStr.dedupe
                 (TaxonomyBuilder.node_links (TaxonomyBuilder.ontology b)
                    (TaxonomyBuilder.nodes b) node)))
           node)
      (TaxonomyBuilder.nodes b).
Proof. reflexivity. Qed.

Lemma nodes_generate_seo_metadata (b : TaxonomyBuilder.t) :
  TaxonomyBuilder.nodes (TaxonomyBuilder._generate_seo_metadata b)
  = OrderedDict.map_values (TaxonomyBuilder.node_seo b) (TaxonomyBuilder.nodes b).
Proof. reflexivity. Qed.

(** The nodes of the taxonomy are the nodes left by the first three steps
    of [build], each with its facets, links and SEO texts filled in. *)
Lemma build_nodes `{SetIteration} (o : Ontology.t) (niche : string) :
  exists f : TaxonomyNode.t -> TaxonomyNode.t,
    (forall n, skeleton (f n) = skeleton n)
    /\ (forall n, List.length (TaxonomyNode.internal_links_to (f n)) <= 10)
    /\ Taxonomy.nodes (TaxonomyBuilder.build o niche)
       = List.map f
           (OrderedDict.values
              (TaxonomyBuilder.nodes
                 (TaxonomyBuilder._create_subcategory_nodes
                    (TaxonomyBuilder._create_category_nodes
                       (TaxonomyBuilder._create_root_node (TaxonomyBuilder.init o niche)))))).
Proof.
  unfold TaxonomyBuilder.build. cbn [Taxonomy.nodes].
  rewrite nodes_generate_seo_metadata, dict_values_map_values.
  rewrite nodes_map_internal_links, dict_values_map_values.
  rewrite nodes_generate_facets, dict_values_map_values.
  rewrite !List.map_map.
  eexists. split; [| split]; [| | reflexivity].
  - intros [i nm p es lv fc st sd tu il]. unfold skeleton, TaxonomyBuilder.node_facets.
    destruct lv as [|[|k]]; reflexivity.
  - intros n. simpl. apply List.firstn_le_length.
Qed.

Lemma skeleton_owns (f : TaxonomyNode.t -> TaxonomyNode.t) (entity_id : string) :
  (forall n, skeleton (f n) = skeleton n) ->
  forall n, owns entity_id (f n) = owns entity_id n.
Proof.
  intros Hf n. specialize (Hf n). unfold skeleton in Hf. unfold owns. congruence.
Qed.

Lemma skeleton_level_1 (f : TaxonomyNode.t -> TaxonomyNode.t) :
  (forall n, skeleton (f n) = skeleton n) ->
  forall n, is_level_1 (f n) = is_level_1 n.
Proof.
  intros Hf n. specialize (Hf n). unfold skeleton in Hf. unfold is_level_1. congruence.
Qed.

(** The first key of the dictionary is the key of the root node. *)
Lemma root_key (o : Ontology.t) (niche : string) :
  List.hd EmptyString
    (OrderedDict.keys
       (TaxonomyBuilder.nodes (TaxonomyBuilder._create_root_node (TaxonomyBuilder.init o niche))))
  = TaxonomyBuilder._generate_node_id niche.
Proof. reflexivity. Qed.

Lemma tree_single_assignment (o : Ontology.t) (niche : string) :
  List.NoDup (List.map Entity.id (Ontology.entities o)) ->
  single_assignment
    (OrderedDict.values
       (TaxonomyBuilder.nodes
          (TaxonomyBuilder._create_subcategory_nodes
             (TaxonomyBuilder._create_category_nodes
                (TaxonomyBuilder._create_root_node (TaxonomyBuilder.init o niche)))))).
Proof.
  intros Hnd. unfold TaxonomyBuilder._create_subcategory_nodes, TaxonomyBuilder.with_nodes.
  cbn [TaxonomyBuilder.nodes].
  apply (subcategories_invariant (fun d => single_assignment (OrderedDict.values d))).
  - intros. now apply add_subcategory_single.
  - unfold TaxonomyBuilder._create_category_nodes, TaxonomyBuilder.with_nodes.
    cbn [TaxonomyBuilder.nodes TaxonomyBuilder.ontology].
    intros entity_id. etransitivity; [apply categories_owner_count |].
    pose proof (count_id_NoDup _ entity_id (top_core_entities_NoDup o Hnd)) as Hc.
    cbn [TaxonomyBuilder._create_root_node TaxonomyBuilder.with_nodes TaxonomyBuilder.init
         TaxonomyBuilder.nodes TaxonomyBuilder.ontology OrderedDict.set OrderedDict.values
         List.map snd] in *.
    rewrite count_cons. cbn. lia.
Qed.

Lemma tree_level_1_count (o : Ontology.t) (niche : string) :
  count is_level_1
    (OrderedDict.values
       (TaxonomyBuilder.nodes
          (TaxonomyBuilder._create_subcategory_nodes
             (TaxonomyBuilder._create_category_nodes
                (TaxonomyBuilder._create_root_node (TaxonomyBuilder.init o niche))))))
  <= 15.
Proof.
  unfold TaxonomyBuilder._create_subcategory_nodes, TaxonomyBuilder.with_nodes.
  cbn [TaxonomyBuilder.nodes].
  apply (subcategories_invariant
           (fun d => count is_level_1 (OrderedDict.values d) <= 15)).
  - intros cat_node d rel Hd. etransitivity; [apply add_subcategory_level_1 | exact Hd].
  - unfold TaxonomyBuilder._create_category_nodes, TaxonomyBuilder.with_nodes.
    cbn [TaxonomyBuilder.nodes TaxonomyBuilder.ontology].
    etransitivity; [apply categories_level_1_count |].
    pose proof (top_core_entities_length o) as Hl.
    cbn [TaxonomyBuilder._create_root_node TaxonomyBuilder.with_nodes TaxonomyBuilder.init
         TaxonomyBuilder.nodes TaxonomyBuilder.ontology OrderedDict.set OrderedDict.values
         List.map snd] in *.
    rewrite count_cons. cbn. lia.
Qed.

(** ** Hubs *)

Lemma extend_pillar_nil (h : ContentHub.t) : extend_pillar [] h = h.
Proof.
  destruct h as [i n pe [p|] cs ss c v]; unfold extend_pillar; simpl; [| reflexivity].
  destruct p. unfold HubPage.set_links. simpl. now rewrite List.app_nil_r.
Qed.

Lemma extend_pillar_app (e1 e2 : list string) (h : ContentHub.t) :
  extend_pillar e2 (extend_pillar e1 h) = extend_pillar (e1 ++ e2) h.
Proof.
  destruct h as [i n pe [p|] cs ss c v]; unfold extend_pillar; simpl; [| reflexivity].
  unfold ContentHub.set_pillar_page, ContentHub.set_pages, HubPage.set_links. simpl.
  now rewrite List.app_assoc.
Qed.

Lemma hub_extended_refl (ids : list string) (h : ContentHub.t) : hub_extended ids h h.
Proof. exists []. split; [constructor | symmetry; apply extend_pillar_nil]. Qed.

Lemma hub_extended_trans (ids : list string) (h1 h2 h3 : ContentHub.t) :
  hub_extended ids h1 h2 -> hub_extended ids h2 h3 -> hub_extended ids h1 h3.
Proof.
  intros (e1 & H1 & ->) (e2 & H2 & ->). exists (e1 ++ e2). split.
  - apply List.Forall_app. now split.
  - apply extend_pillar_app.
Qed.

Lemma pillar_ids_In (hs : list ContentHub.t) (h : ContentHub.t) (p : HubPage.t) :
  In h hs -> ContentHub.pillar_page h = Some p -> In (HubPage.id p) (pillar_ids hs).
Proof.
  intros Hin Hp. unfold pillar_ids. apply List.in_flat_map. exists h.
  split; [exact Hin |]. rewrite Hp. now left.
Qed.

Lemma link_to_related_extended (hs : list ContentHub.t) (hub : ContentHub.t)
    (rel : Entity.t * Relationship.t) :
  hub_extended (pillar_ids hs) hub (HubDesigner.link_to_related hs hub rel).
Proof.
  unfold HubDesigner.link_to_related.
  destruct (List.find _ hs) as [other_hub|] eqn:Hf; [| apply hub_extended_refl].
  destruct (ContentHub.pillar_page hub) as [pillar|] eqn:Hp; [| apply hub_extended_refl].
  destruct (ContentHub.pillar_page other_hub) as [other_pillar|] eqn:Ho;
    [| apply hub_extended_refl].
  destruct (PyStr.mem _ _); [apply hub_extended_refl |].
  exists [HubPage.id other_pillar]. split.
  - constructor; [| constructor]. apply List.find_some in Hf.
    eapply pillar_ids_In; [apply Hf | exact Ho].
  - unfold extend_pillar. now rewrite Hp.
Qed.

Lemma extend_pillar_pillar_ids (ids : list string) (hs0 hs : list ContentHub.t) :
  Forall2 (hub_extended ids) hs0 hs -> pillar_ids hs = pillar_ids hs0.
Proof.
  induction 1 as [|h0 h l0 l Hh Hl IH]; [reflexivity |].
  unfold pillar_ids in *. simpl. rewrite IH. f_equal.
  destruct Hh as (extra & _ & ->). unfold extend_pillar. simpl.
  now destruct (ContentHub.pillar_page h0).
Qed.

Lemma link_hub_extended (o : Ontology.t) (hs0 hs : list ContentHub.t) (i : nat) :
  Forall2 (hub_extended (pillar_ids hs0)) hs0 hs ->
  Forall2 (hub_extended (pillar_ids hs0)) hs0 (HubDesigner.link_hub o hs i).
Proof.
  intros Hinv. unfold HubDesigner.link_hub.
  destruct (hs !! i) as [hub|]; [| exact Hinv].
  destruct (Ontology.get_entity o _) as [entity|]; [| exact Hinv].
  generalize (Ontology.get_related_entities o (Entity.id entity)). intros rels.
  revert hs Hinv. induction rels as [|rel rels IH]; intros hs Hinv; simpl; [exact Hinv |].
  apply IH. destruct (hs !! i) as [hub'|] eqn:Hi; [| exact Hinv].
  destruct (Forall2_lookup_r _ _ _ i hub' Hinv Hi) as (h0 & H0 & Hext).
  assert (Hstep : hub_extended (pillar_ids hs0) h0 (HubDesigner.link_to_related hs hub' rel)).
  { eapply hub_extended_trans; [exact Hext |].
    rewrite <- (extend_pillar_pillar_ids _ _ _ Hinv). apply link_to_related_extended. }
  pose proof (Forall2_insert _ hs0 hs h0 _ i Hinv Hstep) as Hins.
  rewrite (list_insert_id hs0 i h0 H0) in Hins. exact Hins.
Qed.

Lemma fold_link_hub_extended (o : Ontology.t) (hs0 : list ContentHub.t) (idx : list nat)
    (hs : list ContentHub.t) :
  Forall2 (hub_extended (pillar_ids hs0)) hs0 hs ->
  Forall2 (hub_extended (pillar_ids hs0)) hs0 (fold_left (HubDesigner.link_hub o) idx hs).
Proof.
  revert hs. induction idx as [|i idx IH]; intros hs Hinv; simpl; [exact Hinv |].
  apply IH. now apply link_hub_extended.
Qed.

Lemma Forall2_hub_extended_refl (ids : list string) (hs : list ContentHub.t) :
  Forall2 (hub_extended ids) hs hs.
Proof. induction hs; constructor; [apply hub_extended_refl | assumption]. Qed.

Lemma map_hub_links_extended (d : HubDesigner.t) :
  Forall2 (hub_extended (pillar_ids (HubDesigner.hubs d))) (HubDesigner.hubs d)
    (HubDesigner.hubs (HubDesigner._map_hub_links d)).
Proof.
  unfold HubDesigner._map_hub_links, HubDesigner.with_hubs. cbn [HubDesigner.hubs].
  apply fold_link_hub_extended, Forall2_hub_extended_refl.
Qed.

Lemma Forall2_map_r {A B C : Type} (R : A -> C -> Prop) (g : B -> C)
    (l : list A) (l' : list B) :
  Forall2 (fun a b => R a (g b)) l l' -> Forall2 R l (List.map g l').
Proof. induction 1; simpl; constructor; assumption. Qed.

Lemma Forall2_with_left {A B : Type} (P : A -> Prop) (R : A -> B -> Prop)
    (l : list A) (l' : list B) :
  Forall P l -> Forall2 R l l' -> Forall2 (fun a b => P a /\ R a b) l l'.
Proof.
  intros HP HR. induction HR; constructor.
  - inversion HP; subst. now split.
  - inversion HP; subst. auto.
Qed.

Lemma Forall2_right_Forall {A B : Type} (Q : B -> Prop) (R : A -> B -> Prop)
    (l : list A) (l' : list B) :
  (forall a b, R a b -> Q b) -> Forall2 R l l' -> Forall Q l'.
Proof. intros HQ HR. induction HR; constructor; eauto. Qed.

(** The hubs [design_all_hubs] returns, in terms of the designed hubs. *)
Lemma design_all_hubs_finished (o : Ontology.t) (tx : Taxonomy.t)
    (qcs : list QueryCluster.t) :
  Forall2
    (fun h0 h =>
       exists extra,
         Forall (fun x => In x (pillar_ids (HubDesigner.hubs (designed o tx qcs)))) extra
         /\ h = finished (designed o tx qcs) extra h0)
    (HubDesigner.hubs (designed o tx qcs))
    (HubDesigner.design_all_hubs o tx qcs).
Proof.
  unfold HubDesigner.design_all_hubs. fold (designed o tx qcs).
  unfold HubDesigner.score_hubs, HubDesigner.with_hubs. cbn [HubDesigner.hubs].
  apply Forall2_map_r.
  eapply List.Forall2_impl; [| apply map_hub_links_extended].
  intros h0 h1 (extra & Hex & ->). exists extra. split; [exact Hex | reflexivity].
Qed.

(** What [_design_hub] builds. *)
Lemma design_hub_spec (d : HubDesigner.t) (e : Entity.t) (nid : string) :
  let h0 := HubDesigner._design_hub d e nid in
  ContentHub.primary_entity_id h0 = Entity.id e
  /\ (exists p, ContentHub.pillar_page h0 = Some p /\ HubPage.page_type p = "pillar")
  /\ List.length (ContentHub.cluster_pages h0) <= 10
  /\ ContentHub.internal_link_count h0 = ContentHub.link_count h0
  /\ (Ontology.get_related_entities (HubDesigner.ontology d) (Entity.id e) = [] ->
      ContentHub.supporting_pages h0 = []).
Proof.
  unfold HubDesigner._design_hub. cbn zeta.
  unfold HubDesigner._map_internal_links, ContentHub.calculate_link_count,
    ContentHub.set_pages.
  cbn [ContentHub.pillar_page ContentHub.cluster_pages ContentHub.supporting_pages
       ContentHub.primary_entity_id ContentHub.internal_link_count ContentHub.id
       ContentHub.name ContentHub.coverage_score].
  split; [reflexivity |]. split; [| split; [| split; [reflexivity |]]].
  - eexists. split; [reflexivity |].
    unfold HubDesigner.link_page, HubDesigner._create_pillar_page.
    cbn [HubPage.id]. rewrite String.eqb_refl. reflexivity.
  - rewrite List.length_map.
    destruct (OrderedDict.get _ _); [apply List.firstn_le_length | simpl; lia].
  - intros Hrel. unfold HubDesigner._create_supporting_pages. rewrite Hrel. reflexivity.
Qed.

Lemma designed_hubs (o : Ontology.t) (tx : Taxonomy.t) (qcs : list QueryCluster.t) :
  Forall
    (fun h0 => exists e nid, h0 = HubDesigner._design_hub (HubDesigner.init o tx qcs) e nid)
    (HubDesigner.hubs (designed o tx qcs)).
Proof.
  unfold designed, HubDesigner.design_hubs, HubDesigner.with_hubs.
  cbn [HubDesigner.hubs HubDesigner.init List.app].
  apply List.Forall_forall. intros h0 Hin.
  apply List.in_flat_map in Hin. destruct Hin as (node & _ & Hin).
  unfold HubDesigner.hub_of_node in Hin.
  destruct (negb _); [contradiction |].
  destruct (TaxonomyNode.entity_ids node) as [|x xs]; [contradiction |].
  destruct (Ontology.get_entity _ x) as [e|]; [| contradiction].
  destruct Hin as [<- | []]. now exists e, (TaxonomyNode.id node).
Qed.

Lemma fold_left_add_shift {A : Type} (f : A -> nat) (l : list A) (a b : nat) :
  fold_left (fun c x => c + f x) l (a + b) = fold_left (fun c x => c + f x) l a + b.
Proof.
  revert a. induction l as [|x r IH]; intros a; simpl; [reflexivity |].
  replace (a + b + f x) with (a + f x + b) by lia. apply IH.
Qed.

Lemma link_count_extend_pillar (extra : list string) (h : ContentHub.t) (p : HubPage.t) :
  ContentHub.pillar_page h = Some p ->
  ContentHub.link_count (extend_pillar extra h)
  = ContentHub.link_count h + List.length extra.
Proof.
  intros Hp. unfold ContentHub.link_count, ContentHub.all_pages, extend_pillar.
  cbn [ContentHub.set_pillar_page ContentHub.set_pages ContentHub.pillar_page
       ContentHub.cluster_pages ContentHub.supporting_pages].
  rewrite Hp. cbn [option_map List.app fold_left HubPage.set_links HubPage.internal_links_to].
  rewrite List.length_app.
  replace (0 + (List.length (HubPage.internal_links_to p) + List.length extra))
    with (0 + List.length (HubPage.internal_links_to p) + List.length extra) by lia.
  apply fold_left_add_shift.
Qed.

Lemma query_map_get_None (k : string) (qcs : list QueryCluster.t)
    (d : OrderedDict.t QueryCluster.t) :
  OrderedDict.get k
    (fold_left (fun d qc => OrderedDict.set (QueryCluster.primary_entity_id qc) qc d) qcs d)
  = None
  <-> OrderedDict.get k d = None
      /\ forall qc, In qc qcs -> QueryCluster.primary_entity_id qc <> k.
Proof.
  revert d. induction qcs as [|qc r IH]; intros d; simpl.
  - split; [intros Hd; split; [exact Hd | tauto] | tauto].
  - rewrite IH. destruct (String.string_dec (QueryCluster.primary_entity_id qc) k) as [<- | Hne].
    + rewrite dict_get_set_eq. split; [intros [Hd _]; discriminate |].
      intros [_ Hall]. exfalso. now apply (Hall qc); [left |].
    + rewrite dict_get_set_ne by exact Hne. split.
      * intros [Hd Hall]. split; [exact Hd |]. intros qc' [<- | Hin]; [exact Hne | now apply Hall].
      * intros [Hd Hall]. split; [exact Hd |]. intros qc' Hin. apply Hall. now right.
Qed.

Lemma query_map_get_Some (k : string) (qcs : list QueryCluster.t)
    (d : OrderedDict.t QueryCluster.t) (qc : QueryCluster.t) :
  OrderedDict.get k
    (fold_left (fun d qc => OrderedDict.set (QueryCluster.primary_entity_id qc) qc d) qcs d)
  = Some qc ->
  OrderedDict.get k d = Some qc
  \/ (In qc qcs /\ QueryCluster.primary_entity_id qc = k).
Proof.
  revert d. induction qcs as [|qc' r IH]; intros d; simpl; [now left |].
  intros Hget. destruct (IH _ Hget) as [Hd | [Hin Hk]]; [| right; split; [now right | exact Hk]].
  destruct (String.string_dec (QueryCluster.primary_entity_id qc') k) as [Heq | Hne].
  - rewrite <- Heq, dict_get_set_eq in Hd. injection Hd as ->. right. split; [now left | exact Heq].
  - rewrite dict_get_set_ne in Hd by exact Hne. now left.
Qed.

Lemma finished_fields (d : HubDesigner.t) (extra : list string) (h0 : ContentHub.t) :
  ContentHub.primary_entity_id (finished d extra h0) = ContentHub.primary_entity_id h0
  /\ ContentHub.cluster_pages (finished d extra h0) = ContentHub.cluster_pages h0
  /\ ContentHub.supporting_pages (finished d extra h0) = ContentHub.supporting_pages h0
  /\ ContentHub.internal_link_count (finished d extra h0) = ContentHub.internal_link_count h0
  /\ ContentHub.all_pages (finished d extra h0) = ContentHub.all_pages (extend_pillar extra h0)
  /\ ContentHub.coverage_score (finished d extra h0)
     = mean (HubDesigner.coverage_scores d (finished d extra h0)).
Proof. repeat split; reflexivity. Qed.

Lemma finished_pillar (d : HubDesigner.t) (extra : list string) (h0 : ContentHub.t)
    (p : HubPage.t) :
  ContentHub.pillar_page h0 = Some p ->
  ContentHub.pillar_page (finished d extra h0)
  = Some (HubPage.set_links (HubPage.internal_links_to p ++ extra)
            (HubPage.internal_links_from p) p).
Proof.
  intros Hp. unfold finished, extend_pillar.
  cbn [ContentHub.pillar_page ContentHub.set_coverage_score ContentHub.set_pillar_page
       ContentHub.set_pages].
  now rewrite Hp.
Qed.

(** The hubs returned are finished designed hubs. *)
Lemma design_all_hubs_In (o : Ontology.t) (tx : Taxonomy.t) (qcs : list QueryCluster.t)
    (h : ContentHub.t) :
  In h (HubDesigner.design_all_hubs o tx qcs) ->
  exists e nid extra,
    h = finished (designed o tx qcs) extra
          (HubDesigner._design_hub (HubDesigner.init o tx qcs) e nid).
Proof.
  pose proof (Forall2_with_left _ _ _ _ (designed_hubs o tx qcs)
                (design_all_hubs_finished o tx qcs)) as Hall.
  induction Hall as [|h0 h' l0 l Hh Hl IH]; simpl; [contradiction |].
  intros [<- | Hin]; [| now apply IH].
  destruct Hh as [(e & nid & ->) (extra & _ & ->)]. now exists e, nid, extra.
Qed.

(** ** Distinct identifiers in the built ontology *)

Lemma dict_keys_set {V : Type} (d : OrderedDict.t V) (k : string) (v : V) :
  OrderedDict.keys (OrderedDict.set k v d)
  = if PyStr.mem k (OrderedDict.keys d) then OrderedDict.keys d
    else OrderedDict.keys d ++ [k].
Proof.
  unfold OrderedDict.keys, PyStr.mem. induction d as [|[k' v'] r IH]; simpl; [reflexivity |].
  destruct (String.eqb k k'); simpl; [reflexivity |].
  rewrite IH. now destruct (existsb (String.eqb k) (List.map fst r)).
Qed.

Lemma dict_keys_set_NoDup {V : Type} (d : OrderedDict.t V) (k : string) (v : V) :
  List.NoDup (OrderedDict.keys d) -> List.NoDup (OrderedDict.keys (OrderedDict.set k v d)).
Proof.
  intros Hnd. rewrite dict_keys_set.
  destruct (PyStr.mem k (OrderedDict.keys d)) eqn:Hm; [exact Hnd |].
  apply mem_false_In in Hm.
  apply (Permutation_NoDup (l := k :: OrderedDict.keys d)).
  - apply Permutation_cons_append.
  - now constructor.
Qed.

Lemma add_named_keys (ty : EntityType) (l : list string) (b : OntologyBuilder.t) :
  List.NoDup (OrderedDict.keys (OntologyBuilder.entities b)) ->
  List.NoDup
    (OrderedDict.keys
       (OntologyBuilder.entities (fold_left (OntologyBuilder.add_named ty) l b))).
Proof.
  revert b. induction l as [|x r IH]; intros b Hb; simpl; [exact Hb |].
  apply IH. unfold OntologyBuilder.add_named.
  destruct (PyStr.is_empty _); [exact Hb |].
  destruct (OrderedDict.has _ _); [exact Hb |].
  now apply dict_keys_set_NoDup.
Qed.

Lemma extract_from_sitemap_keys fetch (b : OntologyBuilder.t) :
  List.NoDup (OrderedDict.keys (OntologyBuilder.entities b)) ->
  List.NoDup
    (OrderedDict.keys
       (OntologyBuilder.entities (OntologyBuilder._extract_from_sitemap fetch b))).
Proof.
  intros Hb. unfold OntologyBuilder._extract_from_sitemap.
  destruct (Config.sitemap_url _) as [url|]; [| exact Hb].
  destruct (PyStr.is_empty url); [exact Hb |].
  destruct (fetch url) as [extracted|]; [| exact Hb].
  generalize (firstn 50 extracted). intros l. revert b Hb.
  induction l as [|x r IH]; intros b Hb; simpl; [exact Hb |].
  apply IH. unfold OntologyBuilder.add_sitemap_item.
  destruct (OrderedDict.get _ _); now apply dict_keys_set_NoDup.
Qed.

Lemma populate_keys fetch (c : Config.t) :
  List.NoDup (OrderedDict.keys (OntologyBuilder.entities (OntologyBuilder.populate fetch c))).
Proof.
  unfold OntologyBuilder.populate, OntologyBuilder._add_brand_entity,
    OntologyBuilder.with_entities. cbn [OntologyBuilder.entities].
  apply dict_keys_set_NoDup.
  assert (Hseeds : forall b,
             List.NoDup (OrderedDict.keys (OntologyBuilder.entities b)) ->
             List.NoDup
               (OrderedDict.keys
                  (OntologyBuilder.entities (OntologyBuilder._create_from_seeds b)))).
  { intros b Hb. unfold OntologyBuilder._create_from_seeds. now do 2 apply add_named_keys. }
  destruct (Config.source_mode c).
  - apply extract_from_sitemap_keys. constructor.
  - apply Hseeds. constructor.
  - destruct (truthy _); [apply extract_from_sitemap_keys |]; apply Hseeds; constructor.
Qed.

(** The entities of a built ontology have pairwise distinct identifiers,
    and expansion keeps the identifiers. *)
Lemma build_ids_NoDup `{SetIteration} fetch (c : Config.t) :
  List.NoDup (List.map Entity.id (Ontology.entities (OntologyBuilder.build fetch c))).
Proof.
  destruct (build_entities fetch c) as [counts ->].
  destruct (populate_spec fetch c) as (_ & _ & Hk & _).
  pose proof (populate_keys fetch c) as Hnd.
  rewrite List.map_map.
  replace (List.map (fun kv => Entity.id (OntologyBuilder.score counts (fst kv) (snd kv)))
             (OntologyBuilder.entities (OntologyBuilder.populate fetch c)))
    with (OrderedDict.keys (OntologyBuilder.entities (OntologyBuilder.populate fetch c)));
    [exact Hnd |].
  unfold OrderedDict.keys. apply List.map_ext_in. intros kv Hin.
  unfold keyed_by_id in Hk. rewrite List.Forall_forall in Hk. symmetry. now apply Hk.
Qed.

Lemma expand_all_entities_ids `{SetIteration} (o : Ontology.t) :
  List.map Entity.id (Ontology.entities (EntitySearchExpander.expand_all_entities o))
  = List.map Entity.id (Ontology.entities o).
Proof.
  unfold EntitySearchExpander.expand_all_entities. cbn [Ontology.entities].
  rewrite List.map_map. reflexivity.
Qed.

(** ** The tree without collisions of node identifiers *)

Lemma dict_set_fresh {V : Type} (d : OrderedDict.t V) (k : string) (v : V) :
  ~ In k (OrderedDict.keys d) -> OrderedDict.set k v d = d ++ [(k, v)].
Proof.
  unfold OrderedDict.keys. induction d as [|[k' v'] r IH]; simpl; intros Hk; [reflexivity |].
  destruct (String.eqb k k') eqn:E.
  - apply String.eqb_eq in E. subst. tauto.
  - rewrite IH by tauto. reflexivity.
Qed.

Lemma NoDup_map_In_inj {A B : Type} (f : A -> B) (l : list A) (x y : A) :
  List.NoDup (List.map f l) -> In x l -> In y l -> f x = f y -> x = y.
Proof.
  induction l as [|z r IH]; simpl; intros Hnd Hx Hy Hf; [contradiction |].
  inversion Hnd as [|? ? Hz Hr]; subst.
  destruct Hx as [-> | Hx], Hy as [-> | Hy]; try reflexivity.
  - exfalso. apply Hz. rewrite Hf. now apply List.in_map.
  - exfalso. apply Hz. rewrite <- Hf. now apply List.in_map.
  - now apply IH.
Qed.

Lemma top_core_entities_In (o : Ontology.t) (e : Entity.t) :
  In e (TaxonomyBuilder.top_core_entities o) -> In e (Ontology.entities o).
Proof.
  unfold TaxonomyBuilder.top_core_entities. intros Hin. apply firstn_In in Hin.
  apply (Permutation_in _ (sort_desc_perm _ _)) in Hin.
  apply List.filter_In in Hin. tauto.
Qed.

Lemma top_core_entities_NoDup_map {B : Type} (f : Entity.t -> B) (o : Ontology.t) :
  List.NoDup (List.map f (Ontology.entities o)) ->
  List.NoDup (List.map f (TaxonomyBuilder.top_core_entities o)).
Proof.
  intros Hnd. unfold TaxonomyBuilder.top_core_entities.
  apply NoDup_map_firstn.
  eapply Permutation_NoDup.
  - apply Permutation_map, Permutation_sym, sort_desc_perm.
  - now apply NoDup_map_filter.
Qed.

Lemma related_entities_In (o : Ontology.t) (x : string) (rel : Entity.t * Relationship.t) :
  In rel (Ontology.get_related_entities o x) -> In (fst rel) (Ontology.entities o).
Proof.
  unfold Ontology.get_related_entities. intros Hin.
  apply List.in_flat_map in Hin. destruct Hin as (r & _ & Hin).
  unfold Ontology.related_via, Ontology.get_entity in Hin.
  destruct (String.eqb _ x).
  - destruct (List.find _ _) as [e|] eqn:Hf; [| contradiction].
    destruct Hin as [<- | []]. apply List.find_some in Hf. apply Hf.
  - destruct (_ && _); [| contradiction].
    destruct (List.find _ _) as [e|] eqn:Hf; [| contradiction].
    destruct Hin as [<- | []]. apply List.find_some in Hf. apply Hf.
Qed.

(** Without collisions the category step appends one node per entity. *)
Lemma fold_add_nodes_fresh (g : Entity.t -> TaxonomyNode.t) (es : list Entity.t)
    (d : OrderedDict.t TaxonomyNode.t) :
  List.NoDup (OrderedDict.keys d ++ List.map (fun e => TaxonomyNode.id (g e)) es) ->
  fold_left (fun d e => TaxonomyBuilder.add_node d (g e)) es d
  = d ++ List.map (fun e => (TaxonomyNode.id (g e), g e)) es.
Proof.
  revert d. induction es as [|e r IH]; intros d Hnd; simpl.
  - now rewrite List.app_nil_r.
  - unfold TaxonomyBuilder.add_node at 2.
    assert (Hfresh : ~ In (TaxonomyNode.id (g e)) (OrderedDict.keys d)).
    { intros Hin. apply List.NoDup_remove_2 in Hnd. apply Hnd.
      apply List.in_or_app. now left. }
    rewrite dict_set_fresh by exact Hfresh.
    rewrite IH.
    + rewrite <- List.app_assoc. reflexivity.
    + unfold OrderedDict.keys in *. rewrite List.map_app, <- List.app_assoc. exact Hnd.
Qed.

Lemma node_kind_incl (o : Ontology.t) (root_id : string) (l l' : list TaxonomyNode.t)
    (n : TaxonomyNode.t) :
  (forall c, In c l -> In c l') -> node_kind o root_id l n -> node_kind o root_id l' n.
Proof.
  intros Hincl [Hroot | (e & He & Hid & Hids & [Hcat | (Hlv & c & Hc & Hcl & Hp)])].
  - now left.
  - right. exists e. repeat split; try assumption. now left.
  - right. exists e. repeat split; try assumption. right. split; [exact Hlv |].
    exists c. repeat split; try assumption. now apply Hincl.
Qed.

(** The dictionary after the root and the categories. *)
Lemma categories_tree_shaped (o : Ontology.t) (niche : string) :
  node_ids_distinct o niche ->
  let d := TaxonomyBuilder.nodes
             (TaxonomyBuilder._create_category_nodes
                (TaxonomyBuilder._create_root_node (TaxonomyBuilder.init o niche))) in
  OrderedDict.keys d = List.map TaxonomyNode.id (OrderedDict.values d)
  /\ tree_shaped o niche (OrderedDict.values d).
Proof.
  intros Hnd. unfold node_ids_distinct in Hnd.
  inversion Hnd as [|? ? Hroot Hents]; subst.
  cbn zeta. unfold TaxonomyBuilder._create_category_nodes, TaxonomyBuilder.with_nodes.
  cbn [TaxonomyBuilder.nodes TaxonomyBuilder.ontology].
  rewrite root_key.
  cbn [TaxonomyBuilder._create_root_node TaxonomyBuilder.with_nodes TaxonomyBuilder.init
       TaxonomyBuilder.nodes TaxonomyBuilder.ontology TaxonomyBuilder.primary_niche
       OrderedDict.set].
  set (root_id := TaxonomyBuilder._generate_node_id niche) in *.
  set (root := TaxonomyNode.make root_id niche None [] 0 [] _ _ None []).
  set (es := TaxonomyBuilder.top_core_entities o).
  assert (Hes : List.NoDup (List.map (fun e => TaxonomyBuilder._generate_node_id (Entity.name e)) es))
    by (apply top_core_entities_NoDup_map, Hents).
  assert (Hesr : ~ In root_id (List.map (fun e => TaxonomyBuilder._generate_node_id (Entity.name e)) es)).
  { intros Hin. apply Hroot. apply List.in_map_iff in Hin. destruct Hin as (e & He & Hin).
    apply List.in_map_iff. exists e. split; [exact He | now apply top_core_entities_In]. }
  rewrite (fold_add_nodes_fresh (TaxonomyBuilder.category_node root_id) es [(root_id, root)])
    by (simpl; constructor; assumption).
  unfold OrderedDict.keys, OrderedDict.values. rewrite !List.map_app, !List.map_map.
  cbn [List.map fst snd List.app].
  split; [reflexivity |]. unfold tree_shaped. cbn [List.map]. rewrite List.map_map.
  cbn [TaxonomyBuilder.category_node TaxonomyNode.id].
  split; [| split].
  - constructor; assumption.
  - now left.
  - constructor.
    + left. repeat split.
    + apply List.Forall_forall. intros n Hin. apply List.in_map_iff in Hin.
      destruct Hin as (e & <- & He). right. exists e.
      split; [now apply top_core_entities_In |]. repeat split. now left.
Qed.

Lemma root_id_not_entity (o : Ontology.t) (niche : string) (e : Entity.t) :
  node_ids_distinct o niche -> In e (Ontology.entities o) ->
  TaxonomyBuilder._generate_node_id (Entity.name e) <> TaxonomyBuilder._generate_node_id niche.
Proof.
  intros Hnd He Heq. inversion Hnd as [|? ? Hroot _]; subst. apply Hroot.
  rewrite <- Heq. apply (List.in_map (fun e => TaxonomyBuilder._generate_node_id (Entity.name e))).
  exact He.
Qed.

Lemma same_node_id_same_entity (o : Ontology.t) (niche : string) (e e' : Entity.t) :
  node_ids_distinct o niche -> In e (Ontology.entities o) -> In e' (Ontology.entities o) ->
  TaxonomyBuilder._generate_node_id (Entity.name e)
  = TaxonomyBuilder._generate_node_id (Entity.name e') ->
  e = e'.
Proof.
  intros Hnd He He' Heq. inversion Hnd as [|? ? _ Hents]; subst.
  exact (NoDup_map_In_inj _ _ _ _ Hents He He' Heq).
Qed.

(** One subcategory more: the new node takes a new key, the nodes present
    stay, and the shape is kept. *)
Lemma add_subcategory_tree_shaped (o : Ontology.t) (niche : string)
    (cat_node : TaxonomyNode.t) (d : OrderedDict.t TaxonomyNode.t)
    (rel : Entity.t * Relationship.t) :
  node_ids_distinct o niche ->
  OrderedDict.keys d = List.map TaxonomyNode.id (OrderedDict.values d) ->
  tree_shaped o niche (OrderedDict.values d) ->
  In cat_node (OrderedDict.values d) -> TaxonomyNode.level cat_node = 1 ->
  In (fst rel) (Ontology.entities o) ->
  OrderedDict.keys (TaxonomyBuilder.add_subcategory cat_node d rel)
  = List.map TaxonomyNode.id
      (OrderedDict.values (TaxonomyBuilder.add_subcategory cat_node d rel))
  /\ tree_shaped o niche
       (OrderedDict.values (TaxonomyBuilder.add_subcategory cat_node d rel))
  /\ (forall n, In n (OrderedDict.values d) ->
                In n (OrderedDict.values (TaxonomyBuilder.add_subcategory cat_node d rel))).
Proof.
  intros Hnd Hkeys (Hids & Hroot & Hkinds) Hcat Hlevel Hrel.
  unfold TaxonomyBuilder.add_subcategory.
  destruct (TaxonomyBuilder.is_competitor (fst rel));
    [split; [exact Hkeys | split; [now repeat split | tauto]] |].
  destruct (TaxonomyBuilder._find_node_for_entity d (Entity.id (fst rel))) eqn:Hfind;
    [split; [exact Hkeys | split; [now repeat split | tauto]] |].
  set (v := TaxonomyBuilder.subcategory_node cat_node (fst rel)).
  assert (Hfresh : ~ In (TaxonomyNode.id v) (OrderedDict.keys d)).
  { rewrite Hkeys. intros Hin. apply List.in_map_iff in Hin. destruct Hin as (n & Hn & Hin).
    rewrite List.Forall_forall in Hkinds.
    destruct (Hkinds n Hin) as [(Hr & _) | (e & He & Hid & Hown & _)].
    - apply (root_id_not_entity o niche (fst rel) Hnd Hrel). rewrite <- Hr, Hn. reflexivity.
    - assert (e = fst rel).
      { apply (same_node_id_same_entity o niche); try assumption.
        rewrite <- Hid, Hn. reflexivity. }
      subst e. unfold TaxonomyBuilder._find_node_for_entity in Hfind.
      apply (List.find_none _ _ Hfind) in Hin. rewrite Hown in Hin. simpl in Hin.
      now rewrite String.eqb_refl in Hin. }
  unfold TaxonomyBuilder.add_node. rewrite dict_set_fresh by exact Hfresh.
  unfold OrderedDict.keys, OrderedDict.values in *. rewrite !List.map_app.
  cbn [List.map fst snd]. rewrite Hkeys.
  split; [reflexivity | split; [| intros n Hn; apply List.in_or_app; now left]].
  unfold tree_shaped. rewrite List.map_app. cbn [List.map].
  split; [| split].
  - apply (Permutation_NoDup (l := TaxonomyNode.id v :: List.map TaxonomyNode.id (List.map snd d))).
    + apply Permutation_cons_append.
    + constructor; [now rewrite <- Hkeys | exact Hids].
  - apply List.in_or_app. now left.
  - apply List.Forall_app. split.
    + eapply List.Forall_impl; [| exact Hkinds]. intros n. apply node_kind_incl.
      intros c Hc. apply List.in_or_app. now left.
    + constructor; [| constructor]. right. exists (fst rel).
      split; [exact Hrel |]. split; [reflexivity |]. split; [reflexivity |].
      right. split; [reflexivity |]. exists cat_node.
      split; [apply List.in_or_app; now left |]. split; [exact Hlevel | reflexivity].
Qed.

Lemma add_subcategories_tree_shaped (o : Ontology.t) (niche : string)
    (cat_node : TaxonomyNode.t) (d : OrderedDict.t TaxonomyNode.t) :
  node_ids_distinct o niche ->
  OrderedDict.keys d = List.map TaxonomyNode.id (OrderedDict.values d) ->
  tree_shaped o niche (OrderedDict.values d) ->
  In cat_node (OrderedDict.values d) -> TaxonomyNode.level cat_node = 1 ->
  OrderedDict.keys (TaxonomyBuilder.add_subcategories o d cat_node)
  = List.map TaxonomyNode.id
      (OrderedDict.values (TaxonomyBuilder.add_subcategories o d cat_node))
  /\ tree_shaped o niche (OrderedDict.values (TaxonomyBuilder.add_subcategories o d cat_node))
  /\ (forall n, In n (OrderedDict.values d) ->
                In n (OrderedDict.values (TaxonomyBuilder.add_subcategories o d cat_node))).
Proof.
  intros Hnd Hkeys Hshape Hcat Hlevel. unfold TaxonomyBuilder.add_subcategories.
  destruct (TaxonomyNode.entity_ids cat_node) as [|primary_entity_id ?];
    [split; [exact Hkeys | split; [exact Hshape | tauto]] |].
  assert (Hrels : Forall (fun rel => In (fst rel) (Ontology.entities o))
                    (firstn 5 (Ontology.get_related_entities o primary_entity_id))).
  { apply List.Forall_forall. intros rel Hin. apply firstn_In in Hin.
    now apply related_entities_In in Hin. }
  revert Hrels. generalize (firstn 5 (Ontology.get_related_entities o primary_entity_id)).
  intros rels. revert d Hkeys Hshape Hcat.
  induction rels as [|rel rels IH]; intros d Hkeys Hshape Hcat Hrels; simpl;
    [split; [exact Hkeys | split; [exact Hshape | tauto]] |].
  inversion Hrels as [|? ? Hrel Hrest]; subst.
  destruct (add_subcategory_tree_shaped o niche cat_node d rel Hnd Hkeys Hshape Hcat Hlevel Hrel)
    as (Hk' & Hs' & Hincl).
  destruct (IH _ Hk' Hs' (Hincl _ Hcat) Hrest) as (Hk'' & Hs'' & Hincl').
  split; [exact Hk'' | split; [exact Hs'' | intros n Hn; apply Hincl', Hincl, Hn]].
Qed.

Lemma subcategories_tree_shaped (o : Ontology.t) (niche : string)
    (cats : list TaxonomyNode.t) (d : OrderedDict.t TaxonomyNode.t) :
  node_ids_distinct o niche ->
  OrderedDict.keys d = List.map TaxonomyNode.id (OrderedDict.values d) ->
  tree_shaped o niche (OrderedDict.values d) ->
  Forall (fun c => In c (OrderedDict.values d) /\ TaxonomyNode.level c = 1) cats ->
  tree_shaped o niche
    (OrderedDict.values (fold_left (TaxonomyBuilder.add_subcategories o) cats d)).
Proof.
  intros Hnd. revert d. induction cats as [|c cats IH]; intros d Hkeys Hshape Hcats; simpl;
    [exact Hshape |].
  inversion Hcats as [|? ? [Hc Hlevel] Hrest]; subst.
  destruct (add_subcategories_tree_shaped o niche c d Hnd Hkeys Hshape Hc Hlevel)
    as (Hk' & Hs' & Hincl).
  apply IH; [exact Hk' | exact Hs' |].
  eapply List.Forall_impl; [| exact Hrest]. intros c' [Hc' Hl']. split; [now apply Hincl | exact Hl'].
Qed.

Lemma build_tree_shaped (o : Ontology.t) (niche : string) :
  node_ids_distinct o niche ->
  tree_shaped o niche
    (OrderedDict.values
       (TaxonomyBuilder.nodes
          (TaxonomyBuilder._create_subcategory_nodes
             (TaxonomyBuilder._create_category_nodes
                (TaxonomyBuilder._create_root_node (TaxonomyBuilder.init o niche)))))).
Proof.
  intros Hnd. destruct (categories_tree_shaped o niche Hnd) as [Hkeys Hshape].
  cbn zeta in *.
  unfold TaxonomyBuilder._create_subcategory_nodes, TaxonomyBuilder.with_nodes.
  cbn [TaxonomyBuilder.nodes].
  assert (Ho : TaxonomyBuilder.ontology
                 (TaxonomyBuilder._create_category_nodes
                    (TaxonomyBuilder._create_root_node (TaxonomyBuilder.init o niche))) = o)
    by reflexivity.
  rewrite Ho.
  apply subcategories_tree_shaped; try assumption.
  apply List.Forall_forall. intros c Hc. apply List.filter_In in Hc.
  destruct Hc as [Hc Hl]. split; [exact Hc | now apply Nat.eqb_eq].
Qed.

Lemma skeleton_fields (f : TaxonomyNode.t -> TaxonomyNode.t) (n : TaxonomyNode.t) :
  skeleton (f n) = skeleton n ->
  TaxonomyNode.id (f n) = TaxonomyNode.id n
  /\ TaxonomyNode.parent_id (f n) = TaxonomyNode.parent_id n
  /\ TaxonomyNode.entity_ids (f n) = TaxonomyNode.entity_ids n
  /\ TaxonomyNode.level (f n) = TaxonomyNode.level n.
Proof. unfold skeleton. intros [= -> -> -> ->]. repeat split. Qed.

Lemma tree_shaped_map (o : Ontology.t) (niche : string)
    (f : TaxonomyNode.t -> TaxonomyNode.t) (l : list TaxonomyNode.t) :
  (forall n, skeleton (f n) = skeleton n) ->
  tree_shaped o niche l -> tree_shaped o niche (List.map f l).
Proof.
  intros Hf (Hids & Hroot & Hkinds).
  assert (Hmap : List.map TaxonomyNode.id (List.map f l) = List.map TaxonomyNode.id l).
  { rewrite List.map_map. apply List.map_ext. intros n. apply (skeleton_fields f n (Hf n)). }
  unfold tree_shaped. rewrite Hmap. split; [exact Hids | split; [exact Hroot |]].
  apply List.Forall_forall. intros n' Hin. apply List.in_map_iff in Hin.
  destruct Hin as (n & <- & Hn). rewrite List.Forall_forall in Hkinds.
  destruct (skeleton_fields f n (Hf n)) as (Hi & Hp & He & Hl).
  unfold node_kind. rewrite Hi, Hp, He, Hl.
  destruct (Hkinds n Hn) as [Hr | (e & Hin & Hid & Hown & [Hcat | (Hlv & c & Hc & Hcl & Hpc)])].
  - now left.
  - right. exists e. repeat split; try assumption. now left.
  - right. exists e. repeat split; try assumption. right. split; [exact Hlv |].
    exists (f c). destruct (skeleton_fields f c (Hf c)) as (Hci & _ & _ & Hcl').
    rewrite Hci, Hcl'. repeat split; try assumption. now apply List.in_map.
Qed.

Lemma count_ext_in {A : Type} (p q : A -> bool) (l : list A) :
  (forall x, In x l -> p x = q x) -> count p l = count q l.
Proof.
  induction l as [|x r IH]; intros Hpq; [reflexivity |].
  rewrite !count_cons, (Hpq x) by now left.
  rewrite IH by (intros; apply Hpq; now right). reflexivity.
Qed.

Lemma count_key_one {A : Type} (f : A -> string) (l : list A) (k : string) :
  List.NoDup (List.map f l) -> In k (List.map f l) ->
  count (fun x => String.eqb (f x) k) l = 1.
Proof.
  induction l as [|x r IH]; simpl; intros Hnd Hin; [contradiction |].
  inversion Hnd as [|? ? Hx Hr]; subst. rewrite count_cons.
  destruct (String.eqb (f x) k) eqn:E.
  - apply String.eqb_eq in E. subst k.
    assert (Hz : count (fun y => String.eqb (f y) (f x)) r = 0).
    { unfold count. destruct (List.filter _ r) as [|y ys] eqn:Hf; [reflexivity | exfalso].
      assert (Hy : In y (List.filter (fun y => String.eqb (f y) (f x)) r))
        by (rewrite Hf; now left).
      apply List.filter_In in Hy. destruct Hy as [Hy Heq]. apply String.eqb_eq in Heq.
      apply Hx. rewrite <- Heq. now apply List.in_map. }
    rewrite Hz. reflexivity.
  - destruct Hin as [Heq | Hin]; [apply String.eqb_neq in E; congruence |].
    rewrite IH by assumption. reflexivity.
Qed.

(** In a tree-shaped list a parent is a node of lower level. *)
Lemma parent_level (o : Ontology.t) (niche : string) (nodes : list TaxonomyNode.t)
    (n : TaxonomyNode.t) (p : string) :
  node_ids_distinct o niche -> tree_shaped o niche nodes ->
  In n nodes -> TaxonomyNode.parent_id n = Some p ->
  exists q, In q nodes /\ TaxonomyNode.id q = p
            /\ TaxonomyNode.level q < TaxonomyNode.level n.
Proof.
  intros Hnd (Hids & Hroot & Hkinds) Hn Hp. rewrite List.Forall_forall in Hkinds.
  destruct (Hkinds n Hn) as [(_ & Hnone & _) | (e & He & Hid & _ & [[Hlv Hpar] | (Hlv & c & Hc & Hcl & Hpar)])].
  - congruence.
  - apply List.in_map_iff in Hroot. destruct Hroot as (r & Hr & Hrin).
    exists r. split; [exact Hrin |]. split; [congruence |].
    destruct (Hkinds r Hrin) as [(_ & _ & Hl0) | (e' & He' & Hid' & _)].
    + lia.
    + exfalso. apply (root_id_not_entity o niche e' Hnd He'). congruence.
  - exists c. split; [exact Hc |]. split; [congruence | lia].
Qed.

Lemma ancestor_level (o : Ontology.t) (niche : string) (nodes : list TaxonomyNode.t)
    (a b : string) :
  node_ids_distinct o niche -> tree_shaped o niche nodes ->
  ancestor nodes a b ->
  forall n, In n nodes -> TaxonomyNode.id n = b ->
  exists m, In m nodes /\ TaxonomyNode.id m = a
            /\ TaxonomyNode.level m < TaxonomyNode.level n.
Proof.
  intros Hnd Hshape Hanc.
  assert (Huniq : forall x y, In x nodes -> In y nodes ->
                              TaxonomyNode.id x = TaxonomyNode.id y -> x = y).
  { intros x y. apply NoDup_map_In_inj. apply Hshape. }
  induction Hanc as [n' a Hn' Hp | n' a p Hn' Hp Hanc IH]; intros n Hn Hid.
  - assert (n = n') by now apply Huniq. subst n'.
    now apply (parent_level o niche nodes n a).
  - assert (n = n') by now apply Huniq. subst n'.
    destruct (parent_level o niche nodes n p Hnd Hshape Hn Hp) as (q & Hq & Hqid & Hql).
    destruct (IH q Hq Hqid) as (m & Hm & Hmid & Hml).
    exists m. split; [exact Hm |]. split; [exact Hmid | lia].
Qed.

Lemma tree_shaped_well_formed (o : Ontology.t) (niche : string)
    (nodes : list TaxonomyNode.t) :
  node_ids_distinct o niche -> tree_shaped o niche nodes -> well_formed_tree nodes.
Proof.
  intros Hnd Hshape. pose proof Hshape as (Hids & Hroot & Hkinds).
  rewrite List.Forall_forall in Hkinds. split; [| split].
  - rewrite (count_ext_in is_root
               (fun n => String.eqb (TaxonomyNode.id n) (TaxonomyBuilder._generate_node_id niche))).
    + now apply count_key_one.
    + intros n Hn. unfold is_root.
      destruct (Hkinds n Hn) as [(Hid & Hnone & _) | (e & He & Hid & _ & Hk)].
      * rewrite Hnone, Hid. symmetry. apply String.eqb_refl.
      * assert (Hne : TaxonomyNode.id n <> TaxonomyBuilder._generate_node_id niche).
        { rewrite Hid. now apply (root_id_not_entity o niche e). }
        apply String.eqb_neq in Hne. rewrite Hne.
        destruct Hk as [[_ ->] | (_ & c & _ & _ & ->)]; reflexivity.
  - intros n p Hn Hp.
    destruct (parent_level o niche nodes n p Hnd Hshape Hn Hp) as (q & Hq & <- & _).
    now apply List.in_map.
  - intros n Hn Hanc.
    destruct (ancestor_level o niche nodes _ _ Hnd Hshape Hanc n Hn eq_refl)
      as (m & Hm & Hmid & Hml).
    assert (m = n) by (apply (NoDup_map_In_inj TaxonomyNode.id nodes); assumption).
    subst m. lia.
Qed.

(* ===================================================================== *)
(** * The claims *)
(* ===================================================================== *)

(** C5.  Every cluster returned by [QueryMapper.map_all_entities] has
    consistent statistics: the values of [intent_distribution] add up to the
    number of queries, the entry of every intent is the number of queries
    of the cluster that carry it, and the dictionary has an entry exactly
    for the intents that occur. *)
Theorem C5_cluster_statistics (o : Ontology.t) :
  Forall statistics_consistent (QueryMapper.map_all_entities o).
Proof.
  apply map_all_entities_Forall. apply create_query_cluster_consistent.
Qed.

(** C2.  The claim does not hold of the code: [_calculate_entity_scores]
    runs over every entity after [_add_brand_entity] and overwrites the two
    scores of the brand.  For every configuration the brand entity of the
    built ontology has [commercial_value] 0.8 (the value of a [core]
    entity), not the 1.0 it was created with. *)
Theorem C2_brand_commercial_value_overwritten `{SetIteration}
    (fetch : string -> option (list SitemapItem.t)) (c : Config.t) :
  exists e,
    Ontology.get_entity (OntologyBuilder.build fetch c)
      (OntologyBuilder._generate_entity_id (Config.brand_name c)) = Some e
    /\ Entity.name e = Config.brand_name c
    /\ Entity.commercial_value e = (8 # 10)%Q
    /\ ~ (Entity.commercial_value e == 1)%Q.
Proof.
  destruct (populate_spec fetch c) as (_ & _ & Hk & e & Hget & Hty & Hname & _).
  unfold Ontology.get_entity, OntologyBuilder.build,
    OntologyBuilder._calculate_entity_scores, OntologyBuilder.with_entities.
  cbn [Ontology.entities OntologyBuilder.entities].
  rewrite keyed_find by (apply keyed_map; [intros; apply score_id | exact Hk]).
  rewrite dict_get_map. cbn [OntologyBuilder._infer_relationships
    OntologyBuilder.with_relationships OntologyBuilder.entities].
  rewrite Hget. simpl. eexists. split; [reflexivity |].
  simpl. rewrite Hty. simpl. repeat split; [exact Hname | discriminate].
Qed.

(** C2, at a concrete run: two sitemap candidates of frequency 1 become
    [supporting] entities, the brand takes part in no relationship, and the
    scoring pass leaves it with [semantic_centrality] 0.2 and
    [commercial_value] 0.8. *)
Example C2_brand_scores_after_sitemap_run :
  exists e,
    Ontology.get_entity
      (@OntologyBuilder.build insertion_order sitemap_candidates sitemap_config)
      "acme_53bce4f1" = Some e
    /\ Entity.name e = "Acme"
    /\ (Entity.semantic_centrality e == 2 # 10)%Q
    /\ (Entity.commercial_value e == 8 # 10)%Q.
Proof. eexists. split; [vm_compute; reflexivity |]. repeat split. Qed.

(** C4.  For any two entities of the built ontology whose lower-cased names
    differ and of which the second name occurs inside the first, the
    relationships hold an [is_a] edge of weight 0.7 from the entity with the
    containing name to the entity with the contained name. *)
Theorem C4_containment_is_a_edge `{SetIteration}
    (fetch : string -> option (list SitemapItem.t)) (c : Config.t) (a b : Entity.t) :
  In a (Ontology.entities (OntologyBuilder.build fetch c)) ->
  In b (Ontology.entities (OntologyBuilder.build fetch c)) ->
  PyStr.lower (Entity.name a) <> PyStr.lower (Entity.name b) ->
  PyStr.contains (PyStr.lower (Entity.name b)) (PyStr.lower (Entity.name a)) = true ->
  exists r,
    In r (Ontology.relationships (OntologyBuilder.build fetch c))
    /\ Relationship.source_id r = Entity.id a
    /\ Relationship.target_id r = Entity.id b
    /\ Relationship.relationship_type r = IS_A
    /\ Relationship.weight r = (7 # 10)%Q.
Proof.
  intros Ha Hb Hne Hc.
  destruct (build_entities fetch c) as [counts Hents].
  rewrite Hents in Ha, Hb. rewrite build_relationships.
  apply List.in_map_iff in Ha. destruct Ha as [[ka a0] [<- Ha]].
  apply List.in_map_iff in Hb. destruct Hb as [[kb b0] [<- Hb]].
  cbn [fst snd] in *. rewrite !score_id. rewrite !score_name in Hne, Hc.
  assert (Ha' : In a0 (OrderedDict.values
                         (OntologyBuilder.entities (OntologyBuilder.populate fetch c))))
    by (apply List.in_map_iff; now exists (ka, a0)).
  assert (Hb' : In b0 (OrderedDict.values
                         (OntologyBuilder.entities (OntologyBuilder.populate fetch c))))
    by (apply List.in_map_iff; now exists (kb, b0)).
  assert (Hab : a0 <> b0) by congruence.
  destruct (detect_contained a0 b0 Hne Hc)
    as (r1 & r2 & Hd1 & Hd2 & Hs1 & Ht1 & Hy1 & Hw1 & Hs2 & Ht2 & Hy2 & Hw2).
  destruct (In_two_split _ _ _ Ha' Hb' Hab) as [(l1 & l2 & l3 & Hl) | (l1 & l2 & l3 & Hl)];
    rewrite Hl.
  - exists r1. split; [| now repeat split].
    apply List.in_or_app. right. now apply pair_edges_In.
  - exists r2. split; [| now repeat split].
    apply List.in_or_app. right. now apply pair_edges_In.
Qed.

(** C4 at scenario 2 of the specification: the seeds "tools" and
    "task tools" give an [is_a] edge from "task tools" to "tools". *)
Lemma C4_task_tools_is_a_tools :
  exists r,
    In r (Ontology.relationships tools_ontology)
    /\ Relationship.source_id r = "task_tools_5599022b"
    /\ Relationship.target_id r = "tools_4a931512"
    /\ Relationship.relationship_type r = IS_A
    /\ Relationship.weight r = (7 # 10)%Q.
Proof.
  pose (a := List.nth 1 (Ontology.entities tools_ontology)
               (Entity.make "" "" CORE None [] no_attributes 0 0 [])).
  pose (b := List.nth 0 (Ontology.entities tools_ontology)
               (Entity.make "" "" CORE None [] no_attributes 0 0 [])).
  assert (Ha : In a (Ontology.entities tools_ontology))
    by (vm_compute; right; left; reflexivity).
  assert (Hb : In b (Ontology.entities tools_ontology))
    by (vm_compute; left; reflexivity).
  assert (Hne : PyStr.lower (Entity.name a) <> PyStr.lower (Entity.name b))
    by (vm_compute; discriminate).
  assert (Hc : PyStr.contains (PyStr.lower (Entity.name b)) (PyStr.lower (Entity.name a))
               = true) by (vm_compute; reflexivity).
  pose proof (@C4_containment_is_a_edge insertion_order no_sitemap tools_config
                a b Ha Hb Hne Hc) as Hr.
  assert (Eida : Entity.id a = "task_tools_5599022b") by (vm_compute; reflexivity).
  assert (Eidb : Entity.id b = "tools_4a931512") by (vm_compute; reflexivity).
  rewrite Eida, Eidb in Hr. exact Hr.
Defined.

(** C8, as the code has it.  An identifier depends on the normalized name
    only.  Two builds of the same configuration (with the same sitemap
    candidates, if any) under any two iteration orders of [set] give the
    same entities, scores included, and the same list of relationships up
    to the order of the shared terms: the relationships of the two builds
    agree one by one in every field but the text, and their texts are equal
    or are the text of a [relates_to] edge that lists the same shared terms
    in another order. *)
Theorem C8_build_deterministic_up_to_shared_terms (S1 S2 : SetIteration)
    (fetch : string -> option (list SitemapItem.t)) (c : Config.t) :
  (forall n1 n2, normalized n1 = normalized n2 ->
     OntologyBuilder._generate_entity_id n1 = OntologyBuilder._generate_entity_id n2)
  /\ Ontology.entities (@OntologyBuilder.build S1 fetch c)
     = Ontology.entities (@OntologyBuilder.build S2 fetch c)
  /\ Forall2 same_up_to_term_order
       (Ontology.relationships (@OntologyBuilder.build S1 fetch c))
       (Ontology.relationships (@OntologyBuilder.build S2 fetch c)).
Proof.
  assert (Hrel :
    List.map erase_shared_terms (Ontology.relationships (@OntologyBuilder.build S1 fetch c))
    = List.map erase_shared_terms (Ontology.relationships (@OntologyBuilder.build S2 fetch c))).
  { rewrite !build_relationships, !List.map_app. f_equal. apply pair_edges_erase. }
  split; [| split].
  3: { rewrite !build_relationships.
       apply Forall2_app;
         [apply Forall2_same_up_to_term_order_refl
         | apply pair_edges_same_up_to_term_order]. }
  - intros n1 n2 Hn. unfold normalized in Hn. unfold OntologyBuilder._generate_entity_id.
    now rewrite Hn.
  - pose proof (relationship_counts_erase _ _ Hrel) as Hcounts.
    unfold OntologyBuilder.build, OntologyBuilder._calculate_entity_scores,
      OntologyBuilder.with_entities in *.
    cbn [Ontology.entities Ontology.relationships OntologyBuilder.entities
         OntologyBuilder.relationships] in *.
    rewrite Hcounts. reflexivity.
Qed.

(** C8, where the claim as stated fails: under two iteration orders the
    [relates_to] edge between two seeds that share the words "task" and
    "tools" carries two different texts, so the relationships of the two
    builds are not the same multiset. *)
Lemma C8_shared_terms_follow_set_order :
  let r :=
    Relationship.make "task_management_tools_e666b9c5" "task_tracking_tools_99bd72c8"
      RELATES_TO (5 # 10) (Some "Shared terms: task, tools") true in
  In r (Ontology.relationships
          (@OntologyBuilder.build insertion_order no_sitemap shared_terms_config))
  /\ ~ In r (Ontology.relationships
               (@OntologyBuilder.build reverse_order no_sitemap shared_terms_config))
  /\ ~ Permutation
         (Ontology.relationships
            (@OntologyBuilder.build insertion_order no_sitemap shared_terms_config))
         (Ontology.relationships
            (@OntologyBuilder.build reverse_order no_sitemap shared_terms_config)).
Proof.
  intros r.
  assert (H1 : In r (Ontology.relationships
                       (@OntologyBuilder.build insertion_order no_sitemap shared_terms_config)))
    by (vm_compute; tauto).
  assert (H2 : ~ In r (Ontology.relationships
                         (@OntologyBuilder.build reverse_order no_sitemap shared_terms_config))).
  { vm_compute. intros H. decompose [or] H; try discriminate; assumption. }
  split; [exact H1 | split; [exact H2 |]].
  intros HP. apply H2. eapply Permutation_in; [exact HP | exact H1].
Qed.

(** C1, as the code has it.  [expand_all_entities] leaves every entity in
    place and sets its aliases to the prior aliases together with the
    generated candidates, without repetition, keeping those that are not
    empty, have at least two characters and do not lower-case to the
    lower-cased name; the variants are kept as generated.  Expanding twice
    gives every entity the alias set that expanding once gives. *)
Theorem C1_expansion_accumulates_and_is_idempotent `{SetIteration} (o : Ontology.t) :
  Forall2 expansion_of (Ontology.entities o)
    (Ontology.entities (EntitySearchExpander.expand_all_entities o))
  /\ Forall2 same_alias_set
       (Ontology.entities
          (EntitySearchExpander.expand_all_entities
             (EntitySearchExpander.expand_all_entities o)))
       (Ontology.entities (EntitySearchExpander.expand_all_entities o))
  /\ Ontology.relationships (EntitySearchExpander.expand_all_entities o)
     = Ontology.relationships o.
Proof.
  unfold EntitySearchExpander.expand_all_entities. simpl.
  split; [| split; [| reflexivity]].
  - induction (Ontology.entities o) as [|e r IH]; simpl; constructor;
      [apply expand_entity_spec | exact IH].
  - induction (Ontology.entities o) as [|e r IH]; simpl; constructor;
      [apply expand_entity_twice | exact IH].
Qed.

(** C1, where the claim as stated fails: the seed "Task Tracking" comes out
    of the builder with the alias "TT"; after expansion "TT" is still an
    alias although no generator derives it from the name, and the aliases
    "TT" and "Task-Tracking" are not lower-case. *)
Lemma C1_prior_alias_survives_expansion :
  exists e,
    In e (Ontology.entities task_tracking_ontology)
    /\ Entity.name e = "Task Tracking"
    /\ In "TT" (Entity.aliases e)
    /\ In "TT" (Entity.aliases (@EntitySearchExpander._expand_entity insertion_order e))
    /\ ~ In "TT" (EntitySearchExpander.candidates e)
    /\ ~ In "TT" (EntitySearchExpander.rederived_aliases e)
    /\ In "Task-Tracking"
         (Entity.aliases (@EntitySearchExpander._expand_entity insertion_order e))
    /\ ~ In "Task-Tracking" (EntitySearchExpander.rederived_aliases e).
Proof.
  exists (List.nth 0 (Ontology.entities task_tracking_ontology)
            (Entity.make "" "" CORE None [] no_attributes 0 0 [])).
  repeat split; vm_compute; try tauto;
    intros H; decompose [or] H; try discriminate; assumption.
Qed.

(** C9.  Every entity identifier is in the [entity_ids] of at most one
    node of the taxonomy [TaxonomyBuilder.build] returns: for any ontology
    whose entity identifiers are pairwise distinct (the invariant of an
    ontology), and so for the expanded ontology of any configuration.  When
    subcategories are created, a related entity that some node already holds
    is skipped. *)
Theorem C9_single_assignment `{SetIteration} :
  (forall (o : Ontology.t) (niche : string),
     List.NoDup (List.map Entity.id (Ontology.entities o)) ->
     single_assignment (Taxonomy.nodes (TaxonomyBuilder.build o niche)))
  /\ (forall (fetch : string -> option (list SitemapItem.t)) (c : Config.t),
        single_assignment
          (Taxonomy.nodes
             (TaxonomyBuilder.build
                (EntitySearchExpander.expand_all_entities (OntologyBuilder.build fetch c))
                (Config.primary_niche c))))
  /\ (forall cat_node d rel n,
        TaxonomyBuilder._find_node_for_entity d (Entity.id (fst rel)) = Some n ->
        TaxonomyBuilder.add_subcategory cat_node d rel = d).
Proof.
  assert (Hgen : forall (o : Ontology.t) (niche : string),
             List.NoDup (List.map Entity.id (Ontology.entities o)) ->
             single_assignment (Taxonomy.nodes (TaxonomyBuilder.build o niche))).
  { intros o niche Hnd. destruct (build_nodes o niche) as (f & Hskel & _ & ->).
    intros entity_id. rewrite count_map by (apply skeleton_owns, Hskel).
    now apply tree_single_assignment. }
  split; [exact Hgen | split].
  - intros fetch c. apply Hgen. rewrite expand_all_entities_ids. apply build_ids_NoDup.
  - intros cat_node d rel n Hf. unfold TaxonomyBuilder.add_subcategory.
    rewrite Hf. now destruct (TaxonomyBuilder.is_competitor (fst rel)).
Qed.

(** C9 on the taxonomy of scenario 2. *)
Lemma C9_single_assignment_tools :
  single_assignment
    (Taxonomy.nodes (@TaxonomyBuilder.build insertion_order tools_expanded "Project Management")).
Proof.
  apply (proj1 (@C9_single_assignment insertion_order) tools_expanded "Project Management").
  vm_compute.
  repeat (constructor; [simpl; intros Hin; decompose [or] Hin; try discriminate; assumption |]).
  constructor.
Defined.

(** C6.  Caps: every node of a taxonomy [TaxonomyBuilder.build] returns has
    at most 10 entries in [internal_links_to], the taxonomy has at most 15
    nodes of level 1, and every hub [design_all_hubs] returns has at most 10
    cluster pages. *)
Theorem C6_caps `{SetIteration} :
  (forall (o : Ontology.t) (niche : string),
     Forall (fun n => List.length (TaxonomyNode.internal_links_to n) <= 10)
       (Taxonomy.nodes (TaxonomyBuilder.build o niche))
     /\ count is_level_1 (Taxonomy.nodes (TaxonomyBuilder.build o niche)) <= 15)
  /\ (forall (o : Ontology.t) (tx : Taxonomy.t) (qcs : list QueryCluster.t),
        Forall (fun h => List.length (ContentHub.cluster_pages h) <= 10)
          (HubDesigner.design_all_hubs o tx qcs)).
Proof.
  split.
  - intros o niche. destruct (build_nodes o niche) as (f & Hskel & Hlinks & ->). split.
    + apply List.Forall_forall. intros n Hin. apply List.in_map_iff in Hin.
      destruct Hin as [n0 [<- _]]. apply Hlinks.
    + rewrite count_map by (apply skeleton_level_1, Hskel). apply tree_level_1_count.
  - intros o tx qcs.
    eapply Forall2_right_Forall;
      [| exact (Forall2_with_left _ _ _ _ (designed_hubs o tx qcs)
                  (design_all_hubs_finished o tx qcs))].
    intros h0 h [(e & nid & ->) (extra & _ & ->)].
    apply (design_hub_spec (HubDesigner.init o tx qcs) e nid).
Qed.

(** C7, as the code has it.  A hub designed for an entity without related
    entities has a pillar page and no supporting page.  Its coverage score
    is the mean of the intent coverage and the link density when no query
    cluster has the entity as its primary entity; when a cluster has, the
    query coverage is the third score of the mean. *)
Theorem C7_hub_without_related_entities (o : Ontology.t) (tx : Taxonomy.t)
    (qcs : list QueryCluster.t) (h : ContentHub.t) :
  In h (HubDesigner.design_all_hubs o tx qcs) ->
  Ontology.get_related_entities o (ContentHub.primary_entity_id h) = [] ->
  (exists p, ContentHub.pillar_page h = Some p /\ HubPage.page_type p = "pillar")
  /\ ContentHub.supporting_pages h = []
  /\ ((forall qc, In qc qcs ->
         QueryCluster.primary_entity_id qc <> ContentHub.primary_entity_id h) ->
      ContentHub.coverage_score h
      = mean [HubDesigner.intent_coverage h; HubDesigner.link_coverage h])
  /\ (forall qc,
        OrderedDict.get (ContentHub.primary_entity_id h)
          (HubDesigner.query_map (HubDesigner.init o tx qcs)) = Some qc ->
        In qc qcs
        /\ QueryCluster.primary_entity_id qc = ContentHub.primary_entity_id h
        /\ ContentHub.coverage_score h
           = mean [HubDesigner.query_coverage qc h; HubDesigner.intent_coverage h;
                   HubDesigner.link_coverage h]).
Proof.
  intros Hin Hrel.
  destruct (design_all_hubs_In o tx qcs h Hin) as (e & nid & extra & ->).
  destruct (design_hub_spec (HubDesigner.init o tx qcs) e nid)
    as (Hpid & (p & Hp & Hty) & _ & _ & Hsup).
  cbn zeta in *. set (h0 := HubDesigner._design_hub _ e nid) in *. clearbody h0.
  destruct (finished_fields (designed o tx qcs) extra h0)
    as (Hfpid & _ & Hfsup & _ & _ & Hcov).
  rewrite Hfpid, Hpid in *.
  split; [| split; [| split]].
  - rewrite (finished_pillar _ _ _ _ Hp). eexists. split; [reflexivity | exact Hty].
  - rewrite Hfsup. apply Hsup, Hrel.
  - intros Hnone.
    assert (Hget : OrderedDict.get (Entity.id e)
                     (HubDesigner.query_map (HubDesigner.init o tx qcs)) = None).
    { unfold HubDesigner.init. cbn [HubDesigner.query_map].
      apply query_map_get_None. split; [reflexivity | exact Hnone]. }
    rewrite Hcov. unfold HubDesigner.coverage_scores. rewrite Hfpid.
    change (HubDesigner.query_map (designed o tx qcs))
      with (HubDesigner.query_map (HubDesigner.init o tx qcs)).
    rewrite Hget. reflexivity.
  - intros qc Hget.
    assert (Hqc : In qc qcs /\ QueryCluster.primary_entity_id qc = Entity.id e).
    { unfold HubDesigner.init in Hget. cbn [HubDesigner.query_map] in Hget.
      destruct (query_map_get_Some _ _ _ _ Hget) as [Hd | Hqc]; [discriminate | exact Hqc]. }
    split; [apply Hqc | split; [apply Hqc |]].
    rewrite Hcov. unfold HubDesigner.coverage_scores. rewrite Hfpid.
    change (HubDesigner.query_map (designed o tx qcs))
      with (HubDesigner.query_map (HubDesigner.init o tx qcs)).
    rewrite Hget. reflexivity.
Qed.

(** C7 at the hub of the brand in a run of the pipeline with brand "Acme"
    and seeds "crm" and "crm tools". *)
Lemma C7_brand_hub_of_plain_run :
  let o := Pipeline.ontology plain_run in
  let h := acme_hub in
  (exists p, ContentHub.pillar_page h = Some p /\ HubPage.page_type p = "pillar")
  /\ ContentHub.supporting_pages h = []
  /\ ((forall qc, In qc (Pipeline.query_clusters plain_run) ->
         QueryCluster.primary_entity_id qc <> ContentHub.primary_entity_id h) ->
      ContentHub.coverage_score h
      = mean [HubDesigner.intent_coverage h; HubDesigner.link_coverage h])
  /\ (forall qc,
        OrderedDict.get (ContentHub.primary_entity_id h)
          (HubDesigner.query_map
             (HubDesigner.init o (Pipeline.taxonomy plain_run)
                (Pipeline.query_clusters plain_run))) = Some qc ->
        In qc (Pipeline.query_clusters plain_run)
        /\ QueryCluster.primary_entity_id qc = ContentHub.primary_entity_id h
        /\ ContentHub.coverage_score h
           = mean [HubDesigner.query_coverage qc h; HubDesigner.intent_coverage h;
                   HubDesigner.link_coverage h]).
Proof.
  intros o h.
  apply (C7_hub_without_related_entities o (Pipeline.taxonomy plain_run)
           (Pipeline.query_clusters plain_run) h).
  - vm_compute. right. right. left. reflexivity.
  - vm_compute. reflexivity.
Defined.

(** C7, where the claim as stated fails: in the same run the hub of the
    brand has no related entity, yet the brand has a query cluster, and the
    coverage score 13/15 is the mean of three scores, not the mean 4/5 of
    the intent coverage and the link density. *)
Lemma C7_query_coverage_not_omitted :
  let o := Pipeline.ontology plain_run in
  let h := acme_hub in
  In h (HubDesigner.design_all_hubs o (Pipeline.taxonomy plain_run)
          (Pipeline.query_clusters plain_run))
  /\ ContentHub.name h = "Acme"
  /\ Ontology.get_related_entities o (ContentHub.primary_entity_id h) = []
  /\ (exists p, ContentHub.pillar_page h = Some p)
  /\ ContentHub.supporting_pages h = []
  /\ (ContentHub.coverage_score h == 13 # 15)%Q
  /\ (mean [HubDesigner.intent_coverage h; HubDesigner.link_coverage h] == 4 # 5)%Q
  /\ ~ (ContentHub.coverage_score h
        == mean [HubDesigner.intent_coverage h; HubDesigner.link_coverage h])%Q.
Proof.
  intros o h.
  split; [vm_compute; right; right; left; reflexivity |].
  split; [vm_compute; reflexivity |].
  split; [vm_compute; reflexivity |].
  split; [vm_compute; eexists; reflexivity |].
  split; [vm_compute; reflexivity |].
  split; [vm_compute; reflexivity |].
  split; [vm_compute; reflexivity |].
  vm_compute. discriminate.
Qed.

(** C10.  Every hub [design_all_hubs] returns is a designed hub whose
    pillar page got, from the hub-linking pass, links [extra] to pillar
    pages of hubs, and whose coverage score was then computed.  Its
    [internal_link_count] is the number of links the designed hub had, so
    the links of its pages outnumber it by the length of [extra]; the link
    density of the coverage score reads that stale count. *)
Theorem C10_link_count_excludes_hub_links (o : Ontology.t) (tx : Taxonomy.t)
    (qcs : list QueryCluster.t) :
  Forall2
    (fun h0 h =>
       exists extra,
         Forall (fun x => In x (pillar_ids (HubDesigner.hubs (designed o tx qcs)))) extra
         /\ pillar_links h = pillar_links h0 ++ extra
         /\ ContentHub.cluster_pages h = ContentHub.cluster_pages h0
         /\ ContentHub.supporting_pages h = ContentHub.supporting_pages h0
         /\ ContentHub.internal_link_count h0 = ContentHub.link_count h0
         /\ ContentHub.internal_link_count h = ContentHub.link_count h0
         /\ ContentHub.link_count h = ContentHub.link_count h0 + List.length extra
         /\ HubDesigner.link_coverage h
            = min_one (inject_Z (Z.of_nat (ContentHub.link_count h0))
                       / inject_Z (Z.of_nat (Nat.max (List.length (ContentHub.all_pages h) * 3) 1)))%Q
         /\ ContentHub.coverage_score h
            = mean (HubDesigner.coverage_scores (designed o tx qcs) h))
    (HubDesigner.hubs (designed o tx qcs))
    (HubDesigner.design_all_hubs o tx qcs).
Proof.
  eapply List.Forall2_impl;
    [| exact (Forall2_with_left _ _ _ _ (designed_hubs o tx qcs)
                (design_all_hubs_finished o tx qcs))].
  intros h0 h [(e & nid & ->) (extra & Hextra & ->)].
  destruct (design_hub_spec (HubDesigner.init o tx qcs) e nid)
    as (_ & (p & Hp & _) & _ & Hcount & _).
  cbn zeta in *. set (h0 := HubDesigner._design_hub _ e nid) in *. clearbody h0.
  destruct (finished_fields (designed o tx qcs) extra h0)
    as (_ & Hcl & Hsup & Hic & Hpages & Hcov).
  assert (Hlc : ContentHub.link_count (finished (designed o tx qcs) extra h0)
                = ContentHub.link_count h0 + List.length extra).
  { unfold ContentHub.link_count at 1. rewrite Hpages.
    apply (link_count_extend_pillar extra h0 p Hp). }
  exists extra.
  split; [exact Hextra |].
  split; [unfold pillar_links; now rewrite (finished_pillar _ _ _ _ Hp), Hp |].
  split; [exact Hcl |].
  split; [exact Hsup |].
  split; [exact Hcount |].
  split; [now rewrite Hic |].
  split; [exact Hlc |].
  split; [| exact Hcov].
  unfold HubDesigner.link_coverage. now rewrite Hic, Hcount.
Qed.

(** C10 at the hub of the seed "crm" in a run of the pipeline: the pillar
    page links to the ten cluster pages and to the pillar page of the hub of
    the brand; the pages of the hub hold 42 links, [internal_link_count]
    is 41. *)
Example C10_crm_hub_link_count :
  pillar_links crm_hub
  = ["hub_2c0f1c85_cluster_definitional"; "hub_2c0f1c85_cluster_how_to";
     "hub_2c0f1c85_cluster_comparison"; "hub_2c0f1c85_cluster_problems";
     "hub_2c0f1c85_cluster_benefits"; "hub_2c0f1c85_cluster_examples";
     "hub_2c0f1c85_cluster_pricing"; "hub_2c0f1c85_cluster_reviews";
     "hub_2c0f1c85_cluster_integration"; "hub_2c0f1c85_cluster_advanced";
     "hub_78d17562_pillar"]
  /\ option_map HubPage.id (ContentHub.pillar_page acme_hub) = Some "hub_78d17562_pillar"
  /\ ContentHub.link_count crm_hub = 42
  /\ ContentHub.internal_link_count crm_hub = 41.
Proof.
  split; [vm_compute; reflexivity |].
  split; [vm_compute; reflexivity |].
  split; vm_compute; reflexivity.
Qed.

(** C3.  The claim does not hold of the code: the root node and the
    category nodes share one dictionary keyed by [_generate_node_id], so a
    [core] entity whose normalized name is the normalized niche replaces the
    root node by a category node that is its own parent.  With niche
    "Project Management" and seeds "project management" and "task tracking"
    the taxonomy has no node without parent, and the node
    "project management" is its own parent. *)
Theorem C3_root_replaced_by_category :
  Taxonomy.get_root_nodes niche_seed_taxonomy = []
  /\ (exists n,
        In n (Taxonomy.nodes niche_seed_taxonomy)
        /\ TaxonomyNode.name n = "project management"
        /\ TaxonomyNode.level n = 1
        /\ TaxonomyNode.parent_id n = Some (TaxonomyNode.id n)
        /\ ancestor (Taxonomy.nodes niche_seed_taxonomy)
             (TaxonomyNode.id n) (TaxonomyNode.id n))
  /\ ~ well_formed_tree (Taxonomy.nodes niche_seed_taxonomy).
Proof.
  assert (Hnodes : exists n rest,
             Taxonomy.nodes niche_seed_taxonomy = n :: rest
             /\ TaxonomyNode.name n = "project management"
             /\ TaxonomyNode.level n = 1
             /\ TaxonomyNode.parent_id n = Some (TaxonomyNode.id n)
             /\ List.filter is_root (n :: rest) = []).
  { vm_compute. do 2 eexists.
    split; [reflexivity |]. split; [reflexivity |]. split; [reflexivity |].
    split; reflexivity. }
  destruct Hnodes as (n & rest & Hn & Hname & Hlevel & Hparent & Hroots).
  unfold Taxonomy.get_root_nodes, well_formed_tree, count. fold is_root.
  rewrite Hn, Hroots.
  split; [reflexivity | split].
  - exists n. split; [now left |]. split; [exact Hname |]. split; [exact Hlevel |].
    split; [exact Hparent |].
    exact (ancestor_parent (n :: rest) n (TaxonomyNode.id n) (or_introl eq_refl) Hparent).
  - intros (Hone & _). discriminate Hone.
Qed.

(** The case that C3 misses is the only one: when the niche and the names
    of the entities of the ontology all get different node identifiers, the
    taxonomy [TaxonomyBuilder.build] returns is a well-formed tree. *)
Theorem tree_well_formed_without_collision `{SetIteration} (o : Ontology.t)
    (niche : string) :
  node_ids_distinct o niche ->
  well_formed_tree (Taxonomy.nodes (TaxonomyBuilder.build o niche)).
Proof.
  intros Hnd. destruct (build_nodes o niche) as (f & Hskel & _ & ->).
  apply (tree_shaped_well_formed o niche); [exact Hnd |].
  apply tree_shaped_map; [exact Hskel |]. now apply build_tree_shaped.
Qed.

(** The taxonomy of scenario 2 is a well-formed tree. *)
Lemma tools_taxonomy_well_formed :
  well_formed_tree
    (Taxonomy.nodes (@TaxonomyBuilder.build insertion_order tools_expanded "Project Management")).
Proof.
  apply (@tree_well_formed_without_collision insertion_order).
  unfold node_ids_distinct. vm_compute.
  repeat (constructor; [simpl; intros Hin; decompose [or] Hin; try discriminate; assumption |]).
  constructor.
Defined.

(* ===================================================================== *)
(** * Further properties of the code *)
(* ===================================================================== *)

From Stdlib Require Import Lqa Sorted.

(** ** Strings *)

Lemma length_append (a b : string) :
  String.length (a +:+ b) = String.length a + String.length b.
Proof.
  induction a as [|c a IH]; [reflexivity |].
  rewrite append_cons. cbn [String.length]. now rewrite IH.
Qed.

Lemma lower_length (s : string) : String.length (PyStr.lower s) = String.length s.
Proof. induction s as [|c s IH]; [reflexivity |]. cbn. now rewrite IH. Qed.

Lemma lower_app (a b : string) :
  PyStr.lower (a +:+ b) = PyStr.lower a +:+ PyStr.lower b.
Proof.
  induction a as [|c a IH]; [reflexivity |].
  rewrite append_cons. cbn [PyStr.lower]. now rewrite IH, append_cons.
Qed.

Lemma all_chars_app (f : ascii -> bool) (a b : string) :
  PyStr.all_chars f (a +:+ b) = PyStr.all_chars f a && PyStr.all_chars f b.
Proof.
  induction a as [|c a IH]; [reflexivity |].
  rewrite append_cons. cbn [PyStr.all_chars]. rewrite IH. now rewrite andb_assoc.
Qed.

Lemma all_chars_weaken (f g : ascii -> bool) (s : string) :
  (forall c, f c = true -> g c = true) ->
  PyStr.all_chars f s = true -> PyStr.all_chars g s = true.
Proof.
  intros Hfg. induction s as [|c s IH]; [reflexivity |].
  cbn. rewrite !andb_true_iff. intros [Hc Hs]. split; [now apply Hfg | now apply IH].
Qed.

Lemma all_chars_take (f : ascii -> bool) (n : nat) (s : string) :
  PyStr.all_chars f s = true -> PyStr.all_chars f (PyStr.take n s) = true.
Proof.
  revert s. induction n as [|n IH]; intros [|c s]; try reflexivity.
  cbn. rewrite !andb_true_iff. intros [Hc Hs]. split; [exact Hc | now apply IH].
Qed.

Lemma take_length (n : nat) (s : string) :
  String.length (PyStr.take n s) = Nat.min n (String.length s).
Proof.
  revert s. induction n as [|n IH]; intros [|c s]; try reflexivity.
  cbn. now rewrite IH.
Qed.

(** ** The shape of the identifiers *)

Lemma hex_digit_slug (n : Z) :
  (0 <= n < 16)%Z -> PyStr.is_slug_char (MD5.hex_digit n) = true.
Proof.
  intros Hn.
  assert (Hcases : In n (List.map Z.of_nat (seq 0 16))).
  { replace n with (Z.of_nat (Z.to_nat n)) by lia.
    apply in_map, in_seq. lia. }
  cbn in Hcases. decompose [or] Hcases; subst; try reflexivity. contradiction.
Qed.

Lemma hex_spec (bs : list Z) :
  Forall (fun b => 0 <= b < 256)%Z bs ->
  PyStr.all_chars PyStr.is_slug_char (MD5.hex bs) = true
  /\ String.length (MD5.hex bs) = 2 * List.length bs.
Proof.
  induction 1 as [|b bs Hb _ [IHc IHl]]; [now split |].
  cbn [MD5.hex PyStr.all_chars String.length List.length].
  rewrite IHc, IHl. split; [| lia].
  rewrite !hex_digit_slug; [reflexivity | |].
  - rewrite (Z.land_ones b 4 ltac:(lia) : Z.land b 15 = _).
    apply Z.mod_pos_bound. lia.
  - rewrite Z.shiftr_div_pow2 by lia. change (2 ^ 4)%Z with 16%Z.
    split; [apply Z.div_pos; lia | apply Z.div_lt_upper_bound; lia].
Qed.

Lemma le_bytes_spec (n : nat) (x : Z) :
  Forall (fun b => 0 <= b < 256)%Z (MD5.le_bytes n x)
  /\ List.length (MD5.le_bytes n x) = n.
Proof.
  revert x. induction n as [|n IH]; intros x; [now split |].
  cbn [MD5.le_bytes List.length]. destruct (IH (Z.shiftr x 8)) as [IHf IHl].
  split; [| now rewrite IHl].
  constructor; [| exact IHf].
  rewrite (Z.land_ones x 8 ltac:(lia) : Z.land x 255 = _).
  apply Z.mod_pos_bound. lia.
Qed.

Lemma hexdigest_spec (s : string) :
  PyStr.all_chars PyStr.is_slug_char (MD5.hexdigest s) = true
  /\ String.length (MD5.hexdigest s) = 32.
Proof.
  unfold MD5.hexdigest, MD5.digest.
  set (st := MD5.blocks _ _ _).
  destruct (le_bytes_spec 4 (MD5.sa st)) as [Ha La], (le_bytes_spec 4 (MD5.sb st)) as [Hb Lb],
    (le_bytes_spec 4 (MD5.sc st)) as [Hc Lc], (le_bytes_spec 4 (MD5.sd st)) as [Hd Ld].
  destruct (hex_spec (MD5.le_bytes 4 (MD5.sa st) ++ MD5.le_bytes 4 (MD5.sb st)
                      ++ MD5.le_bytes 4 (MD5.sc st) ++ MD5.le_bytes 4 (MD5.sd st)))
    as [Hall Hlen].
  { repeat (apply Forall_app; split); assumption. }
  split; [exact Hall |]. rewrite Hlen, !length_app, La, Lb, Lc, Ld. reflexivity.
Qed.

Lemma sub_non_alnum_go_chars (in_run : bool) (s : string) :
  PyStr.all_chars is_id_char (PyStr.sub_non_alnum_go in_run s) = true.
Proof.
  revert in_run. induction s as [|c s IH]; intros in_run; [reflexivity |].
  cbn [PyStr.sub_non_alnum_go]. destruct (PyStr.is_slug_char c) eqn:Hc.
  - cbn [PyStr.all_chars]. unfold is_id_char at 1. now rewrite Hc, IH.
  - destruct in_run; [apply IH |]. cbn [PyStr.all_chars]. now rewrite IH.
Qed.

Lemma slug_char_id_char (c : ascii) : PyStr.is_slug_char c = true -> is_id_char c = true.
Proof. unfold is_id_char. now intros ->. Qed.

(** ** Scores *)

Lemma ratio_nonneg (a b : nat) :
  (0 <= inject_Z (Z.of_nat a) / inject_Z (Z.of_nat b))%Q.
Proof.
  apply Qmult_le_0_compat; [| apply Qinv_le_0_compat];
    (rewrite <- (Zle_Qle 0); lia).
Qed.

Lemma min_one_le_1 (x : Q) : (min_one x <= 1)%Q.
Proof.
  unfold min_one. destruct (Qle_bool 1 x) eqn:E; [apply Qle_refl |].
  apply Qlt_le_weak, Qnot_le_lt. intros Hle.
  apply Qle_bool_iff in Hle. congruence.
Qed.

Lemma min_one_ge (a x : Q) : (a <= 1)%Q -> (a <= x)%Q -> (a <= min_one x)%Q.
Proof. intros H1 Hx. unfold min_one. now destruct (Qle_bool 1 x). Qed.

Lemma score_range (counts : gmap string nat) (k : string) (e : Entity.t) :
  let e' := OntologyBuilder.score counts k e in
  (2 # 10 <= Entity.semantic_centrality e')%Q
  /\ (Entity.semantic_centrality e' <= 1)%Q
  /\ Entity.type e' = Entity.type e
  /\ Entity.commercial_value e' = OntologyBuilder.commercial_value_of (Entity.type e).
Proof.
  unfold OntologyBuilder.score. cbn.
  split; [| split; [apply min_one_le_1 | split; reflexivity]].
  apply min_one_ge; [discriminate |].
  rewrite <- (Qplus_0_l (2 # 10)) at 1. apply Qplus_le_compat; [| apply Qle_refl].
  apply ratio_nonneg.
Qed.

(** ** The relationships of a built ontology *)

Lemma find_entity_by_id (l : list Entity.t) (i : string) :
  In i (List.map Entity.id l) ->
  exists e, List.find (fun e => String.eqb (Entity.id e) i) l = Some e /\ Entity.id e = i.
Proof.
  induction l as [|x l IH]; cbn; [contradiction |].
  destruct (String.eqb (Entity.id x) i) eqn:E.
  - intros _. exists x. split; [reflexivity | now apply String.eqb_eq].
  - intros [Hx | Hin]; [| now apply IH].
    apply String.eqb_neq in E. contradiction.
Qed.

Lemma keyed_keys (d : OrderedDict.t Entity.t) :
  keyed_by_id d -> OrderedDict.keys d = List.map Entity.id (OrderedDict.values d).
Proof.
  unfold keyed_by_id, OrderedDict.keys, OrderedDict.values.
  induction 1 as [|[k e] d Hk _ IH]; [reflexivity |].
  cbn in *. now rewrite IH, Hk.
Qed.

Lemma dict_get_In_keys {V : Type} (d : OrderedDict.t V) (k : string) (v : V) :
  OrderedDict.get k d = Some v -> In k (OrderedDict.keys d).
Proof.
  induction d as [|[k' v'] d IH]; cbn; [discriminate |].
  destruct (String.eqb k k') eqn:E.
  - intros _. left. symmetry. now apply String.eqb_eq.
  - intros Hg. right. now apply IH.
Qed.

(** The identifiers of the built ontology are the keys [populate] leaves. *)
Lemma build_entity_ids `{SetIteration} fetch (c : Config.t) :
  List.map Entity.id (Ontology.entities (OntologyBuilder.build fetch c))
  = List.map Entity.id
      (OrderedDict.values (OntologyBuilder.entities (OntologyBuilder.populate fetch c))).
Proof.
  destruct (build_entities fetch c) as [counts ->].
  unfold OrderedDict.values. rewrite !List.map_map.
  apply List.map_ext. intros kv. apply score_id.
Qed.

Lemma detect_endpoints `{SetIteration} (a b : Entity.t) (r : Relationship.t) :
  OntologyBuilder._detect_relationship a b = Some r ->
  (Relationship.source_id r = Entity.id a /\ Relationship.target_id r = Entity.id b)
  \/ (Relationship.source_id r = Entity.id b /\ Relationship.target_id r = Entity.id a).
Proof.
  unfold OntologyBuilder._detect_relationship.
  repeat match goal with
         | |- context [if ?b then _ else _] => destruct b
         end; intros Hr; inversion Hr; subst; cbn; auto.
Qed.

Lemma pair_edges_endpoints `{SetIteration} (l : list Entity.t) (r : Relationship.t) :
  List.NoDup (List.map Entity.id l) ->
  In r (OntologyBuilder.pair_edges l) ->
  In (Relationship.source_id r) (List.map Entity.id l)
  /\ In (Relationship.target_id r) (List.map Entity.id l)
  /\ Relationship.source_id r <> Relationship.target_id r.
Proof.
  induction l as [|e1 l IH]; cbn [OntologyBuilder.pair_edges List.map];
    [contradiction |].
  intros Hnd Hin. inversion Hnd as [|? ? Hfresh Hnd']; subst.
  apply List.in_app_or in Hin. destruct Hin as [Hin | Hin].
  - rewrite <- list_elem_of_In, list_elem_of_omap in Hin.
    destruct Hin as (e2 & He2 & Hdet). rewrite list_elem_of_In in He2.
    assert (Hid2 : In (Entity.id e2) (List.map Entity.id l)) by now apply List.in_map.
    assert (Hne : Entity.id e1 <> Entity.id e2) by (intros Heq; apply Hfresh; now rewrite Heq).
    destruct (detect_endpoints _ _ _ Hdet) as [[-> ->] | [-> ->]].
    + split; [now left | split; [now right | exact Hne]].
    + split; [now right | split; [now left | now apply not_eq_sym]].
  - destruct (IH Hnd' Hin) as (Hs & Ht & Hne).
    split; [now right | split; [now right | exact Hne]].
Qed.

Lemma brand_edges_endpoints (brand_id : string) (e : Entity.t) (r : Relationship.t) :
  In r (OntologyBuilder.brand_edges brand_id e) ->
  Relationship.source_id r = Entity.id e
  /\ Relationship.target_id r = brand_id
  /\ Entity.id e <> brand_id.
Proof.
  unfold OntologyBuilder.brand_edges.
  destruct (String.eqb (Entity.id e) brand_id) eqn:E; [contradiction |].
  apply String.eqb_neq in E. intros Hin.
  apply List.in_app_or in Hin.
  destruct Hin as [Hin | Hin];
    [destruct (EntityType_eqb (Entity.type e) CORE)
    | destruct (EntityType_eqb (Entity.type e) COMPETITOR)];
    try contradiction; destruct Hin as [<- | []]; cbn; auto.
Qed.

Lemma build_relationship_endpoints `{SetIteration} fetch (c : Config.t)
    (r : Relationship.t) :
  In r (Ontology.relationships (OntologyBuilder.build fetch c)) ->
  In (Relationship.source_id r)
    (List.map Entity.id (Ontology.entities (OntologyBuilder.build fetch c)))
  /\ In (Relationship.target_id r)
       (List.map Entity.id (Ontology.entities (OntologyBuilder.build fetch c)))
  /\ Relationship.source_id r <> Relationship.target_id r.
Proof.
  rewrite build_relationships, build_entity_ids.
  destruct (populate_spec fetch c) as (_ & _ & Hk & (b & Hb & _)).
  pose proof (populate_keys fetch c) as Hnd.
  rewrite (keyed_keys _ Hk) in Hnd.
  assert (Hbrand : In (OntologyBuilder._generate_entity_id (Config.brand_name c))
                     (List.map Entity.id
                        (OrderedDict.values
                           (OntologyBuilder.entities (OntologyBuilder.populate fetch c))))).
  { rewrite <- (keyed_keys _ Hk). exact (dict_get_In_keys _ _ _ Hb). }
  intros Hin. apply List.in_app_or in Hin. destruct Hin as [Hin | Hin].
  - apply List.in_flat_map in Hin. destruct Hin as (e & He & Hin).
    destruct (brand_edges_endpoints _ _ _ Hin) as (-> & -> & Hne).
    split; [now apply List.in_map | split; [exact Hbrand | exact Hne]].
  - now apply pair_edges_endpoints.
Qed.

(** The entities of the built ontology, scored with the counts of its own
    relationships. *)
Lemma build_entities_counts `{SetIteration} fetch (c : Config.t) :
  Ontology.entities (OntologyBuilder.build fetch c)
  = List.map
      (fun kv =>
         OntologyBuilder.score
           (OntologyBuilder.relationship_counts
              (Ontology.relationships (OntologyBuilder.build fetch c)))
           (fst kv) (snd kv))
      (OntologyBuilder.entities (OntologyBuilder.populate fetch c)).
Proof.
  unfold OntologyBuilder.build, OntologyBuilder._calculate_entity_scores,
    OntologyBuilder._infer_relationships, OntologyBuilder.with_entities,
    OntologyBuilder.with_relationships.
  cbn [Ontology.entities Ontology.relationships OntologyBuilder.relationships
       OntologyBuilder.entities OntologyBuilder.config].
  unfold OrderedDict.values. rewrite List.map_map. reflexivity.
Qed.

Lemma bump_lookup (k k' : string) (m : gmap string nat) :
  OntologyBuilder.bump k m !! k'
  = if decide (k = k') then Some (default 0 (m !! k) + 1) else m !! k'.
Proof.
  unfold OntologyBuilder.bump. apply lookup_insert.
Qed.

(** A key of the counter is an endpoint of a counted relationship. *)
Lemma relationship_counts_keys (rels : list Relationship.t) (k : string) (n : nat) :
  OntologyBuilder.relationship_counts rels !! k = Some n ->
  exists r, In r rels /\ (Relationship.source_id r = k \/ Relationship.target_id r = k).
Proof.
  unfold OntologyBuilder.relationship_counts.
  assert (Hgen : forall m,
             fold_left
               (fun m rel =>
                  OntologyBuilder.bump (Relationship.target_id rel)
                    (OntologyBuilder.bump (Relationship.source_id rel) m))
               rels m !! k = Some n ->
             m !! k <> None
             \/ exists r, In r rels
                          /\ (Relationship.source_id r = k \/ Relationship.target_id r = k)).
  { induction rels as [|r rels IH]; intros m; cbn [fold_left].
    - intros Hm. left. congruence.
    - intros Hf. destruct (IH _ Hf) as [Hm | (r' & Hin & Hr')].
      + rewrite !bump_lookup in Hm.
        destruct (decide (Relationship.target_id r = k)) as [Ht | Ht];
          [right; exists r; split; [now left | now right] |].
        destruct (decide (Relationship.source_id r = k)) as [Hs | Hs];
          [right; exists r; split; [now left | now left] |].
        now left.
      + right. exists r'. split; [now right | exact Hr']. }
  intros Hk. destruct (Hgen ∅ Hk) as [Hm | Hr]; [| exact Hr].
  now rewrite lookup_empty in Hm.
Qed.

Lemma relationship_counts_nonempty (r : Relationship.t) (rels : list Relationship.t) :
  OntologyBuilder.relationship_counts (r :: rels) <> ∅.
Proof.
  unfold OntologyBuilder.relationship_counts. cbn [fold_left].
  assert (Hgen : forall (l : list Relationship.t) m,
             m <> ∅ ->
             fold_left
               (fun m rel =>
                  OntologyBuilder.bump (Relationship.target_id rel)
                    (OntologyBuilder.bump (Relationship.source_id rel) m))
               l m <> ∅).
  { induction l as [|x l IH]; intros m Hm; cbn [fold_left]; [exact Hm |].
    apply IH. unfold OntologyBuilder.bump at 1. apply insert_non_empty. }
  apply Hgen. unfold OntologyBuilder.bump at 1. apply insert_non_empty.
Qed.

Lemma max_attained (l : list (string * nat)) :
  l <> [] -> exists kv, In kv l /\ snd kv = foldr Nat.max 0 (List.map snd l).
Proof.
  induction l as [|kv l IH]; [congruence |]. intros _.
  destruct l as [|kv' l].
  - exists kv. split; [now left |]. cbn. lia.
  - destruct IH as (x & Hx & Hmax); [discriminate |].
    cbn [List.map foldr] in *.
    destruct (Nat.max_spec (snd kv) (Nat.max (snd kv') (foldr Nat.max 0 (List.map snd l))))
      as [[_ ->] | [_ ->]].
    + exists x. split; [now right | exact Hmax].
    + exists kv. split; [now left | reflexivity].
Qed.

(** The largest count belongs to some key, and it is positive. *)
Lemma max_rels_attained (r : Relationship.t) (rels : list Relationship.t) :
  let counts := OntologyBuilder.relationship_counts (r :: rels) in
  exists k, counts !! k = Some (OntologyBuilder.max_rels counts).
Proof.
  intros counts. unfold OntologyBuilder.max_rels.
  pose proof (relationship_counts_nonempty r rels) as Hne. fold counts in Hne.
  destruct (map_to_list counts) as [|kv l] eqn:E.
  { apply map_to_list_empty_iff in E. contradiction. }
  destruct (max_attained (kv :: l)) as ([k n] & Hin & Hmax); [discriminate |].
  exists k. rewrite <- Hmax. cbn [snd].
  apply elem_of_map_to_list. rewrite E. now apply list_elem_of_In.
Qed.

Lemma relationship_counts_positive (rels : list Relationship.t) (k : string) (n : nat) :
  OntologyBuilder.relationship_counts rels !! k = Some n -> 0 < n.
Proof.
  unfold OntologyBuilder.relationship_counts.
  assert (Hgen : forall m,
             (forall k n, m !! k = Some n -> 0 < n) ->
             forall k n,
               fold_left
                 (fun m rel =>
                    OntologyBuilder.bump (Relationship.target_id rel)
                      (OntologyBuilder.bump (Relationship.source_id rel) m))
                 rels m !! k = Some n -> 0 < n).
  { induction rels as [|r rels IH]; intros m Hm; cbn [fold_left]; [exact Hm |].
    apply IH. intros k' n'. rewrite !bump_lookup.
    destruct (decide (Relationship.target_id r = k')); [intros [= <-]; lia |].
    destruct (decide (Relationship.source_id r = k')); [intros [= <-]; lia |].
    apply Hm. }
  apply Hgen. intros k' n'. now rewrite lookup_empty.
Qed.

Lemma score_max (counts : gmap string nat) (k : string) (e : Entity.t) :
  counts !! k = Some (OntologyBuilder.max_rels counts) ->
  0 < OntologyBuilder.max_rels counts ->
  Entity.semantic_centrality (OntologyBuilder.score counts k e) = 1%Q.
Proof.
  intros Hk Hpos. unfold OntologyBuilder.score, Entity.set_scores.
  cbn [Entity.semantic_centrality]. rewrite Hk.
  change (default 0 (Some (OntologyBuilder.max_rels counts)))
    with (OntologyBuilder.max_rels counts).
  unfold min_one.
  destruct (Qle_bool 1 _) eqn:E; [reflexivity |].
  exfalso. apply not_true_iff_false in E. apply E. apply Qle_bool_iff.
  set (m := inject_Z (Z.of_nat (OntologyBuilder.max_rels counts))).
  assert (Hm : ~ (m == 0)%Q).
  { unfold m. intros Hz. unfold Qeq in Hz. cbn in Hz. lia. }
  assert (Heq : (m / m == 1)%Q) by now apply Qmult_inv_r.
  rewrite Heq. discriminate.
Qed.

Lemma dict_key_In {V : Type} (d : OrderedDict.t V) (k : string) :
  In k (OrderedDict.keys d) -> exists v, In (k, v) d.
Proof.
  unfold OrderedDict.keys. intros Hin. apply List.in_map_iff in Hin.
  destruct Hin as ([k' v] & <- & Hin). now exists v.
Qed.

(** ** Seeds and competitors become entities *)

Lemma dict_get_In_values {V : Type} (d : OrderedDict.t V) (k : string) (v : V) :
  OrderedDict.get k d = Some v -> In v (OrderedDict.values d).
Proof.
  induction d as [|[k' v'] d IH]; cbn; [discriminate |].
  destruct (String.eqb k k'); [intros [= ->]; now left | intros Hg; right; now apply IH].
Qed.

Lemma has_typed_set (P : EntityType -> Prop) (k k' : string) (e : Entity.t)
    (d : OrderedDict.t Entity.t) :
  (k' = k -> P (Entity.type e)) ->
  has_typed P k d -> has_typed P k (OrderedDict.set k' e d).
Proof.
  intros He (e0 & Hg & HP). destruct (String.eqb_spec k' k) as [-> | Hne].
  - exists e. split; [apply dict_get_set_eq | now apply He].
  - exists e0. split; [| exact HP]. now rewrite dict_get_set_ne.
Qed.

Lemma add_named_kept (P : EntityType -> Prop) (ty : EntityType) (k : string)
    (b : OntologyBuilder.t) (raw : string) :
  has_typed P k (OntologyBuilder.entities b) ->
  has_typed P k (OntologyBuilder.entities (OntologyBuilder.add_named ty b raw)).
Proof.
  intros Hk. unfold OntologyBuilder.add_named. cbv zeta.
  destruct (PyStr.is_empty (PyStr.strip raw)); [exact Hk |].
  destruct (OrderedDict.has _ _) eqn:Hhas; [exact Hk |].
  cbn [OntologyBuilder.with_entities OntologyBuilder.entities].
  apply has_typed_set; [| exact Hk].
  intros Heq. destruct Hk as (e0 & Hg & _). rewrite <- Heq in Hg.
  unfold OrderedDict.has in Hhas. now rewrite Hg in Hhas.
Qed.

Lemma fold_add_named_kept (P : EntityType -> Prop) (ty : EntityType) (k : string)
    (l : list string) (b : OntologyBuilder.t) :
  has_typed P k (OntologyBuilder.entities b) ->
  has_typed P k (OntologyBuilder.entities (fold_left (OntologyBuilder.add_named ty) l b)).
Proof.
  revert b. induction l as [|x l IH]; intros b Hk; [exact Hk |].
  cbn [fold_left]. now apply IH, add_named_kept.
Qed.

Lemma add_named_types (P : EntityType -> Prop) (ty : EntityType)
    (b : OntologyBuilder.t) (raw : string) :
  P (match ty with COMPETITOR => COMPETITOR | _ => CORE end) ->
  Forall (fun e => P (Entity.type e)) (OrderedDict.values (OntologyBuilder.entities b)) ->
  Forall (fun e => P (Entity.type e))
    (OrderedDict.values (OntologyBuilder.entities (OntologyBuilder.add_named ty b raw))).
Proof.
  intros Hty Hb. unfold OntologyBuilder.add_named.
  destruct (PyStr.is_empty (PyStr.strip raw)); [exact Hb |].
  destruct (OrderedDict.has _ _); [exact Hb |].
  cbn [OntologyBuilder.with_entities OntologyBuilder.entities].
  apply dict_values_set_Forall; [| exact Hb]. now destruct ty.
Qed.

Lemma add_named_present (P : EntityType -> Prop) (ty : EntityType)
    (b : OntologyBuilder.t) (raw : string) :
  PyStr.strip raw <> EmptyString ->
  P (match ty with COMPETITOR => COMPETITOR | _ => CORE end) ->
  Forall (fun e => P (Entity.type e)) (OrderedDict.values (OntologyBuilder.entities b)) ->
  has_typed P (OntologyBuilder._generate_entity_id (PyStr.strip raw))
    (OntologyBuilder.entities (OntologyBuilder.add_named ty b raw)).
Proof.
  intros Hraw Hty Hb. unfold OntologyBuilder.add_named.
  destruct (PyStr.strip raw) as [|ch s] eqn:Hs; [congruence |].
  cbn [PyStr.is_empty]. unfold OrderedDict.has.
  destruct (OrderedDict.get _ (OntologyBuilder.entities b)) as [e0 |] eqn:Hg.
  - exists e0. split; [exact Hg |].
    rewrite List.Forall_forall in Hb. apply Hb. exact (dict_get_In_values _ _ _ Hg).
  - cbn [OntologyBuilder.with_entities OntologyBuilder.entities].
    eexists. split; [apply dict_get_set_eq |]. now destruct ty.
Qed.

Lemma fold_add_named_present (P : EntityType -> Prop) (ty : EntityType)
    (l : list string) (b : OntologyBuilder.t) (raw : string) :
  In raw l ->
  PyStr.strip raw <> EmptyString ->
  P (match ty with COMPETITOR => COMPETITOR | _ => CORE end) ->
  Forall (fun e => P (Entity.type e)) (OrderedDict.values (OntologyBuilder.entities b)) ->
  has_typed P (OntologyBuilder._generate_entity_id (PyStr.strip raw))
    (OntologyBuilder.entities (fold_left (OntologyBuilder.add_named ty) l b)).
Proof.
  intros Hin Hraw Hty. revert b.
  induction l as [|x l IH]; intros b Hb; [contradiction |].
  cbn [fold_left]. destruct Hin as [-> | Hin].
  - apply fold_add_named_kept. now apply add_named_present.
  - apply IH; [exact Hin |]. now apply add_named_types.
Qed.

Lemma fold_add_named_types (P : EntityType -> Prop) (ty : EntityType)
    (l : list string) (b : OntologyBuilder.t) :
  P (match ty with COMPETITOR => COMPETITOR | _ => CORE end) ->
  Forall (fun e => P (Entity.type e)) (OrderedDict.values (OntologyBuilder.entities b)) ->
  Forall (fun e => P (Entity.type e))
    (OrderedDict.values
       (OntologyBuilder.entities (fold_left (OntologyBuilder.add_named ty) l b))).
Proof.
  intros Hty. revert b. induction l as [|x l IH]; intros b Hb; [exact Hb |].
  cbn [fold_left]. now apply IH, add_named_types.
Qed.

Lemma add_sitemap_item_kept (P : EntityType -> Prop) (k : string)
    (b : OntologyBuilder.t) (item : SitemapItem.t) :
  has_typed P k (OntologyBuilder.entities b) ->
  has_typed P k (OntologyBuilder.entities (OntologyBuilder.add_sitemap_item b item)).
Proof.
  intros Hk. unfold OntologyBuilder.add_sitemap_item. cbv zeta.
  destruct (OrderedDict.get _ (OntologyBuilder.entities b)) as [existing |] eqn:Hg;
    cbn [OntologyBuilder.with_entities OntologyBuilder.entities];
    (apply has_typed_set; [| exact Hk]); intros Heq;
    destruct Hk as (e0 & Hg0 & HP); rewrite <- Heq, Hg in Hg0; [| discriminate].
  injection Hg0 as <-. exact HP.
Qed.

Lemma extract_from_sitemap_kept fetch (P : EntityType -> Prop) (k : string)
    (b : OntologyBuilder.t) :
  has_typed P k (OntologyBuilder.entities b) ->
  has_typed P k (OntologyBuilder.entities (OntologyBuilder._extract_from_sitemap fetch b)).
Proof.
  intros Hk. unfold OntologyBuilder._extract_from_sitemap.
  destruct (Config.sitemap_url _) as [url |]; [| exact Hk].
  destruct (PyStr.is_empty url); [exact Hk |].
  destruct (fetch url) as [extracted |]; [| exact Hk].
  generalize (firstn 50 extracted). intros l. revert b Hk.
  induction l as [|x l IH]; intros b Hk; [exact Hk |].
  cbn [fold_left]. now apply IH, add_sitemap_item_kept.
Qed.

(** What the entity dictionary of [populate] holds for a seed and for a
    competitor of a configuration that is not in sitemap mode. *)
Lemma populate_named fetch (c : Config.t) (raw : string) :
  Config.source_mode c <> SITEMAP ->
  PyStr.strip raw <> EmptyString ->
  (In raw (Config.seed_entities c) ->
   has_typed is_CORE (OntologyBuilder._generate_entity_id (PyStr.strip raw))
     (OntologyBuilder.entities (OntologyBuilder.populate fetch c)))
  /\ (In raw (Config.competitors c) ->
      has_typed is_CORE_or_COMPETITOR
        (OntologyBuilder._generate_entity_id (PyStr.strip raw))
        (OntologyBuilder.entities (OntologyBuilder.populate fetch c))).
Proof.
  intros Hmode Hraw.
  assert (Hseeds :
            (In raw (Config.seed_entities c) ->
             has_typed is_CORE (OntologyBuilder._generate_entity_id (PyStr.strip raw))
               (OntologyBuilder.entities
                  (OntologyBuilder._create_from_seeds (OntologyBuilder.init c))))
            /\ (In raw (Config.competitors c) ->
                has_typed is_CORE_or_COMPETITOR
                  (OntologyBuilder._generate_entity_id (PyStr.strip raw))
                  (OntologyBuilder.entities
                     (OntologyBuilder._create_from_seeds (OntologyBuilder.init c))))).
  { unfold OntologyBuilder._create_from_seeds.
    destruct (add_named_frame CORE (Config.seed_entities
                                      (OntologyBuilder.config (OntologyBuilder.init c)))
                (OntologyBuilder.init c)) as [-> _].
    cbn [OntologyBuilder.init OntologyBuilder.config].
    split; intros Hin.
    - apply fold_add_named_kept.
      apply fold_add_named_present; [exact Hin | exact Hraw | reflexivity | constructor].
    - apply fold_add_named_present; [exact Hin | exact Hraw | now right |].
      apply (fold_add_named_types is_CORE_or_COMPETITOR CORE); [now left | constructor]. }
  assert (Hb1 : forall P k,
             has_typed P k
               (OntologyBuilder.entities
                  (OntologyBuilder._create_from_seeds (OntologyBuilder.init c))) ->
             P CORE ->
             has_typed P k (OntologyBuilder.entities (OntologyBuilder.populate fetch c))).
  { intros P k Hk HP. unfold OntologyBuilder.populate, OntologyBuilder._add_brand_entity.
    cbn [OntologyBuilder.with_entities OntologyBuilder.entities].
    apply has_typed_set; [intros _; exact HP |].
    destruct (Config.source_mode c); [congruence | exact Hk |].
    destruct (truthy _); [now apply extract_from_sitemap_kept | exact Hk]. }
  destruct Hseeds as [Hs Hc].
  split; intros Hin.
  - apply Hb1; [now apply Hs | reflexivity].
  - apply Hb1; [now apply Hc | now left].
Qed.

Lemma build_get_entity `{SetIteration} fetch (c : Config.t) (P : EntityType -> Prop)
    (k : string) :
  has_typed P k (OntologyBuilder.entities (OntologyBuilder.populate fetch c)) ->
  exists e,
    Ontology.get_entity (OntologyBuilder.build fetch c) k = Some e
    /\ Entity.id e = k /\ P (Entity.type e).
Proof.
  intros (e0 & Hg & HP).
  destruct (populate_spec fetch c) as (_ & _ & Hkeyed & _).
  unfold Ontology.get_entity. rewrite build_entities_counts.
  set (counts := OntologyBuilder.relationship_counts _).
  pose proof (keyed_map (OntologyBuilder.score counts) _ (score_id counts) Hkeyed) as Hk'.
  pose proof (keyed_find _ k Hk') as Hfind. unfold OrderedDict.values in Hfind.
  rewrite List.map_map in Hfind. cbn [snd] in Hfind.
  rewrite Hfind, dict_get_map, Hg. cbn [option_map].
  eexists. split; [reflexivity |]. rewrite score_id. split; [| exact HP].
  exact (keyed_get _ _ _ Hkeyed Hg).
Qed.

(** ** URL slugs *)

Lemma append_assoc (a b c : string) : (a +:+ b) +:+ c = a +:+ (b +:+ c).
Proof.
  induction a as [|x a IH]; [reflexivity |].
  rewrite !append_cons. now rewrite IH.
Qed.

Lemma append_empty_r (a : string) : a +:+ EmptyString = a.
Proof. induction a as [|x a IH]; [reflexivity |]. rewrite append_cons. now rewrite IH. Qed.

Lemma drop_app_length (a b : string) : PyStr.drop (String.length a) (a +:+ b) = b.
Proof.
  induction a as [|x a IH]; [now destruct b |].
  rewrite append_cons. exact IH.
Qed.

Lemma endswith_app (a p q : string) :
  String.length p = String.length q ->
  PyStr.endswith (a +:+ p) q = String.eqb p q.
Proof.
  intros Hlen. unfold PyStr.endswith, PyStr.len.
  rewrite length_append, <- Hlen.
  replace (String.length a + String.length p - String.length p) with (String.length a)
    by lia.
  rewrite drop_app_length.
  replace (Nat.leb _ _) with true; [reflexivity |].
  symmetry. apply Nat.leb_le. lia.
Qed.

Lemma url_keep_chars (s : string) :
  PyStr.all_chars (fun c => is_url_char c || PyStr.is_space c)
    (TaxonomyBuilder.url_keep s) = true.
Proof.
  induction s as [|c s IH]; [reflexivity |]. cbn [TaxonomyBuilder.url_keep].
  destruct (_ || _ || _) eqn:E; [| exact IH].
  cbn [PyStr.all_chars]. rewrite IH, andb_true_r. unfold is_url_char.
  destruct (PyStr.is_slug_char c), (PyStr.is_space c), (Ascii.eqb c "/"),
    (Ascii.eqb c "-"); try reflexivity; discriminate.
Qed.

Lemma runs_to_hyphen_chars (f g h : ascii -> bool) (in_run : bool) (s : string) :
  (forall c, g c = true -> f c = false -> h c = true) ->
  h "-"%char = true ->
  PyStr.all_chars g s = true ->
  PyStr.all_chars h (TaxonomyBuilder.runs_to_hyphen f in_run s) = true.
Proof.
  intros Hgh Hh. revert in_run. induction s as [|c s IH]; intros in_run; [reflexivity |].
  cbn [PyStr.all_chars TaxonomyBuilder.runs_to_hyphen].
  rewrite andb_true_iff. intros [Hc Hs].
  destruct (f c) eqn:Hf.
  - destruct in_run; [now apply IH |]. cbn [PyStr.all_chars]. now rewrite Hh, IH.
  - cbn [PyStr.all_chars]. now rewrite (Hgh c Hc Hf), IH.
Qed.

Lemma lstrip_by_chars (f g : ascii -> bool) (s : string) :
  PyStr.all_chars g s = true -> PyStr.all_chars g (PyStr.lstrip_by f s) = true.
Proof.
  induction s as [|c s IH]; [reflexivity |].
  cbn [PyStr.lstrip_by]. destruct (f c); [| trivial].
  cbn [PyStr.all_chars]. rewrite andb_true_iff. intros [_ Hs]. now apply IH.
Qed.

Lemma rstrip_by_chars (f g : ascii -> bool) (s : string) :
  PyStr.all_chars g s = true -> PyStr.all_chars g (PyStr.rstrip_by f s) = true.
Proof.
  induction s as [|c s IH]; [reflexivity |].
  cbn [PyStr.all_chars PyStr.rstrip_by]. rewrite andb_true_iff. intros [Hc Hs].
  specialize (IH Hs). destruct (PyStr.rstrip_by f s) as [|c' r'].
  - destruct (f c); [reflexivity |]. cbn. now rewrite Hc.
  - cbn [PyStr.all_chars] in *. now rewrite Hc, IH.
Qed.

(** What stripping leaves is empty, or begins and ends with characters
    that are not stripped. *)
Lemma lstrip_by_head (f : ascii -> bool) (s : string) :
  match PyStr.lstrip_by f s with
  | EmptyString => True
  | String c _ => f c = false
  end.
Proof.
  induction s as [|c s IH]; [exact I |].
  cbn [PyStr.lstrip_by]. destruct (f c) eqn:Hf; [exact IH | exact Hf].
Qed.

Lemma rstrip_by_head (f : ascii -> bool) (c : ascii) (s : string) :
  f c = false -> exists r, PyStr.rstrip_by f (String c s) = String c r.
Proof.
  intros Hf. cbn [PyStr.rstrip_by]. destruct (PyStr.rstrip_by f s) as [|c' r'].
  - rewrite Hf. now exists EmptyString.
  - now exists (String c' r').
Qed.

Lemma rstrip_by_last (f : ascii -> bool) (s : string) :
  PyStr.rstrip_by f s = EmptyString
  \/ exists u c, PyStr.rstrip_by f s = u +:+ String c EmptyString /\ f c = false.
Proof.
  induction s as [|x s IH]; [now left |].
  cbn [PyStr.rstrip_by]. destruct IH as [-> | (u & c & -> & Hc)].
  - destruct (f x) eqn:Hx; [now left |].
    right. exists EmptyString, x. now split.
  - right. destruct (u +:+ String c EmptyString) as [|y r] eqn:E.
    + destruct u; discriminate.
    + exists (String x u), c. rewrite append_cons, E. now split.
Qed.

Lemma has_adjacent_cons (f : ascii -> bool) (a : ascii) (s : string) :
  has_adjacent f (String a s)
  = match s with
    | String b _ => f a && f b || has_adjacent f s
    | EmptyString => false
    end.
Proof. now destruct s. Qed.

(** The output of [runs_to_hyphen] for the hyphen itself has no two
    hyphens in a row, and does not begin with one inside a run. *)
Lemma runs_to_hyphen_adjacent (f : ascii -> bool) (in_run : bool) (s : string) :
  f "-"%char = true ->
  has_adjacent f (TaxonomyBuilder.runs_to_hyphen f in_run s) = false
  /\ (in_run = true ->
      match TaxonomyBuilder.runs_to_hyphen f in_run s with
      | String c _ => f c = false
      | EmptyString => True
      end).
Proof.
  intros Hh. revert in_run. induction s as [|c s IH]; intros in_run; [now split |].
  cbn [TaxonomyBuilder.runs_to_hyphen]. destruct (f c) eqn:Hf.
  - destruct in_run.
    + apply IH.
    + split; [| discriminate]. rewrite has_adjacent_cons.
      destruct (IH true) as [Hadj Hhead]. specialize (Hhead eq_refl).
      destruct (TaxonomyBuilder.runs_to_hyphen f true s) as [|b r]; [reflexivity |].
      now rewrite Hhead, andb_false_r, Hadj.
  - split; [| now intros _]. rewrite has_adjacent_cons.
    destruct (IH false) as [Hadj _].
    destruct (TaxonomyBuilder.runs_to_hyphen f false s) as [|b r]; [reflexivity |].
    now rewrite Hf, Hadj.
Qed.

Lemma lstrip_by_adjacent (f g : ascii -> bool) (s : string) :
  has_adjacent g s = false -> has_adjacent g (PyStr.lstrip_by f s) = false.
Proof.
  induction s as [|c s IH]; [reflexivity |].
  cbn [PyStr.lstrip_by]. destruct (f c); [| trivial].
  rewrite has_adjacent_cons. destruct s as [|b r]; [reflexivity |].
  intros Hadj. apply orb_false_iff in Hadj. now apply IH.
Qed.

Lemma rstrip_by_adjacent (f g : ascii -> bool) (s : string) :
  has_adjacent g s = false -> has_adjacent g (PyStr.rstrip_by f s) = false.
Proof.
  induction s as [|c s IH]; [reflexivity |].
  rewrite has_adjacent_cons. intros Hadj. cbn [PyStr.rstrip_by].
  destruct s as [|b r].
  - cbn. now destruct (f c).
  - apply orb_false_iff in Hadj. destruct Hadj as [Hcb Hs]. specialize (IH Hs).
    cbn [PyStr.rstrip_by] in *.
    destruct (PyStr.rstrip_by f r) as [|b' r'].
    + destruct (f b).
      * now destruct (f c).
      * rewrite has_adjacent_cons. now rewrite Hcb.
    + rewrite has_adjacent_cons. now rewrite Hcb, IH.
Qed.

Lemma has_adjacent_app (f : ascii -> bool) (u v : string) (a b : ascii) :
  has_adjacent f (u +:+ String a (String b v)) = false -> f a && f b = false.
Proof.
  induction u as [|x u IH].
  - rewrite append_nil, has_adjacent_cons. intros H. now apply orb_false_iff in H.
  - rewrite append_cons, has_adjacent_cons.
    destruct (u +:+ String a (String b v)) eqn:E; [destruct u; discriminate |].
    intros H. apply orb_false_iff in H. now apply IH.
Qed.

Lemma has_adjacent_wrap (f : ascii -> bool) (x y : ascii) (t : string) :
  f x = false -> f y = false -> has_adjacent f t = false ->
  has_adjacent f (String x (t +:+ String y EmptyString)) = false.
Proof.
  intros Hx Hy Ht. rewrite has_adjacent_cons.
  assert (Hin : has_adjacent f (t +:+ String y EmptyString) = false).
  { induction t as [|a t IH]; [reflexivity |].
    rewrite append_cons, has_adjacent_cons. rewrite has_adjacent_cons in Ht.
    destruct t as [|b r].
    - rewrite append_nil. now rewrite Hy, andb_false_r.
    - apply orb_false_iff in Ht. destruct Ht as [Hab Hr].
      rewrite append_cons in *. rewrite Hab. now apply IH. }
  destruct (t +:+ String y EmptyString) as [|b r]; [reflexivity |].
  now rewrite Hx, Hin.
Qed.

(** ** The nodes of the taxonomy *)

(** The nodes [build] returns, one by one. *)
Lemma build_nodes_finish `{SetIteration} (o : Ontology.t) (niche : string) :
  Taxonomy.nodes (TaxonomyBuilder.build o niche)
  = List.map (finish_node o niche (tree_dict o niche))
      (OrderedDict.values (tree_dict o niche)).
Proof.
  unfold TaxonomyBuilder.build. cbn [Taxonomy.nodes].
  rewrite nodes_generate_seo_metadata, dict_values_map_values.
  rewrite nodes_map_internal_links, dict_values_map_values.
  rewrite nodes_generate_facets, dict_values_map_values.
  rewrite !List.map_map. reflexivity.
Qed.

Lemma dict_set_In {V : Type} (d : OrderedDict.t V) (k : string) (v : V) (kv : string * V) :
  In kv (OrderedDict.set k v d) -> kv = (k, v) \/ In kv d.
Proof.
  induction d as [|[k' v'] d IH]; cbn [OrderedDict.set].
  - intros [<- | []]. now left.
  - destruct (String.eqb_spec k k') as [-> | Hne]; cbn [In].
    + intros [<- | Hin]; [now left | right; now right].
    + intros [<- | Hin]; [right; now left |].
      destruct (IH Hin) as [-> | Hd]; [now left | right; now right].
Qed.

Lemma dict_keys_set_incl {V : Type} (d : OrderedDict.t V) (k k' : string) (v : V) :
  In k' (OrderedDict.keys d) -> In k' (OrderedDict.keys (OrderedDict.set k v d)).
Proof.
  rewrite dict_keys_set. destruct (PyStr.mem k (OrderedDict.keys d)); [trivial |].
  intros Hin. apply List.in_or_app. now left.
Qed.

Lemma dict_keys_set_new {V : Type} (d : OrderedDict.t V) (k : string) (v : V) :
  In k (OrderedDict.keys (OrderedDict.set k v d)).
Proof.
  rewrite dict_keys_set. destruct (PyStr.mem k (OrderedDict.keys d)) eqn:E.
  - now apply mem_In.
  - apply List.in_or_app. right. now left.
Qed.

Lemma closed_add_node (d : OrderedDict.t TaxonomyNode.t) (n : TaxonomyNode.t) :
  closed_dict d ->
  (forall p, TaxonomyNode.parent_id n = Some p -> In p (OrderedDict.keys d)) ->
  closed_dict (TaxonomyBuilder.add_node d n).
Proof.
  unfold closed_dict, TaxonomyBuilder.add_node. rewrite !List.Forall_forall.
  intros Hd Hn kv Hin. destruct (dict_set_In _ _ _ _ Hin) as [-> | Hin'].
  - split; [reflexivity |]. intros p Hp. now apply dict_keys_set_incl, Hn.
  - destruct (Hd kv Hin') as [Hid Hpar]. split; [exact Hid |].
    intros p Hp. now apply dict_keys_set_incl, Hpar.
Qed.

Lemma closed_id_key (d : OrderedDict.t TaxonomyNode.t) (n : TaxonomyNode.t) :
  closed_dict d -> In n (OrderedDict.values d) -> In (TaxonomyNode.id n) (OrderedDict.keys d).
Proof.
  unfold closed_dict, OrderedDict.values, OrderedDict.keys. rewrite List.Forall_forall.
  intros Hd Hin. apply List.in_map_iff in Hin. destruct Hin as ([k v] & <- & Hin).
  destruct (Hd _ Hin) as [Hid _]. cbn [fst snd] in *. rewrite Hid.
  apply List.in_map_iff. now exists (k, v).
Qed.

Lemma closed_keys_ids (d : OrderedDict.t TaxonomyNode.t) :
  closed_dict d -> OrderedDict.keys d = List.map TaxonomyNode.id (OrderedDict.values d).
Proof.
  unfold closed_dict, OrderedDict.keys, OrderedDict.values. rewrite List.map_map.
  intros Hd. apply List.map_ext_in. intros kv Hin.
  rewrite List.Forall_forall in Hd. symmetry. now apply Hd.
Qed.

Lemma add_subcategory_keys (cat_node : TaxonomyNode.t) (d : OrderedDict.t TaxonomyNode.t)
    (rel : Entity.t * Relationship.t) (k : string) :
  In k (OrderedDict.keys d) ->
  In k (OrderedDict.keys (TaxonomyBuilder.add_subcategory cat_node d rel)).
Proof.
  unfold TaxonomyBuilder.add_subcategory.
  destruct (TaxonomyBuilder.is_competitor _); [trivial |].
  destruct (TaxonomyBuilder._find_node_for_entity _ _); [trivial |].
  apply dict_keys_set_incl.
Qed.

Lemma add_subcategory_closed (cat_node : TaxonomyNode.t)
    (d : OrderedDict.t TaxonomyNode.t) (rel : Entity.t * Relationship.t) :
  In (TaxonomyNode.id cat_node) (OrderedDict.keys d) ->
  closed_dict d -> closed_dict (TaxonomyBuilder.add_subcategory cat_node d rel).
Proof.
  intros Hcat Hd. unfold TaxonomyBuilder.add_subcategory.
  destruct (TaxonomyBuilder.is_competitor _); [exact Hd |].
  destruct (TaxonomyBuilder._find_node_for_entity _ _); [exact Hd |].
  apply closed_add_node; [exact Hd |]. cbn. now intros p [= <-].
Qed.

Lemma add_subcategories_closed (o : Ontology.t) (d : OrderedDict.t TaxonomyNode.t)
    (cat_node : TaxonomyNode.t) :
  In (TaxonomyNode.id cat_node) (OrderedDict.keys d) ->
  closed_dict d ->
  closed_dict (TaxonomyBuilder.add_subcategories o d cat_node)
  /\ forall k, In k (OrderedDict.keys d) ->
               In k (OrderedDict.keys (TaxonomyBuilder.add_subcategories o d cat_node)).
Proof.
  unfold TaxonomyBuilder.add_subcategories.
  destruct (TaxonomyNode.entity_ids cat_node) as [|primary _]; [now split |].
  generalize (firstn 5 (Ontology.get_related_entities o primary)). intros rels.
  revert d. induction rels as [|rel rels IH]; intros d Hcat Hd; cbn [fold_left];
    [now split |].
  destruct (IH (TaxonomyBuilder.add_subcategory cat_node d rel)) as [Hc Hk].
  - now apply add_subcategory_keys.
  - now apply add_subcategory_closed.
  - split; [exact Hc |]. intros k Hin. now apply Hk, add_subcategory_keys.
Qed.

Lemma fold_add_subcategories_closed (o : Ontology.t) (cats : list TaxonomyNode.t)
    (d : OrderedDict.t TaxonomyNode.t) :
  Forall (fun c => In (TaxonomyNode.id c) (OrderedDict.keys d)) cats ->
  closed_dict d ->
  closed_dict (fold_left (TaxonomyBuilder.add_subcategories o) cats d).
Proof.
  revert d. induction cats as [|c cats IH]; intros d Hcats Hd; cbn [fold_left];
    [exact Hd |].
  inversion Hcats as [|? ? Hc Hrest]; subst.
  destruct (add_subcategories_closed o d c Hc Hd) as [Hclosed Hkeys].
  apply IH; [| exact Hclosed].
  apply List.Forall_impl with (2 := Hrest). intros c' Hc'. now apply Hkeys.
Qed.

Lemma fold_category_closed (root_id : string) (es : list Entity.t)
    (d : OrderedDict.t TaxonomyNode.t) :
  In root_id (OrderedDict.keys d) ->
  closed_dict d ->
  closed_dict
    (fold_left
       (fun d e => TaxonomyBuilder.add_node d (TaxonomyBuilder.category_node root_id e))
       es d).
Proof.
  revert d. induction es as [|e es IH]; intros d Hroot Hd; cbn [fold_left]; [exact Hd |].
  apply IH.
  - now apply dict_keys_set_incl.
  - apply closed_add_node; [exact Hd |]. cbn. now intros p [= <-].
Qed.

(** The dictionary of the three node-creating steps is closed, for every
    ontology and niche. *)
Lemma tree_dict_closed (o : Ontology.t) (niche : string) : closed_dict (tree_dict o niche).
Proof.
  unfold tree_dict, TaxonomyBuilder._create_subcategory_nodes, TaxonomyBuilder.with_nodes.
  cbn [TaxonomyBuilder.nodes TaxonomyBuilder.ontology].
  assert (Hcats : closed_dict
                    (TaxonomyBuilder.nodes
                       (TaxonomyBuilder._create_category_nodes
                          (TaxonomyBuilder._create_root_node
                             (TaxonomyBuilder.init o niche))))).
  { unfold TaxonomyBuilder._create_category_nodes, TaxonomyBuilder.with_nodes.
    cbn [TaxonomyBuilder.nodes TaxonomyBuilder.ontology].
    apply fold_category_closed.
    - rewrite root_key. cbn. now left.
    - constructor; [| constructor]. cbn. split; [reflexivity | discriminate]. }
  apply fold_add_subcategories_closed; [| exact Hcats].
  apply List.Forall_forall. intros c Hc. apply List.filter_In in Hc.
  now apply closed_id_key.
Qed.

(** ** Internal links of the taxonomy *)

Lemma related_links_incl (o : Ontology.t) (d : OrderedDict.t TaxonomyNode.t)
    (ids links : list string) (entity_id : string) :
  (forall n, In n (OrderedDict.values d) -> In (TaxonomyNode.id n) ids) ->
  Forall (fun l => In l ids) links ->
  Forall (fun l => In l ids) (TaxonomyBuilder.related_links o d links entity_id).
Proof.
  intros Hids. unfold TaxonomyBuilder.related_links.
  generalize (firstn 3 (Ontology.get_related_entities o entity_id)). intros rels.
  revert links. induction rels as [|rel rels IH]; intros links Hl; cbn [fold_left];
    [exact Hl |].
  apply IH. unfold TaxonomyBuilder._find_node_for_entity.
  destruct (List.find _ _) as [related_node |] eqn:Hf; [| exact Hl].
  destruct (PyStr.mem _ links); [exact Hl |].
  apply Forall_app. split; [exact Hl |]. constructor; [| constructor].
  apply Hids. now apply List.find_some in Hf.
Qed.

Lemma node_links_incl (o : Ontology.t) (d : OrderedDict.t TaxonomyNode.t)
    (ids : list string) (node : TaxonomyNode.t) :
  (forall n, In n (OrderedDict.values d) -> In (TaxonomyNode.id n) ids) ->
  (forall p, TaxonomyNode.parent_id node = Some p -> In p ids) ->
  Forall (fun l => In l ids) (TaxonomyBuilder.node_links o d node).
Proof.
  intros Hids Hparent. unfold TaxonomyBuilder.node_links. cbv zeta.
  generalize (TaxonomyNode.entity_ids node). intros es.
  match goal with
  | |- Forall _ (fold_left _ es ?acc) =>
      assert (Hl : Forall (fun x => In x ids) acc); [| revert Hl; generalize acc]
  end.
  - repeat (apply Forall_app; split).
    + destruct (TaxonomyNode.parent_id node) as [p |]; [| constructor].
      destruct (PyStr.is_empty p); constructor; [now apply Hparent | constructor].
    + apply List.Forall_forall. intros l Hl. apply firstn_In in Hl.
      apply List.in_map_iff in Hl. destruct Hl as (n & <- & Hn).
      apply List.filter_In in Hn. now apply Hids.
    + apply List.Forall_forall. intros l Hl.
      apply List.in_map_iff in Hl. destruct Hl as (n & <- & Hn).
      apply List.filter_In in Hn. now apply Hids.
  - intros links. revert links. induction es as [|e es IH]; intros links Hl;
      cbn [fold_left]; [exact Hl |].
    apply IH. now apply related_links_incl.
Qed.

Lemma finish_node_fields (o : Ontology.t) (niche : string)
    (d : OrderedDict.t TaxonomyNode.t) (n : TaxonomyNode.t) :
  TaxonomyNode.id (finish_node o niche d n) = TaxonomyNode.id n
  /\ TaxonomyNode.parent_id (finish_node o niche d n) = TaxonomyNode.parent_id n
  /\ TaxonomyNode.level (finish_node o niche d n) = TaxonomyNode.level n
  /\ TaxonomyNode.entity_ids (finish_node o niche d n) = TaxonomyNode.entity_ids n
  /\ TaxonomyNode.name (finish_node o niche d n) = TaxonomyNode.name n
  /\ TaxonomyNode.internal_links_to (finish_node o niche d n)
     = firstn 10
         (PyStr.dedupe
            (TaxonomyBuilder.node_links o
               (OrderedDict.map_values TaxonomyBuilder.node_facets d)
               (TaxonomyBuilder.node_facets n))).
Proof.
  unfold finish_node, TaxonomyBuilder.node_seo, TaxonomyBuilder.node_facets.
  destruct n as [i nm p es lv fc st sd tu il].
  destruct lv as [|[|k]]; cbn; repeat split; reflexivity.
Qed.

Lemma node_facets_fields (n : TaxonomyNode.t) :
  TaxonomyNode.id (TaxonomyBuilder.node_facets n) = TaxonomyNode.id n
  /\ TaxonomyNode.parent_id (TaxonomyBuilder.node_facets n) = TaxonomyNode.parent_id n.
Proof.
  unfold TaxonomyBuilder.node_facets. destruct n as [i nm p es lv fc st sd tu il].
  destruct lv as [|[|k]]; split; reflexivity.
Qed.

Lemma build_node_ids `{SetIteration} (o : Ontology.t) (niche : string) :
  List.map TaxonomyNode.id (Taxonomy.nodes (TaxonomyBuilder.build o niche))
  = OrderedDict.keys (tree_dict o niche).
Proof.
  rewrite build_nodes_finish, List.map_map, (closed_keys_ids _ (tree_dict_closed o niche)).
  apply List.map_ext. intros n. apply finish_node_fields.
Qed.

(** ** SEO texts and URLs of the nodes *)

Lemma is_empty_app_literal (a : string) (c : ascii) (r b : string) :
  PyStr.is_empty (a +:+ String c r +:+ b) = false.
Proof. destruct a; reflexivity. Qed.

Lemma node_seo_filled (b : TaxonomyBuilder.t) (node : TaxonomyNode.t) :
  truthy (TaxonomyNode.seo_title (TaxonomyBuilder.node_seo b node)) = true
  /\ truthy (TaxonomyNode.seo_description (TaxonomyBuilder.node_seo b node)) = true
  /\ TaxonomyNode.target_url (TaxonomyBuilder.node_seo b node) = TaxonomyNode.target_url node
  /\ TaxonomyNode.parent_id (TaxonomyBuilder.node_seo b node) = TaxonomyNode.parent_id node.
Proof.
  unfold TaxonomyBuilder.node_seo. cbv zeta.
  cbn [TaxonomyNode.set_seo TaxonomyNode.seo_title TaxonomyNode.seo_description
       TaxonomyNode.target_url TaxonomyNode.parent_id].
  split; [| split; [| split; reflexivity]].
  - destruct (truthy (TaxonomyNode.seo_title node)) eqn:Ht; [exact Ht |].
    destruct (Nat.eqb _ 1); cbn [truthy]; now rewrite is_empty_app_literal.
  - destruct (truthy (TaxonomyNode.seo_description node)) eqn:Hd; [exact Hd |].
    reflexivity.
Qed.

Lemma finish_node_seo (o : Ontology.t) (niche : string)
    (d : OrderedDict.t TaxonomyNode.t) (n : TaxonomyNode.t) :
  truthy (TaxonomyNode.seo_title (finish_node o niche d n)) = true
  /\ truthy (TaxonomyNode.seo_description (finish_node o niche d n)) = true
  /\ TaxonomyNode.target_url (finish_node o niche d n) = TaxonomyNode.target_url n.
Proof.
  unfold finish_node. cbv zeta.
  match goal with
  | |- context [TaxonomyBuilder.node_seo ?b ?m] =>
      destruct (node_seo_filled b m) as (Ht & Hd & Hu & _)
  end.
  split; [exact Ht | split; [exact Hd |]]. rewrite Hu.
  unfold TaxonomyBuilder.node_facets. destruct n as [i nm p es lv fc st sd tu il].
  destruct lv as [|[|k]]; reflexivity.
Qed.

Lemma fold_category_Forall (Q : TaxonomyNode.t -> Prop) (root_id : string)
    (es : list Entity.t) (d : OrderedDict.t TaxonomyNode.t) :
  (forall e, Q (TaxonomyBuilder.category_node root_id e)) ->
  Forall Q (OrderedDict.values d) ->
  Forall Q
    (OrderedDict.values
       (fold_left
          (fun d e => TaxonomyBuilder.add_node d (TaxonomyBuilder.category_node root_id e))
          es d)).
Proof.
  intros HQ. revert d. induction es as [|e es IH]; intros d Hd; cbn [fold_left];
    [exact Hd |].
  apply IH. unfold TaxonomyBuilder.add_node. now apply dict_values_set_Forall.
Qed.

(** A property of the root node and of every category and subcategory
    node holds of every node of the dictionary. *)
Lemma tree_dict_Forall (Q : TaxonomyNode.t -> Prop) (o : Ontology.t) (niche : string) :
  (forall n, TaxonomyNode.parent_id n = None -> TaxonomyNode.level n = 0 ->
             TaxonomyNode.target_url n = None -> Q n) ->
  (forall root_id e, Q (TaxonomyBuilder.category_node root_id e)) ->
  (forall cat_node e, Q (TaxonomyBuilder.subcategory_node cat_node e)) ->
  Forall Q (OrderedDict.values (tree_dict o niche)).
Proof.
  intros Hroot Hcat Hsub.
  unfold tree_dict, TaxonomyBuilder._create_subcategory_nodes, TaxonomyBuilder.with_nodes.
  cbn [TaxonomyBuilder.nodes TaxonomyBuilder.ontology].
  apply (subcategories_invariant (fun d => Forall Q (OrderedDict.values d))).
  - intros cat_node d rel Hd. unfold TaxonomyBuilder.add_subcategory.
    destruct (TaxonomyBuilder.is_competitor _); [exact Hd |].
    destruct (TaxonomyBuilder._find_node_for_entity _ _); [exact Hd |].
    unfold TaxonomyBuilder.add_node. now apply dict_values_set_Forall.
  - unfold TaxonomyBuilder._create_category_nodes, TaxonomyBuilder.with_nodes.
    cbn [TaxonomyBuilder.nodes TaxonomyBuilder.ontology].
    apply fold_category_Forall; [apply Hcat |].
    constructor; [| constructor]. now apply Hroot.
Qed.

(** ** Walking the tree *)

Lemma build_tree_shaped_final `{SetIteration} (o : Ontology.t) (niche : string) :
  node_ids_distinct o niche ->
  tree_shaped o niche (Taxonomy.nodes (TaxonomyBuilder.build o niche)).
Proof.
  intros Hnd. destruct (build_nodes o niche) as (f & Hskel & _ & ->).
  apply tree_shaped_map; [exact Hskel |]. now apply build_tree_shaped.
Qed.

Lemma find_node_In (tx : Taxonomy.t) (n : TaxonomyNode.t) :
  List.NoDup (List.map TaxonomyNode.id (Taxonomy.nodes tx)) ->
  In n (Taxonomy.nodes tx) ->
  Taxonomy.find_node tx (Some (TaxonomyNode.id n)) = Some n.
Proof.
  unfold Taxonomy.find_node. generalize (Taxonomy.nodes tx). intros l.
  induction l as [|x l IH]; cbn [List.map List.find]; [contradiction |].
  intros Hnd Hin. inversion Hnd as [|? ? Hx Hl]; subst.
  destruct (String.eqb_spec (TaxonomyNode.id x) (TaxonomyNode.id n)) as [Heq | Hne].
  - destruct Hin as [-> | Hin]; [reflexivity |].
    exfalso. apply Hx. rewrite Heq. now apply List.in_map.
  - destruct Hin as [-> | Hin]; [congruence | now apply IH].
Qed.

Lemma find_node_missing (tx : Taxonomy.t) (k : string) :
  ~ In k (List.map TaxonomyNode.id (Taxonomy.nodes tx)) ->
  Taxonomy.find_node tx (Some k) = None.
Proof.
  unfold Taxonomy.find_node. intros Hk.
  destruct (List.find _ _) as [n |] eqn:Hf; [| reflexivity].
  apply List.find_some in Hf. destruct Hf as [Hin Heq]. apply String.eqb_eq in Heq.
  exfalso. apply Hk. rewrite <- Heq. now apply List.in_map.
Qed.

(** The three kinds of nodes of a tree-shaped taxonomy, each with the
    nodes above it. *)
Lemma tree_shaped_cases (o : Ontology.t) (niche : string) (nodes : list TaxonomyNode.t)
    (n : TaxonomyNode.t) :
  node_ids_distinct o niche -> tree_shaped o niche nodes -> In n nodes ->
  (TaxonomyNode.parent_id n = None /\ TaxonomyNode.level n = 0
   /\ TaxonomyNode.id n = TaxonomyBuilder._generate_node_id niche)
  \/ (exists r,
        In r nodes /\ TaxonomyNode.parent_id r = None
        /\ TaxonomyNode.id r = TaxonomyBuilder._generate_node_id niche
        /\ TaxonomyNode.level n = 1
        /\ TaxonomyNode.parent_id n = Some (TaxonomyNode.id r))
  \/ (exists r c,
        In r nodes /\ TaxonomyNode.parent_id r = None
        /\ TaxonomyNode.id r = TaxonomyBuilder._generate_node_id niche
        /\ In c nodes /\ TaxonomyNode.parent_id c = Some (TaxonomyNode.id r)
        /\ TaxonomyNode.level c = 1
        /\ TaxonomyNode.level n = 2
        /\ TaxonomyNode.parent_id n = Some (TaxonomyNode.id c)).
Proof.
  intros Hnd Hshape Hn. pose proof Hshape as (Hids & Hroot & Hkinds).
  rewrite List.Forall_forall in Hkinds.
  assert (Hr : exists r, In r nodes /\ TaxonomyNode.parent_id r = None
                         /\ TaxonomyNode.id r = TaxonomyBuilder._generate_node_id niche).
  { apply List.in_map_iff in Hroot. destruct Hroot as (r & Hrid & Hrin).
    exists r. split; [exact Hrin |]. split; [| exact Hrid].
    destruct (Hkinds r Hrin) as [(_ & Hnone & _) | (e & He & Hid & _)]; [exact Hnone |].
    exfalso. apply (root_id_not_entity o niche e Hnd He). congruence. }
  destruct Hr as (r & Hrin & Hrnone & Hrid).
  assert (Hcat : forall m, In m nodes -> TaxonomyNode.level m = 1 ->
                           TaxonomyNode.parent_id m = Some (TaxonomyNode.id r)).
  { intros m Hm Hl.
    destruct (Hkinds m Hm)
      as [(_ & _ & Hl0) | (e & _ & _ & _ & [[_ Hp] | (Hl2 & _)])]; [lia | | lia].
    now rewrite Hrid. }
  destruct (Hkinds n Hn)
    as [(Hid & Hnone & Hl0) | (e & _ & _ & _ & [[Hl1 Hp] | (Hl2 & c & Hc & Hcl & Hp)])].
  - left. now repeat split.
  - right. left. exists r. rewrite Hrid. now repeat split.
  - right. right. exists r, c. repeat split; try assumption. now apply Hcat.
Qed.

Lemma get_children_In (tx : Taxonomy.t) (k : string) (n : TaxonomyNode.t) :
  In n (Taxonomy.get_children tx k)
  <-> In n (Taxonomy.nodes tx) /\ TaxonomyNode.parent_id n = Some k.
Proof.
  unfold Taxonomy.get_children. rewrite List.filter_In.
  destruct (TaxonomyNode.parent_id n) as [p |].
  - rewrite String.eqb_eq. split; intros [Hin Hp]; (split; [exact Hin | congruence]).
  - split; intros [_ Hp]; discriminate.
Qed.

Lemma get_root_nodes_In (tx : Taxonomy.t) (n : TaxonomyNode.t) :
  In n (Taxonomy.get_root_nodes tx)
  <-> In n (Taxonomy.nodes tx) /\ TaxonomyNode.parent_id n = None.
Proof.
  unfold Taxonomy.get_root_nodes. rewrite List.filter_In.
  destruct (TaxonomyNode.parent_id n); split; intros [Hin Hp];
    (split; [exact Hin |]); congruence.
Qed.

(** ** The clusters the mapper builds *)

Lemma count_intent_app (i : IntentType) (l1 l2 : list Query.t) :
  count_intent i (l1 ++ l2) = count_intent i l1 + count_intent i l2.
Proof. unfold count_intent. now rewrite List.filter_app, List.length_app. Qed.

Lemma count_intent_alias_queries (i : IntentType) (entity_id : string)
    (aliases : list string) :
  count_intent i
    (List.flat_map (fun alias => QueryMapper._generate_alias_queries alias entity_id)
       aliases)
  = match i with INFORMATIONAL => 2 * List.length aliases | _ => 0 end.
Proof.
  induction aliases as [|a l IH]; [now destruct i |].
  cbn [List.flat_map]. rewrite count_intent_app, IH.
  destruct i; cbn [List.length]; try reflexivity.
  unfold count_intent. cbn. lia.
Qed.

Lemma count_intent_fanout (i : IntentType) (e : Entity.t) :
  count_intent i (QueryMapper._generate_fanout_queries e)
  = match i with
    | INFORMATIONAL => 18 | COMMERCIAL => 9 | TRANSACTIONAL => 3
    | NAVIGATIONAL | LOCAL => 0
    end.
Proof. destruct i; reflexivity. Qed.

Lemma count_intent_cluster_queries (i : IntentType) (e : Entity.t) :
  count_intent i (QueryMapper.cluster_queries e)
  = match i with
    | INFORMATIONAL => 18 + 2 * List.length (firstn 5 (Entity.aliases e))
    | COMMERCIAL => 9 | TRANSACTIONAL => 3
    | NAVIGATIONAL | LOCAL => 0
    end.
Proof.
  unfold QueryMapper.cluster_queries.
  rewrite count_intent_app, count_intent_fanout, count_intent_alias_queries.
  destruct i; lia.
Qed.

Lemma cluster_queries_length (e : Entity.t) :
  List.length (QueryMapper.cluster_queries e)
  = 30 + 2 * List.length (firstn 5 (Entity.aliases e)).
Proof.
  unfold QueryMapper.cluster_queries. rewrite List.length_app.
  replace (List.length (QueryMapper._generate_fanout_queries e)) with 30 by reflexivity.
  f_equal. induction (firstn 5 (Entity.aliases e)) as [|a l IH]; [reflexivity |].
  cbn [List.flat_map List.length]. rewrite List.length_app, IH. cbn. lia.
Qed.

Lemma fold_add_query_fields (qs : list Query.t) (c : QueryCluster.t) :
  QueryCluster.id (fold_left QueryCluster.add_query qs c) = QueryCluster.id c
  /\ QueryCluster.primary_entity_id (fold_left QueryCluster.add_query qs c)
     = QueryCluster.primary_entity_id c
  /\ QueryCluster.primary_entity_name (fold_left QueryCluster.add_query qs c)
     = QueryCluster.primary_entity_name c
  /\ (Forall (fun q => Query.estimated_volume q = None) qs ->
      QueryCluster.total_estimated_volume (fold_left QueryCluster.add_query qs c)
      = QueryCluster.total_estimated_volume c).
Proof.
  revert c. induction qs as [|q qs IH]; intros c; [now repeat split |].
  cbn [fold_left]. destruct (IH (QueryCluster.add_query c q)) as (Hi & Hp & Hn & Hv).
  rewrite Hi, Hp, Hn. repeat split.
  intros Hall. inversion Hall as [|? ? Hq Hqs]; subst. rewrite (Hv Hqs).
  unfold QueryCluster.add_query. cbn. now rewrite Hq.
Qed.

Lemma cluster_queries_spec (e : Entity.t) :
  Forall
    (fun q => Query.entity_ids q = [Entity.id e] /\ Query.estimated_volume q = None
              /\ truthy (Query.fanout_pattern q) = true)
    (QueryMapper.cluster_queries e).
Proof.
  unfold QueryMapper.cluster_queries. apply Forall_app. split.
  - unfold QueryMapper._generate_fanout_queries, QUERY_FANOUT_PATTERNS.
    cbn [List.flat_map List.map firstn FanoutPattern.patterns FanoutPattern.name
         FanoutPattern.intent FanoutPattern.priority app].
    repeat (constructor; [now repeat split |]). constructor.
  - apply List.Forall_forall. intros q Hq. apply List.in_flat_map in Hq.
    destruct Hq as (a & _ & Hq). cbn in Hq.
    destruct Hq as [<- | [<- | []]]; now repeat split.
Qed.

Lemma consistent_lookup (c : QueryCluster.t) (i : IntentType) :
  statistics_consistent c ->
  QueryCluster.intent_distribution c !! IntentType_value i
  = match count_intent i (QueryCluster.queries c) with
    | O => None
    | S n => Some (S n)
    end.
Proof.
  intros (_ & _ & Hkeys).
  destruct (QueryCluster.intent_distribution c !! IntentType_value i) as [n |] eqn:E.
  - apply Hkeys in E. destruct E as (i' & Hi & -> & Hpos).
    apply IntentType_value_inj in Hi. subst i'.
    destruct (count_intent i _); [lia | reflexivity].
  - destruct (count_intent i (QueryCluster.queries c)) as [|n] eqn:Hc; [reflexivity |].
    assert (Hsome : QueryCluster.intent_distribution c !! IntentType_value i = Some (S n)).
    { apply Hkeys. exists i. rewrite Hc. split; [reflexivity | split; [reflexivity | lia]]. }
    congruence.
Qed.

(** The counter of a built cluster. *)
Lemma create_query_cluster_distribution (e : Entity.t) :
  QueryCluster.intent_distribution (QueryMapper._create_query_cluster e)
  = built_distribution (List.length (firstn 5 (Entity.aliases e))).
Proof.
  pose proof (create_query_cluster_consistent e) as Hc.
  pose proof Hc as (_ & _ & Hkeys).
  assert (Hlook : forall i,
             QueryCluster.intent_distribution (QueryMapper._create_query_cluster e)
               !! IntentType_value i
             = match i with
               | INFORMATIONAL =>
                   Some (18 + 2 * List.length (firstn 5 (Entity.aliases e)))
               | COMMERCIAL => Some 9 | TRANSACTIONAL => Some 3
               | NAVIGATIONAL | LOCAL => None
               end).
  { intros i. rewrite (consistent_lookup _ i Hc), create_query_cluster_queries,
      count_intent_cluster_queries. now destruct i. }
  apply map_eq. intros k. unfold built_distribution.
  destruct (decide (k = "informational")) as [-> | H1];
    [rewrite lookup_insert_eq; exact (Hlook INFORMATIONAL) |].
  rewrite lookup_insert_ne by congruence.
  destruct (decide (k = "commercial")) as [-> | H2];
    [rewrite lookup_insert_eq; exact (Hlook COMMERCIAL) |].
  rewrite lookup_insert_ne by congruence.
  destruct (decide (k = "transactional")) as [-> | H3];
    [rewrite lookup_insert_eq; exact (Hlook TRANSACTIONAL) |].
  rewrite lookup_insert_ne by congruence. rewrite lookup_empty.
  destruct (_ !! k) as [n |] eqn:E; [| reflexivity].
  pose proof E as E'. apply Hkeys in E'. destruct E' as (i & -> & _ & _).
  specialize (Hlook i). destruct i; cbn in *; congruence.
Qed.

Lemma built_distribution_size (k : nat) : size (built_distribution k) = 3.
Proof.
  unfold built_distribution.
  rewrite map_size_insert_None by reflexivity.
  rewrite map_size_insert_None by reflexivity.
  rewrite map_size_insert_None by reflexivity.
  now rewrite map_size_empty.
Qed.

Lemma create_query_cluster_fields (e : Entity.t) :
  QueryCluster.primary_entity_id (QueryMapper._create_query_cluster e) = Entity.id e
  /\ QueryCluster.primary_entity_name (QueryMapper._create_query_cluster e) = Entity.name e
  /\ QueryCluster.total_estimated_volume (QueryMapper._create_query_cluster e) = 0%Z.
Proof.
  unfold QueryMapper._create_query_cluster.
  destruct (fold_add_query_fields (QueryMapper.cluster_queries e)
              (QueryCluster.new
                 ("qc_" +:+ PyStr.take 8 (MD5.hexdigest (Entity.id e)))
                 (Entity.id e) (Entity.name e))) as (_ & Hp & Hn & Hv).
  split; [exact Hp | split; [exact Hn |]].
  rewrite Hv; [reflexivity |].
  eapply Forall_impl; [apply cluster_queries_spec |]. now intros q (_ & Hq & _).
Qed.

(** ** Variations of a query *)

Lemma prefix_comparable (p1 p2 s : string) :
  String.prefix p1 s = true -> String.prefix p2 s = true ->
  String.prefix p1 p2 = true \/ String.prefix p2 p1 = true.
Proof.
  revert p2 s. induction p1 as [|c p1 IH]; intros p2 s H1 H2.
  - left. now destruct p2.
  - destruct p2 as [|c2 p2]; [right; reflexivity |].
    destruct s as [|d s]; [discriminate |].
    cbn [String.prefix] in *.
    destruct (ascii_dec c d) as [-> |]; [| discriminate].
    destruct (ascii_dec c2 d) as [-> |]; [| discriminate].
    destruct (ascii_dec d d) as [_ |]; [| congruence].
    exact (IH p2 s H1 H2).
Qed.

Lemma variation_short (text entity_id pattern : string) :
  PyStr.len text < 100 ->
  QueryMapper.variation text entity_id pattern
  = [Query.make text INFORMATIONAL [entity_id] None None LOW [] (Some pattern)].
Proof.
  intros Hlen. unfold QueryMapper.variation.
  now replace (Nat.ltb (PyStr.len text) 100) with true by (symmetry; apply Nat.ltb_lt; lia).
Qed.

Lemma variation_long (text entity_id pattern : string) :
  100 <= PyStr.len text -> QueryMapper.variation text entity_id pattern = [].
Proof.
  intros Hlen. unfold QueryMapper.variation.
  now replace (Nat.ltb (PyStr.len text) 100) with false by (symmetry; apply Nat.ltb_ge; lia).
Qed.

(** What every query that [variation] returns looks like. *)
Lemma variation_spec (text entity_id pattern : string) :
  Forall
    (fun q => Query.query_text q = text /\ PyStr.len text < 100
              /\ Query.intent q = INFORMATIONAL /\ Query.priority q = LOW
              /\ Query.entity_ids q = [entity_id])
    (QueryMapper.variation text entity_id pattern).
Proof.
  unfold QueryMapper.variation. destruct (Nat.ltb (PyStr.len text) 100) eqn:E; [| constructor].
  apply Nat.ltb_lt in E. constructor; [| constructor]. now repeat split.
Qed.

Lemma endswith_suffix (a s : string) : PyStr.endswith (a +:+ s) s = true.
Proof. rewrite endswith_app by reflexivity. apply String.eqb_refl. Qed.

(** ** The report of the mapper *)

Lemma sum_values_empty : sum_values ∅ = 0.
Proof. reflexivity. Qed.

Lemma sum_values_add_count (k : string) (n : nat) (m : gmap string nat) :
  sum_values (QueryMapper.add_count k n m) = sum_values m + n.
Proof.
  unfold QueryMapper.add_count.
  destruct (m !! k) as [x |] eqn:Hk.
  - change (default 0 (Some x)) with x. rewrite <- insert_delete_eq.
    rewrite sum_values_insert_fresh by apply lookup_delete_eq.
    assert (Hm : sum_values m = x + sum_values (delete k m)).
    { rewrite <- (insert_delete_id m k x Hk) at 1.
      apply sum_values_insert_fresh, lookup_delete_eq. }
    lia.
  - change (default 0 None) with 0. rewrite sum_values_insert_fresh by exact Hk. lia.
Qed.

Lemma sum_values_map_fold_add_count (totals d : gmap string nat) :
  sum_values (map_fold QueryMapper.add_count totals d) = sum_values totals + sum_values d.
Proof.
  apply (map_fold_weak_ind
           (fun r (m : gmap string nat) => sum_values r = sum_values totals + sum_values m)).
  - rewrite sum_values_empty. lia.
  - intros i x m r Hi IH.
    rewrite sum_values_add_count, IH, sum_values_insert_fresh by exact Hi. lia.
Qed.

Lemma sum_values_fold_clusters
    (step : gmap string nat -> QueryCluster.t -> gmap string nat)
    (cs : list QueryCluster.t) (totals : gmap string nat) :
  Forall
    (fun c => forall t,
         sum_values (step t c) = sum_values t + List.length (QueryCluster.queries c))
    cs ->
  sum_values (fold_left step cs totals)
  = fold_left Nat.add (List.map (fun c => List.length (QueryCluster.queries c)) cs)
      (sum_values totals).
Proof.
  intros Hall. revert totals. induction Hall as [|c cs Hc _ IH]; intros totals;
    [reflexivity |].
  cbn [fold_left List.map]. now rewrite IH, Hc.
Qed.

Lemma sum_values_fold_priorities (qs : list Query.t) (totals : gmap string nat) :
  sum_values
    (fold_left
       (fun totals query =>
          QueryMapper.add_count (ContentPriority_value (Query.priority query)) 1 totals)
       qs totals)
  = sum_values totals + List.length qs.
Proof.
  revert totals. induction qs as [|q qs IH]; intros totals; cbn [fold_left List.length];
    [lia |].
  rewrite IH, sum_values_add_count. lia.
Qed.

Lemma sum_values_fold_patterns (qs : list Query.t) (totals : gmap string nat) :
  Forall (fun q => truthy (Query.fanout_pattern q) = true) qs ->
  sum_values
    (fold_left
       (fun totals query =>
          if truthy (Query.fanout_pattern query)
          then QueryMapper.add_count (default EmptyString (Query.fanout_pattern query)) 1
                 totals
          else totals)
       qs totals)
  = sum_values totals + List.length qs.
Proof.
  intros Hall. revert totals. induction Hall as [|q qs Hq _ IH]; intros totals;
    cbn [fold_left List.length]; [lia |].
  rewrite IH, Hq, sum_values_add_count. lia.
Qed.

(** ** The pages of a hub *)

Lemma link_page_fields (pillar_id : string) (cs : list HubPage.t) (p : HubPage.t) :
  HubPage.id (HubDesigner.link_page pillar_id cs p) = HubPage.id p
  /\ HubPage.page_type (HubDesigner.link_page pillar_id cs p) = HubPage.page_type p
  /\ HubPage.target_intents (HubDesigner.link_page pillar_id cs p)
     = HubPage.target_intents p
  /\ HubPage.target_queries (HubDesigner.link_page pillar_id cs p)
     = HubPage.target_queries p.
Proof.
  unfold HubDesigner.link_page.
  destruct (String.eqb (HubPage.id p) pillar_id);
    [| destruct (String.eqb (HubPage.page_type p) "cluster")]; now repeat split.
Qed.

Lemma pattern_config_intents (pattern entity_name : string) :
  incl (snd (HubDesigner._get_pattern_config pattern entity_name)) page_intents
  /\ snd (HubDesigner._get_pattern_config pattern entity_name) <> [].
Proof.
  unfold HubDesigner._get_pattern_config. cbn [OrderedDict.get].
  repeat match goal with
         | |- context [String.eqb pattern ?s] => destruct (String.eqb pattern s)
         end;
    cbn [default from_option id snd]; (split; [| discriminate]);
    intros i Hi; cbn [In] in Hi; unfold page_intents; cbn [In];
    decompose [or] Hi; subst; tauto.
Qed.

Lemma cluster_page_fresh (e : Entity.t) (hub_id : string) (group : string * list Query.t) :
  Forall (fresh_page hub_id "cluster" "_cluster_")
    (HubDesigner.cluster_page e hub_id group).
Proof.
  destruct group as [pattern queries]. unfold HubDesigner.cluster_page.
  destruct (Nat.ltb (List.length queries) 2); [constructor |].
  pose proof (pattern_config_intents pattern (Entity.name e)) as (Hincl & Hne).
  destruct (HubDesigner._get_pattern_config pattern (Entity.name e))
    as [[title format_type] intents].
  constructor; [| constructor]. unfold fresh_page. cbn.
  split; [reflexivity |]. split; [now exists pattern |]. split; assumption.
Qed.

Lemma create_cluster_pages_fresh (e : Entity.t) (qc : QueryCluster.t) (hub_id : string) :
  Forall (fresh_page hub_id "cluster" "_cluster_")
    (HubDesigner._create_cluster_pages e qc hub_id).
Proof.
  unfold HubDesigner._create_cluster_pages. apply List.Forall_forall. intros p Hp.
  apply firstn_In, List.in_flat_map in Hp. destruct Hp as (g & _ & Hp).
  pose proof (cluster_page_fresh e hub_id g) as Hall.
  rewrite List.Forall_forall in Hall. now apply Hall.
Qed.

Lemma create_supporting_pages_fresh (d : HubDesigner.t) (e : Entity.t) (hub_id : string) :
  Forall
    (fun p => fresh_page hub_id "supporting" "_support_" p
              /\ HubPage.target_queries p = [])
    (HubDesigner._create_supporting_pages d e hub_id).
Proof.
  unfold HubDesigner._create_supporting_pages. apply List.Forall_forall. intros p Hp.
  apply List.in_flat_map in Hp. destruct Hp as ([r rel] & _ & Hp).
  unfold HubDesigner.supporting_page in Hp.
  destruct (EntityType_eqb (Entity.type r) COMPETITOR); [contradiction |].
  destruct Hp as [<- | []]. unfold fresh_page. cbn.
  split; [| reflexivity]. split; [reflexivity |].
  split; [now eexists |]. split; [| discriminate].
  intros i [<- | []]. now left.
Qed.

(** The three groups of pages of a designed hub: the pages as they were
    created, with the links of [_map_internal_links]. *)
Lemma design_hub_pages (d : HubDesigner.t) (e : Entity.t) (nid : string) :
  exists hub_id clusters0 supporting0,
    ContentHub.pillar_page (HubDesigner._design_hub d e nid)
    = Some (HubDesigner.link_page (hub_id +:+ "_pillar") clusters0
              (HubDesigner._create_pillar_page d e hub_id))
    /\ ContentHub.cluster_pages (HubDesigner._design_hub d e nid)
       = List.map (HubDesigner.link_page (hub_id +:+ "_pillar") clusters0) clusters0
    /\ ContentHub.supporting_pages (HubDesigner._design_hub d e nid)
       = List.map (HubDesigner.link_page (hub_id +:+ "_pillar") clusters0) supporting0
    /\ Forall (fresh_page hub_id "cluster" "_cluster_") clusters0
    /\ Forall
         (fun p => fresh_page hub_id "supporting" "_support_" p
                   /\ HubPage.target_queries p = [])
         supporting0.
Proof.
  unfold HubDesigner._design_hub. cbn zeta.
  set (hub_id := "hub_" +:+ PyStr.take 8 (MD5.hexdigest (Entity.id e))).
  exists hub_id.
  exists (match OrderedDict.get (Entity.id e) (HubDesigner.query_map d) with
          | Some qc => HubDesigner._create_cluster_pages e qc hub_id
          | None => []
          end).
  exists (HubDesigner._create_supporting_pages d e hub_id).
  split; [reflexivity |]. split; [reflexivity |]. split; [reflexivity |].
  split; [| apply create_supporting_pages_fresh].
  destruct (OrderedDict.get _ _); [apply create_cluster_pages_fresh | constructor].
Qed.

(** ** The coverage score of a hub *)

Lemma min_one_ratio_range (a b : nat) :
  (0 <= min_one (inject_Z (Z.of_nat a) / inject_Z (Z.of_nat b)) <= 1)%Q.
Proof.
  split; [| apply min_one_le_1].
  apply min_one_ge; [discriminate | apply ratio_nonneg].
Qed.

Lemma nodup_intents_length (l : list IntentType) :
  List.length (List.nodup IntentType_eq_dec l) <= 5.
Proof.
  change 5 with (List.length all_intents).
  apply List.NoDup_incl_length; [apply List.NoDup_nodup |].
  intros i _. destruct i; cbn; tauto.
Qed.

Lemma nodup_page_intents_length (l : list IntentType) :
  In INFORMATIONAL l -> incl l page_intents ->
  1 <= List.length (List.nodup IntentType_eq_dec l) <= 3.
Proof.
  intros Hin Hincl. split.
  - apply (List.nodup_In IntentType_eq_dec) in Hin.
    destruct (List.nodup IntentType_eq_dec l); [contradiction | cbn; lia].
  - change 3 with (List.length page_intents).
    apply List.NoDup_incl_length; [apply List.NoDup_nodup |].
    intros i Hi. apply List.nodup_In in Hi. now apply Hincl.
Qed.

Lemma fifths (n : nat) (lo hi : nat) :
  lo <= n <= hi ->
  (inject_Z (Z.of_nat lo) / 5 <= inject_Z (Z.of_nat n) / inject_Z (Z.of_nat 5)
   <= inject_Z (Z.of_nat hi) / 5)%Q.
Proof.
  intros [Hlo Hhi]. change (inject_Z (Z.of_nat 5)) with 5%Q.
  unfold Qdiv. change (/ 5)%Q with (1 # 5)%Q.
  assert (H1 : (inject_Z (Z.of_nat lo) <= inject_Z (Z.of_nat n))%Q)
    by (rewrite <- Zle_Qle; lia).
  assert (H2 : (inject_Z (Z.of_nat n) <= inject_Z (Z.of_nat hi))%Q)
    by (rewrite <- Zle_Qle; lia).
  split; lra.
Qed.

Lemma intent_coverage_range (h : ContentHub.t) :
  (0 <= HubDesigner.intent_coverage h <= 1)%Q.
Proof.
  unfold HubDesigner.intent_coverage.
  pose proof (nodup_intents_length
                (List.flat_map HubPage.target_intents (ContentHub.all_pages h))) as Hn.
  destruct (fifths (List.length (List.nodup IntentType_eq_dec
                      (List.flat_map HubPage.target_intents (ContentHub.all_pages h))))
              0 5 (conj (Nat.le_0_l _) Hn)) as [Hlo Hhi].
  split; [apply ratio_nonneg |].
  eapply Qle_trans; [exact Hhi | discriminate].
Qed.

Lemma intent_coverage_designed (h : ContentHub.t) :
  In INFORMATIONAL (hub_intents h) -> incl (hub_intents h) page_intents ->
  (1 # 5 <= HubDesigner.intent_coverage h <= 3 # 5)%Q.
Proof.
  intros Hin Hincl. unfold HubDesigner.intent_coverage.
  destruct (fifths _ 1 3 (nodup_page_intents_length _ Hin Hincl)) as [Hlo Hhi].
  split; [exact Hlo | exact Hhi].
Qed.

Lemma mean_of_scores (q : option Q) (b c lo hi : Q) :
  (0 <= lo)%Q -> (hi <= 1)%Q ->
  match q with Some a => (0 <= a <= 1)%Q | None => True end ->
  (lo <= b <= hi)%Q -> (0 <= c <= 1)%Q ->
  (lo / 3 <= mean (match q with Some a => [a] | None => [] end ++ [b; c])
   <= (2 + hi) / 3)%Q.
Proof.
  intros Hlo Hhi Ha Hb Hc. unfold mean.
  destruct q as [a |]; cbn [app fold_left List.length].
  - change (inject_Z (Z.of_nat 3)) with 3%Q.
    unfold Qdiv. change (/ 3)%Q with (1 # 3)%Q. split; lra.
  - change (inject_Z (Z.of_nat 2)) with 2%Q.
    unfold Qdiv. change (/ 3)%Q with (1 # 3)%Q. change (/ 2)%Q with (1 # 2)%Q.
    split; lra.
Qed.

Lemma coverage_scores_shape (d : HubDesigner.t) (h : ContentHub.t) :
  HubDesigner.coverage_scores d h
  = match option_map (fun qc => HubDesigner.query_coverage qc h)
            (OrderedDict.get (ContentHub.primary_entity_id h) (HubDesigner.query_map d))
    with
    | Some a => [a]
    | None => []
    end ++ [HubDesigner.intent_coverage h; HubDesigner.link_coverage h].
Proof. unfold HubDesigner.coverage_scores. now destruct (OrderedDict.get _ _). Qed.

Lemma calculate_coverage_between (d : HubDesigner.t) (h : ContentHub.t) (lo hi : Q) :
  (0 <= lo)%Q -> (hi <= 1)%Q ->
  (lo <= HubDesigner.intent_coverage h <= hi)%Q ->
  (lo / 3 <= HubDesigner._calculate_coverage d h <= (2 + hi) / 3)%Q.
Proof.
  intros Hlo Hhi Hb. unfold HubDesigner._calculate_coverage.
  rewrite coverage_scores_shape. apply mean_of_scores; try assumption.
  - destruct (OrderedDict.get _ _); [| exact I].
    apply min_one_ratio_range.
  - apply min_one_ratio_range.
Qed.

Lemma extend_pillar_intents (extra : list string) (h : ContentHub.t) :
  hub_intents (extend_pillar extra h) = hub_intents h.
Proof.
  unfold hub_intents, ContentHub.all_pages, extend_pillar.
  cbn [ContentHub.set_pillar_page ContentHub.set_pages ContentHub.pillar_page
       ContentHub.cluster_pages ContentHub.supporting_pages].
  now destruct (ContentHub.pillar_page h).
Qed.

Lemma flat_map_link_page_intents (pillar_id : string) (cs l : list HubPage.t) :
  List.flat_map HubPage.target_intents (List.map (HubDesigner.link_page pillar_id cs) l)
  = List.flat_map HubPage.target_intents l.
Proof.
  induction l as [|p l IH]; [reflexivity |]. cbn [List.map List.flat_map].
  rewrite IH. now destruct (link_page_fields pillar_id cs p) as (_ & _ & -> & _).
Qed.

Lemma fresh_pages_intents (hub_id kind infix : string) (l : list HubPage.t) :
  Forall (fresh_page hub_id kind infix) l ->
  incl (List.flat_map HubPage.target_intents l) page_intents.
Proof.
  intros Hall i Hi. apply List.in_flat_map in Hi. destruct Hi as (p & Hp & Hi).
  rewrite List.Forall_forall in Hall. destruct (Hall p Hp) as (_ & _ & Hincl & _).
  now apply Hincl.
Qed.

Lemma design_hub_intents (d : HubDesigner.t) (e : Entity.t) (nid : string) :
  In INFORMATIONAL (hub_intents (HubDesigner._design_hub d e nid))
  /\ incl (hub_intents (HubDesigner._design_hub d e nid)) page_intents.
Proof.
  destruct (design_hub_pages d e nid) as (hub_id & cs & ss & Hp & Hc & Hs & Hcs & Hss).
  unfold hub_intents, ContentHub.all_pages. rewrite Hp, Hc, Hs.
  rewrite !List.flat_map_app, !flat_map_link_page_intents.
  cbn [List.flat_map].
  destruct (link_page_fields (hub_id +:+ "_pillar") cs
              (HubDesigner._create_pillar_page d e hub_id)) as (_ & _ & -> & _).
  cbn [HubDesigner._create_pillar_page HubPage.target_intents app].
  split; [now left |].
  intros i [<- | Hi]; [now left |].
  apply List.in_app_or in Hi. destruct Hi as [Hi | Hi].
  - exact (fresh_pages_intents _ _ _ _ Hcs i Hi).
  - apply (fresh_pages_intents hub_id "supporting" "_support_" ss); [| exact Hi].
    eapply Forall_impl; [exact Hss |]. now intros p (Hf & _).
Qed.

(** ** The links inside a hub *)

Lemma append_inj_l (a x y : string) : a +:+ x = a +:+ y -> x = y.
Proof.
  induction a as [|c a IH]; [now rewrite !append_nil |].
  rewrite !append_cons. intros [= H]. now apply IH.
Qed.

Lemma fresh_page_not_pillar (hub_id kind infix : string) (c1 : ascii) (i1 : string)
    (p : HubPage.t) :
  infix = String "_" (String c1 i1) -> c1 <> "p"%char ->
  fresh_page hub_id kind infix p ->
  String.eqb (HubPage.id p) (hub_id +:+ "_pillar") = false.
Proof.
  intros -> Hc (_ & (rest & Hid) & _). apply String.eqb_neq. rewrite Hid.
  intros Heq. apply append_inj_l in Heq. rewrite !append_cons in Heq.
  injection Heq as Heq _. now apply Hc.
Qed.

Lemma link_page_pillar (d : HubDesigner.t) (e : Entity.t) (hub_id : string)
    (cs : list HubPage.t) :
  HubDesigner.link_page (hub_id +:+ "_pillar") cs
    (HubDesigner._create_pillar_page d e hub_id)
  = HubPage.set_links (List.map HubPage.id cs) []
      (HubDesigner._create_pillar_page d e hub_id).
Proof.
  unfold HubDesigner.link_page.
  change (HubPage.id (HubDesigner._create_pillar_page d e hub_id))
    with (hub_id +:+ "_pillar").
  now rewrite String.eqb_refl.
Qed.

Lemma link_page_cluster (hub_id : string) (cs : list HubPage.t) (p : HubPage.t) :
  fresh_page hub_id "cluster" "_cluster_" p ->
  HubDesigner.link_page (hub_id +:+ "_pillar") cs p
  = HubPage.set_links
      ([hub_id +:+ "_pillar"]
       ++ firstn 2
            (List.map HubPage.id
               (List.filter (fun q => negb (String.eqb (HubPage.id q) (HubPage.id p))) cs)))
      [hub_id +:+ "_pillar"] p.
Proof.
  intros Hp. unfold HubDesigner.link_page.
  rewrite (fresh_page_not_pillar hub_id "cluster" "_cluster_" "c" "luster_" p
             eq_refl ltac:(discriminate) Hp).
  destruct Hp as (-> & _). reflexivity.
Qed.

Lemma link_page_supporting (hub_id : string) (cs : list HubPage.t) (p : HubPage.t) :
  fresh_page hub_id "supporting" "_support_" p ->
  HubDesigner.link_page (hub_id +:+ "_pillar") cs p
  = HubPage.set_links [hub_id +:+ "_pillar"] [] p.
Proof.
  intros Hp. unfold HubDesigner.link_page.
  rewrite (fresh_page_not_pillar hub_id "supporting" "_support_" "s" "upport_" p
             eq_refl ltac:(discriminate) Hp).
  destruct Hp as (-> & _). reflexivity.
Qed.

Lemma map_id_link_page (pillar_id : string) (cs l : list HubPage.t) :
  List.map HubPage.id (List.map (HubDesigner.link_page pillar_id cs) l)
  = List.map HubPage.id l.
Proof.
  rewrite List.map_map. apply List.map_ext. intros p.
  now destruct (link_page_fields pillar_id cs p) as (-> & _).
Qed.

(** ** Semantic variants *)

Lemma dedupe_go_length (l seen : list string) :
  List.length (PyStr.dedupe_go seen l) <= List.length l.
Proof.
  revert seen. induction l as [|x l IH]; intros seen; cbn [PyStr.dedupe_go List.length];
    [lia |].
  destruct (PyStr.mem x seen); [specialize (IH seen) | specialize (IH (x :: seen))];
    cbn [List.length]; lia.
Qed.

Lemma append_inj_r (a b s : string) : a +:+ s = b +:+ s -> a = b.
Proof.
  revert b. induction a as [|c a IH]; intros b Heq.
  - destruct b as [|d b]; [reflexivity |].
    apply (f_equal String.length) in Heq.
    rewrite append_nil, length_append in Heq. cbn [String.length] in Heq. lia.
  - destruct b as [|d b].
    + apply (f_equal String.length) in Heq.
      rewrite append_nil, length_append in Heq. cbn [String.length] in Heq. lia.
    + rewrite !append_cons in Heq. injection Heq as -> Heq. f_equal. now apply IH.
Qed.

Lemma NoDup_map_append (s : string) (l : list string) :
  List.NoDup l -> List.NoDup (List.map (fun m => m +:+ s) l).
Proof.
  induction 1 as [|m l Hm _ IH]; cbn [List.map]; constructor; [| exact IH].
  intros Hin. apply List.in_map_iff in Hin. destruct Hin as (m' & Heq & Hin).
  apply append_inj_r in Heq. now subst.
Qed.

Lemma leading_modifiers_NoDup : List.NoDup leading_modifiers.
Proof.
  unfold leading_modifiers.
  repeat (constructor;
          [cbn [In]; intros Hin; decompose [or] Hin; try discriminate; assumption |]).
  constructor.
Qed.

Lemma semantic_variants_eq (e : Entity.t) :
  EntitySearchExpander.generate_semantic_variants e
  = PyStr.dedupe
      ((Entity.name e :: Entity.aliases e)
       ++ List.map (fun m => m +:+ " " +:+ PyStr.lower (Entity.name e)) leading_modifiers).
Proof. reflexivity. Qed.

Lemma modified_variant_longer (m name : string) :
  m +:+ " " +:+ PyStr.lower name <> name.
Proof.
  intros Heq. apply (f_equal String.length) in Heq.
  rewrite !length_append, lower_length in Heq. cbn [String.length] in Heq. lia.
Qed.

Lemma semantic_variants_spec (e : Entity.t) :
  List.NoDup (EntitySearchExpander.generate_semantic_variants e)
  /\ 10 <= List.length (EntitySearchExpander.generate_semantic_variants e)
     <= 10 + List.length (Entity.aliases e)
  /\ (exists rest,
         EntitySearchExpander.generate_semantic_variants e = Entity.name e :: rest)
  /\ Forall
       (fun m => In (m +:+ " " +:+ PyStr.lower (Entity.name e))
                   (EntitySearchExpander.generate_semantic_variants e))
       leading_modifiers.
Proof.
  rewrite semantic_variants_eq.
  set (modified := List.map (fun m => m +:+ " " +:+ PyStr.lower (Entity.name e))
                     leading_modifiers).
  assert (Hmod : forall m, In m leading_modifiers ->
                           In (m +:+ " " +:+ PyStr.lower (Entity.name e)) modified).
  { intros m Hm. apply List.in_map_iff. now exists m. }
  split; [apply dedupe_NoDup |]. split; [split |]; [| | split].
  - change 10 with (List.length (Entity.name e :: modified)).
    apply List.NoDup_incl_length.
    + constructor.
      * intros Hin. apply List.in_map_iff in Hin. destruct Hin as (m & Heq & _).
        exact (modified_variant_longer m _ Heq).
      * apply (NoDup_map_append (" " +:+ PyStr.lower (Entity.name e))).
        exact leading_modifiers_NoDup.
    + intros x Hx. apply dedupe_In, List.in_or_app.
      destruct Hx as [<- | Hx]; [left; now left | now right].
  - unfold PyStr.dedupe.
    pose proof (dedupe_go_length ((Entity.name e :: Entity.aliases e) ++ modified) [])
      as Hlen.
    rewrite List.length_app in Hlen. cbn [List.length] in Hlen.
    replace (List.length modified) with 9 in Hlen by reflexivity. lia.
  - eexists. reflexivity.
  - apply List.Forall_forall. intros m Hm.
    apply dedupe_In, List.in_or_app. right. now apply Hmod.
Qed.

Lemma contains_prefix_app (p v : string) : PyStr.contains p (p +:+ v) = true.
Proof. apply contains_spec. exists EmptyString, v. now rewrite append_nil. Qed.

(** A variant that starts with one of the modifiers of an intent makes the
    intent covered. *)
Lemma intent_covered (mods variants : list string) (m name : string) :
  In m mods -> PyStr.lower m = m ->
  In (m +:+ " " +:+ PyStr.lower name) variants ->
  existsb
    (fun v => existsb (fun modifier => PyStr.contains modifier (PyStr.lower v)) mods)
    variants = true.
Proof.
  intros Hm Hlow Hv. apply List.existsb_exists.
  exists (m +:+ " " +:+ PyStr.lower name). split; [exact Hv |].
  apply List.existsb_exists. exists m. split; [exact Hm |].
  rewrite lower_app, Hlow. apply contains_prefix_app.
Qed.

(** ** Validation of the input *)

Lemma has_errors_app (a b : list ValidationError.t) :
  InputValidator.has_errors (a ++ b)
  = InputValidator.has_errors a || InputValidator.has_errors b.
Proof. apply List.existsb_app. Qed.

Lemma has_errors_when (b : bool) (field message : string) :
  InputValidator.has_errors (if b then [InputValidator.error field message] else []) = false ->
  b = false.
Proof. now destruct b. Qed.

Lemma brand_name_ok (b : string) :
  InputValidator.has_errors (InputValidator.validate_brand_name (Some b)) = false ->
  1 <= PyStr.len (PyStr.strip b) <= 100.
Proof.
  unfold InputValidator.validate_brand_name. cbn [truthy default from_option id].
  destruct (PyStr.is_empty b); [discriminate |]. cbn [negb].
  rewrite !has_errors_app. intros H.
  apply orb_false_iff in H. destruct H as [H1 H].
  apply orb_false_iff in H. destruct H as [H2 _].
  apply has_errors_when, Nat.ltb_ge in H1. apply has_errors_when, Nat.ltb_ge in H2.
  unfold InputValidator.MIN_BRAND_LENGTH, InputValidator.MAX_BRAND_LENGTH in *. lia.
Qed.

Lemma niche_ok (n : string) :
  InputValidator.has_errors (InputValidator.validate_niche (Some n)) = false ->
  3 <= PyStr.len (PyStr.strip n).
Proof.
  unfold InputValidator.validate_niche. cbn [truthy default from_option id].
  destruct (PyStr.is_empty n); [discriminate |]. cbn [negb].
  rewrite has_errors_app. intros H.
  apply orb_false_iff in H. destruct H as [H1 _].
  now apply has_errors_when, Nat.ltb_ge in H1.
Qed.

Lemma seed_ok (i : nat) (s : string) :
  InputValidator.has_errors (InputValidator.validate_seed i s) = false ->
  2 <= PyStr.len (PyStr.strip s) <= 100.
Proof.
  unfold InputValidator.validate_seed. cbv zeta.
  destruct (PyStr.is_empty (PyStr.strip s)); [discriminate |].
  rewrite has_errors_app. intros H.
  apply orb_false_iff in H. destruct H as [H1 H2].
  apply has_errors_when, Nat.ltb_ge in H1. apply has_errors_when, Nat.ltb_ge in H2.
  unfold InputValidator.MIN_ENTITY_LENGTH, InputValidator.MAX_ENTITY_LENGTH in *. lia.
Qed.

Lemma imap_ok {A : Type} (P : A -> Prop) (f : nat -> A -> list ValidationError.t)
    (l : list A) :
  (forall i x, InputValidator.has_errors (f i x) = false -> P x) ->
  InputValidator.has_errors (List.concat (imap f l)) = false -> Forall P l.
Proof.
  revert f. induction l as [|x l IH]; intros f Hf H; [constructor |].
  cbn [imap List.concat] in H. rewrite has_errors_app in H.
  apply orb_false_iff in H. destruct H as [Hx Hl].
  constructor; [exact (Hf 0 x Hx) |].
  apply (IH (f ∘ S)); [| exact Hl]. intros i y. apply Hf.
Qed.

Lemma seed_entities_ok (l : list string) :
  InputValidator.has_errors (InputValidator.validate_seed_entities (Some l)) = false ->
  l <> [] /\ Forall (fun s => 2 <= PyStr.len (PyStr.strip s) <= 100) l.
Proof.
  unfold InputValidator.validate_seed_entities.
  destruct l as [|x l]; [discriminate |].
  rewrite !has_errors_app. intros H.
  apply orb_false_iff in H. destruct H as [_ H].
  apply orb_false_iff in H. destruct H as [_ H].
  apply orb_false_iff in H. destruct H as [H _].
  split; [discriminate |].
  exact (imap_ok _ _ _ seed_ok H).
Qed.

Lemma sitemap_url_ok (url_ok : string -> bool) (u : option string) :
  InputValidator.has_errors (InputValidator.validate_sitemap_url url_ok u) = false ->
  exists x, u = Some x /\ PyStr.is_empty x = false /\ url_ok (PyStr.strip x) = true.
Proof.
  unfold InputValidator.validate_sitemap_url, InputValidator.is_valid_url.
  destruct u as [x |]; [| discriminate]. cbn [truthy default from_option id].
  destruct (PyStr.is_empty x) eqn:Hx; [discriminate |]. cbn [negb].
  destruct (PyStr.is_empty (PyStr.strip x)); [discriminate |].
  destruct (url_ok (PyStr.strip x)) eqn:Hok; [| discriminate].
  intros _. exists x. split; [reflexivity | split; [exact Hx | exact Hok]].
Qed.

Lemma len_not_empty (s : string) : 1 <= PyStr.len s -> PyStr.is_empty s = false.
Proof. destruct s; [cbn; lia | reflexivity]. Qed.

(** ** Sanitized names *)

Lemma remove_chars_spec (f : ascii -> bool) (s : string) :
  PyStr.all_chars (fun c => negb (f c)) (PyStr.remove_chars f s) = true.
Proof.
  induction s as [|c s IH]; [reflexivity |]. cbn [PyStr.remove_chars].
  destruct (f c) eqn:Hf; [exact IH |]. cbn [PyStr.all_chars]. now rewrite Hf, IH.
Qed.

Lemma sub_runs_chars (f g h : ascii -> bool) (rep : ascii) (in_run : bool) (s : string) :
  (forall c, g c = true -> f c = false -> h c = true) ->
  h rep = true ->
  PyStr.all_chars g s = true ->
  PyStr.all_chars h (PyStr.sub_runs f rep in_run s) = true.
Proof.
  intros Hgh Hh. revert in_run. induction s as [|c s IH]; intros in_run; [reflexivity |].
  cbn [PyStr.all_chars PyStr.sub_runs].
  rewrite andb_true_iff. intros [Hc Hs].
  destruct (f c) eqn:Hf.
  - destruct in_run; [now apply IH |]. cbn [PyStr.all_chars]. now rewrite Hh, IH.
  - cbn [PyStr.all_chars]. now rewrite (Hgh c Hc Hf), IH.
Qed.

Lemma all_chars_true (s : string) : PyStr.all_chars (fun _ => true) s = true.
Proof. induction s as [|c s IH]; [reflexivity | exact IH]. Qed.

(** The output of [sub_runs] has no two characters of the class in a row
    when the replacement is in the class, and inside a run it does not
    begin with one. *)
Lemma sub_runs_adjacent (f : ascii -> bool) (rep : ascii) (in_run : bool) (s : string) :
  f rep = true ->
  has_adjacent f (PyStr.sub_runs f rep in_run s) = false
  /\ (in_run = true ->
      match PyStr.sub_runs f rep in_run s with
      | String c _ => f c = false
      | EmptyString => True
      end).
Proof.
  intros Hrep. revert in_run. induction s as [|c s IH]; intros in_run; [now split |].
  cbn [PyStr.sub_runs]. destruct (f c) eqn:Hf.
  - destruct in_run.
    + apply IH.
    + split; [| discriminate]. rewrite has_adjacent_cons.
      destruct (IH true) as [Hadj Hhead]. specialize (Hhead eq_refl).
      destruct (PyStr.sub_runs f rep true s) as [|b r]; [reflexivity |].
      now rewrite Hhead, andb_false_r.
  - split; [| intros _; exact Hf]. rewrite has_adjacent_cons.
    destruct (IH false) as [Hadj _].
    destruct (PyStr.sub_runs f rep false s) as [|b r]; [reflexivity |].
    now rewrite Hf.
Qed.

Lemma sanitize_entity_spec (e : string) :
  InputValidator.has_char InputValidator.is_dangerous (InputValidator.sanitize_entity e)
  = false
  /\ PyStr.all_chars plain_space (InputValidator.sanitize_entity e) = true
  /\ has_adjacent PyStr.is_space (InputValidator.sanitize_entity e) = false.
Proof.
  unfold InputValidator.sanitize_entity, InputValidator.has_char.
  destruct (PyStr.is_empty e); [now repeat split |]. split; [| split].
  - apply negb_false_iff.
    apply (sub_runs_chars _ (fun c => negb (InputValidator.is_dangerous c)));
      [now intros c Hc _ | reflexivity | apply remove_chars_spec].
  - apply (sub_runs_chars _ (fun _ => true)); [| reflexivity | apply all_chars_true].
    intros c _ Hc. unfold plain_space. now rewrite Hc.
  - now apply sub_runs_adjacent.
Qed.

(** ** Entities by type *)

Lemma EntityType_eqb_eq (a b : EntityType) : EntityType_eqb a b = true <-> a = b.
Proof. destruct a, b; cbn; split; intros; congruence. Qed.

Lemma EntityType_value_inj (a b : EntityType) :
  EntityType_value a = EntityType_value b -> a = b.
Proof. destruct a, b; cbn; intros; congruence. Qed.

Lemma count_by_type_fold (es : list Entity.t) (m : gmap string nat) :
  (forall ty,
      fold_left
        (fun counts entity =>
           <[EntityType_value (Entity.type entity) :=
               default 0 (counts !! EntityType_value (Entity.type entity)) + 1]> counts)
        es m !! EntityType_value ty
      = match count (of_type ty) es with
        | O => m !! EntityType_value ty
        | S n => Some (default 0 (m !! EntityType_value ty) + S n)
        end)
  /\ (forall k, (forall ty, k <> EntityType_value ty) ->
                fold_left
                  (fun counts entity =>
                     <[EntityType_value (Entity.type entity) :=
                         default 0 (counts !! EntityType_value (Entity.type entity)) + 1]>
                       counts)
                  es m !! k
                = m !! k)
  /\ sum_values
       (fold_left
          (fun counts entity =>
             <[EntityType_value (Entity.type entity) :=
                 default 0 (counts !! EntityType_value (Entity.type entity)) + 1]> counts)
          es m)
     = sum_values m + List.length es.
Proof.
  revert m. induction es as [|e es IH]; intros m.
  - cbn [fold_left List.length]. split; [intros ty; reflexivity |].
    split; [reflexivity | lia].
  - cbn [fold_left List.length].
    destruct (IH (<[EntityType_value (Entity.type e) :=
                      default 0 (m !! EntityType_value (Entity.type e)) + 1]> m))
      as (Hty & Hother & Hsum).
    split; [| split].
    + intros ty. rewrite Hty, count_cons. unfold of_type at 2.
      destruct (EntityType_eqb (Entity.type e) ty) eqn:E.
      * apply EntityType_eqb_eq in E. rewrite E, lookup_insert_eq.
        change (default 0 (Some (default 0 (m !! EntityType_value ty) + 1)))
          with (default 0 (m !! EntityType_value ty) + 1).
        destruct (count (of_type ty) es); cbn [Nat.add]; f_equal; lia.
      * rewrite lookup_insert_ne; [reflexivity |].
        intros Heq. apply EntityType_value_inj in Heq. subst ty.
        destruct (Entity.type e); discriminate.
    + intros k Hk. rewrite (Hother k Hk). apply lookup_insert_ne. apply not_eq_sym, Hk.
    + rewrite Hsum, sum_values_bump. lia.
Qed.

Lemma populate_brand fetch (c : Config.t) :
  has_typed is_CORE (OntologyBuilder._generate_entity_id (Config.brand_name c))
    (OntologyBuilder.entities (OntologyBuilder.populate fetch c)).
Proof.
  unfold OntologyBuilder.populate. cbv zeta.
  set (b1 := match Config.source_mode c with
             | SITEMAP => _ | SEED => _ | HYBRID => _ end).
  assert (Hc : OntologyBuilder.config b1 = c).
  { destruct (populate_spec fetch c) as (Hcfg & _).
    unfold OntologyBuilder.populate in Hcfg. exact Hcfg. }
  unfold OntologyBuilder._add_brand_entity. cbv zeta. rewrite Hc.
  cbn [OntologyBuilder.with_entities OntologyBuilder.entities].
  eexists. split; [apply dict_get_set_eq | reflexivity].
Qed.

(** ** The graph of the ontology *)

Lemma built_state_ontology `{SetIteration} fetch (c : Config.t) :
  OrderedDict.values (OntologyBuilder.entities (built_state fetch c))
  = Ontology.entities (OntologyBuilder.build fetch c)
  /\ OntologyBuilder.relationships (built_state fetch c)
     = Ontology.relationships (OntologyBuilder.build fetch c).
Proof. split; reflexivity. Qed.

Lemma node_size_range (x : Q) :
  (2 # 10 <= x)%Q -> (x <= 1)%Q -> (16 <= x * 30 + 10 <= 40)%Q.
Proof. intros Hlo Hhi. split; lra. Qed.

(** ** Entity gaps *)

Lemma our_coverage_spec (o : Ontology.t) (c : string) :
  PyStr.mem (PyStr.lower c) (EntitySearchExpander.our_coverage o)
  = existsb (covers c) (Ontology.entities o).
Proof.
  apply Bool.eq_iff_eq_true. rewrite mem_In, List.existsb_exists.
  unfold EntitySearchExpander.our_coverage, covers. rewrite List.in_app_iff. split.
  - intros [Hin | Hin].
    + apply List.in_map_iff in Hin. destruct Hin as (e & Heq & He).
      exists e. split; [exact He |]. apply orb_true_iff. left.
      rewrite Heq. apply String.eqb_refl.
    + apply List.in_flat_map in Hin. destruct Hin as (e & He & Hin).
      exists e. split; [exact He |]. apply orb_true_iff. right. now apply mem_In.
  - intros (e & He & Hc). apply orb_true_iff in Hc. destruct Hc as [Hc | Hc].
    + left. apply String.eqb_eq in Hc. rewrite Hc.
      apply List.in_map_iff. now exists e.
    + right. apply List.in_flat_map. exists e. split; [exact He | now apply mem_In].
Qed.

(** ** Sorting by a pair of numbers *)

Section SortAscFacts.
Context {A : Type} (key : A -> nat * nat).

Lemma key_leb_spec (a b : nat * nat) :
  key_leb a b = true <-> fst a < fst b \/ (fst a = fst b /\ snd a <= snd b).
Proof.
  unfold key_leb. rewrite orb_true_iff, andb_true_iff, Nat.ltb_lt, Nat.eqb_eq, Nat.leb_le.
  reflexivity.
Qed.

Lemma key_leb_total (a b : nat * nat) : key_leb a b = false -> key_leb b a = true.
Proof.
  intros Hab. apply key_leb_spec.
  destruct (key_leb b a) eqn:Hba; [now apply key_leb_spec |].
  assert (H1 : ~ (fst a < fst b \/ (fst a = fst b /\ snd a <= snd b))).
  { rewrite <- key_leb_spec. congruence. }
  assert (H2 : ~ (fst b < fst a \/ (fst b = fst a /\ snd b <= snd a))).
  { rewrite <- key_leb_spec. congruence. }
  lia.
Qed.

Lemma key_leb_trans (a b c : nat * nat) :
  key_leb a b = true -> key_leb b c = true -> key_leb a c = true.
Proof. rewrite !key_leb_spec. lia. Qed.

Lemma key_leb_refl (a : nat * nat) : key_leb a a = true.
Proof. apply key_leb_spec. lia. Qed.

Lemma insert_asc_perm (x : A) (l : list A) :
  Permutation (insert_asc key x l) (x :: l).
Proof.
  induction l as [|y r IH]; cbn [insert_asc]; [reflexivity |].
  destruct (key_leb (key x) (key y)); [reflexivity |].
  rewrite IH. apply perm_swap.
Qed.

Lemma sort_asc_perm (l : list A) : Permutation (sort_asc key l) l.
Proof.
  induction l as [|x r IH]; cbn [sort_asc]; [reflexivity |].
  rewrite insert_asc_perm. now constructor.
Qed.

Lemma insert_asc_sorted (x : A) (l : list A) :
  StronglySorted (fun a b => key_leb (key a) (key b) = true) l ->
  StronglySorted (fun a b => key_leb (key a) (key b) = true) (insert_asc key x l).
Proof.
  induction 1 as [|y r Hr IH Hy]; cbn [insert_asc].
  - constructor; constructor.
  - destruct (key_leb (key x) (key y)) eqn:Hxy.
    + constructor; [now constructor |].
      constructor; [exact Hxy |].
      eapply List.Forall_impl; [| exact Hy].
      intros z Hz. exact (key_leb_trans _ _ _ Hxy Hz).
    + constructor; [exact IH |].
      apply (Permutation_Forall (Permutation_sym (insert_asc_perm x r))).
      constructor; [now apply key_leb_total | exact Hy].
Qed.

Lemma sort_asc_sorted (l : list A) :
  StronglySorted (fun a b => key_leb (key a) (key b) = true) (sort_asc key l).
Proof.
  induction l as [|x r IH]; cbn [sort_asc]; [constructor |].
  now apply insert_asc_sorted.
Qed.

(** Elements that share a key keep their order. *)
Lemma insert_asc_filter (f : A -> bool) (x : A) (l : list A) :
  (forall a b, f a = true -> f b = true -> key a = key b) ->
  List.filter f (insert_asc key x l) = List.filter f (x :: l).
Proof.
  intros Hf. induction l as [|y r IH]; cbn [insert_asc]; [reflexivity |].
  destruct (key_leb (key x) (key y)) eqn:Hxy; [reflexivity |].
  cbn [List.filter] in *. rewrite IH.
  destruct (f x) eqn:Hx, (f y) eqn:Hy; try reflexivity.
  rewrite (Hf x y Hx Hy), key_leb_refl in Hxy. discriminate.
Qed.

Lemma sort_asc_filter (f : A -> bool) (l : list A) :
  (forall a b, f a = true -> f b = true -> key a = key b) ->
  List.filter f (sort_asc key l) = List.filter f l.
Proof.
  intros Hf. induction l as [|x r IH]; cbn [sort_asc]; [reflexivity |].
  rewrite (insert_asc_filter f x _ Hf). cbn [List.filter]. now rewrite IH.
Qed.
End SortAscFacts.

Lemma ContentPriority_eqb_eq (a b : ContentPriority) :
  ContentPriority_eqb a b = true <-> a = b.
Proof. destruct a, b; cbn; split; intros; congruence. Qed.

(** ** The report of the designer *)

Lemma flat_map_length_le {A B : Type} (f : A -> list B) (l : list A) (k : nat) :
  (forall x, List.length (f x) <= k) ->
  List.length (List.flat_map f l) <= k * List.length l.
Proof.
  intros Hf. induction l as [|x l IH]; cbn [List.flat_map List.length]; [lia |].
  rewrite List.length_app. specialize (Hf x). lia.
Qed.

Lemma fold_left_add_le {A : Type} (g : A -> nat) (k : nat) (l : list A) (a : nat) :
  Forall (fun x => g x <= k) l ->
  fold_left (fun c x => c + g x) l a <= a + k * List.length l.
Proof.
  intros Hall. revert a. induction Hall as [|x l Hx _ IH]; intros a;
    cbn [fold_left List.length]; [lia |].
  specialize (IH (a + g x)). lia.
Qed.

Lemma fold_left_add_map {A : Type} (g : A -> nat) (l : list A) (a : nat) :
  fold_left Nat.add (List.map g l) a = fold_left (fun c x => c + g x) l a.
Proof.
  revert a. induction l as [|x l IH]; intros a; [reflexivity |]. cbn [List.map fold_left].
  apply IH.
Qed.

Lemma fold_left_add_sum {A : Type} (g1 g2 g3 : A -> nat) (l : list A) (a b c : nat) :
  fold_left (fun n x => n + (g1 x + g2 x + g3 x)) l (a + b + c)
  = fold_left (fun n x => n + g1 x) l a + fold_left (fun n x => n + g2 x) l b
    + fold_left (fun n x => n + g3 x) l c.
Proof.
  revert a b c. induction l as [|x l IH]; intros a b c; [reflexivity |].
  cbn [fold_left]. rewrite <- IH. f_equal. lia.
Qed.

Lemma fold_left_ext_Forall {A : Type} (g1 g2 : nat -> A -> nat) (l : list A) (a : nat) :
  Forall (fun x => forall n, g1 n x = g2 n x) l ->
  fold_left g1 l a = fold_left g2 l a.
Proof.
  intros Hall. revert a. induction Hall as [|x l Hx _ IH]; intros a; [reflexivity |].
  cbn [fold_left]. now rewrite Hx, IH.
Qed.

Lemma design_hub_supporting_length (d : HubDesigner.t) (e : Entity.t) (nid : string) :
  List.length (ContentHub.supporting_pages (HubDesigner._design_hub d e nid)) <= 5.
Proof.
  unfold HubDesigner._design_hub. cbn zeta.
  unfold HubDesigner._map_internal_links, ContentHub.calculate_link_count,
    ContentHub.set_pages.
  cbn [ContentHub.pillar_page ContentHub.cluster_pages ContentHub.supporting_pages].
  rewrite List.length_map. unfold HubDesigner._create_supporting_pages.
  etransitivity; [apply (flat_map_length_le _ _ 1) |].
  - intros [r rel]. unfold HubDesigner.supporting_page.
    destruct (EntityType_eqb (Entity.type r) COMPETITOR); cbn [List.length]; lia.
  - pose proof (List.firstn_le_length 5
                  (Ontology.get_related_entities (HubDesigner.ontology d) (Entity.id e))).
    lia.
Qed.

Lemma design_hub_link_count (d : HubDesigner.t) (e : Entity.t) (nid : string) :
  ContentHub.internal_link_count (HubDesigner._design_hub d e nid) <= 45.
Proof.
  destruct (design_hub_spec d e nid) as (_ & _ & Hc10 & -> & _).
  pose proof (design_hub_supporting_length d e nid) as Hs5.
  destruct (design_hub_pages d e nid) as (hub_id & cs & ss & Hp & Hc & Hs & Hcs & Hss).
  unfold ContentHub.link_count, ContentHub.all_pages. rewrite Hp.
  rewrite Hc, List.length_map in Hc10. rewrite Hs, List.length_map in Hs5.
  rewrite Hc, Hs, link_page_pillar.
  cbn [app fold_left HubPage.set_links HubPage.internal_links_to].
  rewrite List.length_map, List.fold_left_app.
  etransitivity; [apply (fold_left_add_le _ 1) |].
  - apply List.Forall_forall. intros s Hin. apply List.in_map_iff in Hin.
    destruct Hin as (s0 & <- & Hs0). rewrite List.Forall_forall in Hss.
    destruct (Hss s0 Hs0) as (Hfresh & _).
    rewrite (link_page_supporting _ _ _ Hfresh). cbn. lia.
  - rewrite List.length_map.
    assert (Hcl : fold_left
                    (fun c x => c + List.length (HubPage.internal_links_to x))
                    (List.map (HubDesigner.link_page (hub_id +:+ "_pillar") cs) cs)
                    (0 + List.length cs)
                  <= 0 + List.length cs + 3 * List.length cs).
    { etransitivity; [apply (fold_left_add_le _ 3) |].
      - apply List.Forall_forall. intros c Hin. apply List.in_map_iff in Hin.
        destruct Hin as (c0 & <- & Hc0). rewrite List.Forall_forall in Hcs.
        rewrite (link_page_cluster _ _ _ (Hcs c0 Hc0)).
        cbn [HubPage.set_links HubPage.internal_links_to app List.length].
        pose proof (List.firstn_le_length 2
                      (List.map HubPage.id
                         (List.filter
                            (fun q => negb (String.eqb (HubPage.id q) (HubPage.id c0)))
                            cs))).
        lia.
      - rewrite List.length_map. lia. }
    lia.
Qed.

(** What the report reads of a hub that [design_all_hubs] returns. *)
Lemma designed_hub_counts (o : Ontology.t) (tx : Taxonomy.t) (qcs : list QueryCluster.t) :
  Forall
    (fun h =>
       (exists p, ContentHub.pillar_page h = Some p)
       /\ List.length (ContentHub.cluster_pages h) <= 10
       /\ List.length (ContentHub.supporting_pages h) <= 5
       /\ ContentHub.internal_link_count h <= 45)
    (HubDesigner.design_all_hubs o tx qcs).
Proof.
  apply List.Forall_forall. intros h Hin.
  apply design_all_hubs_In in Hin. destruct Hin as (e & nid & extra & ->).
  destruct (finished_fields (designed o tx qcs) extra
              (HubDesigner._design_hub (HubDesigner.init o tx qcs) e nid))
    as (_ & -> & -> & -> & _).
  destruct (design_hub_spec (HubDesigner.init o tx qcs) e nid)
    as (_ & (p & Hp & _) & Hc10 & _).
  split; [rewrite (finished_pillar _ extra _ _ Hp); now eexists |].
  split; [exact Hc10 |].
  split; [apply design_hub_supporting_length | apply design_hub_link_count].
Qed.

Lemma hub_report_totals (d : HubDesigner.t) :
  Forall
    (fun h =>
       (exists p, ContentHub.pillar_page h = Some p)
       /\ List.length (ContentHub.cluster_pages h) <= 10
       /\ List.length (ContentHub.supporting_pages h) <= 5
       /\ ContentHub.internal_link_count h <= 45)
    (HubDesigner.hubs d) ->
  HubDesigner.pillar_count (HubDesigner.generate_hub_report d)
  = HubDesigner.total_hubs (HubDesigner.generate_hub_report d)
  /\ HubDesigner.total_pages (HubDesigner.generate_hub_report d)
     = HubDesigner.pillar_count (HubDesigner.generate_hub_report d)
       + HubDesigner.cluster_count (HubDesigner.generate_hub_report d)
       + HubDesigner.supporting_count (HubDesigner.generate_hub_report d)
  /\ HubDesigner.total_pages (HubDesigner.generate_hub_report d)
     <= 16 * HubDesigner.total_hubs (HubDesigner.generate_hub_report d)
  /\ HubDesigner.total_internal_links (HubDesigner.generate_hub_report d)
     <= 45 * HubDesigner.total_hubs (HubDesigner.generate_hub_report d).
Proof.
  intros Hall. unfold HubDesigner.generate_hub_report.
  cbn [HubDesigner.pillar_count HubDesigner.total_hubs HubDesigner.total_pages
       HubDesigner.cluster_count HubDesigner.supporting_count
       HubDesigner.total_internal_links].
  set (l := HubDesigner.hubs d) in *.
  assert (Hpillars :
            fold_left
              (fun n hub =>
                 match ContentHub.pillar_page hub with Some _ => n + 1 | None => n end)
              l 0
            = fold_left (fun n (_ : ContentHub.t) => n + 1) l 0).
  { apply fold_left_ext_Forall. eapply List.Forall_impl; [| exact Hall].
    intros h ((p & ->) & _) n. reflexivity. }
  assert (Hones : forall a, fold_left (fun n (_ : ContentHub.t) => n + 1) l a
                            = a + List.length l).
  { clear. induction l as [|h l IH]; intros a; cbn [fold_left List.length]; [lia |].
    rewrite IH. lia. }
  assert (Hpages :
            fold_left Nat.add
              (List.map (fun h => List.length (ContentHub.all_pages h)) l) 0
            = fold_left
                (fun n h => n + (1 + List.length (ContentHub.cluster_pages h)
                                 + List.length (ContentHub.supporting_pages h)))
                l (0 + 0 + 0)).
  { rewrite fold_left_add_map. apply fold_left_ext_Forall.
    eapply List.Forall_impl; [| exact Hall].
    intros h ((p & Hp) & _) n. unfold ContentHub.all_pages. rewrite Hp.
    cbn [app List.length]. rewrite List.length_app. lia. }
  rewrite Hpillars, Hpages, Hones.
  split; [reflexivity |]. split; [| split].
  - rewrite (fold_left_add_sum (fun _ => 1)), Hones. reflexivity.
  - etransitivity; [apply (fold_left_add_le _ 16) |]; [| lia].
    eapply List.Forall_impl; [| exact Hall]. intros h (_ & Hc & Hs & _). cbn beta. lia.
  - rewrite fold_left_add_map.
    etransitivity; [apply (fold_left_add_le _ 45) |]; [| lia].
    eapply List.Forall_impl; [| exact Hall]. now intros h (_ & _ & _ & Hl).
Qed.

(** ** The picture of a hub *)





(** ** The type of a competitor *)

Lemma add_named_absent (ty : EntityType) (k : string) (b : OntologyBuilder.t)
    (raw : string) :
  (PyStr.strip raw <> EmptyString ->
   OntologyBuilder._generate_entity_id (PyStr.strip raw) <> k) ->
  OrderedDict.get k (OntologyBuilder.entities b) = None ->
  OrderedDict.get k (OntologyBuilder.entities (OntologyBuilder.add_named ty b raw)) = None.
Proof.
  intros Hne Hk. unfold OntologyBuilder.add_named. cbv zeta.
  destruct (PyStr.strip raw) as [|ch s] eqn:Hs; [exact Hk |].
  cbn [PyStr.is_empty]. destruct (OrderedDict.has _ _); [exact Hk |].
  cbn [OntologyBuilder.with_entities OntologyBuilder.entities].
  rewrite dict_get_set_ne; [exact Hk |]. apply Hne. discriminate.
Qed.

Lemma fold_add_named_absent (ty : EntityType) (k : string) (l : list string)
    (b : OntologyBuilder.t) :
  (forall s, In s l -> PyStr.strip s <> EmptyString ->
             OntologyBuilder._generate_entity_id (PyStr.strip s) <> k) ->
  OrderedDict.get k (OntologyBuilder.entities b) = None ->
  OrderedDict.get k
    (OntologyBuilder.entities (fold_left (OntologyBuilder.add_named ty) l b)) = None.
Proof.
  revert b. induction l as [|x l IH]; intros b Hl Hk; [exact Hk |].
  cbn [fold_left]. apply IH.
  - intros s Hs. apply Hl. now right.
  - apply add_named_absent; [| exact Hk]. apply Hl. now left.
Qed.

Lemma add_competitor_free (k : string) (b : OntologyBuilder.t) (raw : string) :
  free_or_competitor k (OntologyBuilder.entities b) ->
  free_or_competitor k
    (OntologyBuilder.entities (OntologyBuilder.add_named COMPETITOR b raw)).
Proof.
  intros [Hk | Hk]; [| right; now apply add_named_kept].
  unfold OntologyBuilder.add_named. cbv zeta.
  destruct (PyStr.is_empty (PyStr.strip raw)); [now left |].
  destruct (OrderedDict.has _ _); [now left |].
  cbn [OntologyBuilder.with_entities OntologyBuilder.entities].
  destruct (String.eqb_spec (OntologyBuilder._generate_entity_id (PyStr.strip raw)) k)
    as [<- | Hne].
  - right. eexists. split; [apply dict_get_set_eq | reflexivity].
  - left. now rewrite dict_get_set_ne.
Qed.

Lemma add_competitor_present (b : OntologyBuilder.t) (raw : string) :
  PyStr.strip raw <> EmptyString ->
  free_or_competitor (OntologyBuilder._generate_entity_id (PyStr.strip raw))
    (OntologyBuilder.entities b) ->
  has_typed (eq COMPETITOR) (OntologyBuilder._generate_entity_id (PyStr.strip raw))
    (OntologyBuilder.entities (OntologyBuilder.add_named COMPETITOR b raw)).
Proof.
  intros Hraw [Hk | Hk]; [| now apply add_named_kept].
  unfold OntologyBuilder.add_named. cbv zeta.
  destruct (PyStr.strip raw) as [|ch s] eqn:Hs; [congruence |].
  cbn [PyStr.is_empty]. unfold OrderedDict.has. rewrite Hk.
  cbn [OntologyBuilder.with_entities OntologyBuilder.entities].
  eexists. split; [apply dict_get_set_eq | reflexivity].
Qed.

Lemma fold_add_competitor_present (l : list string) (b : OntologyBuilder.t)
    (raw : string) :
  In raw l ->
  PyStr.strip raw <> EmptyString ->
  free_or_competitor (OntologyBuilder._generate_entity_id (PyStr.strip raw))
    (OntologyBuilder.entities b) ->
  has_typed (eq COMPETITOR) (OntologyBuilder._generate_entity_id (PyStr.strip raw))
    (OntologyBuilder.entities (fold_left (OntologyBuilder.add_named COMPETITOR) l b)).
Proof.
  intros Hin Hraw. revert b. induction l as [|x l IH]; intros b Hb; [contradiction |].
  cbn [fold_left]. destruct Hin as [-> | Hin].
  - apply fold_add_named_kept. now apply add_competitor_present.
  - apply IH; [exact Hin |]. now apply add_competitor_free.
Qed.

(** A competitor whose identifier no seed and not the brand has is a
    [competitor] in the dictionary of [populate]. *)
Lemma populate_competitor fetch (c : Config.t) (raw : string) :
  Config.source_mode c <> SITEMAP ->
  PyStr.strip raw <> EmptyString ->
  In raw (Config.competitors c) ->
  ~ taken_by_seed_or_brand c (OntologyBuilder._generate_entity_id (PyStr.strip raw)) ->
  has_typed (eq COMPETITOR) (OntologyBuilder._generate_entity_id (PyStr.strip raw))
    (OntologyBuilder.entities (OntologyBuilder.populate fetch c)).
Proof.
  intros Hmode Hraw Hin Hfree.
  assert (Hseeds :
            has_typed (eq COMPETITOR)
              (OntologyBuilder._generate_entity_id (PyStr.strip raw))
              (OntologyBuilder.entities
                 (OntologyBuilder._create_from_seeds (OntologyBuilder.init c)))).
  { unfold OntologyBuilder._create_from_seeds.
    destruct (add_named_frame CORE (Config.seed_entities
                                      (OntologyBuilder.config (OntologyBuilder.init c)))
                (OntologyBuilder.init c)) as [-> _].
    cbn [OntologyBuilder.init OntologyBuilder.config].
    apply fold_add_competitor_present; [exact Hin | exact Hraw |].
    left. apply fold_add_named_absent; [| reflexivity].
    intros s Hs Hne Heq. apply Hfree. right. now exists s. }
  unfold OntologyBuilder.populate, OntologyBuilder._add_brand_entity.
  cbn [OntologyBuilder.with_entities OntologyBuilder.entities].
  apply has_typed_set.
  - intros Heq. exfalso. apply Hfree. left. rewrite <- Heq.
    f_equal. f_equal.
    destruct (Config.source_mode c); [congruence | |].
    + apply (create_from_seeds_frame (OntologyBuilder.init c)).
    + destruct (truthy _).
      * destruct (extract_from_sitemap_frame fetch
                    (OntologyBuilder._create_from_seeds (OntologyBuilder.init c)))
          as [-> _].
        apply (create_from_seeds_frame (OntologyBuilder.init c)).
      * apply (create_from_seeds_frame (OntologyBuilder.init c)).
  - destruct (Config.source_mode c); [congruence | exact Hseeds |].
    destruct (truthy _); [now apply extract_from_sitemap_kept | exact Hseeds].
Qed.

(** ** The entity of a cluster *)

Lemma fold_add_cluster_from (P : QueryCluster.t -> Prop) (es : list Entity.t)
    (d : OrderedDict.t QueryCluster.t) :
  (forall e, In e es -> P (QueryMapper._create_query_cluster e)) ->
  Forall P (OrderedDict.values d) ->
  Forall P (OrderedDict.values (fold_left QueryMapper.add_cluster es d)).
Proof.
  revert d. induction es as [|e r IH]; intros d HP Hd; cbn [fold_left]; [exact Hd |].
  apply IH; [intros e' He'; apply HP; now right |].
  unfold QueryMapper.add_cluster. apply dict_values_set_Forall; [| exact Hd].
  apply HP. now left.
Qed.

(** Every cluster of [map_all_entities] is the cluster of an entity of the
    ontology. *)
Lemma map_all_entities_from (P : QueryCluster.t -> Prop) (o : Ontology.t) :
  (forall e, In e (Ontology.entities o) -> P (QueryMapper._create_query_cluster e)) ->
  Forall P (QueryMapper.map_all_entities o).
Proof.
  intros HP. unfold QueryMapper.map_all_entities, QueryMapper.map_all_entities_state.
  cbn [QueryMapper.clusters QueryMapper.ontology QueryMapper.init].
  do 2 (apply fold_add_cluster_from;
        [intros e He; apply List.filter_In in He; apply HP, He |]).
  constructor.
Qed.

Lemma cluster_queries_aliases (e : Entity.t) (a : string) :
  In a (firstn 5 (Entity.aliases e)) ->
  In ("what is " +:+ PyStr.lower a)
    (List.map Query.query_text (QueryMapper.cluster_queries e))
  /\ In ("how to use " +:+ PyStr.lower a)
       (List.map Query.query_text (QueryMapper.cluster_queries e)).
Proof.
  intros Ha. unfold QueryMapper.cluster_queries. rewrite List.map_app.
  split; apply List.in_or_app; right; apply List.in_map_iff.
  - eexists. split; [| apply List.in_flat_map; exists a; split; [exact Ha | now left]].
    reflexivity.
  - eexists.
    split; [| apply List.in_flat_map; exists a; split; [exact Ha | right; now left]].
    reflexivity.
Qed.

(** ** Entities are found by their names *)

Lemma add_named_id_from_name (ty : EntityType) (b : OntologyBuilder.t) (raw : string) :
  Forall id_from_name (OrderedDict.values (OntologyBuilder.entities b)) ->
  Forall id_from_name
    (OrderedDict.values (OntologyBuilder.entities (OntologyBuilder.add_named ty b raw))).
Proof.
  intros Hb. unfold OntologyBuilder.add_named.
  destruct (PyStr.is_empty (PyStr.strip raw)); [exact Hb |].
  destruct (OrderedDict.has _ _); [exact Hb |].
  cbn [OntologyBuilder.with_entities OntologyBuilder.entities].
  apply dict_values_set_Forall; [| exact Hb]. now destruct ty.
Qed.

Lemma fold_add_named_id_from_name (ty : EntityType) (l : list string)
    (b : OntologyBuilder.t) :
  Forall id_from_name (OrderedDict.values (OntologyBuilder.entities b)) ->
  Forall id_from_name
    (OrderedDict.values
       (OntologyBuilder.entities (fold_left (OntologyBuilder.add_named ty) l b))).
Proof.
  revert b. induction l as [|x l IH]; intros b Hb; [exact Hb |].
  cbn [fold_left]. now apply IH, add_named_id_from_name.
Qed.

Lemma add_sitemap_item_id_from_name (b : OntologyBuilder.t) (item : SitemapItem.t) :
  Forall id_from_name (OrderedDict.values (OntologyBuilder.entities b)) ->
  Forall id_from_name
    (OrderedDict.values
       (OntologyBuilder.entities (OntologyBuilder.add_sitemap_item b item))).
Proof.
  intros Hb. unfold OntologyBuilder.add_sitemap_item. cbv zeta.
  destruct (OrderedDict.get _ (OntologyBuilder.entities b)) as [existing |] eqn:Hg;
    cbn [OntologyBuilder.with_entities OntologyBuilder.entities];
    (apply dict_values_set_Forall; [| exact Hb]); [| reflexivity].
  rewrite List.Forall_forall in Hb. exact (Hb existing (dict_get_In_values _ _ _ Hg)).
Qed.

Lemma extract_from_sitemap_id_from_name fetch (b : OntologyBuilder.t) :
  Forall id_from_name (OrderedDict.values (OntologyBuilder.entities b)) ->
  Forall id_from_name
    (OrderedDict.values
       (OntologyBuilder.entities (OntologyBuilder._extract_from_sitemap fetch b))).
Proof.
  intros Hb. unfold OntologyBuilder._extract_from_sitemap.
  destruct (Config.sitemap_url _) as [url |]; [| exact Hb].
  destruct (PyStr.is_empty url); [exact Hb |].
  destruct (fetch url) as [extracted |]; [| exact Hb].
  generalize (firstn 50 extracted). intros l. revert b Hb.
  induction l as [|x l IH]; intros b Hb; [exact Hb |].
  cbn [fold_left]. now apply IH, add_sitemap_item_id_from_name.
Qed.

Lemma populate_id_from_name fetch (c : Config.t) :
  Forall id_from_name
    (OrderedDict.values (OntologyBuilder.entities (OntologyBuilder.populate fetch c))).
Proof.
  assert (Hseeds : Forall id_from_name
                     (OrderedDict.values
                        (OntologyBuilder.entities
                           (OntologyBuilder._create_from_seeds (OntologyBuilder.init c))))).
  { unfold OntologyBuilder._create_from_seeds.
    do 2 apply fold_add_named_id_from_name. constructor. }
  unfold OntologyBuilder.populate, OntologyBuilder._add_brand_entity.
  cbn [OntologyBuilder.with_entities OntologyBuilder.entities].
  apply dict_values_set_Forall.
  - unfold id_from_name. cbn [Entity.id Entity.name]. reflexivity.
  - destruct (Config.source_mode c).
    + apply extract_from_sitemap_id_from_name. constructor.
    + exact Hseeds.
    + destruct (truthy _); [now apply extract_from_sitemap_id_from_name | exact Hseeds].
Qed.

Lemma build_id_from_name `{SetIteration} fetch (c : Config.t) :
  Forall id_from_name (Ontology.entities (OntologyBuilder.build fetch c)).
Proof.
  destruct (build_entities fetch c) as [counts ->].
  pose proof (populate_id_from_name fetch c) as Hp.
  unfold OrderedDict.values in Hp. rewrite List.Forall_forall in Hp.
  apply List.Forall_forall. intros e He. apply List.in_map_iff in He.
  destruct He as ([k e0] & <- & Hin). unfold id_from_name.
  rewrite score_id, score_name. apply Hp. apply List.in_map_iff. now exists (k, e0).
Qed.

Lemma built_state_keyed `{SetIteration} fetch (c : Config.t) :
  keyed_by_id (OntologyBuilder.entities (built_state fetch c)).
Proof.
  destruct (populate_spec fetch c) as (_ & _ & Hkeyed & _).
  unfold built_state, OntologyBuilder._calculate_entity_scores,
    OntologyBuilder._infer_relationships.
  cbn [OntologyBuilder.with_entities OntologyBuilder.with_relationships
       OntologyBuilder.entities OntologyBuilder.relationships].
  unfold keyed_by_id in *. rewrite List.Forall_forall in Hkeyed.
  apply List.Forall_forall. intros kv Hkv. apply List.in_map_iff in Hkv.
  destruct Hkv as (kv0 & <- & Hin). cbn [fst snd]. rewrite score_id. now apply Hkeyed.
Qed.

Lemma dict_key_get {V : Type} (d : OrderedDict.t V) (k : string) :
  In k (OrderedDict.keys d) -> OrderedDict.has k d = true.
Proof.
  unfold OrderedDict.has. induction d as [|[k' v'] d IH]; cbn; [contradiction |].
  destruct (String.eqb k k') eqn:E; [reflexivity |].
  intros [Hk | Hin]; [| now apply IH].
  subst k'. now rewrite String.eqb_refl in E.
Qed.

Lemma dict_has_set {V : Type} (d : OrderedDict.t V) (k k' : string) (v : V) :
  OrderedDict.has k d = true -> OrderedDict.has k (OrderedDict.set k' v d) = true.
Proof.
  unfold OrderedDict.has. destruct (String.eqb_spec k' k) as [-> | Hne].
  - now rewrite dict_get_set_eq.
  - now rewrite dict_get_set_ne.
Qed.

(** After [build] the builder knows exactly the identifiers of the
    entities of the ontology. *)
Lemma built_state_has `{SetIteration} fetch (c : Config.t) (k : string) :
  OrderedDict.has k (OntologyBuilder.entities (built_state fetch c)) = true
  <-> In k (List.map Entity.id (Ontology.entities (OntologyBuilder.build fetch c))).
Proof.
  destruct (built_state_ontology fetch c) as [<- _].
  rewrite <- (keyed_keys _ (built_state_keyed fetch c)). split.
  - unfold OrderedDict.has.
    destruct (OrderedDict.get k _) as [e |] eqn:Hg; [| discriminate].
    intros _. exact (dict_get_In_keys _ _ _ Hg).
  - apply dict_key_get.
Qed.

(* ===================================================================== *)
(** * Further theorems *)
(* ===================================================================== *)

(** X1.  Identifiers are safe to use as keys and in file names whatever
    the name they are made from: an entity identifier is made of lower-case
    letters, digits and underscores only and has between 9 and 39
    characters; a node identifier starts with "tax_", is made of the same
    characters and has between 11 and 31 characters. *)
Theorem X1_identifier_shape (name : string) :
  PyStr.all_chars is_id_char (OntologyBuilder._generate_entity_id name) = true
  /\ 9 <= PyStr.len (OntologyBuilder._generate_entity_id name) <= 39
  /\ PyStr.all_chars is_id_char (TaxonomyBuilder._generate_node_id name) = true
  /\ PyStr.startswith (TaxonomyBuilder._generate_node_id name) "tax_" = true
  /\ 11 <= PyStr.len (TaxonomyBuilder._generate_node_id name) <= 31.
Proof.
  unfold OntologyBuilder._generate_entity_id, TaxonomyBuilder._generate_node_id, PyStr.len.
  set (n := PyStr.strip (PyStr.lower name)).
  destruct (hexdigest_spec n) as [Hhex Hlen].
  pose proof (sub_non_alnum_go_chars false n) as Hslug.
  fold (PyStr.sub_non_alnum n) in Hslug.
  assert (Hh : forall k, PyStr.all_chars is_id_char (PyStr.take k (MD5.hexdigest n)) = true).
  { intros k. apply all_chars_take.
    apply (all_chars_weaken PyStr.is_slug_char); [exact slug_char_id_char | exact Hhex]. }
  rewrite !all_chars_app, !length_append, !take_length, Hlen.
  rewrite (all_chars_take _ 30 _ Hslug), (all_chars_take _ 20 _ Hslug), !Hh.
  split; [reflexivity |]. split; [cbn [String.length]; lia |].
  split; [reflexivity |]. split; [| cbn [String.length]; lia].
  apply prefix_app. eexists. reflexivity.
Qed.

(** X2.  The scoring pass of [OntologyBuilder.build] keeps the scores in
    the range of their fields: every entity of the built ontology has a
    [semantic_centrality] between 0.2 and 1 and the [commercial_value] of
    its type.  The centrality is normalised: when the ontology has a
    relationship, an entity with the largest number of relationship ends
    has the centrality 1. *)
Theorem X2_entity_scores `{SetIteration}
    (fetch : string -> option (list SitemapItem.t)) (c : Config.t) :
  Forall
    (fun e =>
       (2 # 10 <= Entity.semantic_centrality e)%Q
       /\ (Entity.semantic_centrality e <= 1)%Q
       /\ Entity.commercial_value e = OntologyBuilder.commercial_value_of (Entity.type e))
    (Ontology.entities (OntologyBuilder.build fetch c))
  /\ (Ontology.relationships (OntologyBuilder.build fetch c) <> [] ->
      exists e,
        In e (Ontology.entities (OntologyBuilder.build fetch c))
        /\ Entity.semantic_centrality e = 1%Q).
Proof.
  split.
  - destruct (build_entities fetch c) as [counts ->].
    apply List.Forall_forall. intros e Hin.
    apply List.in_map_iff in Hin. destruct Hin as ([k e0] & <- & _). cbn [fst snd].
    destruct (score_range counts k e0) as (H1 & H2 & Hty & Hcv).
    split; [exact H1 | split; [exact H2 |]]. now rewrite Hty.
  - intros Hne.
    destruct (Ontology.relationships (OntologyBuilder.build fetch c)) as [|r rels] eqn:Hrels;
      [congruence |].
    destruct (max_rels_attained r rels) as [k Hk].
    pose proof (relationship_counts_positive _ _ _ Hk) as Hpos.
    destruct (relationship_counts_keys _ _ _ Hk) as (r' & Hin & Hend).
    rewrite <- Hrels in Hin.
    destruct (build_relationship_endpoints fetch c r' Hin) as (Hs & Ht & _).
    assert (Hkid : In k (List.map Entity.id
                           (Ontology.entities (OntologyBuilder.build fetch c)))).
    { destruct Hend as [<- | <-]; assumption. }
    rewrite build_entity_ids in Hkid.
    destruct (populate_spec fetch c) as (_ & _ & Hkeyed & _).
    rewrite <- (keyed_keys _ Hkeyed) in Hkid.
    destruct (dict_key_In _ _ Hkid) as [e0 He0].
    rewrite build_entities_counts, Hrels.
    exists (OntologyBuilder.score
              (OntologyBuilder.relationship_counts (r :: rels)) k e0).
    split; [| now apply score_max].
    apply List.in_map_iff. exists (k, e0). split; [reflexivity | exact He0].
Qed.

(** X3.  The relationships of a built ontology never dangle: both ends of
    every relationship are identifiers of entities of the ontology, which
    [Ontology.get_entity] finds, and no relationship joins an entity to
    itself. *)
Theorem X3_relationships_join_entities `{SetIteration}
    (fetch : string -> option (list SitemapItem.t)) (c : Config.t) :
  Forall
    (fun r =>
       exists a b,
         Ontology.get_entity (OntologyBuilder.build fetch c) (Relationship.source_id r)
         = Some a
         /\ Ontology.get_entity (OntologyBuilder.build fetch c) (Relationship.target_id r)
            = Some b
         /\ Entity.id a = Relationship.source_id r
         /\ Entity.id b = Relationship.target_id r
         /\ Entity.id a <> Entity.id b)
    (Ontology.relationships (OntologyBuilder.build fetch c)).
Proof.
  apply List.Forall_forall. intros r Hin.
  destruct (build_relationship_endpoints fetch c r Hin) as (Hs & Ht & Hne).
  destruct (find_entity_by_id _ _ Hs) as (a & Ha & Hida).
  destruct (find_entity_by_id _ _ Ht) as (b & Hb & Hidb).
  exists a, b. unfold Ontology.get_entity.
  split; [exact Ha | split; [exact Hb | split; [exact Hida | split; [exact Hidb |]]]].
  now rewrite Hida, Hidb.
Qed.

(** X4.  Outside sitemap mode every seed that is not blank has a [core]
    entity in the built ontology, under the identifier generated from the
    stripped seed, and every competitor that is not blank has an entity,
    which is a [competitor] unless a seed or the brand has the same
    identifier, in which case it is [core]. *)
Theorem X4_seeds_become_entities `{SetIteration}
    (fetch : string -> option (list SitemapItem.t)) (c : Config.t) (raw : string) :
  Config.source_mode c <> SITEMAP ->
  PyStr.strip raw <> EmptyString ->
  (In raw (Config.seed_entities c) ->
   exists e,
     Ontology.get_entity (OntologyBuilder.build fetch c)
       (OntologyBuilder._generate_entity_id (PyStr.strip raw)) = Some e
     /\ Entity.id e = OntologyBuilder._generate_entity_id (PyStr.strip raw)
     /\ Entity.type e = CORE)
  /\ (In raw (Config.competitors c) ->
      exists e,
        Ontology.get_entity (OntologyBuilder.build fetch c)
          (OntologyBuilder._generate_entity_id (PyStr.strip raw)) = Some e
        /\ Entity.id e = OntologyBuilder._generate_entity_id (PyStr.strip raw)
        /\ (taken_by_seed_or_brand c
              (OntologyBuilder._generate_entity_id (PyStr.strip raw)) ->
            Entity.type e = CORE)
        /\ (~ taken_by_seed_or_brand c
                (OntologyBuilder._generate_entity_id (PyStr.strip raw)) ->
            Entity.type e = COMPETITOR)).
Proof.
  intros Hmode Hraw. destruct (populate_named fetch c raw Hmode Hraw) as [Hs Hc].
  split; intros Hin.
  - exact (build_get_entity fetch c is_CORE _ (Hs Hin)).
  - destruct (build_get_entity fetch c is_CORE_or_COMPETITOR _ (Hc Hin))
      as (e & Hget & Hid & _).
    exists e. split; [exact Hget |]. split; [exact Hid |]. split.
    + intros [Hbrand | (s & Hsin & Hsne & Hsid)].
      * destruct (build_get_entity fetch c is_CORE _ (populate_brand fetch c))
          as (e' & Hget' & _ & Hty).
        rewrite <- Hbrand, Hget in Hget'. injection Hget' as <-. exact Hty.
      * destruct (populate_named fetch c s Hmode Hsne) as [Hcore _].
        destruct (build_get_entity fetch c is_CORE _ (Hcore Hsin))
          as (e' & Hget' & _ & Hty).
        rewrite Hsid, Hget in Hget'. injection Hget' as <-. exact Hty.
    + intros Hfree.
      destruct (build_get_entity fetch c (eq COMPETITOR) _
                  (populate_competitor fetch c raw Hmode Hraw Hin Hfree))
        as (e' & Hget' & _ & Hty).
      rewrite Hget in Hget'. injection Hget' as <-. now symmetry.
Qed.

(** X4 at the seed " Task Tools " of a seed configuration. *)
Lemma X4_task_tools_entity :
  exists e,
    Ontology.get_entity
      (@OntologyBuilder.build insertion_order no_sitemap
         (seed_config "Acme" "Project Management" ["tools"; " Task Tools "] ["Trello"]))
      (OntologyBuilder._generate_entity_id (PyStr.strip " Task Tools ")) = Some e
    /\ Entity.id e = OntologyBuilder._generate_entity_id (PyStr.strip " Task Tools ")
    /\ Entity.type e = CORE.
Proof.
  apply (X4_seeds_become_entities no_sitemap
           (seed_config "Acme" "Project Management" ["tools"; " Task Tools "] ["Trello"])
           " Task Tools ").
  - discriminate.
  - vm_compute. discriminate.
  - simpl. auto.
Defined.

(** X5.  [_generate_url_slug] returns a clean URL path for every name: it
    is made of lower-case letters, digits, hyphens and slashes only, it
    begins and ends with a slash, it has no two hyphens in a row, and the
    slug between the outer slashes neither begins nor ends with a hyphen. *)
Theorem X5_url_slug_shape (name : string) :
  PyStr.all_chars is_url_char (TaxonomyBuilder._generate_url_slug name) = true
  /\ PyStr.startswith (TaxonomyBuilder._generate_url_slug name) "/" = true
  /\ PyStr.endswith (TaxonomyBuilder._generate_url_slug name) "/" = true
  /\ PyStr.contains "--" (TaxonomyBuilder._generate_url_slug name) = false
  /\ PyStr.startswith (TaxonomyBuilder._generate_url_slug name) "/-" = false
  /\ PyStr.endswith (TaxonomyBuilder._generate_url_slug name) "-/" = false.
Proof.
  unfold TaxonomyBuilder._generate_url_slug, PyStr.strip_by. cbv zeta.
  set (u := TaxonomyBuilder.runs_to_hyphen TaxonomyBuilder.is_hyphen false
              (TaxonomyBuilder.runs_to_hyphen PyStr.is_space false
                 (TaxonomyBuilder.url_keep (PyStr.lower name)))).
  set (t := PyStr.rstrip_by TaxonomyBuilder.is_hyphen
              (PyStr.lstrip_by TaxonomyBuilder.is_hyphen u)).
  assert (Hchars : PyStr.all_chars is_url_char t = true).
  { apply rstrip_by_chars, lstrip_by_chars.
    apply (runs_to_hyphen_chars _ is_url_char); [now intros c -> | reflexivity |].
    apply (runs_to_hyphen_chars _ (fun c => is_url_char c || PyStr.is_space c));
      [| reflexivity | apply url_keep_chars].
    intros c Hc Hsp. rewrite Hsp in Hc. now rewrite orb_false_r in Hc. }
  assert (Hadj : has_adjacent TaxonomyBuilder.is_hyphen t = false).
  { apply rstrip_by_adjacent, lstrip_by_adjacent.
    now apply runs_to_hyphen_adjacent. }
  assert (Hhead : match t with
                  | EmptyString => True
                  | String c _ => TaxonomyBuilder.is_hyphen c = false
                  end).
  { subst t. pose proof (lstrip_by_head TaxonomyBuilder.is_hyphen u) as Hl.
    destruct (PyStr.lstrip_by TaxonomyBuilder.is_hyphen u) as [|c r]; [exact I |].
    destruct (rstrip_by_head TaxonomyBuilder.is_hyphen c r Hl) as [r' ->]. exact Hl. }
  assert (Hlast : t = EmptyString
                  \/ exists v c, t = v +:+ String c EmptyString
                                 /\ TaxonomyBuilder.is_hyphen c = false)
    by apply rstrip_by_last.
  clearbody t. clear u.
  split; [| split; [| split; [| split; [| split]]]].
  - rewrite !all_chars_app, Hchars. reflexivity.
  - apply prefix_app. eexists. reflexivity.
  - rewrite <- append_assoc. rewrite endswith_app; reflexivity.
  - destruct (PyStr.contains "--" _) eqn:Hc; [| reflexivity].
    apply contains_spec in Hc. destruct Hc as (a & b & Hab).
    pose proof (has_adjacent_wrap TaxonomyBuilder.is_hyphen "/" "/" t
                  eq_refl eq_refl Hadj) as Hw.
    change (String "/" (t +:+ "/")) with ("/" +:+ t +:+ "/") in Hw.
    rewrite Hab in Hw.
    change ("--" +:+ b) with (String "-" (String "-" b)) in Hw.
    apply has_adjacent_app in Hw. discriminate.
  - destruct t as [|c r]; [reflexivity |].
    unfold PyStr.startswith.
    destruct (String.prefix "/-" _) eqn:Hp; [| reflexivity].
    apply prefix_app in Hp. destruct Hp as [v Hv].
    change ("/" +:+ String c r +:+ "/") with (String "/" (String c (r +:+ "/"))) in Hv.
    change ("/-" +:+ v) with (String "/" (String "-" v)) in Hv.
    injection Hv as -> _. discriminate Hhead.
  - destruct Hlast as [-> | (v & c & -> & Hc)]; [reflexivity |].
    rewrite append_assoc, <- (append_assoc "/" v).
    change (String c "" +:+ "/") with (String c "/").
    rewrite endswith_app by reflexivity.
    unfold TaxonomyBuilder.is_hyphen in Hc. cbn. now rewrite Hc.
Qed.

(** X6.  The link graph of a taxonomy is closed, for every ontology and
    niche: each entry of a node's [internal_links_to] and each [parent_id]
    is the identifier of a node of the taxonomy [TaxonomyBuilder.build]
    returns, and no node lists a link twice. *)
Theorem X6_taxonomy_links_resolve `{SetIteration} (o : Ontology.t) (niche : string) :
  Forall
    (fun n =>
       Forall
         (fun l =>
            In l (List.map TaxonomyNode.id (Taxonomy.nodes (TaxonomyBuilder.build o niche))))
         (TaxonomyNode.internal_links_to n)
       /\ List.NoDup (TaxonomyNode.internal_links_to n)
       /\ forall p,
            TaxonomyNode.parent_id n = Some p ->
            In p (List.map TaxonomyNode.id (Taxonomy.nodes (TaxonomyBuilder.build o niche))))
    (Taxonomy.nodes (TaxonomyBuilder.build o niche)).
Proof.
  rewrite build_node_ids, build_nodes_finish.
  pose proof (tree_dict_closed o niche) as Hclosed.
  apply List.Forall_forall. intros n' Hin.
  apply List.in_map_iff in Hin. destruct Hin as (n & <- & Hn).
  destruct (finish_node_fields o niche (tree_dict o niche) n)
    as (_ & Hpar & _ & _ & _ & Hlinks).
  assert (Hparent : forall p, TaxonomyNode.parent_id n = Some p ->
                              In p (OrderedDict.keys (tree_dict o niche))).
  { unfold closed_dict in Hclosed. rewrite List.Forall_forall in Hclosed.
    unfold OrderedDict.values in Hn. apply List.in_map_iff in Hn.
    destruct Hn as (kv & <- & Hkv). apply (Hclosed kv Hkv). }
  rewrite Hlinks, Hpar. split; [| split; [| exact Hparent]].
  - apply List.Forall_forall. intros l Hl. apply firstn_In in Hl. rewrite dedupe_In in Hl.
    revert l Hl. apply List.Forall_forall. apply node_links_incl.
    + intros m Hm. rewrite dict_values_map_values in Hm.
      apply List.in_map_iff in Hm. destruct Hm as (m0 & <- & Hm0).
      destruct (node_facets_fields m0) as [-> _]. now apply closed_id_key.
    + destruct (node_facets_fields n) as [_ ->]. exact Hparent.
  - rewrite <- (List.map_id (firstn 10 _)). apply NoDup_map_firstn.
    rewrite List.map_id. apply dedupe_NoDup.
Qed.

(** X7.  [TaxonomyBuilder.build] leaves no node without SEO texts: every
    node of the taxonomy has a [seo_title] and a [seo_description] that are
    not empty, and every node that has a parent has a [target_url], which
    is a slug made by [_generate_url_slug] (so it has the shape X5 gives). *)
Theorem X7_nodes_have_seo_texts `{SetIteration} (o : Ontology.t) (niche : string) :
  Forall
    (fun n =>
       truthy (TaxonomyNode.seo_title n) = true
       /\ truthy (TaxonomyNode.seo_description n) = true
       /\ (TaxonomyNode.parent_id n = None
           \/ exists name,
                TaxonomyNode.target_url n = Some (TaxonomyBuilder._generate_url_slug name)))
    (Taxonomy.nodes (TaxonomyBuilder.build o niche)).
Proof.
  rewrite build_nodes_finish. apply List.Forall_forall. intros n' Hin.
  apply List.in_map_iff in Hin. destruct Hin as (n & <- & Hn).
  destruct (finish_node_seo o niche (tree_dict o niche) n) as (Ht & Hd & Hu).
  destruct (finish_node_fields o niche (tree_dict o niche) n) as (_ & Hp & _).
  split; [exact Ht | split; [exact Hd |]]. rewrite Hu, Hp. clear Ht Hd Hu Hp.
  revert n Hn. apply List.Forall_forall. apply tree_dict_Forall.
  - intros n Hnone _ _. now left.
  - intros root_id e. right. eexists. reflexivity.
  - intros cat_node e. right. eexists. reflexivity.
Qed.

(** X8.  In a taxonomy built without a collision of node identifiers,
    [Taxonomy.get_node_path] returns, for every node, the path from the
    root down to the node: the loop ends within three passes, the path
    starts at a node without parent, every node of it is the parent of the
    next, the last one is the node asked for, and the number of nodes above
    it is its [level].  For an identifier that no node has, the path is
    empty. *)
Theorem X8_node_path_from_root `{SetIteration} (o : Ontology.t) (niche : string) :
  node_ids_distinct o niche ->
  Forall
    (fun n =>
       exists up,
         (forall fuel, 3 <= fuel ->
            Taxonomy.get_node_path fuel (TaxonomyBuilder.build o niche) (TaxonomyNode.id n)
            = Some (up ++ [n]))
         /\ descends None (up ++ [n])
         /\ List.length up = TaxonomyNode.level n
         /\ Forall (fun a => In a (Taxonomy.nodes (TaxonomyBuilder.build o niche))) up)
    (Taxonomy.nodes (TaxonomyBuilder.build o niche))
  /\ (forall k fuel,
        ~ In k (List.map TaxonomyNode.id (Taxonomy.nodes (TaxonomyBuilder.build o niche))) ->
        Taxonomy.get_node_path fuel (TaxonomyBuilder.build o niche) k = Some []).
Proof.
  intros Hnd. pose proof (build_tree_shaped_final o niche Hnd) as Hshape.
  set (tx := TaxonomyBuilder.build o niche) in *.
  assert (Hids : List.NoDup (List.map TaxonomyNode.id (Taxonomy.nodes tx))) by apply Hshape.
  split.
  - apply List.Forall_forall. intros n Hn.
    unfold Taxonomy.get_node_path. rewrite (find_node_In tx n Hids Hn).
    destruct (tree_shaped_cases o niche _ n Hnd Hshape Hn)
      as [(Hnone & Hl & _)
         | [(r & Hr & Hrnone & _ & Hl & Hp)
           | (r & c & Hr & Hrnone & _ & Hc & Hcp & _ & Hl & Hp)]].
    + exists []. split; [| split; [| split; [now rewrite Hl | constructor]]].
      * intros [|fuel] Hf; [lia |]. cbn [Taxonomy.node_path_loop app]. rewrite Hnone. now destruct fuel.
      * cbn. now split.
    + exists [r].
      split; [| split; [| split; [now rewrite Hl | constructor; [exact Hr | constructor]]]].
      * intros [|[|fuel]] Hf; try lia. cbn [Taxonomy.node_path_loop app].
        rewrite Hp, (find_node_In tx r Hids Hr). cbn [Taxonomy.node_path_loop].
        rewrite Hrnone. now destruct fuel.
      * cbn. now repeat split.
    + exists [r; c].
      split; [| split; [| split; [now rewrite Hl |]]];
        [| | constructor; [exact Hr | constructor; [exact Hc | constructor]]].
      * intros [|[|[|fuel]]] Hf; try lia. cbn [Taxonomy.node_path_loop app].
        rewrite Hp, (find_node_In tx c Hids Hc). cbn [Taxonomy.node_path_loop].
        rewrite Hcp, (find_node_In tx r Hids Hr). cbn [Taxonomy.node_path_loop].
        rewrite Hrnone. now destruct fuel.
      * cbn. now repeat split.
  - intros k fuel Hk. unfold Taxonomy.get_node_path.
    rewrite (find_node_missing tx k Hk). now destruct fuel.
Qed.

(** X8 on the taxonomy of scenario 2 of the specification. *)
Lemma X8_tools_node_paths :
  Forall
    (fun n =>
       exists up,
         (forall fuel, 3 <= fuel ->
            Taxonomy.get_node_path fuel
              (@TaxonomyBuilder.build insertion_order tools_expanded "Project Management")
              (TaxonomyNode.id n)
            = Some (up ++ [n]))
         /\ descends None (up ++ [n])
         /\ List.length up = TaxonomyNode.level n
         /\ Forall
              (fun a =>
                 In a (Taxonomy.nodes
                         (@TaxonomyBuilder.build insertion_order tools_expanded
                            "Project Management")))
              up)
    (Taxonomy.nodes
       (@TaxonomyBuilder.build insertion_order tools_expanded "Project Management"))
  /\ (forall k fuel,
        ~ In k (List.map TaxonomyNode.id
                  (Taxonomy.nodes
                     (@TaxonomyBuilder.build insertion_order tools_expanded
                        "Project Management"))) ->
        Taxonomy.get_node_path fuel
          (@TaxonomyBuilder.build insertion_order tools_expanded "Project Management") k
        = Some []).
Proof.
  apply (@X8_node_path_from_root insertion_order).
  unfold node_ids_distinct. vm_compute.
  repeat (constructor; [simpl; intros Hin; decompose [or] Hin; try discriminate; assumption |]).
  constructor.
Defined.

(** X9.  [Taxonomy.get_node_path] does not return for a node that is its
    own parent: whatever the number of passes allowed, the loop is still
    running.  The taxonomy of C3, in which the category "project
    management" has taken the place of the root, has such a node. *)
Theorem X9_node_path_of_self_parent (tx : Taxonomy.t) (n : TaxonomyNode.t) (fuel : nat) :
  Taxonomy.find_node tx (Some (TaxonomyNode.id n)) = Some n ->
  TaxonomyNode.parent_id n = Some (TaxonomyNode.id n) ->
  Taxonomy.get_node_path fuel tx (TaxonomyNode.id n) = None.
Proof.
  intros Hfind Hparent. unfold Taxonomy.get_node_path. rewrite Hfind.
  generalize (@nil TaxonomyNode.t). induction fuel as [|fuel IH]; intros path;
    [reflexivity |].
  cbn [Taxonomy.node_path_loop]. rewrite Hparent, Hfind. apply IH.
Qed.

(** X9 on the taxonomy of C3, at its first node and a thousand passes. *)
Lemma X9_replaced_root_has_no_path :
  Taxonomy.get_node_path 1000 niche_seed_taxonomy
    (TaxonomyNode.id (List.hd no_node (Taxonomy.nodes niche_seed_taxonomy)))
  = None.
Proof.
  apply X9_node_path_of_self_parent; vm_compute; reflexivity.
Defined.

(** X10.  In a taxonomy built without a collision of node identifiers the
    three levels that the application displays reach every node:
    [get_root_nodes] returns the one root, whose identifier is generated
    from the niche, and every node is that root, one of its
    [get_children], or a child of one of these. *)
Theorem X10_children_cover_the_tree `{SetIteration} (o : Ontology.t) (niche : string) :
  node_ids_distinct o niche ->
  (exists root,
     Taxonomy.get_root_nodes (TaxonomyBuilder.build o niche) = [root]
     /\ TaxonomyNode.id root = TaxonomyBuilder._generate_node_id niche)
  /\ Forall
       (fun n =>
          In n (Taxonomy.get_root_nodes (TaxonomyBuilder.build o niche))
          \/ (exists r,
                In r (Taxonomy.get_root_nodes (TaxonomyBuilder.build o niche))
                /\ In n (Taxonomy.get_children (TaxonomyBuilder.build o niche)
                           (TaxonomyNode.id r)))
          \/ (exists r c,
                In r (Taxonomy.get_root_nodes (TaxonomyBuilder.build o niche))
                /\ In c (Taxonomy.get_children (TaxonomyBuilder.build o niche)
                           (TaxonomyNode.id r))
                /\ In n (Taxonomy.get_children (TaxonomyBuilder.build o niche)
                           (TaxonomyNode.id c))))
       (Taxonomy.nodes (TaxonomyBuilder.build o niche)).
Proof.
  intros Hnd. pose proof (build_tree_shaped_final o niche Hnd) as Hshape.
  pose proof (tree_shaped_well_formed o niche _ Hnd Hshape) as (Hone & _ & _).
  set (tx := TaxonomyBuilder.build o niche) in *.
  split.
  - unfold count in Hone. change (List.filter is_root (Taxonomy.nodes tx))
      with (Taxonomy.get_root_nodes tx) in Hone.
    destruct (Taxonomy.get_root_nodes tx) as [|root [|x l]] eqn:Hroots; try discriminate.
    exists root. split; [reflexivity |].
    assert (Hin : In root (Taxonomy.get_root_nodes tx)) by (rewrite Hroots; now left).
    apply get_root_nodes_In in Hin. destruct Hin as [Hin Hnone].
    destruct (tree_shaped_cases o niche _ root Hnd Hshape Hin)
      as [(_ & _ & Hid) | [(r & _ & _ & _ & _ & Hp) | (r & c & _ & _ & _ & _ & _ & _ & _ & Hp)]];
      [exact Hid | congruence | congruence].
  - apply List.Forall_forall. intros n Hn.
    destruct (tree_shaped_cases o niche _ n Hnd Hshape Hn)
      as [(Hnone & _ & _)
         | [(r & Hr & Hrnone & _ & _ & Hp)
           | (r & c & Hr & Hrnone & _ & Hc & Hcp & _ & _ & Hp)]].
    + left. now apply get_root_nodes_In.
    + right. left. exists r. split; [now apply get_root_nodes_In | now apply get_children_In].
    + right. right. exists r, c.
      split; [now apply get_root_nodes_In |].
      split; now apply get_children_In.
Qed.

(** X10 on the taxonomy of scenario 2 of the specification. *)
Lemma X10_tools_tree_is_covered :
  (exists root,
     Taxonomy.get_root_nodes
       (@TaxonomyBuilder.build insertion_order tools_expanded "Project Management")
     = [root]
     /\ TaxonomyNode.id root = TaxonomyBuilder._generate_node_id "Project Management")
  /\ Forall
       (fun n =>
          In n (Taxonomy.get_root_nodes
                  (@TaxonomyBuilder.build insertion_order tools_expanded
                     "Project Management"))
          \/ (exists r,
                In r (Taxonomy.get_root_nodes
                        (@TaxonomyBuilder.build insertion_order tools_expanded
                           "Project Management"))
                /\ In n (Taxonomy.get_children
                           (@TaxonomyBuilder.build insertion_order tools_expanded
                              "Project Management")
                           (TaxonomyNode.id r)))
          \/ (exists r c,
                In r (Taxonomy.get_root_nodes
                        (@TaxonomyBuilder.build insertion_order tools_expanded
                           "Project Management"))
                /\ In c (Taxonomy.get_children
                           (@TaxonomyBuilder.build insertion_order tools_expanded
                              "Project Management")
                           (TaxonomyNode.id r))
                /\ In n (Taxonomy.get_children
                           (@TaxonomyBuilder.build insertion_order tools_expanded
                              "Project Management")
                           (TaxonomyNode.id c))))
       (Taxonomy.nodes
          (@TaxonomyBuilder.build insertion_order tools_expanded "Project Management")).
Proof.
  apply (@X10_children_cover_the_tree insertion_order).
  unfold node_ids_distinct. vm_compute.
  repeat (constructor; [simpl; intros Hin; decompose [or] Hin; try discriminate; assumption |]).
  constructor.
Defined.

(** X11.  The clusters of [map_all_entities] all have the same make-up,
    for every ontology.  A cluster belongs to an entity of the ontology,
    whose identifier and name it carries; with [k] the smaller of 5 and the
    number of aliases of that entity, the cluster holds [30 + 2 * k]
    queries, counted as [18 + 2 * k] informational, 9 commercial and 3
    transactional ones and none of the other intents.  Each of the first
    five aliases has its two queries in the cluster; every query names the
    entity of the cluster and no other, and the estimated volume of the
    cluster stays 0. *)
Theorem X11_built_cluster_composition (o : Ontology.t) :
  Forall
    (fun c =>
       exists e,
         In e (Ontology.entities o)
         /\ QueryCluster.primary_entity_id c = Entity.id e
         /\ QueryCluster.primary_entity_name c = Entity.name e
         /\ List.length (QueryCluster.queries c)
            = 30 + 2 * Nat.min 5 (List.length (Entity.aliases e))
         /\ QueryCluster.intent_distribution c
            = built_distribution (Nat.min 5 (List.length (Entity.aliases e)))
         /\ count_intent NAVIGATIONAL (QueryCluster.queries c) = 0
         /\ count_intent LOCAL (QueryCluster.queries c) = 0
         /\ Forall
              (fun a =>
                 In ("what is " +:+ PyStr.lower a)
                   (List.map Query.query_text (QueryCluster.queries c))
                 /\ In ("how to use " +:+ PyStr.lower a)
                      (List.map Query.query_text (QueryCluster.queries c)))
              (firstn 5 (Entity.aliases e))
         /\ Forall (fun q => Query.entity_ids q = [QueryCluster.primary_entity_id c])
              (QueryCluster.queries c)
         /\ QueryCluster.total_estimated_volume c = 0%Z)
    (QueryMapper.map_all_entities o).
Proof.
  apply map_all_entities_from. intros e He. exists e.
  destruct (create_query_cluster_fields e) as (Hid & Hname & Hvol).
  rewrite create_query_cluster_queries, Hid, Hname, cluster_queries_length,
    create_query_cluster_distribution, !count_intent_cluster_queries,
    List.length_firstn.
  split; [exact He |]. split; [reflexivity |]. split; [reflexivity |].
  split; [reflexivity |]. split; [reflexivity |].
  split; [reflexivity |]. split; [reflexivity |].
  split; [| split; [| exact Hvol]].
  - apply List.Forall_forall. intros a Ha. now apply cluster_queries_aliases.
  - eapply Forall_impl; [apply cluster_queries_spec |]. now intros q (Hq & _).
Qed.

(** X12.  [get_intent_coverage] gives the same verdict on every cluster
    that [map_all_entities] builds: the missing intents are navigational
    and local, in this order, the coverage score is 3/5, and the counts
    under [by_intent] add up to [total_queries]. *)
Theorem X12_built_cluster_intent_coverage (o : Ontology.t) :
  Forall
    (fun c =>
       QueryMapper.missing_intents (QueryMapper.get_intent_coverage c)
       = ["navigational"; "local"]
       /\ (QueryMapper.coverage_score (QueryMapper.get_intent_coverage c) == 3 # 5)%Q
       /\ sum_values (QueryMapper.by_intent (QueryMapper.get_intent_coverage c))
          = QueryMapper.total_queries (QueryMapper.get_intent_coverage c))
    (QueryMapper.map_all_entities o).
Proof.
  apply map_all_entities_Forall. intros e.
  pose proof (create_query_cluster_consistent e) as (Htotal & _).
  unfold QueryMapper.get_intent_coverage.
  cbn [QueryMapper.missing_intents QueryMapper.coverage_score QueryMapper.by_intent
       QueryMapper.total_queries].
  split; [| split; [| exact Htotal]].
  - rewrite create_query_cluster_distribution. reflexivity.
  - rewrite create_query_cluster_distribution, built_distribution_size. reflexivity.
Qed.

(** X13.  On the clusters of [map_all_entities], [suggest_query_gaps]
    reports no gap for the informational, commercial and transactional
    intents, and for the navigational and the local intent it reports every
    cluster, in the order of the clusters, each with suggestions. *)
Theorem X13_query_gaps_of_built_clusters (o : Ontology.t) (i : IntentType) :
  List.map QueryMapper.gap_entity_id
    (QueryMapper.suggest_query_gaps
       (QueryMapper.map_all_entities_state (QueryMapper.init o)) i)
  = match i with
    | NAVIGATIONAL | LOCAL =>
        List.map QueryCluster.primary_entity_id (QueryMapper.map_all_entities o)
    | INFORMATIONAL | COMMERCIAL | TRANSACTIONAL => []
    end
  /\ Forall
       (fun g => QueryMapper.gap_missing_intent g = IntentType_value i
                 /\ QueryMapper.gap_suggested_queries g <> [])
       (QueryMapper.suggest_query_gaps
          (QueryMapper.map_all_entities_state (QueryMapper.init o)) i).
Proof.
  unfold QueryMapper.suggest_query_gaps.
  fold (QueryMapper.map_all_entities o).
  pose proof (map_all_entities_Forall
                (fun c => exists k, QueryCluster.intent_distribution c = built_distribution k)
                o
                (fun e => ex_intro _ _ (create_query_cluster_distribution e))) as Hall.
  induction Hall as [|c cs (k & Hc) _ (IH1 & IH2)];
    [split; [now destruct i | constructor] |].
  cbn [List.flat_map List.map]. rewrite Hc.
  destruct i; cbn [IntentType_value] in *.
  - change (built_distribution k !! "informational") with (Some (18 + 2 * k)).
    split; [exact IH1 | exact IH2].
  - change (built_distribution k !! "navigational") with (@None nat).
    cbn [app List.map QueryMapper.gap_entity_id]. split; [now rewrite IH1 |].
    constructor; [| exact IH2]. split; [reflexivity | discriminate].
  - change (built_distribution k !! "commercial") with (Some 9).
    split; [exact IH1 | exact IH2].
  - change (built_distribution k !! "transactional") with (Some 3).
    split; [exact IH1 | exact IH2].
  - change (built_distribution k !! "local") with (@None nat).
    cbn [app List.map QueryMapper.gap_entity_id]. split; [now rewrite IH1 |].
    constructor; [| exact IH2]. split; [reflexivity | discriminate].
Qed.

(** X14.  [generate_query_variations] returns at most ten queries, all
    informational, of low priority, for the given entity only, shorter than
    100 characters and ending with the lower-cased base query.  The length
    that counts is the one of the lower-cased base query: when it has 96
    characters or more there is no variation at all; when it has at most 82
    there are nine or ten, so the cut to ten drops nothing. *)
Theorem X14_query_variations (base_query entity_id : string) :
  List.length (QueryMapper.generate_query_variations base_query entity_id) <= 10
  /\ Forall
       (fun q => Query.intent q = INFORMATIONAL /\ Query.priority q = LOW
                 /\ Query.entity_ids q = [entity_id]
                 /\ PyStr.len (Query.query_text q) < 100
                 /\ PyStr.endswith (Query.query_text q) (PyStr.lower base_query) = true)
       (QueryMapper.generate_query_variations base_query entity_id)
  /\ (96 <= PyStr.len (PyStr.lower base_query) ->
      QueryMapper.generate_query_variations base_query entity_id = [])
  /\ (PyStr.len (PyStr.lower base_query) <= 82 ->
      9 <= List.length (QueryMapper.generate_query_variations base_query entity_id)).
Proof.
  unfold QueryMapper.generate_query_variations.
  set (l := PyStr.lower base_query) in *.
  split; [apply List.firstn_le_length |]. split; [| split].
  - apply Forall_forall. intros q Hq. apply list_elem_of_In, firstn_In in Hq.
    assert (Hvar : exists a pattern,
               In q (QueryMapper.variation (a +:+ l) entity_id pattern)).
    { apply List.in_app_or in Hq. destruct Hq as [Hq | Hq];
        apply List.in_flat_map in Hq; destruct Hq as (w & _ & Hq).
      - destruct (negb (PyStr.startswith l w)); [| contradiction].
        exists (w +:+ " "), "variation". now rewrite append_assoc.
      - exists ("how to " +:+ w +:+ " "), "action_variation".
        now rewrite !append_assoc. }
    destruct Hvar as (a & pattern & Hin).
    pose proof (variation_spec (a +:+ l) entity_id pattern) as Hspec.
    rewrite List.Forall_forall in Hspec.
    destruct (Hspec q Hin) as (-> & Hshort & Hi & Hp & He).
    repeat split; try assumption. apply endswith_suffix.
  - intros Hlong. unfold PyStr.len in Hlong.
    cbn [List.flat_map QueryMapper.question_starters QueryMapper.action_words].
    rewrite !variation_long
      by (unfold PyStr.len; rewrite !length_append; cbn [String.length]; lia).
    now repeat match goal with |- context [if ?b then _ else _] => destruct b end.
  - intros Hshort. unfold PyStr.len in Hshort.
    cbn [List.flat_map QueryMapper.question_starters QueryMapper.action_words].
    rewrite !variation_short
      by (unfold PyStr.len; rewrite !length_append; cbn [String.length]; lia).
    assert (Hex : forall p1 p2,
               String.prefix p1 p2 = false -> String.prefix p2 p1 = false ->
               PyStr.startswith l p1 = true -> PyStr.startswith l p2 = true -> False).
    { intros p1 p2 Ha Hb H1 H2.
      destruct (prefix_comparable p1 p2 l H1 H2); congruence. }
    destruct (PyStr.startswith l "what is") eqn:E1,
             (PyStr.startswith l "how to") eqn:E2,
             (PyStr.startswith l "why") eqn:E3,
             (PyStr.startswith l "when to") eqn:E4,
             (PyStr.startswith l "where to") eqn:E5;
      cbn [negb app List.length firstn]; try lia; exfalso;
      match goal with
      | H1 : PyStr.startswith l ?a = true, H2 : PyStr.startswith l ?b = true |- _ =>
          exact (Hex a b eq_refl eq_refl H1 H2)
      end.
Qed.

(** X15.  The three distributions of [generate_query_report] account for
    every query of the mapper after [map_all_entities]: the counts by
    intent, by priority and by fan-out pattern each add up to
    [total_queries], and [total_clusters] is the number of clusters that
    [map_all_entities] returned. *)
Theorem X15_query_report_totals (o : Ontology.t) :
  sum_values
    (QueryMapper.intent_totals
       (QueryMapper.generate_query_report
          (QueryMapper.map_all_entities_state (QueryMapper.init o))))
  = QueryMapper.report_total_queries
      (QueryMapper.generate_query_report
         (QueryMapper.map_all_entities_state (QueryMapper.init o)))
  /\ sum_values
       (QueryMapper.priority_totals
          (QueryMapper.generate_query_report
             (QueryMapper.map_all_entities_state (QueryMapper.init o))))
     = QueryMapper.report_total_queries
         (QueryMapper.generate_query_report
            (QueryMapper.map_all_entities_state (QueryMapper.init o)))
  /\ sum_values
       (QueryMapper.pattern_totals
          (QueryMapper.generate_query_report
             (QueryMapper.map_all_entities_state (QueryMapper.init o))))
     = QueryMapper.report_total_queries
         (QueryMapper.generate_query_report
            (QueryMapper.map_all_entities_state (QueryMapper.init o)))
  /\ QueryMapper.total_clusters
       (QueryMapper.generate_query_report
          (QueryMapper.map_all_entities_state (QueryMapper.init o)))
     = List.length (QueryMapper.map_all_entities o).
Proof.
  unfold QueryMapper.generate_query_report.
  cbn [QueryMapper.intent_totals QueryMapper.priority_totals QueryMapper.pattern_totals
       QueryMapper.report_total_queries QueryMapper.total_clusters].
  fold (QueryMapper.map_all_entities o).
  split; [| split; [| split]].
  - rewrite sum_values_fold_clusters; [reflexivity |].
    apply map_all_entities_Forall. intros e t.
    rewrite sum_values_map_fold_add_count. f_equal.
    exact (proj1 (create_query_cluster_consistent e)).
  - rewrite sum_values_fold_clusters; [reflexivity |].
    apply map_all_entities_Forall. intros e t. apply sum_values_fold_priorities.
  - rewrite sum_values_fold_clusters; [reflexivity |].
    apply map_all_entities_Forall. intros e t. apply sum_values_fold_patterns.
    rewrite create_query_cluster_queries.
    eapply Forall_impl; [apply cluster_queries_spec |]. now intros q (_ & _ & Hq).
  - unfold QueryMapper.map_all_entities, OrderedDict.values.
    now rewrite List.length_map.
Qed.

(** X16.  The coverage score that [_calculate_coverage] computes lies
    between 0 and 1 for every hub, as the field [coverage_score] asks.  For
    the hubs of [design_all_hubs] it never reaches either end: the pages
    target between one and three of the five intents, so the score lies
    between 1/15 and 13/15, whatever the ontology, the taxonomy and the
    query clusters. *)
Theorem X16_hub_coverage_score_range :
  (forall (d : HubDesigner.t) (h : ContentHub.t),
      (0 <= HubDesigner._calculate_coverage d h <= 1)%Q)
  /\ (forall (o : Ontology.t) (tx : Taxonomy.t) (qcs : list QueryCluster.t),
         Forall
           (fun h =>
              (1 # 15 <= ContentHub.coverage_score h <= 13 # 15)%Q
              /\ (1 # 5 <= HubDesigner.intent_coverage h <= 3 # 5)%Q)
           (HubDesigner.design_all_hubs o tx qcs)).
Proof.
  split.
  - intros d h.
    destruct (calculate_coverage_between d h 0 1 (Qle_refl 0) (Qle_refl 1)
                (intent_coverage_range h)) as [Hlo Hhi].
    split; [eapply Qle_trans; [| exact Hlo] | eapply Qle_trans; [exact Hhi |]];
      discriminate.
  - intros o tx qcs. apply List.Forall_forall. intros h Hin.
    apply design_all_hubs_In in Hin. destruct Hin as (e & nid & extra & ->).
    destruct (design_hub_intents (HubDesigner.init o tx qcs) e nid) as [Hi Hincl].
    rewrite <- (extend_pillar_intents extra) in Hi, Hincl.
    pose proof (intent_coverage_designed _ Hi Hincl) as Hcov.
    split; [| exact Hcov].
    unfold finished. cbn [ContentHub.coverage_score ContentHub.set_coverage_score].
    destruct (calculate_coverage_between (designed o tx qcs) _ (1 # 5) (3 # 5)
                ltac:(discriminate) ltac:(discriminate) Hcov) as [Hlo Hhi].
    split; [eapply Qle_trans; [| exact Hlo] | eapply Qle_trans; [exact Hhi |]];
      discriminate.
Qed.

(** X17.  The links inside every hub of [design_all_hubs] follow one plan.
    The pillar page links to every cluster page of the hub, in their order,
    before any link to another hub, and [internal_links_from] of the pillar
    page stays empty although every cluster and supporting page links to
    it.  A cluster page links to the pillar page first and then to at most
    two cluster pages of the hub, never to itself, and is linked from the
    pillar page; a supporting page links to the pillar page only. *)
Theorem X17_links_inside_a_hub (o : Ontology.t) (tx : Taxonomy.t)
    (qcs : list QueryCluster.t) :
  Forall
    (fun h =>
       exists p,
         ContentHub.pillar_page h = Some p
         /\ HubPage.internal_links_from p = []
         /\ (exists extra,
                HubPage.internal_links_to p
                = List.map HubPage.id (ContentHub.cluster_pages h) ++ extra)
         /\ Forall
              (fun c =>
                 HubPage.internal_links_from c = [HubPage.id p]
                 /\ exists others,
                     HubPage.internal_links_to c = HubPage.id p :: others
                     /\ List.length others <= 2
                     /\ Forall
                          (fun x =>
                             In x (List.map HubPage.id (ContentHub.cluster_pages h))
                             /\ x <> HubPage.id c)
                          others)
              (ContentHub.cluster_pages h)
         /\ Forall
              (fun s => HubPage.internal_links_to s = [HubPage.id p]
                        /\ HubPage.internal_links_from s = [])
              (ContentHub.supporting_pages h))
    (HubDesigner.design_all_hubs o tx qcs).
Proof.
  apply List.Forall_forall. intros h Hin.
  apply design_all_hubs_In in Hin. destruct Hin as (e & nid & extra & ->).
  destruct (design_hub_pages (HubDesigner.init o tx qcs) e nid)
    as (hub_id & cs & ss & Hp & Hc & Hs & Hcs & Hss).
  destruct (finished_fields (designed o tx qcs) extra
              (HubDesigner._design_hub (HubDesigner.init o tx qcs) e nid))
    as (_ & -> & -> & _).
  rewrite (finished_pillar _ extra _ _ Hp), Hc, Hs, link_page_pillar, map_id_link_page.
  eexists. split; [reflexivity |].
  cbn [HubPage.set_links HubPage.internal_links_to HubPage.internal_links_from
       HubPage.id HubDesigner._create_pillar_page].
  split; [reflexivity |]. split; [now exists extra |]. split.
  - apply List.Forall_forall. intros c Hc'. apply List.in_map_iff in Hc'.
    destruct Hc' as (c0 & <- & Hc0).
    rewrite List.Forall_forall in Hcs. rewrite (link_page_cluster _ _ _ (Hcs c0 Hc0)).
    cbn [HubPage.set_links HubPage.internal_links_to HubPage.internal_links_from
         HubPage.id app].
    split; [reflexivity |]. eexists. split; [reflexivity |].
    split; [apply List.firstn_le_length |].
    apply List.Forall_forall. intros x Hx. apply firstn_In in Hx.
    apply List.in_map_iff in Hx. destruct Hx as (q & <- & Hq).
    apply List.filter_In in Hq. destruct Hq as [Hq Hne].
    split; [now apply List.in_map |].
    apply Bool.negb_true_iff, String.eqb_neq in Hne. exact Hne.
  - apply List.Forall_forall. intros s Hs'. apply List.in_map_iff in Hs'.
    destruct Hs' as (s0 & <- & Hs0).
    rewrite List.Forall_forall in Hss. destruct (Hss s0 Hs0) as (Hfresh & _).
    rewrite (link_page_supporting _ _ _ Hfresh). now split.
Qed.

(** X18.  What [get_semantic_surface_area] reports, for every entity.  The
    variants are free of duplicates and start with the name of the entity;
    there are at least ten of them and at most ten more than the entity has
    aliases, so the coverage score is at least 1/2.  The entry
    [intent_coverage] carries no information: the three intents are
    reported as covered whatever the entity is, because the variants with
    the modifiers are themselves among the variants looked at. *)
Theorem X18_semantic_surface_area (e : Entity.t) :
  List.NoDup (EntitySearchExpander.generate_semantic_variants e)
  /\ 10 <= EntitySearchExpander.total_variants
             (EntitySearchExpander.get_semantic_surface_area e)
     <= 10 + EntitySearchExpander.alias_count
               (EntitySearchExpander.get_semantic_surface_area e)
  /\ List.hd_error
       (EntitySearchExpander.variants (EntitySearchExpander.get_semantic_surface_area e))
     = Some (Entity.name e)
  /\ (1 # 2 <= EntitySearchExpander.coverage_score
                 (EntitySearchExpander.get_semantic_surface_area e) <= 1)%Q
  /\ EntitySearchExpander.intent_coverage
       (EntitySearchExpander.get_semantic_surface_area e)
     = [("informational", true); ("commercial", true); ("transactional", true)].
Proof.
  destruct (semantic_variants_spec e) as (Hnd & Hlen & (rest & Hhd) & Hmods).
  unfold EntitySearchExpander.get_semantic_surface_area.
  cbn [EntitySearchExpander.total_variants EntitySearchExpander.alias_count
       EntitySearchExpander.variants EntitySearchExpander.coverage_score
       EntitySearchExpander.intent_coverage].
  split; [exact Hnd |]. split; [exact Hlen |].
  split; [now rewrite Hhd |]. split.
  - split; [| apply min_one_le_1].
    apply min_one_ge; [discriminate |].
    unfold Qdiv. change (/ 20)%Q with (1 # 20)%Q.
    assert (H10 : (10 <= inject_Z
                           (Z.of_nat
                              (List.length
                                 (EntitySearchExpander.generate_semantic_variants e))))%Q).
    { change 10%Q with (inject_Z 10). rewrite <- Zle_Qle. lia. }
    lra.
  - rewrite List.Forall_forall in Hmods.
    unfold EntitySearchExpander.INTENT_MODIFIERS. cbn [List.map fst snd].
    rewrite (intent_covered _ _ "what is" (Entity.name e));
      [| cbn [In]; tauto | reflexivity | apply Hmods; cbn; tauto].
    rewrite (intent_covered _ _ "best" (Entity.name e));
      [| cbn [In]; tauto | reflexivity | apply Hmods; cbn; tauto].
    rewrite (intent_covered _ _ "buy" (Entity.name e));
      [| cbn [In]; tauto | reflexivity | apply Hmods; cbn; tauto].
    reflexivity.
Qed.

(** X19.  [InputValidator.validate_config] is at least as strict as
    [BrandFoundationConfig.validate]: a configuration for which it reports
    no entry of severity "error" passes [validate] with an empty list,
    whatever the URL check answers.  Such a configuration has a brand name
    of 1 to 100 characters and a niche of at least 3 after stripping; in
    seed mode it has at least one seed and every seed has 2 to 100
    characters after stripping; in sitemap mode it has a sitemap URL that
    the URL check accepts. *)
Theorem X19_validated_config (url_ok : string -> bool) (c : Config.t) :
  InputValidator.has_errors (InputValidator.validate_config url_ok c) = false ->
  BrandFoundationConfig_validate c = []
  /\ 1 <= PyStr.len (PyStr.strip (Config.brand_name c)) <= 100
  /\ 3 <= PyStr.len (PyStr.strip (Config.primary_niche c))
  /\ Config.business_goals c <> []
  /\ (Config.source_mode c = SEED ->
      Config.seed_entities c <> []
      /\ Forall (fun s => 2 <= PyStr.len (PyStr.strip s) <= 100) (Config.seed_entities c))
  /\ (Config.source_mode c = SITEMAP ->
      exists u, Config.sitemap_url c = Some u /\ url_ok (PyStr.strip u) = true).
Proof.
  unfold InputValidator.validate_config. rewrite !has_errors_app. intros H.
  apply orb_false_iff in H. destruct H as [Hb H].
  apply orb_false_iff in H. destruct H as [Hn H].
  apply orb_false_iff in H. destruct H as [Hg H].
  apply orb_false_iff in H. destruct H as [Hm _].
  apply brand_name_ok in Hb. apply niche_ok in Hn.
  assert (Hgoals : Config.business_goals c <> []).
  { destruct (Config.business_goals c); [discriminate Hg | discriminate]. }
  assert (Hseed : Config.source_mode c = SEED ->
                  Config.seed_entities c <> []
                  /\ Forall (fun s => 2 <= PyStr.len (PyStr.strip s) <= 100)
                       (Config.seed_entities c)).
  { intros Hmode. rewrite Hmode in Hm. now apply seed_entities_ok. }
  assert (Hsite : Config.source_mode c = SITEMAP ->
                  exists u, Config.sitemap_url c = Some u
                            /\ PyStr.is_empty u = false
                            /\ url_ok (PyStr.strip u) = true).
  { intros Hmode. rewrite Hmode in Hm. now apply sitemap_url_ok in Hm. }
  split; [| split; [exact Hb | split; [exact Hn | split; [exact Hgoals | split]]]].
  - unfold BrandFoundationConfig_validate.
    rewrite (len_not_empty (PyStr.strip (Config.brand_name c))) by lia.
    rewrite (len_not_empty (PyStr.strip (Config.primary_niche c))) by lia.
    destruct (Config.business_goals c) as [|g gs]; [congruence |].
    destruct (Config.source_mode c) eqn:Hmode; cbn [SourceMode_eqb andb app].
    + destruct (Hsite eq_refl) as (u & -> & Hu & _). cbn [truthy]. now rewrite Hu.
    + destruct (Hseed eq_refl) as (Hne & _).
      destruct (Config.seed_entities c); [congruence | reflexivity].
    + reflexivity.
  - exact Hseed.
  - intros Hmode. destruct (Hsite Hmode) as (u & Hu & _ & Hok). now exists u.
Qed.

(** X19 at the seed configuration of scenario 2, with a URL check that
    accepts everything. *)
Lemma X19_tools_config_is_valid :
  BrandFoundationConfig_validate tools_config = []
  /\ 1 <= PyStr.len (PyStr.strip (Config.brand_name tools_config)) <= 100.
Proof.
  pose proof (X19_validated_config (fun _ => true) tools_config eq_refl)
    as (Hv & Hb & _).
  split; [exact Hv | exact Hb].
Defined.

(** X20.  The names that [sanitize_entities] returns are pairwise
    different and are sanitized names of the input with at least two
    characters; none contains an angle bracket, a quote, an ampersand or a
    backslash, every white-space character in them is a space and no two
    spaces follow each other.  A returned name can still begin with a
    space, because the input is stripped before the characters are removed
    and not after. *)
Theorem X20_sanitized_entities (entities : list string) :
  List.NoDup (InputValidator.sanitize_entities entities)
  /\ Forall
       (fun s =>
          (exists e, In e entities /\ s = InputValidator.sanitize_entity e)
          /\ 2 <= PyStr.len s
          /\ InputValidator.has_char InputValidator.is_dangerous s = false
          /\ PyStr.all_chars plain_space s = true
          /\ has_adjacent PyStr.is_space s = false)
       (InputValidator.sanitize_entities entities)
  /\ InputValidator.sanitize_entities ["< ab"; "ab"; "a  b"; " ab "; "x"]
     = [" ab"; "ab"; "a b"].
Proof.
  unfold InputValidator.sanitize_entities.
  split; [apply dedupe_NoDup |]. split; [| reflexivity].
  apply List.Forall_forall. intros s Hs.
  apply dedupe_In, List.in_flat_map in Hs. destruct Hs as (e & He & Hs).
  cbv zeta in Hs.
  destruct (negb (PyStr.is_empty (InputValidator.sanitize_entity e))
            && Nat.leb InputValidator.MIN_ENTITY_LENGTH
                 (PyStr.len (InputValidator.sanitize_entity e))) eqn:Hkeep;
    [| contradiction].
  destruct Hs as [<- | []].
  apply andb_true_iff in Hkeep. destruct Hkeep as [_ Hlen]. apply Nat.leb_le in Hlen.
  destruct (sanitize_entity_spec e) as (Hd & Hp & Ha).
  split; [now exists e |]. split; [exact Hlen |]. now repeat split.
Qed.

(** X21.  [Ontology.entity_count_by_type] counts every entity once: under
    the value of a type it holds the number of entities of that type, with
    no entry for a type without entities and no other key, and the counts
    add up to the number of entities.  For an ontology that
    [OntologyBuilder.build] returns the count under "core" is at least 1,
    since the brand is always an entity. *)
Theorem X21_entity_count_by_type :
  (forall (o : Ontology.t) (ty : EntityType),
      Ontology.entity_count_by_type o !! EntityType_value ty
      = match count (of_type ty) (Ontology.entities o) with
        | O => None
        | S n => Some (S n)
        end)
  /\ (forall (o : Ontology.t) (k : string),
         (forall ty, k <> EntityType_value ty) ->
         Ontology.entity_count_by_type o !! k = None)
  /\ (forall o : Ontology.t,
         sum_values (Ontology.entity_count_by_type o)
         = List.length (Ontology.entities o))
  /\ (forall `{SetIteration} (fetch : string -> option (list SitemapItem.t))
             (c : Config.t),
         exists n,
           Ontology.entity_count_by_type (OntologyBuilder.build fetch c) !! "core"
           = Some (S n)).
Proof.
  assert (Hcount : forall (o : Ontology.t) (ty : EntityType),
             Ontology.entity_count_by_type o !! EntityType_value ty
             = match count (of_type ty) (Ontology.entities o) with
               | O => None
               | S n => Some (S n)
               end).
  { intros o ty. unfold Ontology.entity_count_by_type.
    destruct (count_by_type_fold (Ontology.entities o) ∅) as (Hty & _).
    rewrite (Hty ty), lookup_empty. reflexivity. }
  split; [exact Hcount |]. split; [| split].
  - intros o k Hk. unfold Ontology.entity_count_by_type.
    destruct (count_by_type_fold (Ontology.entities o) ∅) as (_ & Hother & _).
    rewrite (Hother k Hk). apply lookup_empty.
  - intros o. unfold Ontology.entity_count_by_type.
    destruct (count_by_type_fold (Ontology.entities o) ∅) as (_ & _ & Hsum).
    rewrite Hsum. reflexivity.
  - intros S fetch c.
    destruct (build_get_entity fetch c is_CORE _ (populate_brand fetch c))
      as (e & Hget & _ & Htype).
    apply List.find_some in Hget. destruct Hget as [Hin _].
    specialize (Hcount (OntologyBuilder.build fetch c) CORE).
    cbn [EntityType_value] in Hcount. rewrite Hcount.
    destruct (count (of_type CORE) (Ontology.entities (OntologyBuilder.build fetch c)))
      as [|n] eqn:Hzero; [| now exists n].
    exfalso. unfold count in Hzero. apply List.length_zero_iff_nil in Hzero.
    assert (Hmem : In e (List.filter (of_type CORE)
                           (Ontology.entities (OntologyBuilder.build fetch c)))).
    { apply List.filter_In. split; [exact Hin |]. unfold of_type.
      now apply EntityType_eqb_eq. }
    rewrite Hzero in Hmem. contradiction.
Qed.

(** X22.  Entities and relationships added by hand.  After
    [add_entity name] the builder holds the returned entity under the
    identifier of [name] and every other identifier reads as before.
    After [build] the names that [add_relationship] knows are the names of
    the entities of the ontology: between any two of them, the same one
    twice included, it appends and returns the relationship of their
    identifiers when the weight lies in [0, 1] and raises otherwise, and
    for a name whose identifier no entity has it returns [None] and changes
    nothing, whatever the weight and the other name are.  Two entities
    added by hand, to any builder, can be related in the same way. *)
Theorem X22_manual_additions `{SetIteration}
    (fetch : string -> option (list SitemapItem.t)) (c : Config.t) :
  (forall (b : OntologyBuilder.t) name ty description aliases,
      OrderedDict.get (OntologyBuilder._generate_entity_id name)
        (OntologyBuilder.entities
           (fst (OntologyBuilder.add_entity b name ty description aliases)))
      = Some (snd (OntologyBuilder.add_entity b name ty description aliases))
      /\ forall k, k <> OntologyBuilder._generate_entity_id name ->
                   OrderedDict.get k
                     (OntologyBuilder.entities
                        (fst (OntologyBuilder.add_entity b name ty description aliases)))
                   = OrderedDict.get k (OntologyBuilder.entities b))
  /\ (forall e1 e2 rel_type weight bidirectional,
         In e1 (Ontology.entities (OntologyBuilder.build fetch c)) ->
         In e2 (Ontology.entities (OntologyBuilder.build fetch c)) ->
         OntologyBuilder.add_relationship (built_state fetch c)
           (Entity.name e1) (Entity.name e2) rel_type weight bidirectional
         = if OntologyBuilder.in_unit_interval weight
           then Returned
                  (OntologyBuilder.with_relationships
                     (Ontology.relationships (OntologyBuilder.build fetch c)
                      ++ [Relationship.make (Entity.id e1) (Entity.id e2) rel_type weight
                            None bidirectional])
                     (built_state fetch c),
                   Some (Relationship.make (Entity.id e1) (Entity.id e2) rel_type weight
                           None bidirectional))
           else Raised)
  /\ (forall name other rel_type weight bidirectional,
         (forall e, In e (Ontology.entities (OntologyBuilder.build fetch c)) ->
                    Entity.id e <> OntologyBuilder._generate_entity_id name) ->
         OntologyBuilder.add_relationship (built_state fetch c)
           name other rel_type weight bidirectional
         = Returned (built_state fetch c, None)
         /\ OntologyBuilder.add_relationship (built_state fetch c)
              other name rel_type weight bidirectional
            = Returned (built_state fetch c, None))
  /\ (forall (b : OntologyBuilder.t) name1 ty1 description1 aliases1
             name2 ty2 description2 aliases2 rel_type weight bidirectional,
         OntologyBuilder.add_relationship
           (fst (OntologyBuilder.add_entity
                   (fst (OntologyBuilder.add_entity b name1 ty1 description1 aliases1))
                   name2 ty2 description2 aliases2))
           name1 name2 rel_type weight bidirectional
         = if OntologyBuilder.in_unit_interval weight
           then Returned
                  (OntologyBuilder.with_relationships
                     (OntologyBuilder.relationships b
                      ++ [Relationship.make (OntologyBuilder._generate_entity_id name1)
                            (OntologyBuilder._generate_entity_id name2) rel_type weight
                            None bidirectional])
                     (fst (OntologyBuilder.add_entity
                             (fst (OntologyBuilder.add_entity b name1 ty1 description1
                                     aliases1))
                             name2 ty2 description2 aliases2)),
                   Some (Relationship.make (OntologyBuilder._generate_entity_id name1)
                           (OntologyBuilder._generate_entity_id name2) rel_type weight
                           None bidirectional))
           else Raised).
Proof.
  assert (Hknown : forall e,
             In e (Ontology.entities (OntologyBuilder.build fetch c)) ->
             OrderedDict.has (OntologyBuilder._generate_entity_id (Entity.name e))
               (OntologyBuilder.entities (built_state fetch c)) = true
             /\ OntologyBuilder._generate_entity_id (Entity.name e) = Entity.id e).
  { intros e He. pose proof (build_id_from_name fetch c) as Hn.
    rewrite List.Forall_forall in Hn. specialize (Hn e He). unfold id_from_name in Hn.
    split; [| now symmetry]. apply built_state_has. rewrite <- Hn. now apply List.in_map. }
  assert (Hunknown : forall name,
             (forall e, In e (Ontology.entities (OntologyBuilder.build fetch c)) ->
                        Entity.id e <> OntologyBuilder._generate_entity_id name) ->
             OrderedDict.has (OntologyBuilder._generate_entity_id name)
               (OntologyBuilder.entities (built_state fetch c)) = false).
  { intros name Hname.
    destruct (OrderedDict.has _ _) eqn:Hhas; [| reflexivity].
    apply built_state_has, List.in_map_iff in Hhas. destruct Hhas as (e & Hid & He).
    now destruct (Hname e He). }
  split; [| split; [| split]].
  - intros b name ty description aliases. unfold OntologyBuilder.add_entity. cbv zeta.
    cbn [fst snd OntologyBuilder.with_entities OntologyBuilder.entities].
    split; [apply dict_get_set_eq |].
    intros k Hk. apply dict_get_set_ne. now apply not_eq_sym.
  - intros e1 e2 rel_type weight bidirectional He1 He2.
    destruct (Hknown e1 He1) as [Hh1 Hi1]. destruct (Hknown e2 He2) as [Hh2 Hi2].
    unfold OntologyBuilder.add_relationship. cbv zeta.
    rewrite Hh1, Hh2, Hi1, Hi2. cbn [negb orb].
    destruct (built_state_ontology fetch c) as [_ ->]. reflexivity.
  - intros name other rel_type weight bidirectional Hname.
    unfold OntologyBuilder.add_relationship. cbv zeta.
    rewrite (Hunknown name Hname). cbn [negb orb]. rewrite orb_true_r.
    split; reflexivity.
  - intros b name1 ty1 description1 aliases1 name2 ty2 description2 aliases2
      rel_type weight bidirectional.
    unfold OntologyBuilder.add_entity. cbv zeta. cbn [fst].
    unfold OntologyBuilder.add_relationship. cbv zeta.
    cbn [OntologyBuilder.with_entities OntologyBuilder.entities
         OntologyBuilder.relationships OntologyBuilder.config].
    assert (H1 : forall (d : OrderedDict.t Entity.t) k v,
               OrderedDict.has k (OrderedDict.set k v d) = true).
    { intros d k v. unfold OrderedDict.has. now rewrite dict_get_set_eq. }
    rewrite (dict_has_set _ _ _ _ (H1 _ _ _)), H1. reflexivity.
Qed.

(** X23.  After [build], [get_entity_graph_data] describes a proper graph:
    there is one node per entity of the ontology, in the same order and
    under pairwise different identifiers, with a size between 16 and 40;
    there is one edge per relationship, and every edge joins two different
    nodes of the graph. *)
Theorem X23_entity_graph_data `{SetIteration}
    (fetch : string -> option (list SitemapItem.t)) (c : Config.t) :
  List.map OntologyBuilder.node_id
    (fst (OntologyBuilder.get_entity_graph_data (built_state fetch c)))
  = List.map Entity.id (Ontology.entities (OntologyBuilder.build fetch c))
  /\ List.NoDup
       (List.map OntologyBuilder.node_id
          (fst (OntologyBuilder.get_entity_graph_data (built_state fetch c))))
  /\ Forall (fun n => (16 <= OntologyBuilder.node_size n <= 40)%Q)
       (fst (OntologyBuilder.get_entity_graph_data (built_state fetch c)))
  /\ List.length (snd (OntologyBuilder.get_entity_graph_data (built_state fetch c)))
     = List.length (Ontology.relationships (OntologyBuilder.build fetch c))
  /\ Forall
       (fun edge =>
          In (OntologyBuilder.edge_source edge)
            (List.map OntologyBuilder.node_id
               (fst (OntologyBuilder.get_entity_graph_data (built_state fetch c))))
          /\ In (OntologyBuilder.edge_target edge)
               (List.map OntologyBuilder.node_id
                  (fst (OntologyBuilder.get_entity_graph_data (built_state fetch c))))
          /\ OntologyBuilder.edge_source edge <> OntologyBuilder.edge_target edge)
       (snd (OntologyBuilder.get_entity_graph_data (built_state fetch c))).
Proof.
  destruct (built_state_ontology fetch c) as [He Hr].
  unfold OntologyBuilder.get_entity_graph_data. cbn [fst snd]. rewrite He, Hr.
  assert (Hids : List.map OntologyBuilder.node_id
                   (List.map
                      (fun entity =>
                         {| OntologyBuilder.node_id := Entity.id entity;
                            OntologyBuilder.node_label := Entity.name entity;
                            OntologyBuilder.node_type :=
                              EntityType_value (Entity.type entity);
                            OntologyBuilder.node_size :=
                              (Entity.semantic_centrality entity * 30 + 10)%Q;
                            OntologyBuilder.node_color :=
                              OntologyBuilder._get_entity_color (Entity.type entity) |})
                      (Ontology.entities (OntologyBuilder.build fetch c)))
                 = List.map Entity.id (Ontology.entities (OntologyBuilder.build fetch c))).
  { rewrite List.map_map. reflexivity. }
  rewrite Hids.
  split; [reflexivity |]. split; [apply build_ids_NoDup |]. split; [| split].
  - destruct (build_entities fetch c) as [counts ->].
    apply List.Forall_forall. intros n Hn.
    apply List.in_map_iff in Hn. destruct Hn as (e & <- & He').
    apply List.in_map_iff in He'. destruct He' as ([k e0] & <- & _).
    cbn [OntologyBuilder.node_size fst snd].
    destruct (score_range counts k e0) as (H1 & H2 & _).
    now apply node_size_range.
  - now rewrite List.length_map.
  - apply List.Forall_forall. intros edge Hedge.
    apply List.in_map_iff in Hedge. destruct Hedge as (r & <- & Hin).
    cbn [OntologyBuilder.edge_source OntologyBuilder.edge_target].
    exact (build_relationship_endpoints fetch c r Hin).
Qed.

(** X24.  [find_entity_gaps] reports exactly the competitor names that no
    entity of the ontology covers, in the order and as often as they are
    given, where an entity covers a name when the name is, up to the case
    of the letters, its name or one of its aliases.  Every gap has the type
    "missing".  Without a list, or with an empty one, there is no gap, and
    the name of an entity of the ontology is never one. *)
Theorem X24_entity_gaps (o : Ontology.t) (competitor_entities : list string) :
  List.map EntitySearchExpander.gap_entity
    (EntitySearchExpander.find_entity_gaps o (Some competitor_entities))
  = List.filter (fun c => negb (existsb (covers c) (Ontology.entities o)))
      competitor_entities
  /\ Forall (fun g => EntitySearchExpander.gap_type g = "missing")
       (EntitySearchExpander.find_entity_gaps o (Some competitor_entities))
  /\ EntitySearchExpander.find_entity_gaps o None = []
  /\ Forall
       (fun e =>
          EntitySearchExpander.find_entity_gaps o (Some [Entity.name e]) = []
          /\ Forall
               (fun a => EntitySearchExpander.find_entity_gaps o (Some [a]) = [])
               (Entity.aliases e))
       (Ontology.entities o).
Proof.
  assert (Hone : forall c,
             existsb (covers c) (Ontology.entities o) = true ->
             EntitySearchExpander.find_entity_gaps o (Some [c]) = []).
  { intros c Hc. unfold EntitySearchExpander.find_entity_gaps.
    cbn [default from_option id List.flat_map app]. now rewrite our_coverage_spec, Hc. }
  split; [| split; [| split; [reflexivity |]]].
  - unfold EntitySearchExpander.find_entity_gaps. cbn [default from_option id].
    induction competitor_entities as [|c cs IH]; [reflexivity |].
    cbn [List.flat_map List.filter]. rewrite List.map_app, IH, our_coverage_spec.
    now destruct (existsb (covers c) (Ontology.entities o)).
  - unfold EntitySearchExpander.find_entity_gaps. cbn [default from_option id].
    apply List.Forall_forall. intros g Hg. apply List.in_flat_map in Hg.
    destruct Hg as (c & _ & Hg).
    destruct (PyStr.mem _ _); [contradiction |]. now destruct Hg as [<- | []].
  - apply List.Forall_forall. intros e He. split.
    + apply Hone. apply List.existsb_exists. exists e. split; [exact He |].
      unfold covers. now rewrite String.eqb_refl.
    + apply List.Forall_forall. intros a Ha. apply Hone.
      apply List.existsb_exists. exists e. split; [exact He |].
      unfold covers. apply orb_true_iff. right. apply mem_In. now apply List.in_map.
Qed.

(** X25.  [prioritize_queries] loses and invents nothing: its result is a
    rearrangement of the queries of all clusters.  The result is ordered by
    priority first (critical, high, medium, low) and by intent among
    queries of one priority (transactional, commercial, informational,
    navigational, local), and the queries of one priority and one intent
    keep the order they have in the clusters. *)
Theorem X25_prioritized_queries (m : QueryMapper.t) :
  Permutation (QueryMapper.prioritize_queries m)
    (List.flat_map QueryCluster.queries (OrderedDict.values (QueryMapper.clusters m)))
  /\ StronglySorted ranks_before (QueryMapper.prioritize_queries m)
  /\ (forall (p : ContentPriority) (i : IntentType),
         List.filter (in_class p i) (QueryMapper.prioritize_queries m)
         = List.filter (in_class p i)
             (List.flat_map QueryCluster.queries
                (OrderedDict.values (QueryMapper.clusters m)))).
Proof.
  unfold QueryMapper.prioritize_queries.
  split; [apply sort_asc_perm |]. split.
  - pose proof (sort_asc_sorted QueryMapper.query_key
                  (List.flat_map QueryCluster.queries
                     (OrderedDict.values (QueryMapper.clusters m)))) as Hs.
    induction Hs as [|q r _ IH Hq]; constructor; [exact IH |].
    eapply List.Forall_impl; [| exact Hq].
    intros b Hb. apply key_leb_spec in Hb. exact Hb.
  - intros p i. apply sort_asc_filter. intros a b Ha Hb.
    unfold in_class in Ha, Hb.
    apply andb_true_iff in Ha. destruct Ha as [Hpa Hia].
    apply andb_true_iff in Hb. destruct Hb as [Hpb Hib].
    apply ContentPriority_eqb_eq in Hpa, Hpb. apply IntentType_eqb_eq in Hia, Hib.
    unfold QueryMapper.query_key. congruence.
Qed.

(** X26.  The report of the designer after [design_all_hubs] is
    consistent: every hub has a pillar page, so the count of pillar pages
    is the number of hubs; the number of pages is the sum of the three
    counts by page type; a hub has at most 16 pages (one pillar page, ten
    cluster pages, five supporting pages) and at most 45 links inside
    it. *)
Theorem X26_hub_report_totals (o : Ontology.t) (tx : Taxonomy.t)
    (qcs : list QueryCluster.t) :
  HubDesigner.total_hubs (HubDesigner.generate_hub_report (designer_after o tx qcs))
  = List.length (HubDesigner.design_all_hubs o tx qcs)
  /\ HubDesigner.pillar_count (HubDesigner.generate_hub_report (designer_after o tx qcs))
     = HubDesigner.total_hubs (HubDesigner.generate_hub_report (designer_after o tx qcs))
  /\ HubDesigner.total_pages (HubDesigner.generate_hub_report (designer_after o tx qcs))
     = HubDesigner.pillar_count (HubDesigner.generate_hub_report (designer_after o tx qcs))
       + HubDesigner.cluster_count
           (HubDesigner.generate_hub_report (designer_after o tx qcs))
       + HubDesigner.supporting_count
           (HubDesigner.generate_hub_report (designer_after o tx qcs))
  /\ HubDesigner.total_pages (HubDesigner.generate_hub_report (designer_after o tx qcs))
     <= 16 * HubDesigner.total_hubs
              (HubDesigner.generate_hub_report (designer_after o tx qcs))
  /\ HubDesigner.total_internal_links
       (HubDesigner.generate_hub_report (designer_after o tx qcs))
     <= 45 * HubDesigner.total_hubs
              (HubDesigner.generate_hub_report (designer_after o tx qcs)).
Proof.
  split; [reflexivity |].
  apply hub_report_totals.
  change (HubDesigner.hubs (designer_after o tx qcs))
    with (HubDesigner.design_all_hubs o tx qcs).
  apply designed_hub_counts.
Qed.

